(** * ADB container engine (apk-tools, src/adb.c): shallow embedding

    The development follows adb.c function by function.  Memory is a list of
    bytes, a pointer into a blob is an offset into that list, the NULL
    pointer is [None].  C integers are [Z] with their wrap-around written
    out where the code can reach it.  The host is little-endian, as on the
    platforms apk-tools is built for, so [htole32] and [le32toh] are the
    identity on host words and a word in memory is decoded byte by byte. *)

From Stdlib Require Import ZArith Lia List Bool Sorted.
From Stdlib.Strings Require Import Byte.
From stdpp Require Import base list.

Local Open Scope Z_scope.

(* ------------------------------------------------------------------ *)
(** ** Bytes and little-endian words *)

Definition byte_val (b : byte) : Z := Z.of_N (Byte.to_N b).

Definition byte_of_Z (z : Z) : byte :=
  match Byte.of_N (Z.to_N (z mod 256)) with
  | Some b => b
  | None => x00
  end.

(** [le_decode bs] is the unsigned integer stored little-endian in [bs]:
    what [le16toh]/[le32toh] return for the word at that address. *)
Fixpoint le_decode (bs : list byte) : Z :=
  match bs with
  | [] => 0
  | b :: bs' => byte_val b + 256 * le_decode bs'
  end.

(** [le_encode n z]: the [n] low bytes of [z], least significant first
    (the memory image of [htole32 z] for [n = 4]). *)
Fixpoint le_encode (n : nat) (z : Z) : list byte :=
  match n with
  | O => []
  | S n' => byte_of_Z z :: le_encode n' (z / 256)
  end.

Definition zeroes (n : nat) : list byte := replicate n x00.

(* ------------------------------------------------------------------ *)
(** ** Outcomes of C code that can trap *)

Inductive fault : Type :=
| NullDeref      (* a NULL pointer is dereferenced *)
| OutOfBounds    (* a read past the end of the addressed object *)
| AssertFail     (* assert() fails *)
| OutOfFuel.     (* the model's recursion bound was reached *)

Inductive outcome (A : Type) : Type :=
| Ret (a : A)
| Fault (f : fault).
Arguments Ret {A} a.
Arguments Fault {A} f.

Definition obind {A B} (m : outcome A) (k : A -> outcome B) : outcome B :=
  match m with
  | Ret a => k a
  | Fault f => Fault f
  end.

#[global] Instance outcome_ret : MRet outcome := fun A a => Ret a.
#[global] Instance outcome_bind : MBind outcome := fun A B k m => obind m k.

(* ------------------------------------------------------------------ *)
(** ** errno values (Linux <errno.h>) *)

Definition EIO : Z := 5.
Definition E2BIG : Z := 7.
Definition ENOSYS : Z := 38.
Definition ENOMSG : Z := 42.
Definition EBADMSG : Z := 74.
Definition ENOBUFS : Z := 105.
Definition ENOKEY : Z := 126.

(* ------------------------------------------------------------------ *)
(** ** What adb.h and the platform fix

    adb.h is not among the sources verified here.  The numbering of the value
    tags, the capacity of a dedup bucket, the size of a data pointer and
    whether assert() is compiled in are parameters of the model. *)

Class adb_params : Type := {
  ADB_TYPE_SPECIAL : Z;
  ADB_TYPE_INT : Z;
  ADB_TYPE_INT_32 : Z;
  ADB_TYPE_INT_64 : Z;
  ADB_TYPE_BLOB_8 : Z;
  ADB_TYPE_BLOB_16 : Z;
  ADB_TYPE_BLOB_32 : Z;
  ADB_TYPE_ARRAY : Z;
  ADB_TYPE_OBJECT : Z;
  ADB_TYPE_ERROR : Z;
  (** ARRAY_SIZE(bucket->entries) *)
  ADB_W_BUCKET_ENTRIES : nat;
  (** sizeof(void * ) *)
  sizeof_ptr : Z;
  (** false when built with NDEBUG *)
  assert_enabled : bool
}.

(** Modelled from the spec: the masks of adb.h.  A value is a 32-bit word,
    a 4-bit type tag over a 28-bit payload. *)
Definition ADB_TYPE_MASK : Z := 0xf0000000.
Definition ADB_VALUE_MASK : Z := 0x0fffffff.
(** [adb_val_t] is a 32-bit unsigned word. *)
Abbreviation adb_val_t := Z (only parsing).

Definition ADB_VAL_TYPE (x : adb_val_t) : Z := Z.land x ADB_TYPE_MASK.
Definition ADB_VAL_VALUE (x : adb_val_t) : Z := Z.land x ADB_VALUE_MASK.
(** [type | val], kept in 32 bits (the macro's operands are 32-bit, or the
    result is stored in an [adb_val_t]). *)
Definition ADB_VAL (type val : Z) : adb_val_t := (Z.lor type val) mod 2^32.

(** Modelled from the spec: index 0 of a vector is its length slot, fields
    and elements are numbered from 1. *)
Definition ADBI_NUM_ENTRIES : Z := 0.
Definition ADBI_FIRST : Z := 1.

(** Modelled from the spec: the container constants of adb.h (header magic,
    block types 0 = ADB, 1 = SIG, 2 = DATA, blocks padded to 32 bytes). *)
Definition ADB_FORMAT_MAGIC : Z := 0x2e424441.
Definition ADB_BLOCK_ALIGNMENT : Z := 32.
Definition ADB_BLOCK_ADB : Z := 0.
Definition ADB_BLOCK_SIG : Z := 1.
Definition ADB_BLOCK_DATA : Z := 2.

(** Modelled from the spec: ROUND_UP of apk_defines.h, the least multiple of
    [a] that is at least [x] ("padding is (align - size) mod align"). *)
Definition ROUND_UP (x a : Z) : Z := x + (a - x) mod a.

(* ------------------------------------------------------------------ *)
(** ** Blobs and the database record *)

(** [apk_blob_t]: a length and a pointer.  [blob_ptr = Some bs] is a
    non-NULL pointer to memory holding [bs]. *)
Record apk_blob_t : Type := APK_BLOB_PTR_LEN {
  blob_ptr : option (list byte);
  blob_len : Z
}.

Definition APK_BLOB_NULL : apk_blob_t := APK_BLOB_PTR_LEN None 0.
Definition APK_BLOB_IS_NULL (b : apk_blob_t) : bool :=
  match blob_ptr b with None => true | Some _ => false end.

Definition blob_of (bs : list byte) : apk_blob_t :=
  APK_BLOB_PTR_LEN (Some bs) (Z.of_nat (length bs)).

(** The bytes a blob denotes: [len] bytes from [ptr]. *)
Definition blob_bytes (b : apk_blob_t) : list byte :=
  match blob_ptr b with
  | Some bs => take (Z.to_nat (blob_len b)) bs
  | None => []
  end.

Record adb_header : Type := mk_adb_header {
  magic : Z;
  schema_id : Z   (* the field [schema] *)
}.

Record adb_w_bucket_entry : Type := mk_entry {
  e_hash : Z;
  e_len : Z;
  e_offs : Z
}.

(** One [struct adb_w_bucket]: its fixed array of entries (the list node
    is the position in the chain). *)
Definition adb_w_bucket := list adb_w_bucket_entry.

Record adb : Type := mk_adb {
  mmap : apk_blob_t;
  data : apk_blob_t;
  adb_ : apk_blob_t;                  (* the field [adb]: the arena *)
  hdr : adb_header;
  num_buckets : Z;
  bucket : list (list adb_w_bucket)   (* bucket[i]: a chain of buckets *)
}.

Definition adb_zero : adb :=
  mk_adb APK_BLOB_NULL APK_BLOB_NULL APK_BLOB_NULL (mk_adb_header 0 0) 0 [].

Definition set_adb (db : adb) (b : apk_blob_t) : adb :=
  mk_adb (mmap db) (data db) b (hdr db) (num_buckets db) (bucket db).
Definition set_hdr (db : adb) (h : adb_header) : adb :=
  mk_adb (mmap db) (data db) (adb_ db) h (num_buckets db) (bucket db).
Definition set_data (db : adb) (b : apk_blob_t) : adb :=
  mk_adb (mmap db) b (adb_ db) (hdr db) (num_buckets db) (bucket db).
Definition set_mmap (db : adb) (b : apk_blob_t) : adb :=
  mk_adb b (data db) (adb_ db) (hdr db) (num_buckets db) (bucket db).
Definition set_bucket (db : adb) (bk : list (list adb_w_bucket)) : adb :=
  mk_adb (mmap db) (data db) (adb_ db) (hdr db) (num_buckets db) bk.

(* ------------------------------------------------------------------ *)
(** ** Block enumeration *)

(** [struct adb_block]: one 32-bit word, type in the two top bits. *)
Record adb_block : Type := mk_adb_block { type_size : Z }.

(** Modelled from the spec: the block accessors of adb.h.  The size in
    the header covers header and payload, not the padding. *)
Definition sizeof_adb_block : Z := 4.
Definition adb_block_type (b : adb_block) : Z := Z.shiftr (type_size b) 30.
Definition adb_block_rawsize (b : adb_block) : Z :=
  Z.land (type_size b) 0x3fffffff.
Definition adb_block_size (b : adb_block) : Z :=
  ROUND_UP (adb_block_rawsize b) ADB_BLOCK_ALIGNMENT.
Definition adb_block_length (b : adb_block) : Z :=
  (adb_block_rawsize b - sizeof_adb_block) mod 2^32.
Definition adb_block_padding (b : adb_block) : Z :=
  adb_block_size b - adb_block_rawsize b.
Definition adb_block_init (type length : Z) : adb_block :=
  mk_adb_block
    ((Z.lor (Z.shiftl type 30) (sizeof_adb_block + length)) mod 2^32).

(** A [struct adb_block *] into the blob being enumerated: NULL, an
    ERR_PTR, or the offset of the block header from [b.ptr]. *)
Inductive adb_block_ptr : Type :=
| BLK_NULL
| BLK_ERR (e : Z)
| BLK (pos : Z).

(** The header word stored at offset [pos] of [b]. *)
Definition block_at (b : apk_blob_t) (pos : Z) : adb_block :=
  mk_adb_block (le_decode (take 4 (drop (Z.to_nat pos) (blob_bytes b)))).

Definition adb_block_validate (pos : Z) (b : apk_blob_t) : adb_block_ptr :=
  if pos =? blob_len b then BLK_NULL
  else if sizeof_adb_block >? blob_len b - pos then BLK_ERR (- EBADMSG)
  else if adb_block_rawsize (block_at b pos) <? sizeof_adb_block
       then BLK_ERR (- EBADMSG)
  else if adb_block_size (block_at b pos) >? blob_len b - pos
       then BLK_ERR (- EBADMSG)
  else BLK pos.

Definition adb_block_first (b : apk_blob_t) : adb_block_ptr :=
  adb_block_validate 0 b.

Definition adb_block_next (cur : Z) (b : apk_blob_t) : adb_block_ptr :=
  adb_block_validate (cur + adb_block_size (block_at b cur)) b.

(** adb_block_blob: the payload, [length] bytes after the header. *)
Definition adb_block_blob (b : apk_blob_t) (pos : Z) : apk_blob_t :=
  APK_BLOB_PTR_LEN
    (Some (drop (Z.to_nat (pos + sizeof_adb_block)) (blob_bytes b)))
    (adb_block_length (block_at b pos)).

(* ------------------------------------------------------------------ *)
(** ** The byte-stream collaborator (apk_istream), by its interface

    A stream is the finite sequence of bytes still to come, read without
    I/O errors, and the size of its buffer. *)

Record apk_istream : Type := mk_istream {
  is_bytes : list byte;
  is_buf_size : Z
}.

(** apk_istream_read(is, ptr, size) loops over the buffer and the
    source's read operation until [size] bytes are delivered or the source
    is at its end: the count of bytes read (short only at end of stream,
    0 when nothing is left), the bytes, and the stream after them.

    The function keeps what is left to read in [ssize_t left = size], so
    a [size] of 2^63 or more makes [left] negative.  No destination of
    that size exists (malloc answers NULL for it), so such a call is a
    skip: at the end of the stream it returns 0; otherwise
    [r = min(left, is->end - is->ptr)] is [left], [is->ptr += r] takes
    the pointer back, and [r], negative, is returned.  The stream is then
    the one given with its pointer [-r] bytes back; the callers in adb.c
    close it. *)
Definition apk_istream_read (ist : apk_istream) (size : Z)
  : Z * list byte * apk_istream :=
  if size <? 2 ^ 63 then
    let got := take (Z.to_nat size) (is_bytes ist) in
    (Z.of_nat (length got), got,
     mk_istream (drop (Z.to_nat size) (is_bytes ist)) (is_buf_size ist))
  else if Z.of_nat (length (is_bytes ist)) =? 0 then (0, [], ist)
  else (size - 2 ^ 64, [], ist).

(** apk_istream_get(is, len) fills the buffer until it holds [len]
    contiguous bytes and returns them, or an ERR_PTR: -ENOBUFS when the
    buffer is full before that, -ENOMSG when the stream ends before
    that.  The fill that finds the buffer full reads 0 bytes and marks
    the stream as ended: after -ENOBUFS only the bytes in the buffer are
    left to deliver. *)
Definition apk_istream_get (ist : apk_istream) (n : Z)
  : (Z + list byte) * apk_istream :=
  let avail := Z.of_nat (length (is_bytes ist)) in
  if (n <=? is_buf_size ist) && (n <=? avail) then
    (inr (take (Z.to_nat n) (is_bytes ist)),
     mk_istream (drop (Z.to_nat n) (is_bytes ist)) (is_buf_size ist))
  else if is_buf_size ist <=? avail then
    (inl (- ENOBUFS),
     mk_istream (take (Z.to_nat (is_buf_size ist)) (is_bytes ist))
       (is_buf_size ist))
  else (inl (- ENOMSG), ist).

(* ------------------------------------------------------------------ *)
(** ** Container parsing: map, blob and stream modes *)

Section Container.

(** The trust collaborator.  adb_trust_verify_signature runs the digest
    and the asymmetric primitives of the crypto layer on the arena and a
    signature blob; the parsers only compare its result with 0. *)
Variable apk_trust : Type.
Variable adb_trust_verify_signature : apk_trust -> adb -> apk_blob_t -> Z.

(** The segment stream of a DATA block (apk_istream_segment of io.c) and
    the caller's callback, by their interface.  The segment takes over
    what the stream has buffered, up to its length, and the callback
    reads on through it.  [seg_taken db is len] is the count of bytes of
    the segment that are accounted for when the callback returns,
    [len - seg.bytes_left]: those taken over from the buffer and those
    the callback read, between 0 and the lesser of [len] and what the
    stream [is] holds. *)
Variable seg_taken : adb -> apk_istream -> Z -> Z.

(** if (!trusted && adb_trust_verify_signature(t, db, &vfy, b) == 0)
        trusted = 1; *)
Definition verify_step (t : option apk_trust) (db : adb) (trusted : bool)
    (b : apk_blob_t) : bool :=
  if trusted then true
  else match t with
       | Some tr => adb_trust_verify_signature tr db b =? 0
       | None => false
       end.

(** The switch on the block type in the body of adb_foreach_block:
    the database and the trusted flag after the block at [pos]. *)
Definition __adb_m_parse_block (t : option apk_trust) (db : adb)
    (trusted : bool) (pos : Z) : adb * bool :=
  let b := adb_block_blob (data db) pos in
  let type := adb_block_type (block_at (data db) pos) in
  if type =? ADB_BLOCK_ADB then
    if negb (APK_BLOB_IS_NULL (adb_ db)) then (db, trusted)
    else (set_adb db b, trusted)
  else if type =? ADB_BLOCK_SIG then
    if APK_BLOB_IS_NULL (adb_ db) then (db, trusted)
    else (db, verify_step t db trusted b)
  else
    (db, trusted).

(** for (blk = adb_block_first(data); !IS_ERR_OR_NULL(blk);
         blk = adb_block_next(blk, data)) *)
Fixpoint __adb_m_parse_loop (fuel : nat) (t : option apk_trust)
    (db : adb) (trusted : bool) (blk : adb_block_ptr)
  : outcome (adb * bool * adb_block_ptr) :=
  match blk with
  | BLK pos =>
    match fuel with
    | O => Fault OutOfFuel
    | S fuel' =>
      let '(db1, trusted1) := __adb_m_parse_block t db trusted pos in
      __adb_m_parse_loop fuel' t db1 trusted1 (adb_block_next pos (data db))
    end
  | _ => Ret (db, trusted, blk)
  end.

Definition __adb_m_parse (db : adb) (t : option apk_trust)
  : outcome (Z * adb) :=
  let trusted := match t with Some _ => false | None => true end in
  (* adb_block_first reads the first header through data.ptr *)
  if APK_BLOB_IS_NULL (data db) && (sizeof_adb_block <=? blob_len (data db))
  then Fault NullDeref else
  '(db1, trusted1, blk) ←
    __adb_m_parse_loop (S (Z.to_nat (blob_len (data db)))) t db trusted
      (adb_block_first (data db));
  let r :=
    match blk with
    | BLK_ERR e => e
    | _ => if negb trusted1 then - ENOKEY
           else if negb (APK_BLOB_IS_NULL (adb_ db1)) then 0
           else - EBADMSG
    end in
  Ret (r, if r =? 0 then db1 else set_adb db1 APK_BLOB_NULL).

Definition adb_m_blob (blob : apk_blob_t) (t : option apk_trust)
  : outcome (Z * adb) :=
  __adb_m_parse (set_data adb_zero blob) t.

(** adb_m_map on a descriptor that fstat() and mmap() accept; [file] is
    the content of the file.  On the error path the mapping is released
    and the record is returned as the code leaves it. *)
Definition adb_m_map (db : adb) (file : list byte) (expected_schema : Z)
    (t : option apk_trust) : outcome (Z * adb) :=
  let st_size := Z.of_nat (length file) in
  if st_size <? 8 then Ret (- EIO, db)
  else
    let db1 := set_mmap adb_zero (blob_of file) in
    let h := mk_adb_header (le_decode (take 4 file))
                           (le_decode (take 4 (drop 4 file))) in
    if negb (magic h =? ADB_FORMAT_MAGIC) then Ret (- EBADMSG, db1)
    else if negb (expected_schema =? 0)
            && negb (expected_schema =? schema_id h)
    then Ret (- EBADMSG, db1)
    else
      let db2 := set_hdr db1 h in
      let db3 := set_data db2 (blob_of (drop 8 file)) in
      __adb_m_parse db3 t.

(** The state of the do-loop of adb_m_stream. *)
Record stream_state : Type := mk_stream_state {
  s_db : adb;
  s_is : apk_istream;
  s_block_no : Z;
  s_trusted : bool
}.

Inductive loop_step : Type :=
| Continue (st : stream_state)
| Return (r : Z) (db : adb).

(** The labels the loop leaves through. *)
Definition bad_msg (db : adb) : loop_step := Return (- EBADMSG) db.
Definition err (r : Z) (db : adb) : loop_step :=
  Return (if r >=? 0 then - EBADMSG else r) db.
Definition done (r : Z) (db : adb) : loop_step := Return r db.

(** One iteration of the do-loop.  [datacb db length segment] is the
    caller's callback on a DATA block: it is given the segment stream over
    the padded payload and answers with its status; what the segment has
    left when it returns is skipped with apk_istream_read(is, NULL,
    seg.bytes_left).  malloc(sz) is taken to succeed, except that it
    answers NULL for 2^63 bytes or more. *)
Definition adb_m_stream_block (t : option apk_trust)
    (datacb : adb -> Z -> list byte -> Z) (st : stream_state) : loop_step :=
  let db := s_db st in
  let '(r, got, is1) := apk_istream_read (s_is st) sizeof_adb_block in
  if r =? 0 then
    if negb (s_trusted st) then done (- ENOKEY) db
    else if APK_BLOB_IS_NULL (adb_ db) then done (- ENOMSG) db
    else done r db
  else if (r <? 0) || negb (r =? sizeof_adb_block) then err r db
  else
    let blk := mk_adb_block (le_decode got) in
    let type := adb_block_type blk in
    if negb (Bool.eqb (s_block_no st =? 0) (type =? ADB_BLOCK_ADB))
    then bad_msg db
    else
      let block_no := s_block_no st + 1 in
      let sz := (adb_block_size blk - sizeof_adb_block) mod 2^64 in
      if type =? ADB_BLOCK_ADB then
        if negb (APK_BLOB_IS_NULL (adb_ db)) then bad_msg db
        else
          let '(r, got, is2) := apk_istream_read is1 sz in
          let ptr := if sz <? 2 ^ 63 then Some got else None in
          let db1 :=
            set_adb db (APK_BLOB_PTR_LEN ptr (adb_block_length blk)) in
          if negb (r =? sz) then err r db1
          else Continue (mk_stream_state db1 is2 block_no (s_trusted st))
      else if type =? ADB_BLOCK_SIG then
        if APK_BLOB_IS_NULL (adb_ db) then bad_msg db
        else
          match apk_istream_get is1 sz with
          | (inl e, _) => err e db
          | (inr sig, is2) =>
            let trusted :=
              verify_step t db (s_trusted st)
                (APK_BLOB_PTR_LEN (Some sig) (adb_block_length blk)) in
            Continue (mk_stream_state db is2 block_no trusted)
          end
      else if type =? ADB_BLOCK_DATA then
        if APK_BLOB_IS_NULL (adb_ db) then bad_msg db
        else if negb (s_trusted st) then err (- ENOKEY) db
        else
          let seg := take (Z.to_nat sz) (is_bytes is1) in
          let r := datacb db (adb_block_length blk) seg in
          if r <? 0 then err r db
          else
            let taken := seg_taken db is1 sz in
            let is2 :=
              mk_istream (drop (Z.to_nat taken) (is_bytes is1))
                (is_buf_size is1) in
            let bytes_left := (sz - taken) mod 2^64 in
            if negb (bytes_left =? 0) then
              let '(r, _, is3) := apk_istream_read is2 bytes_left in
              if r <? 0 then err r db
              else Continue (mk_stream_state db is3 block_no (s_trusted st))
            else Continue (mk_stream_state db is2 block_no (s_trusted st))
      else bad_msg db.

Fixpoint adb_m_stream_loop (fuel : nat) (t : option apk_trust)
    (datacb : adb -> Z -> list byte -> Z) (st : stream_state)
  : outcome (Z * adb) :=
  match fuel with
  | O => Fault OutOfFuel
  | S fuel' =>
    match adb_m_stream_block t datacb st with
    | Return r db => Ret (r, db)
    | Continue st' => adb_m_stream_loop fuel' t datacb st'
    end
  end.

(** The header bytes read so far land at the start of [db->hdr]. *)
Definition hdr_store (h : adb_header) (got : list byte) : adb_header :=
  let old := le_encode 4 (magic h) ++ le_encode 4 (schema_id h) in
  let m := got ++ drop (length got) old in
  mk_adb_header (le_decode (take 4 m)) (le_decode (take 4 (drop 4 m))).

(** adb_m_stream(db, is, expected_schema, t, datacb); [is] is an ERR_PTR
    ([inl]) or a stream. *)
Definition adb_m_stream (db : adb) (ist : Z + apk_istream)
    (expected_schema : Z) (t : option apk_trust)
    (datacb : adb -> Z -> list byte -> Z) : outcome (Z * adb) :=
  match ist with
  | inl e => Ret (e, db)
  | inr is0 =>
    let trusted := match t with Some _ => false | None => true end in
    let '(r, got, is1) := apk_istream_read is0 8 in
    let db1 := set_hdr db (hdr_store (hdr db) got) in
    if negb (r =? 8) then Ret (if r >=? 0 then - EBADMSG else r, db1)
    else if negb (magic (hdr db1) =? ADB_FORMAT_MAGIC)
    then Ret (- EBADMSG, db1)
    else
      adb_m_stream_loop (S (length (is_bytes is1))) t datacb
        (mk_stream_state db1 is1 0 trusted)
  end.

End Container.

(* ------------------------------------------------------------------ *)
(** ** Container creation: one block, as adb_c_block writes it *)

(** The bytes adb_c_block(os, type, val) hands to the output stream:
    header word, payload, zero padding. *)
Definition adb_c_block (type : Z) (val : list byte) : list byte :=
  let blk := adb_block_init type (Z.of_nat (length val)) in
  le_encode 4 (type_size blk) ++ val
    ++ zeroes (Z.to_nat (adb_block_padding blk)).

(** adb_c_header: the 8 header bytes. *)
Definition adb_c_header (h : adb_header) : list byte :=
  le_encode 4 (magic h) ++ le_encode 4 (schema_id h).

(* ------------------------------------------------------------------ *)
(** ** Schemas *)

Inductive adb_kind : Type :=
| ADB_KIND_ADB | ADB_KIND_OBJECT | ADB_KIND_ARRAY | ADB_KIND_BLOB | ADB_KIND_INT.

Definition adb_kind_eqb (a b : adb_kind) : bool :=
  match a, b with
  | ADB_KIND_ADB, ADB_KIND_ADB | ADB_KIND_OBJECT, ADB_KIND_OBJECT
  | ADB_KIND_ARRAY, ADB_KIND_ARRAY | ADB_KIND_BLOB, ADB_KIND_BLOB
  | ADB_KIND_INT, ADB_KIND_INT => true
  | _, _ => false
  end.

(** What a [struct adb_obj] holds besides its schema pointer: the
    database, the slot count and the slot vector ([None] is NULL).  The
    schema callbacks receive objects of their own schema, so they are
    given this part. *)
Record adb_slots : Type := mk_slots {
  s_adb : adb;
  s_num : Z;
  s_vec : option (list adb_val_t)
}.

(** The descriptor a field's kind byte belongs to (recovered in C by
    container_of): a scalar schema, an object or array schema, or the
    schema of a nested database. *)
#[local] Unset Elimination Schemes.
Inductive adb_schema : Type :=
| adb_scalar_schema (kind : adb_kind)
    (compare : adb -> adb_val_t -> adb -> adb_val_t -> Z)
| adb_object_schema (kind : adb_kind) (num_fields : Z)
    (compare : adb_slots -> adb_slots -> Z)
    (get_default_int : option (Z -> Z))
    (fields : list adb_schema)
| adb_adb_schema (inner : adb_schema).
#[local] Set Elimination Schemes.

Definition schema_kind (s : adb_schema) : adb_kind :=
  match s with
  | adb_scalar_schema k _ => k
  | adb_object_schema k _ _ _ _ => k
  | adb_adb_schema _ => ADB_KIND_ADB
  end.

Definition schema_fields (s : adb_schema) : list adb_schema :=
  match s with
  | adb_object_schema _ _ _ _ fs => fs
  | _ => []
  end.

Definition schema_num_fields (s : adb_schema) : Z :=
  match s with
  | adb_object_schema _ n _ _ _ => n
  | _ => 0
  end.

Definition schema_compare (s : adb_schema) : adb_slots -> adb_slots -> Z :=
  match s with
  | adb_object_schema _ _ c _ _ => c
  | _ => fun _ _ => 0
  end.

Definition schema_get_default_int (s : adb_schema) : option (Z -> Z) :=
  match s with
  | adb_object_schema _ _ _ d _ => d
  | _ => None
  end.

(** [struct adb_obj]. *)
Record adb_obj : Type := mk_adb_obj {
  o_schema : option adb_schema;
  o_db : adb;
  o_num : Z;
  o_obj : option (list adb_val_t)
}.

Definition slots_of (o : adb_obj) : adb_slots :=
  mk_slots (o_db o) (o_num o) (o_obj o).

(** Modelled from the spec: adb_ro_num and adb_ra_num of adb.h, the slot
    count and the element count (the length slot left out). *)
Definition adb_ro_num (o : adb_obj) : Z := o_num o.
Definition adb_ra_num (o : adb_obj) : Z :=
  if o_num o =? 0 then 0 else o_num o - 1.

(* ------------------------------------------------------------------ *)
(** ** Read interface *)

Section Reader.
Context `{P : adb_params}.

Definition ADB_VAL_NULL : Z := 0.
Definition ADB_NULL : adb_val_t := ADB_VAL ADB_TYPE_SPECIAL ADB_VAL_NULL.
Definition ADB_ERROR (val : Z) : adb_val_t := ADB_VAL ADB_TYPE_ERROR val.
Definition ADB_IS_ERROR (x : adb_val_t) : bool :=
  ADB_VAL_TYPE x =? ADB_TYPE_ERROR.

(** The memory the arena pointer addresses. *)
Definition arena_mem (db : adb) : list byte :=
  match blob_ptr (adb_ db) with Some bs => bs | None => [] end.

(** adb_r_deref: the pointer [db->adb.ptr + offs] as an offset into the
    arena, [None] for NULL (a NULL arena has length 0, so adding to it
    yields NULL again). *)
Definition adb_r_deref (db : adb) (v : adb_val_t) (offs s : Z) : option Z :=
  let offs := offs + ADB_VAL_VALUE v in
  if offs + s >? blob_len (adb_ db) then None
  else if APK_BLOB_IS_NULL (adb_ db) then None
  else Some offs.

(** Reading [n] bytes through a pointer returned by adb_r_deref. *)
Definition load (db : adb) (p : option Z) (n : nat) : outcome (list byte) :=
  match p with
  | None => Fault NullDeref
  | Some offs =>
    let bs := take n (drop (Z.to_nat offs) (arena_mem db)) in
    if (length bs =? n)%nat then Ret bs else Fault OutOfBounds
  end.

Definition adb_r_root (db : adb) : adb_val_t :=
  if blob_len (adb_ db) <? 4 then ADB_NULL
  else le_decode (take 4 (drop (Z.to_nat (blob_len (adb_ db) - 4))
                               (arena_mem db))).

Definition adb_r_int (db : adb) (v : adb_val_t) : Z :=
  if ADB_VAL_TYPE v =? ADB_TYPE_INT then ADB_VAL_VALUE v
  else if ADB_VAL_TYPE v =? ADB_TYPE_INT_32 then
    (* int4 = adb_r_deref(db, v, 0, sizeof int4), int4 a uint32_t pointer *)
    match adb_r_deref db v 0 sizeof_ptr with
    | None => 0
    | Some offs => le_decode (take 4 (drop (Z.to_nat offs) (arena_mem db)))
    end
  else 0.

(** The blob APK_BLOB_PTR_LEN(adb_r_deref(db, v, w, len), len). *)
Definition blob_at (db : adb) (p : option Z) (n : Z) : apk_blob_t :=
  APK_BLOB_PTR_LEN
    (match p with
     | Some offs => Some (drop (Z.to_nat offs) (arena_mem db))
     | None => None
     end) n.

(** The three BLOB cases differ in the width [w] of the length prefix. *)
Definition adb_r_blob_w (db : adb) (v : adb_val_t) (w : nat)
  : outcome apk_blob_t :=
  pfx ← load db (adb_r_deref db v 0 (Z.of_nat w)) w;
  let n := le_decode pfx in
  Ret (blob_at db (adb_r_deref db v (Z.of_nat w) n) n).

Definition adb_r_blob (db : adb) (v : adb_val_t) : outcome apk_blob_t :=
  if ADB_VAL_TYPE v =? ADB_TYPE_BLOB_8 then adb_r_blob_w db v 1
  else if ADB_VAL_TYPE v =? ADB_TYPE_BLOB_16 then adb_r_blob_w db v 2
  else if ADB_VAL_TYPE v =? ADB_TYPE_BLOB_32 then adb_r_blob_w db v 4
  else Ret APK_BLOB_NULL.

(** The memory at a vector pointer, as the slot words [o[0]], [o[1]], ...
    it holds ([n] complete words). *)
Fixpoint load_vals (n : nat) (mem : list byte) : list adb_val_t :=
  match n with
  | O => []
  | S n' => le_decode (take 4 mem) :: load_vals n' (drop 4 mem)
  end.

Definition vals_at (db : adb) (offs : Z) : list adb_val_t :=
  let mem := drop (Z.to_nat offs) (arena_mem db) in
  load_vals (length mem / 4)%nat mem.

Definition adb_r_obj_err (db : adb) (schema : option adb_schema) : adb_obj :=
  mk_adb_obj schema db 1 None.

Definition adb_r_obj (db : adb) (v : adb_val_t) (schema : option adb_schema)
  : outcome adb_obj :=
  if negb (ADB_VAL_TYPE v =? ADB_TYPE_ARRAY)
     && negb (ADB_VAL_TYPE v =? ADB_TYPE_OBJECT)
  then Ret (adb_r_obj_err db schema)
  else
    (* sizeof(adb_val_t[ADBI_NUM_ENTRIES]) *)
    match adb_r_deref db v 0 (4 * ADBI_NUM_ENTRIES) with
    | None => Ret (adb_r_obj_err db schema)
    | Some o =>
      w ← load db (Some o) 4;
      let num := le_decode w in
      match adb_r_deref db v 0 (4 * num) with
      | None => Ret (adb_r_obj_err db schema)
      | Some o =>
        Ret (mk_adb_obj schema db num (Some (vals_at db o)))
      end
    end.

Definition adb_r_rootobj (db : adb) (schema : option adb_schema)
  : outcome adb_obj :=
  adb_r_obj db (adb_r_root db) schema.

(** o->obj[i] *)
Definition obj_slot (o : adb_obj) (i : Z) : outcome adb_val_t :=
  match o_obj o with
  | None => Fault NullDeref
  | Some vec =>
    match vec !! Z.to_nat i with
    | Some x => Ret x
    | None => Fault OutOfBounds
    end
  end.

Definition adb_ro_val (o : adb_obj) (i : Z) : outcome adb_val_t :=
  if i >=? o_num o then Ret ADB_NULL else obj_slot o i.

Definition adb_ro_int (o : adb_obj) (i : Z) : outcome Z :=
  val ← adb_ro_val o i;
  match o_schema o with
  | Some s =>
    match schema_get_default_int s with
    | Some d => if val =? ADB_NULL then Ret (d i)
                else Ret (adb_r_int (o_db o) val)
    | None => Ret (adb_r_int (o_db o) val)
    end
  | None => Ret (adb_r_int (o_db o) val)
  end.

Definition adb_ro_blob (o : adb_obj) (i : Z) : outcome apk_blob_t :=
  val ← adb_ro_val o i;
  adb_r_blob (o_db o) val.

End Reader.

(* ------------------------------------------------------------------ *)
(** ** Write interface *)

Section Writer.
Context `{P : adb_params}.

(** adb_w_init_dynamic(db, schema, buckets, num_buckets): every chain
    starts empty. *)
Definition adb_w_init_dynamic (schema num_buckets : Z) : adb :=
  mk_adb APK_BLOB_NULL APK_BLOB_NULL APK_BLOB_NULL
         (mk_adb_header ADB_FORMAT_MAGIC schema) num_buckets
         (replicate (Z.to_nat num_buckets) []).

(** adb_w_init_static(db, buf, bufsz): the arena is the caller's buffer. *)
Definition adb_w_init_static (bufsz : Z) : adb :=
  mk_adb (APK_BLOB_PTR_LEN None bufsz) APK_BLOB_NULL
         (APK_BLOB_PTR_LEN (Some []) 0)
         (mk_adb_header ADB_FORMAT_MAGIC 0) 0 [].

(** A [struct iovec] array: the fragments, each with its [iov_len] bytes. *)
Definition iovec := list (list byte).

Definition iovec_len (vec : iovec) : Z :=
  fold_left (fun l f => l + Z.of_nat (length f)) vec 0.

(** Modelled from the spec: apk_blob_hash_seed of the blob module, the
    32-bit hash [h = h*33 ^ byte] continued from [seed]. *)
Definition apk_blob_hash_seed (b : list byte) (seed : Z) : Z :=
  fold_left (fun h c => Z.lxor (h * 33 mod 2^32) (byte_val c)) b seed.

(** iovec_hash: the hash (seeded 5381) and the total length. *)
Definition iovec_hash (vec : iovec) : Z * Z :=
  fold_left
    (fun '(h, l) f => (apk_blob_hash_seed f h, l + Z.of_nat (length f)))
    vec (5381, 0).

Fixpoint bytes_eqb (a b : list byte) : bool :=
  match a, b with
  | [], [] => true
  | x :: a', y :: b' => Byte.eqb x y && bytes_eqb a' b'
  | _, _ => false
  end.

(** iovec_memcmp: 0 when the fragments, one after the other, equal the
    memory at [base]. *)
Fixpoint iovec_memcmp (vec : iovec) (base : list byte) : Z :=
  match vec with
  | [] => 0
  | f :: vec' =>
    if negb (bytes_eqb (take (length f) base) f) then 1
    else iovec_memcmp vec' (drop (length f) base)
  end.

(** static adb_val_t adb_w_error(struct adb *db, int rc) *)
Definition adb_w_error (db : adb) (rc : Z) : outcome (adb * adb_val_t) :=
  if assert_enabled then Fault AssertFail
  else Ret (set_hdr db (mk_adb_header 0 (schema_id (hdr db))), ADB_ERROR rc).

(** while (db->adb.len + len > db->mmap.len) db->mmap.len *= 2; *)
Fixpoint grow (fuel : nat) (need cap : Z) : outcome Z :=
  if need >? cap then
    match fuel with
    | O => Fault OutOfFuel
    | S fuel' => grow fuel' need (cap * 2)
    end
  else Ret cap.

Definition set_arena (db : adb) (bs : list byte) (cap : Z) : adb :=
  mk_adb (APK_BLOB_PTR_LEN (blob_ptr (mmap db)) cap) (data db)
         (blob_of bs) (hdr db) (num_buckets db) (bucket db).

(** The bytes of the arena in use. *)
Definition arena (db : adb) : list byte := blob_bytes (adb_ db).

(** adb_w_raw: pad to [alignment], make room, append the fragments;
    returns the offset of the first one. *)
Definition adb_w_raw (db : adb) (vec : iovec) (len alignment : Z)
  : outcome (adb * Z) :=
  let len0 := blob_len (adb_ db) in
  let i := ROUND_UP len0 alignment - len0 in
  let padded := arena db ++ zeroes (Z.to_nat i) in
  let len1 := len0 + i in
  cap ←
    (if len1 + len >? blob_len (mmap db) then
       (* assert(db->num_buckets); without it realloc() is handed a
          buffer the database does not own *)
       if num_buckets db =? 0 then Fault AssertFail
       else
         grow 64 (len1 + len)
           (if blob_len (mmap db) =? 0 then 8192 else blob_len (mmap db))
     else Ret (blob_len (mmap db)));
  Ret (set_arena db (padded ++ concat vec) cap, len1).

(** What the walk over a bucket chain ends in. *)
Inductive walk : Type :=
| Found (offs : Z)          (* return entry->offs *)
| AddAt (k i : nat)         (* goto add, entry = i-th of the k-th bucket *)
| NextBucket.               (* the inner loop ran to its end *)

(** The inner for-loop over [bucket->entries], from index [i]. *)
Fixpoint walk_entries (db : adb) (vec : iovec) (hash len alignment : Z)
    (k i : nat) (entries : list adb_w_bucket_entry) : walk :=
  match entries with
  | [] => NextBucket
  | entry :: rest =>
    if e_len entry =? 0 then AddAt k i
    else if negb (e_hash entry =? hash)
    then walk_entries db vec hash len alignment k (S i) rest
    else if (e_len entry =? len)
            && (iovec_memcmp vec (drop (Z.to_nat (e_offs entry)) (arena_mem db))
                =? 0)
    then
      if negb (Z.land (e_offs entry) alignment =? 0) then AddAt k i
      else Found (e_offs entry)
    else walk_entries db vec hash len alignment k (S i) rest
  end.

(** list_for_each_entry(bucket, &db->bucket[bucketno], node) *)
Fixpoint walk_chain (db : adb) (vec : iovec) (hash len alignment : Z)
    (k : nat) (chain : list adb_w_bucket) : walk :=
  match chain with
  | [] => NextBucket
  | b :: chain' =>
    match walk_entries db vec hash len alignment k 0 b with
    | NextBucket => walk_chain db vec hash len alignment (S k) chain'
    | w => w
    end
  end.

(** calloc(1, sizeof *bucket) *)
Definition new_bucket : adb_w_bucket :=
  replicate ADB_W_BUCKET_ENTRIES (mk_entry 0 0 0).

(** The entry at (k, i) of chain [bucketno] is overwritten. *)
Definition set_entry (db : adb) (bucketno k i : nat) (e : adb_w_bucket_entry)
  : adb :=
  set_bucket db
    (alter (alter (fun b => <[i := e]> b) k) bucketno (bucket db)).

Definition adb_w_data (db : adb) (vec : iovec) (alignment : Z)
  : outcome (adb * Z) :=
  if num_buckets db =? 0 then adb_w_raw db vec (iovec_len vec) alignment
  else
    let '(hash, len) := iovec_hash vec in
    let bucketno := Z.to_nat (hash mod num_buckets db) in
    match bucket db !! bucketno with
    | None => Fault OutOfBounds
    | Some chain =>
      match walk_chain db vec hash len alignment 0 chain with
      | Found offs => Ret (db, offs)
      | AddAt k i =>
        '(db1, offs) ← adb_w_raw db vec len alignment;
        Ret (set_entry db1 bucketno k i (mk_entry hash len offs), offs)
      | NextBucket =>
        let db0 :=
          set_bucket db
            (alter (fun c => c ++ [new_bucket]) bucketno (bucket db)) in
        '(db1, offs) ← adb_w_raw db0 vec len alignment;
        Ret (set_entry db1 bucketno (length chain) 0 (mk_entry hash len offs),
             offs)
      end
    end.

(** adb_w_data1(db, ptr, len, alignment); [ptr] is NULL or the memory it
    points to. *)
Definition adb_w_data1 (db : adb) (ptr : option (list byte)) (len alignment : Z)
  : outcome (adb * Z) :=
  match ptr with
  | None => Ret (db, ADB_NULL)
  | Some mem =>
    if (length mem <? Z.to_nat len)%nat then Fault OutOfBounds
    else adb_w_data db [take (Z.to_nat len) mem] alignment
  end.

(** void adb_w_root(struct adb *db, adb_val_t root_val) *)
Definition adb_w_root (db : adb) (root_val : adb_val_t) : outcome adb :=
  '(db1, _) ← adb_w_raw db [le_encode 4 root_val] 4 4;
  Ret db1.

Definition adb_w_blob (db : adb) (b : apk_blob_t)
  : outcome (adb * adb_val_t) :=
  let n := blob_len b mod 2^32 in
  if n =? 0 then Ret (db, ADB_VAL_NULL)
  else
    match blob_ptr b with
    | None => Fault NullDeref
    | Some mem =>
      if (length mem <? Z.to_nat n)%nat then Fault OutOfBounds
      else
        let '(w, o) :=
          if n >? 0xffff then (4%nat, ADB_TYPE_BLOB_32)
          else if n >? 0xff then (2%nat, ADB_TYPE_BLOB_16)
          else (1%nat, ADB_TYPE_BLOB_8) in
        '(db1, offs) ←
          adb_w_data db [le_encode w n; take (Z.to_nat n) mem] (Z.of_nat w);
        Ret (db1, ADB_VAL o offs)
    end.

Definition adb_w_int (db : adb) (val : Z) : outcome (adb * adb_val_t) :=
  if val >=? 0x10000000 then
    '(db1, offs) ← adb_w_data1 db (Some (le_encode 4 val)) 4 4;
    Ret (db1, ADB_VAL ADB_TYPE_INT_32 offs)
  else Ret (db, ADB_VAL ADB_TYPE_INT val).

End Writer.

(* ------------------------------------------------------------------ *)
(** ** Cross-database copy

    adb_w_copy takes two database pointers and compares them, so the
    databases live in a store and are named by their address. *)

Section Copy.
Context `{P : adb_params}.

Definition heap := list adb.

(** Run a writer on the database at address [db]. *)
Definition on_db {A} (h : heap) (db : nat) (f : adb -> outcome (adb * A))
  : outcome (heap * A) :=
  match h !! db with
  | None => Fault NullDeref
  | Some d => '(d', a) ← f d; Ret (<[db := d']> h, a)
  end.

(** The memory a pointer returned by adb_r_deref addresses. *)
Definition mem_at (db : adb) (p : option Z) : option (list byte) :=
  match p with
  | Some offs => Some (drop (Z.to_nat offs) (arena_mem db))
  | None => None
  end.

(** The label [copy]:
    ptr = adb_r_deref(srcdb, v, 0, sz);
    return ADB_VAL(ADB_VAL_TYPE(v), adb_w_data1(db, ptr, sz, align)); *)
Definition copy_payload (h : heap) (db : nat) (src : adb) (v : adb_val_t)
    (sz align : Z) : outcome (heap * adb_val_t) :=
  let ptr := adb_r_deref src v 0 sz in
  '(h1, offs) ← on_db h db (fun d => adb_w_data1 d (mem_at src ptr) sz align);
  Ret (h1, ADB_VAL (ADB_VAL_TYPE v) offs).

Fixpoint adb_w_copy (fuel : nat) (h : heap) (db srcdb : nat) (v : adb_val_t)
  : outcome (heap * adb_val_t) :=
  if (db =? srcdb)%nat then Ret (h, v)
  else
    match h !! srcdb with
    | None => Fault NullDeref
    | Some src =>
      let type := ADB_VAL_TYPE v in
      if (type =? ADB_TYPE_SPECIAL) || (type =? ADB_TYPE_INT) then Ret (h, v)
      else if type =? ADB_TYPE_INT_32 then copy_payload h db src v 4 4
      else if type =? ADB_TYPE_BLOB_8 then
        pfx ← load src (adb_r_deref src v 0 1) 1;
        copy_payload h db src v (1 + le_decode pfx) 1
      else if type =? ADB_TYPE_BLOB_16 then
        pfx ← load src (adb_r_deref src v 0 2) 2;
        copy_payload h db src v (1 + le_decode pfx) 1
      else if (type =? ADB_TYPE_OBJECT) || (type =? ADB_TYPE_ARRAY) then
        obj ← adb_r_obj src v None;
        let sz := adb_ro_num obj in
        if sz >? 512 then on_db h db (fun d => adb_w_error d E2BIG)
        else
          c0 ← obj_slot obj ADBI_NUM_ENTRIES;
          match fuel with
          | O => Fault OutOfFuel
          | S fuel' =>
            (* for (i = ADBI_FIRST; i < sz; i++)
                 cpy[i] = adb_w_copy(db, srcdb, adb_ro_val(&obj, i)); *)
            '(h1, cpy) ←
              (fix slots (h : heap) (i : Z) (n : nat) {struct n}
                 : outcome (heap * list adb_val_t) :=
                 match n with
                 | O => Ret (h, [])
                 | S n' =>
                   x ← adb_ro_val obj i;
                   '(h1, y) ← adb_w_copy fuel' h db srcdb x;
                   '(h2, ys) ← slots h1 (i + 1) n';
                   Ret (h2, y :: ys)
                 end) h ADBI_FIRST (Z.to_nat (sz - ADBI_FIRST));
            '(h2, offs) ←
              on_db h1 db (fun d =>
                adb_w_data1 d (Some (concat (map (le_encode 4) (c0 :: cpy))))
                  (4 * sz) 4);
            Ret (h2, ADB_VAL type offs)
          end
      else on_db h db (fun d => adb_w_error d ENOSYS)
    end.

End Copy.

(* ------------------------------------------------------------------ *)
(** ** Array builders, sort and unique *)

Section Sort.
Context `{P : adb_params}.

(** qsort(3) of the C library, on an array of values with a comparator. *)
Variable qsort : (adb_val_t -> adb_val_t -> Z) -> list adb_val_t
                 -> list adb_val_t.

Definition set_o_db (o : adb_obj) (db : adb) : adb_obj :=
  mk_adb_obj (o_schema o) db (o_num o) (o_obj o).
Definition set_o_num (o : adb_obj) (num : Z) : adb_obj :=
  mk_adb_obj (o_schema o) (o_db o) num (o_obj o).
Definition set_o_obj (o : adb_obj) (vec : list adb_val_t) : adb_obj :=
  mk_adb_obj (o_schema o) (o_db o) (o_num o) (Some vec).

(** adb_wo_init(o, p, schema, db), [p] an array of [num_fields] values. *)
Definition adb_wo_init (schema : adb_schema) (db : adb) : adb_obj :=
  let n := schema_num_fields schema in
  mk_adb_obj (Some schema) db 1
    (Some (<[Z.to_nat ADBI_NUM_ENTRIES := n]> (replicate (Z.to_nat n) 0))).

(** assert(o->schema->kind == k) *)
Definition assert_kind (o : adb_obj) (ok : adb_kind -> bool) : outcome unit :=
  match o_schema o with
  | None => Fault NullDeref
  | Some s =>
    if assert_enabled && negb (ok (schema_kind s)) then Fault AssertFail
    else Ret tt
  end.

(** The error return of a builder: adb_w_error(o->db, rc). *)
Definition wo_error (o : adb_obj) (rc : Z) : outcome (adb_obj * adb_val_t) :=
  '(db1, e) ← adb_w_error (o_db o) rc;
  Ret (set_o_db o db1, e).

Definition adb_wa_append (o : adb_obj) (v : adb_val_t)
  : outcome (adb_obj * adb_val_t) :=
  _ ← assert_kind o (adb_kind_eqb ADB_KIND_ARRAY);
  max ← obj_slot o ADBI_NUM_ENTRIES;
  if o_num o >=? max then wo_error o E2BIG
  else if ADB_IS_ERROR v then wo_error o (ADB_VAL_VALUE v)
  else if negb (v =? ADB_VAL_NULL) then
    match o_obj o with
    | None => Fault NullDeref
    | Some vec =>
      Ret (set_o_num (set_o_obj o (<[Z.to_nat (o_num o) := v]> vec))
                     (o_num o + 1), v)
    end
  else Ret (o, v).

(** wacmp, with the globals [__db1], [__db2], [__schema] as arguments. *)
Definition wacmp (db1 db2 : adb) (schema : option adb_schema)
    (p1 p2 : adb_val_t) : outcome Z :=
  o1 ← adb_r_obj db1 p1 schema;
  o2 ← adb_r_obj db2 p2 schema;
  match o_schema o1 with
  | None => Fault NullDeref
  | Some s => Ret (schema_compare s (slots_of o1) (slots_of o2))
  end.

(** adb_m_blob(&a, blob, 0): no trust context, nothing is verified. *)
Definition adb_m_blob0 (blob : apk_blob_t) : outcome (Z * adb) :=
  adb_m_blob unit (fun _ _ _ => 0) blob None.

Definition wadbcmp (db1 db2 : adb) (schema : option adb_schema)
    (p1 p2 : adb_val_t) : outcome Z :=
  b1 ← adb_r_blob db1 p1;
  '(_, a1) ← adb_m_blob0 b1;
  b2 ← adb_r_blob db2 p2;
  '(_, a2) ← adb_m_blob0 b2;
  o1 ← adb_r_rootobj a1 schema;
  o2 ← adb_r_rootobj a2 schema;
  match schema with
  | None => Fault NullDeref
  | Some s => Ret (schema_compare s (slots_of o1) (slots_of o2))
  end.

(** The first trap a comparator runs into on the elements of [l]. *)
Fixpoint first_fault (cmp : adb_val_t -> adb_val_t -> outcome Z)
    (l : list adb_val_t) : option fault :=
  match l with
  | [] => None
  | x :: l' =>
    match cmp x x with
    | Fault f => Some f
    | Ret _ => first_fault cmp l'
    end
  end.

(** qsort with a comparator that can trap.  Both comparators above trap
    on a pair exactly when they trap on one of its elements, and sorting
    two or more elements passes every element to the comparator. *)
Definition qsort_trap (cmp : adb_val_t -> adb_val_t -> outcome Z)
    (l : list adb_val_t) : outcome (list adb_val_t) :=
  match (if (2 <=? length l)%nat then first_fault cmp l else None) with
  | Some f => Fault f
  | None =>
    Ret (qsort (fun a b => match cmp a b with Ret z => z | Fault _ => 0 end) l)
  end.

(** The comparator adb_wa_sort installs for the element kind, if any. *)
Definition wa_comparator (arr : adb_obj) (f0 : adb_schema)
  : option (adb_val_t -> adb_val_t -> outcome Z) :=
  match schema_kind f0 with
  | ADB_KIND_OBJECT => Some (wacmp (o_db arr) (o_db arr) (Some f0))
  | ADB_KIND_ADB =>
    match f0 with
    | adb_adb_schema inner => Some (wadbcmp (o_db arr) (o_db arr) (Some inner))
    | _ => None
    end
  | _ => None
  end.

Definition adb_wa_sort (arr : adb_obj) : outcome adb_obj :=
  _ ← assert_kind arr (adb_kind_eqb ADB_KIND_ARRAY);
  match o_schema arr with
  | None => Fault NullDeref
  | Some s =>
    match schema_fields s with
    | [] => Fault OutOfBounds
    | f0 :: _ =>
      match wa_comparator arr f0 with
      | None => Ret arr                         (* default: assert(1); *)
      | Some cmp =>
        let n := Z.to_nat (adb_ra_num arr) in
        match o_obj arr with
        | None => if (2 <=? n)%nat then Fault NullDeref else Ret arr
        | Some vec =>
          if (length vec <? 1 + n)%nat then Fault OutOfBounds
          else
            sorted ← qsort_trap cmp (take n (drop 1 vec));
            Ret (set_o_obj arr (take 1 vec ++ sorted ++ drop (1 + n) vec))
        end
      end
    end
  end.

(** for (i = 2, j = 2; i <= num; i++) {
      if (arr->obj[i] == arr->obj[i-1]) continue;
      arr->obj[j++] = arr->obj[i];
    }
    with [n] iterations to go. *)
Fixpoint unique_loop (n : nat) (i j : nat) (obj : list adb_val_t)
  : nat * list adb_val_t :=
  match n with
  | O => (j, obj)
  | S n' =>
    if obj !!! i =? obj !!! (i - 1)%nat then unique_loop n' (S i) j obj
    else unique_loop n' (S i) (S j) (<[j := obj !!! i]> obj)
  end.

Definition adb_wa_sort_unique (arr : adb_obj) : outcome adb_obj :=
  arr1 ← adb_wa_sort arr;
  let num := adb_ra_num arr1 in
  if num >=? 2 then
    match o_obj arr1 with
    | None => Fault NullDeref
    | Some vec =>
      if (length vec <? 1 + Z.to_nat num)%nat then Fault OutOfBounds
      else
        let '(j, vec') := unique_loop (Z.to_nat num - 1) 2 2 vec in
        Ret (set_o_num (set_o_obj arr1 vec') (Z.of_nat j))
    end
  else Ret arr1.

(** Reading an array back: its elements 1 .. adb_ra_num as integers. *)
Definition read_ints (arr : adb_obj) : outcome (list Z) :=
  mapM (fun i => adb_ro_int arr (Z.of_nat i))
       (seq 1 (Z.to_nat (adb_ra_num arr))).

End Sort.

(* ------------------------------------------------------------------ *)
(** ** Runs of the stream loop *)

Section StreamRuns.
Variable apk_trust : Type.
Variable adb_trust_verify_signature : apk_trust -> adb -> apk_blob_t -> Z.
Variable seg_taken : adb -> apk_istream -> Z -> Z.
Variable t : option apk_trust.
Variable datacb : adb -> Z -> list byte -> Z.

(** [stream_steps st st']: the do-loop of adb_m_stream, entered in state
    [st], comes to the head of the loop in state [st']. *)
Inductive stream_steps : stream_state -> stream_state -> Prop :=
| stream_steps_refl st : stream_steps st st
| stream_steps_next st st1 st2 :
    adb_m_stream_block apk_trust adb_trust_verify_signature seg_taken t
      datacb st = Continue st1 ->
    stream_steps st1 st2 ->
    stream_steps st st2.

(** The state in which adb_m_stream enters its loop, once the header is
    read. *)
Definition stream_init (db : adb) (ist : apk_istream) : stream_state :=
  mk_stream_state
    (set_hdr db (hdr_store (hdr db) (take 8 (is_bytes ist))))
    (mk_istream (drop 8 (is_bytes ist)) (is_buf_size ist))
    0
    (match t with Some _ => false | None => true end).

End StreamRuns.

(** The signature blob the loop hands to adb_trust_verify_signature when
    the block at the head of the stream is a SIG block it can read. *)
Definition stream_sig (st : stream_state) : option apk_blob_t :=
  let '(r, got, is1) := apk_istream_read (s_is st) sizeof_adb_block in
  let blk := mk_adb_block (le_decode got) in
  if (r =? sizeof_adb_block) && (adb_block_type blk =? ADB_BLOCK_SIG) then
    match apk_istream_get is1
            ((adb_block_size blk - sizeof_adb_block) mod 2^64) with
    | (inr sig, _) =>
      Some (APK_BLOB_PTR_LEN (Some sig) (adb_block_length blk))
    | (inl _, _) => None
    end
  else None.

(* ------------------------------------------------------------------ *)
(** ** Comparators and a reference sort *)

(** The comparator qsort is given, with traps read as 0 (qsort_trap rules
    them out before sorting). *)
Definition cmp_value (cmp : adb_val_t -> adb_val_t -> outcome Z)
    (a b : adb_val_t) : Z :=
  match cmp a b with Ret z => z | Fault _ => 0 end.

(** What qsort(3) asks of its comparator, on the elements sorted: the
    signs of [c a b] and [c b a] are opposite, and [<= 0] is transitive. *)
Definition cmp_consistentb (c : adb_val_t -> adb_val_t -> Z)
    (l : list adb_val_t) : bool :=
  forallb (fun a => forallb (fun b =>
    Bool.eqb (c a b <? 0) (0 <? c b a)
    && forallb (fun d =>
         implb ((c a b <=? 0) && (c b d <=? 0)) (c a d <=? 0)) l) l) l.

(** Insertion sort, standing in for qsort where a run is evaluated. *)
Fixpoint isort_insert (c : adb_val_t -> adb_val_t -> Z) (x : adb_val_t)
    (l : list adb_val_t) : list adb_val_t :=
  match l with
  | [] => [x]
  | y :: l' => if c x y <=? 0 then x :: y :: l' else y :: isort_insert c x l'
  end.

Definition isort (c : adb_val_t -> adb_val_t -> Z) (l : list adb_val_t)
  : list adb_val_t :=
  foldr (isort_insert c) [] l.

(** The specification of qsort the sort functions rely on. *)
Definition qsort_spec
    (qsort : (adb_val_t -> adb_val_t -> Z) -> list adb_val_t
             -> list adb_val_t) : Prop :=
  forall c l, cmp_consistentb c l = true ->
    Permutation (qsort c l) l /\ Sorted (fun a b => c a b <= 0) (qsort c l).

(** The elements of an array object: slots 1 .. adb_ra_num. *)
Definition elements (arr : adb_obj) : list adb_val_t :=
  match o_obj arr with
  | Some vec => take (Z.to_nat (adb_ra_num arr)) (drop 1 vec)
  | None => []
  end.

(** Adjacent duplicates removed, [prev] being the element before [l]. *)
Fixpoint uniq_adjacent (prev : adb_val_t) (l : list adb_val_t)
  : list adb_val_t :=
  match l with
  | [] => []
  | x :: l' =>
    if x =? prev then uniq_adjacent x l' else x :: uniq_adjacent x l'
  end.

Definition uniq (l : list adb_val_t) : list adb_val_t :=
  match l with
  | [] => []
  | x :: l' => x :: uniq_adjacent x l'
  end.

(* ------------------------------------------------------------------ *)
(** ** Concrete parameters for evaluated runs

    The tag numbering of the format (SPECIAL 0, INT 1, INT_32 2, INT_64 3,
    BLOB_8 8, BLOB_16 9, BLOB_32 a, ARRAY d, OBJECT e, ERROR f in the top
    nibble), 40 entries per bucket, asserts compiled in; data pointers of
    8 bytes (LP64) or of 4 bytes (ILP32). *)

Definition params_with (ptr_size : Z) : adb_params := {|
  ADB_TYPE_SPECIAL := 0x00000000;
  ADB_TYPE_INT := 0x10000000;
  ADB_TYPE_INT_32 := 0x20000000;
  ADB_TYPE_INT_64 := 0x30000000;
  ADB_TYPE_BLOB_8 := 0x80000000;
  ADB_TYPE_BLOB_16 := 0x90000000;
  ADB_TYPE_BLOB_32 := 0xa0000000;
  ADB_TYPE_ARRAY := 0xd0000000;
  ADB_TYPE_OBJECT := 0xe0000000;
  ADB_TYPE_ERROR := 0xf0000000;
  ADB_W_BUCKET_ENTRIES := 40;
  sizeof_ptr := ptr_size;
  assert_enabled := true
|}.

Definition lp64 : adb_params := params_with 8.
Definition ilp32 : adb_params := params_with 4.

(* ------------------------------------------------------------------ *)
(** ** Framed containers *)

(** A payload whose size fits the 30-bit size field of a block header. *)
Definition fits (p : list byte) : Prop :=
  sizeof_adb_block + Z.of_nat (length p) < 2 ^ 30.

(** The container adb_c_adb writes after the header: the ADB block, then
    one SIG block per signature. *)
Definition container_blocks (p : list byte) (sigs : list (list byte))
  : list byte :=
  adb_c_block ADB_BLOCK_ADB p ++ concat (map (adb_c_block ADB_BLOCK_SIG) sigs).

(** The bytes after the header word of an encoded block: payload, padding. *)
Definition block_body (type : Z) (p : list byte) : list byte :=
  p ++ zeroes (Z.to_nat (adb_block_padding
                           (adb_block_init type (Z.of_nat (length p))))).

Definition body_size (type : Z) (p : list byte) : Z :=
  adb_block_size (adb_block_init type (Z.of_nat (length p)))
  - sizeof_adb_block.

(** After the first block the arena is set. *)
Definition arena_set (st : stream_state) : Prop :=
  0 <= s_block_no st /\
  (s_block_no st <> 0 -> APK_BLOB_IS_NULL (adb_ (s_db st)) = false).

(** The bytes a stream state has still to read. *)
Definition stream_left (st : stream_state) : nat := length (is_bytes (s_is st)).

(* ------------------------------------------------------------------ *)
(** ** Runs evaluated below *)

(** "x" and the three bytes 00 00 10 written as blobs into a fresh
    database with one chain of buckets. *)
Definition two_blobs : outcome (adb * adb_val_t * adb_val_t) :=
  '(db1, v1) ← @adb_w_blob lp64 (adb_w_init_dynamic 0 1) (blob_of [x78]);
  '(db2, v2) ← @adb_w_blob lp64 db1 (blob_of [x00; x00; x10]);
  Ret (db2, v1, v2).

(** A database holding one blob of 256 bytes. *)
Definition blob_256 : outcome (adb * adb_val_t) :=
  @adb_w_blob lp64 (adb_w_init_dynamic 0 1) (blob_of (replicate 256 x61)).

(** An array of ints with the elements 5, 2, 2, 9 appended in that order. *)
Definition int_schema : adb_schema :=
  adb_scalar_schema ADB_KIND_INT
    (fun db1 v1 db2 v2 => @adb_r_int lp64 db1 v1 - @adb_r_int lp64 db2 v2).
Definition int_array_schema : adb_schema :=
  adb_object_schema ADB_KIND_ARRAY 8 (fun _ _ => 0) None [int_schema].

Definition append_int (o : adb_obj) (x : Z) : outcome adb_obj :=
  '(db, v) ← @adb_w_int lp64 (o_db o) x;
  '(o1, _) ← @adb_wa_append lp64 (set_o_db o db) v;
  Ret o1.

Definition ints_5_2_2_9 : outcome adb_obj :=
  o ← append_int (adb_wo_init int_array_schema (adb_w_init_dynamic 0 1)) 5;
  o ← append_int o 2;
  o ← append_int o 2;
  append_int o 9.

(** The 16-byte arena holding two objects of one int field each, 7 at
    offset 0 and 3 at offset 8, and an array referring to them as
    [3-object; 7-object; 7-object]. *)
Definition two_objects : adb :=
  set_adb adb_zero
    (blob_of (le_encode 4 2 ++ le_encode 4 0x10000007
              ++ le_encode 4 2 ++ le_encode 4 0x10000003)).

Definition first_field (o : adb_slots) : Z :=
  match s_vec o with
  | Some (_ :: x :: _) => @adb_r_int lp64 (s_adb o) x
  | _ => 0
  end.

Definition one_int_schema : adb_schema :=
  adb_object_schema ADB_KIND_OBJECT 2
    (fun o1 o2 => first_field o1 - first_field o2) None [int_schema].
Definition object_array_schema : adb_schema :=
  adb_object_schema ADB_KIND_ARRAY 8 (fun _ _ => 0) None [one_int_schema].

Definition object_array : adb_obj :=
  mk_adb_obj (Some object_array_schema) two_objects 4
    (Some [8; 0xe0000000; 0xe0000008; 0xe0000000; 0; 0; 0; 0]).

(** Two distinct objects with the same int field 7, at offsets 0 and 8
    (as in a database written without dedup buckets), and the array
    referring to both. *)
Definition two_equal_objects : adb :=
  set_adb adb_zero
    (blob_of (le_encode 4 2 ++ le_encode 4 0x10000007
              ++ le_encode 4 2 ++ le_encode 4 0x10000007)).

Definition equal_object_array : adb_obj :=
  mk_adb_obj (Some object_array_schema) two_equal_objects 3
    (Some [8; 0xe0000008; 0xe0000000; 0; 0; 0; 0; 0]).

(** A stream of a header, an ADB block, and a DATA block whose header
    word carries the size 0, followed by 200 bytes; its buffer holds 166
    bytes, so that 122 bytes are buffered once the header, the ADB block
    and the header word of the DATA block (44 bytes) are read. *)
Definition data_size_0_bytes : list byte :=
  adb_c_header (mk_adb_header ADB_FORMAT_MAGIC 0)
  ++ adb_c_block ADB_BLOCK_ADB [x01; x02; x03; x04]
  ++ le_encode 4 (Z.shiftl ADB_BLOCK_DATA 30)
  ++ replicate 200 x2a.
Definition data_size_0 : apk_istream := mk_istream data_size_0_bytes 166.

(** A stream holding a header, an ADB block and one DATA block. *)
Definition adb_then_data : apk_istream :=
  mk_istream
    (adb_c_header (mk_adb_header ADB_FORMAT_MAGIC 0)
     ++ adb_c_block ADB_BLOCK_ADB [x01; x02; x03; x04]
     ++ adb_c_block ADB_BLOCK_DATA [x2a])
    4096.

(* ------------------------------------------------------------------ *)
(** ** Value tags and the state of a writable database *)

Section WriterState.
Context `{P : adb_params}.

(** The tags adb.h defines, in the order of [adb_params]. *)
Definition all_tags : list Z :=
  [ADB_TYPE_SPECIAL; ADB_TYPE_INT; ADB_TYPE_INT_32; ADB_TYPE_INT_64;
   ADB_TYPE_BLOB_8; ADB_TYPE_BLOB_16; ADB_TYPE_BLOB_32;
   ADB_TYPE_ARRAY; ADB_TYPE_OBJECT; ADB_TYPE_ERROR].

(** A tag occupies the four top bits of a 32-bit value and nothing else. *)
Definition is_tag (t : Z) : Prop :=
  0 <= t < 2 ^ 32 /\ Z.land t ADB_VALUE_MASK = 0.

(** What the tag numbering has to satisfy for a value to be told apart by
    its tag: ten distinct tags, SPECIAL being 0 (so that ADB_VAL_NULL, the
    payload, and ADB_NULL, the value, are the same word). *)
Definition tags_ok : Prop :=
  Forall is_tag all_tags /\ NoDup all_tags /\ ADB_TYPE_SPECIAL = 0.

(** The arena length lies within the memory the arena pointer addresses. *)
Definition arena_ok (db : adb) : Prop :=
  0 <= blob_len (adb_ db) <= Z.of_nat (length (arena_mem db)).

(** A dedup entry in use describes bytes inside the first [limit] bytes
    of the arena. *)
Definition entry_ok (limit : Z) (e : adb_w_bucket_entry) : Prop :=
  e_len e <> 0 -> 0 <= e_offs e /\ e_offs e + e_len e <= limit.

(** The dedup table: [num_buckets] chains of buckets with
    ARRAY_SIZE(entries) entries each, every entry in use inside the
    arena. *)
Definition buckets_ok (db : adb) : Prop :=
  0 <= num_buckets db /\
  length (bucket db) = Z.to_nat (num_buckets db) /\
  Forall (Forall (fun b => length b = ADB_W_BUCKET_ENTRIES
                           /\ Forall (entry_ok (blob_len (adb_ db))) b))
         (bucket db).

(** The state adb_w_init_dynamic sets up and the write interface keeps. *)
Definition writer_ok (db : adb) : Prop :=
  arena_ok db /\ buckets_ok db /\ 0 <= blob_len (mmap db).

(** There is room for [n] more bytes: in the buffer as it is, or because
    the database is dynamic and may grow (to a size far below what
    [size_t] holds). *)
Definition has_room (db : adb) (n : Z) : Prop :=
  blob_len (adb_ db) + n <= blob_len (mmap db)
  \/ (num_buckets db <> 0 /\ blob_len (adb_ db) + n <= 2 ^ 62).

(** adb_reset: every chain is emptied and the arena length set to 0; the
    arena memory and its capacity stay. *)
Definition adb_reset (db : adb) : outcome adb :=
  let n := Z.to_nat (num_buckets db) in
  if (length (bucket db) <? n)%nat then Fault OutOfBounds
  else
    Ret (mk_adb (mmap db) (data db)
           (APK_BLOB_PTR_LEN (blob_ptr (adb_ db)) 0) (hdr db)
           (num_buckets db) (replicate n [] ++ drop n (bucket db))).

(** adb_w_adb(db, valdb): the arena of [valdb], framed as an ADB block
    and prefixed with the size of the frame, written as a BLOB_32. *)
Definition adb_w_adb (db valdb : adb) : outcome (adb * adb_val_t) :=
  let len := blob_len (adb_ valdb) in
  let blk := adb_block_init ADB_BLOCK_ADB len in
  if len <=? 4 then Ret (db, ADB_NULL)
  else
    match blob_ptr (adb_ valdb) with
    | None => Fault NullDeref
    | Some mem =>
      if (length mem <? Z.to_nat len)%nat then Fault OutOfBounds
      else
        let vec (bsz : Z) : iovec :=
          [le_encode 4 bsz; le_encode 4 (type_size blk);
           take (Z.to_nat len) mem;
           zeroes (Z.to_nat (adb_block_padding blk))] in
        (* the length of [vec] does not depend on the value of [bsz] *)
        let bsz := (iovec_len (vec 0) - 4) mod 2 ^ 32 in
        '(db1, offs) ← adb_w_raw db (vec bsz) (iovec_len (vec bsz)) 4;
        Ret (db1, ADB_VAL ADB_TYPE_BLOB_32 offs)
    end.

End WriterState.

(* ------------------------------------------------------------------ *)
(** ** Object builders *)

Section Builder.
Context `{P : adb_params}.

(** The [pre_commit] member of an object schema: the hook __adb_w_obj
    calls on the object before it is written, if the schema has one. *)
Variable schema_pre_commit : adb_schema -> option (adb_obj -> outcome adb_obj).

(** adb_wo_reset: the slots in use are zeroed, the capacity in slot 0 is
    kept, the slot count goes back to 1. *)
Definition adb_wo_reset (o : adb_obj) : outcome adb_obj :=
  max ← obj_slot o ADBI_NUM_ENTRIES;
  match o_obj o with
  | None => Fault NullDeref
  | Some vec =>
    let num := Z.to_nat (o_num o) in
    if (length vec <? num)%nat then Fault OutOfBounds
    else
      Ret (set_o_num
             (set_o_obj o (<[0%nat := max]> (replicate num 0 ++ drop num vec)))
             1)
  end.

(** adb_wo_val(o, i, v) *)
Definition adb_wo_val (o : adb_obj) (i : Z) (v : adb_val_t)
  : outcome (adb_obj * adb_val_t) :=
  max ← obj_slot o ADBI_NUM_ENTRIES;
  if i >=? max then wo_error o E2BIG
  else if ADB_IS_ERROR v then wo_error o (ADB_VAL_VALUE v)
  else
    let o1 :=
      if negb (v =? ADB_NULL) && (i >=? o_num o) then set_o_num o (i + 1)
      else o in
    match o_obj o1 with
    | None => Fault NullDeref
    | Some vec =>
      if (length vec <=? Z.to_nat i)%nat then Fault OutOfBounds
      else Ret (set_o_obj o1 (<[Z.to_nat i := v]> vec), v)
    end.

(** adb_wo_int(o, i, v): the default of the field is not stored. *)
Definition adb_wo_int (o : adb_obj) (i : Z) (v : Z)
  : outcome (adb_obj * adb_val_t) :=
  let is_default :=
    match o_schema o with
    | Some s =>
      match schema_get_default_int s with
      | Some d => v =? d i
      | None => false
      end
    | None => false
    end in
  if is_default then Ret (o, ADB_NULL)
  else
    '(db1, val) ← adb_w_int (o_db o) v;
    adb_wo_val (set_o_db o db1) i val.

(** adb_wo_blob(o, i, b) *)
Definition adb_wo_blob (o : adb_obj) (i : Z) (b : apk_blob_t)
  : outcome (adb_obj * adb_val_t) :=
  _ ← assert_kind o (adb_kind_eqb ADB_KIND_OBJECT);
  '(db1, val) ← adb_w_blob (o_db o) b;
  adb_wo_val (set_o_db o db1) i val.

(** for (n = o->num; n > 1 && obj[n-1] == ADB_NULL; n--) ; *)
Fixpoint trim (n : nat) (obj : list adb_val_t) : outcome nat :=
  match n with
  | O => Ret O
  | S n' =>
    if (n' =? 0)%nat then Ret n
    else
      match obj !! n' with
      | None => Fault OutOfBounds
      | Some x => if x =? ADB_NULL then trim n' obj else Ret n
      end
  end.

(** if (o->schema && o->schema->pre_commit) o->schema->pre_commit(o); *)
Definition pre_commit (o : adb_obj) : outcome adb_obj :=
  match o_schema o with
  | Some s =>
    match schema_pre_commit s with
    | Some hook => hook o
    | None => Ret o
    end
  | None => Ret o
  end.

(** __adb_w_obj(o, type): the slots up to the last one that is not
    ADB_NULL are written as one vector, count first; then the builder is
    reset, its capacity restored. *)
Definition __adb_w_obj (o : adb_obj) (type : Z)
  : outcome (adb_obj * adb_val_t) :=
  max ← obj_slot o ADBI_NUM_ENTRIES;
  o ← pre_commit o;
  match o_obj o with
  | None => Fault NullDeref
  | Some obj =>
    n ← trim (Z.to_nat (o_num o)) obj;
    '(o, val) ←
      (if (1 <? n)%nat then
         let obj' := <[0%nat := Z.of_nat n]> obj in
         '(db1, offs) ←
           adb_w_data1 (o_db o) (Some (concat (map (le_encode 4) obj')))
             (4 * Z.of_nat n) 4;
         Ret (set_o_db (set_o_obj o obj') db1, ADB_VAL type offs)
       else Ret (o, ADB_NULL));
    o ← adb_wo_reset o;
    match o_obj o with
    | None => Fault NullDeref
    | Some obj => Ret (set_o_obj o (<[0%nat := max]> obj), val)
    end
  end.

Definition adb_w_obj (o : adb_obj) : outcome (adb_obj * adb_val_t) :=
  __adb_w_obj o ADB_TYPE_OBJECT.

Definition adb_w_arr (o : adb_obj) : outcome (adb_obj * adb_val_t) :=
  __adb_w_obj o ADB_TYPE_ARRAY.

(** adb_w_rootobj(obj): adb_w_root(obj->db, adb_w_obj(obj)) *)
Definition adb_w_rootobj (obj : adb_obj) : outcome adb_obj :=
  '(o1, v) ← adb_w_obj obj;
  db1 ← adb_w_root (o_db o1) v;
  Ret (set_o_db o1 db1).

End Builder.

(** A builder as adb_wo_init sets it up and the builders keep it: the
    backing array has as many slots as slot 0 says, the slots from the
    slot count on are zero, and every slot holds a 32-bit word. *)
Definition builder_ok (o : adb_obj) : Prop :=
  exists vec max,
    o_obj o = Some vec /\ vec !! 0%nat = Some max /\
    Z.of_nat (length vec) = max /\ 1 <= o_num o <= max /\
    (forall j, (Z.to_nat (o_num o) <= j < length vec)%nat ->
               vec !! j = Some 0) /\
    Forall (fun x => 0 <= x < 2 ^ 32) vec.

(** The backing array of a builder after adb_wo_reset: the [num] slots
    in use zeroed, slot 0 holding [max] again. *)
Definition cleared (max : Z) (num : nat) (vec : list Z) : list Z :=
  <[0%nat := max]> (replicate num 0 ++ drop num vec).

(** A builder of capacity 3 over a fresh database, holding the int 7 in
    field 1; field 2 is unset. *)
Definition builder_7 : adb_obj :=
  mk_adb_obj (Some one_int_schema) (adb_w_init_dynamic 0 1) 2
    (Some [3; 0x10000007; 0]).

(** An object schema of two int fields whose default is 42, and an empty
    builder for it. *)
Definition default_42_schema : adb_schema :=
  adb_object_schema ADB_KIND_OBJECT 3 (fun _ _ => 0) (Some (fun _ => 42))
    [int_schema; int_schema].

Definition builder_42 : adb_obj :=
  adb_wo_init default_42_schema (adb_w_init_dynamic 0 1).

(* ------------------------------------------------------------------ *)
(** ** Output streams: the descriptor stream of io.c *)

Definition STDERR_FILENO : Z := 2.

(** sizeof(fos->buffer) *)
Definition sizeof_fos_buffer : Z := 1024.

(** [struct apk_fd_ostream]: the status [os.rc], the descriptor, whether a
    file name is attached, and the buffer in use, [buffer[0 .. bytes)].
    The descriptor itself is the sequence of bytes write(2) has accepted
    on it so far. *)
Record apk_fd_ostream : Type := mk_fd_ostream {
  os_rc : Z;
  fos_fd : Z;
  fos_file : bool;
  fos_buffer : list byte;
  fd_taken : list byte
}.

Definition set_os_rc (fos : apk_fd_ostream) (rc : Z) : apk_fd_ostream :=
  mk_fd_ostream rc (fos_fd fos) (fos_file fos) (fos_buffer fos) (fd_taken fos).
Definition set_fos_buffer (fos : apk_fd_ostream) (buf : list byte)
  : apk_fd_ostream :=
  mk_fd_ostream (os_rc fos) (fos_fd fos) (fos_file fos) buf (fd_taken fos).
Definition set_fd_taken (fos : apk_fd_ostream) (taken : list byte)
  : apk_fd_ostream :=
  mk_fd_ostream (os_rc fos) (fos_fd fos) (fos_file fos) (fos_buffer fos) taken.

Section FdOstream.

(** The system calls.  [sys_write taken req] is write(fd, ptr, size) for
    the request [req] on a descriptor that has taken [taken]: the count of
    bytes it accepts, or -errno.  [sys_close] and [sys_renameat] are the
    results of close(fd) and renameat(): 0 or -errno. *)
Variable sys_write : list byte -> list byte -> Z.
Variable sys_close : Z -> Z.
Variable sys_renameat : Z.

(** apk_ostream_cancel(&fos->os, rc) of apk_io.h, by its interface: the
    status field after the call, from the field before it and [rc]. *)
Variable ostream_cancel_rc : Z -> Z -> Z.

(** The loop of safe_write, [i] bytes of [ptr] written. *)
Fixpoint safe_write_loop (fuel : nat) (taken ptr : list byte) (i : Z)
  : outcome (Z * list byte) :=
  if i <? Z.of_nat (length ptr) then
    match fuel with
    | O => Fault OutOfFuel
    | S fuel' =>
      let req := drop (Z.to_nat i) ptr in
      let r := sys_write taken req in
      if r <? 0 then Ret (r, taken)
      else if r =? 0 then Ret (i, taken)
      else safe_write_loop fuel' (taken ++ take (Z.to_nat r) req) ptr (i + r)
    end
  else Ret (i, taken).

(** safe_write(fd, ptr, size): the result and the descriptor afterwards. *)
Definition safe_write (taken ptr : list byte) : outcome (Z * list byte) :=
  safe_write_loop (S (length ptr)) taken ptr 0.

Definition fdo_flush (fos : apk_fd_ostream) : outcome (Z * apk_fd_ostream) :=
  let bytes := Z.of_nat (length (fos_buffer fos)) in
  if bytes =? 0 then Ret (0, fos)
  else
    '(r, taken) ← safe_write (fd_taken fos) (fos_buffer fos);
    if negb (r =? bytes) then
      Ret (r, set_os_rc (set_fd_taken fos taken)
                (ostream_cancel_rc (os_rc fos) (if r <? 0 then r else - EIO)))
    else Ret (0, set_fos_buffer (set_fd_taken fos taken) []).

(** memcpy(&fos->buffer[fos->bytes], ptr, size); fos->bytes += size; *)
Definition fdo_buffer (fos : apk_fd_ostream) (ptr : list byte)
  : outcome (Z * apk_fd_ostream) :=
  let size := Z.of_nat (length ptr) in
  if Z.of_nat (length (fos_buffer fos)) + size >? sizeof_fos_buffer
  then Fault OutOfBounds
  else Ret (size, set_fos_buffer fos (fos_buffer fos ++ ptr)).

Definition fdo_write (fos : apk_fd_ostream) (ptr : list byte)
  : outcome (Z * apk_fd_ostream) :=
  let size := Z.of_nat (length ptr) in
  if size + Z.of_nat (length (fos_buffer fos)) >=? sizeof_fos_buffer then
    '(r, fos1) ← fdo_flush fos;
    if negb (r =? 0) then Ret (r, fos1)
    else if size >=? sizeof_fos_buffer / 2 then
      '(r, taken) ← safe_write (fd_taken fos1) ptr;
      let fos2 := set_fd_taken fos1 taken in
      if negb (r =? size) then
        Ret (r, set_os_rc fos2
                  (ostream_cancel_rc (os_rc fos2) (if r <? 0 then r else - EIO)))
      else Ret (r, fos2)
    else fdo_buffer fos1 ptr
  else fdo_buffer fos ptr.

(** fdo_close: the result, and what the descriptor has taken in all. *)
Definition fdo_close (fos : apk_fd_ostream) : outcome (Z * list byte) :=
  '(_, fos1) ← fdo_flush fos;
  let rc := os_rc fos1 in
  let rc :=
    if (fos_fd fos1 >? STDERR_FILENO) && (sys_close (fos_fd fos1) <? 0)
    then sys_close (fos_fd fos1) else rc in
  let rc :=
    if fos_file fos1 then
      if rc =? 0 then (if sys_renameat <? 0 then sys_renameat else rc)
      else rc   (* unlinkat(tmpname) *)
    else rc in
  Ret (rc, fd_taken fos1).

End FdOstream.

(** apk_ostream_to_fd(fd) on a descriptor that has taken nothing yet. *)
Definition apk_ostream_to_fd (fd : Z) : apk_fd_ostream :=
  mk_fd_ostream 0 fd false [] [].

(* ------------------------------------------------------------------ *)
(** ** Container creation on an output stream *)

Section Create.

(** [struct apk_ostream] by its interface: the write and close operations
    of the stream's [ops], and the status wrappers of apk_io.h.  [file] is
    what a closed stream leaves behind. *)
Variables ostream file : Type.
Variable apk_ostream_write : ostream -> list byte -> outcome (Z * ostream).
Variable apk_ostream_close : ostream -> outcome (Z * file).
Variable apk_ostream_cancel : ostream -> Z -> Z * ostream.
Variable apk_ostream_error : ostream -> Z.

(** The signing collaborator of adb_c_adb. *)
Variable apk_trust : Type.
Variable adb_trust_write_signatures :
  apk_trust -> adb -> ostream -> outcome (Z * ostream).

(** apk_defines.h *)
Variable EAPKFORMAT : Z.

(** The [len] bytes a write reads through [ptr]. *)
Definition blob_read (b : apk_blob_t) : outcome (list byte) :=
  match blob_ptr b with
  | None => if blob_len b =? 0 then Ret [] else Fault NullDeref
  | Some mem =>
    if (length mem <? Z.to_nat (blob_len b))%nat then Fault OutOfBounds
    else Ret (take (Z.to_nat (blob_len b)) mem)
  end.

(** adb_c_header(os, db), on the stream. *)
Definition adb_c_header_os (os : ostream) (db : adb) : outcome (Z * ostream) :=
  apk_ostream_write os (adb_c_header (hdr db)).

(** adb_c_block(os, type, val), on the stream. *)
Definition adb_c_block_os (os : ostream) (type : Z) (val : apk_blob_t)
  : outcome (Z * ostream) :=
  let blk := adb_block_init type (blob_len val) in
  let padding := adb_block_padding blk in
  '(r, os1) ← apk_ostream_write os (le_encode 4 (type_size blk));
  if r <? 0 then Ret (r, os1) else
  bytes ← blob_read val;
  '(r, os2) ← apk_ostream_write os1 bytes;
  if r <? 0 then Ret (r, os2) else
  if negb (padding =? 0) then
    '(r, os3) ← apk_ostream_write os2 (zeroes (Z.to_nat padding));
    if r <? 0 then Ret (r, os3) else Ret (0, os3)
  else Ret (0, os2).

(** adb_c_adb(os, db, t), [os] a stream. *)
Definition adb_c_adb (os : ostream) (db : adb) (t : option apk_trust)
  : outcome (Z * ostream) :=
  if negb (magic (hdr db) =? ADB_FORMAT_MAGIC)
  then Ret (apk_ostream_cancel os (- EAPKFORMAT))
  else
    '(_, os1) ← adb_c_header_os os db;
    '(_, os2) ← adb_c_block_os os1 ADB_BLOCK_ADB (adb_ db);
    os3 ← match t with
          | Some tr =>
            '(_, os3) ← adb_trust_write_signatures tr db os2; Ret os3
          | None => Ret os2
          end;
    Ret (apk_ostream_error os3, os3).

(** adb_c_create(os, db, t) *)
Definition adb_c_create (os : ostream) (db : adb) (t : option apk_trust)
  : outcome (Z * file) :=
  '(_, os1) ← adb_c_adb os db t;
  apk_ostream_close os1.

End Create.

(** A run of writes on the descriptor stream: fdo_write for each chunk in
    turn, as long as each is taken whole. *)
Fixpoint fdo_write_all (sys_write : list byte -> list byte -> Z)
    (ostream_cancel_rc : Z -> Z -> Z)
    (fos : apk_fd_ostream) (chunks : list (list byte))
  : outcome (Z * apk_fd_ostream) :=
  match chunks with
  | [] => Ret (0, fos)
  | c :: rest =>
    '(r, fos1) ← fdo_write sys_write ostream_cancel_rc fos c;
    if negb (r =? Z.of_nat (length c)) then Ret (r, fos1)
    else fdo_write_all sys_write ostream_cancel_rc fos1 rest
  end.

(** The LP64 build with NDEBUG: assert() compiled out. *)
Definition lp64_ndebug : adb_params := {|
  ADB_TYPE_SPECIAL := 0x00000000;
  ADB_TYPE_INT := 0x10000000;
  ADB_TYPE_INT_32 := 0x20000000;
  ADB_TYPE_INT_64 := 0x30000000;
  ADB_TYPE_BLOB_8 := 0x80000000;
  ADB_TYPE_BLOB_16 := 0x90000000;
  ADB_TYPE_BLOB_32 := 0xa0000000;
  ADB_TYPE_ARRAY := 0xd0000000;
  ADB_TYPE_OBJECT := 0xe0000000;
  ADB_TYPE_ERROR := 0xf0000000;
  ADB_W_BUCKET_ENTRIES := 40;
  sizeof_ptr := 8;
  assert_enabled := false
|}.

(* ------------------------------------------------------------------ *)
(** ** Schema helpers *)

(** The loop of adb_s_field_by_name from index [i].  [fields] holds the
    [name] members of [schema->fields[i ..]]: NULL or the characters
    before the terminating NUL, which is what strcmp compares. *)
Fixpoint adb_s_field_by_name_from (i num_fields : Z)
    (fields : list (option (list byte))) (name : list byte) : outcome Z :=
  if i <? num_fields - 1 then
    match fields with
    | [] => Fault OutOfBounds
    | None :: _ => Ret 0
    | Some f :: rest =>
      if bytes_eqb f name then Ret (i + 1)
      else adb_s_field_by_name_from (i + 1) num_fields rest name
    end
  else Ret 0.

(** adb_s_field_by_name(schema, name), on the field count and the field
    names of the schema. *)
Definition adb_s_field_by_name (num_fields : Z)
    (fields : list (option (list byte))) (name : list byte) : outcome Z :=
  adb_s_field_by_name_from 0 num_fields fields name.

(* ------------------------------------------------------------------ *)
(** ** Input streams: the buffered stream of io.c *)

Module Io.

(** [struct apk_istream] over a source of type [S]: [ptr] as its offset
    from [buf] ([None] for the NULL pointers of a stream that has not
    been filled yet, or that apk_istream_get_max has emptied), the bytes
    between [ptr] and [end], the size of the buffer, the status [err], and
    the source the [read] operation of [ops] draws from. *)
Record apk_istream (S : Type) : Type := mk_apk_istream {
  i_ptr : option Z;
  i_data : list byte;
  i_buf_size : Z;
  i_err : Z;
  i_src : S
}.
Arguments mk_apk_istream {S}.
Arguments i_ptr {S}.
Arguments i_data {S}.
Arguments i_buf_size {S}.
Arguments i_err {S}.
Arguments i_src {S}.

Section Stream.
Variable S : Type.

(** is->ops->read(is, ptr, size): the result, the bytes stored through
    [ptr] and the source afterwards. *)
Variable read : S -> Z -> Z * list byte * S.

Definition set_src (st : apk_istream S) (s : S) : apk_istream S :=
  mk_apk_istream (i_ptr st) (i_data st) (i_buf_size st) (i_err st) s.
Definition set_err (st : apk_istream S) (e : Z) : apk_istream S :=
  mk_apk_istream (i_ptr st) (i_data st) (i_buf_size st) e (i_src st).

(** is->ptr += n *)
Definition advance (st : apk_istream S) (n : Z) : apk_istream S :=
  mk_apk_istream
    (match i_ptr st with Some o => Some (o + n) | None => None end)
    (drop (Z.to_nat n) (i_data st)) (i_buf_size st) (i_err st) (i_src st).

(** is->ptr = is->buf; is->end = is->buf + length of [bs] *)
Definition refill (st : apk_istream S) (bs : list byte) : apk_istream S :=
  mk_apk_istream (Some 0) bs (i_buf_size st) (i_err st) (i_src st).

(** A value as a ssize_t and as a size_t. *)
Definition to_ssize (z : Z) : Z := (z + 2 ^ 63) mod 2 ^ 64 - 2 ^ 63.
Definition to_size (z : Z) : Z := z mod 2 ^ 64.

(** The while-loop of apk_istream_read; [dst] tells whether a destination
    is given ([ptr] not NULL), [remain] is the variable [left], a ssize_t,
    [out] is what has been stored at the destination.  [left] is negative
    when [size] is 2^63 or more: the count [r] taken from a buffer that
    holds bytes is then [left] itself; with a destination memcpy is asked
    for (size_t) r bytes, without one is->ptr += r moves the pointer back
    and left -= r ends the loop.  The last component of the result is the
    number of bytes is->ptr has been moved back from its place in the
    stream returned, 0 when it has not been.  The comparison with
    is->buf_size/4 and the size handed to the read operation are taken as
    a size_t. *)
Fixpoint read_loop (fuel : nat) (st : apk_istream S) (dst : bool)
    (remain r : Z) (out : list byte)
  : outcome (Z * Z * list byte * apk_istream S * Z) :=
  if remain =? 0 then Ret (remain, r, out, st, 0) else
  match fuel with
  | O => Fault OutOfFuel
  | Datatypes.S fuel' =>
    if negb (Z.of_nat (length (i_data st)) =? 0) then
      let r := Z.min remain (Z.of_nat (length (i_data st))) in
      if r <? 0 then
        if dst then Fault OutOfBounds
        else Ret (remain - r, r, out, st, - r)
      else
        read_loop fuel' (advance st r) dst (remain - r) r
          (if dst then out ++ take (Z.to_nat r) (i_data st) else out)
    else if negb (i_err st =? 0) then Ret (remain, r, out, st, 0)
    else if dst && (to_size remain >? i_buf_size st / 4) then
      let '(r, bs, s) := read (i_src st) (to_size remain) in
      if r <=? 0 then Ret (remain, r, out, set_src st s, 0)
      else
        read_loop fuel' (set_src st s) dst (to_ssize (remain - r)) r
          (out ++ bs)
    else
      let '(r, bs, s) := read (i_src st) (i_buf_size st) in
      if r <=? 0 then Ret (remain, r, out, set_src st s, 0)
      else read_loop fuel' (refill (set_src st s) bs) dst remain r out
  end.

(** apk_istream_read(is, ptr, size), [size] a size_t: the result, the
    bytes stored, the stream afterwards and the number of bytes is->ptr
    has been moved back from its place in that stream.  [left == size] and
    [size - left] are computed on size_t, the result is a ssize_t. *)
Definition apk_istream_read (st : apk_istream S) (dst : bool) (size : Z)
  : outcome (Z * list byte * apk_istream S * Z) :=
  '(remain, r, out, st1, back) ←
    read_loop (Datatypes.S (2 * Z.to_nat size)) st dst (to_ssize size) 0 [];
  if r <? 0 then Ret (r, out, st1, back)
  else
    let st2 :=
      if negb (size =? 0) && (to_size remain =? size) && (i_err st1 =? 0)
      then set_err st1 1 else st1 in
    if size =? to_size remain
    then Ret (if i_err st2 <? 0 then i_err st2 else 0, out, st2, back)
    else Ret (to_ssize (size - to_size remain), out, st2, back).

Definition __apk_istream_fill (st : apk_istream S) : Z * apk_istream S :=
  if negb (i_err st =? 0) then (i_err st, st)
  else
    (* memmove(is->buf, is->ptr, sz) *)
    let st1 :=
      match i_ptr st with
      | Some 0 => st
      | _ => refill st (i_data st)
      end in
    let '(sz, bs, s) :=
      read (i_src st1) (i_buf_size st1 - Z.of_nat (length (i_data st1))) in
    if sz <=? 0 then
      let e := if sz =? 0 then 1 else sz in
      (e, set_err (set_src st1 s) e)
    else (0, refill (set_src st1 s) (i_data st1 ++ bs)).

(** The do-while loop of apk_istream_get and what follows it. *)
Fixpoint get_loop (fuel : nat) (st : apk_istream S) (len : Z)
  : outcome ((Z + list byte) * apk_istream S) :=
  match fuel with
  | O => Fault OutOfFuel
  | Datatypes.S fuel' =>
    if Z.of_nat (length (i_data st)) >=? len then
      Ret (inr (take (Z.to_nat len) (i_data st)), advance st len)
    else
      let '(r, st1) := __apk_istream_fill st in
      if r =? 0 then get_loop fuel' st1 len
      else if Z.of_nat (length (i_data st1)) =? i_buf_size st1
      then Ret (inl (- ENOBUFS), st1)
      else if i_err st1 >? 0 then Ret (inl (- ENOMSG), st1)
      else Ret (inl (- EIO), st1)
  end.

(** apk_istream_get(is, len): an ERR_PTR ([inl]) or the [len] bytes at
    the pointer returned. *)
Definition apk_istream_get (st : apk_istream S) (len : Z)
  : outcome ((Z + list byte) * apk_istream S) :=
  get_loop (Datatypes.S (Z.to_nat len)) st len.

(** is->ptr = is->end = 0 *)
Definition empty (st : apk_istream S) : apk_istream S :=
  mk_apk_istream None [] (i_buf_size st) (i_err st) (i_src st).

(** apk_istream_get_max(is, max): the blob returned, pointing at the
    buffered bytes, and the stream afterwards. *)
Definition apk_istream_get_max (st : apk_istream S) (max : Z)
  : apk_blob_t * apk_istream S :=
  let st1 :=
    if Z.of_nat (length (i_data st)) =? 0 then (__apk_istream_fill st).2
    else st in
  if negb (Z.of_nat (length (i_data st1)) =? 0) then
    (APK_BLOB_PTR_LEN (Some (i_data st1))
       (Z.min (Z.of_nat (length (i_data st1))) max),
     empty st1)
  else
    (APK_BLOB_PTR_LEN None (if i_err st1 <? 0 then i_err st1 else 0), st1).

End Stream.

Section Copy.
Variable S : Type.
Variable read : S -> Z -> Z * list byte * S.

(** The output stream and the digest context, by their interfaces
    (apk_io.h, apk_crypto.h). *)
Variable ostream : Type.
Variable apk_ostream_write : ostream -> list byte -> outcome (Z * ostream).
Variable apk_digest_ctx : Type.
Variable apk_digest_ctx_update :
  apk_digest_ctx -> list byte -> Z * apk_digest_ctx.
Variable APK_IO_ALL : Z.

(** The while-loop of apk_stream_copy, called without a progress
    callback; [dctx] is NULL ([None]) or the digest context. *)
Fixpoint copy_loop (fuel : nat) (st : apk_istream S) (os : ostream)
    (dctx : option apk_digest_ctx) (size done : Z)
  : outcome (Z * apk_istream S * ostream * option apk_digest_ctx) :=
  if done <? size then
    match fuel with
    | O => Fault OutOfFuel
    | Datatypes.S fuel' =>
      let '(d, st1) := apk_istream_get_max S read st (size - done) in
      if APK_BLOB_IS_NULL d then
        if negb (blob_len d =? 0) then Ret (blob_len d, st1, os, dctx)
        else if negb (size =? APK_IO_ALL) then Ret (- EBADMSG, st1, os, dctx)
        else Ret (done, st1, os, dctx)
      else
        bytes ← blob_read d;
        let dctx1 :=
          match dctx with
          | Some c => Some (apk_digest_ctx_update c bytes).2
          | None => None
          end in
        '(r, os1) ← apk_ostream_write os bytes;
        if r <? 0 then Ret (r, st1, os1, dctx1)
        else copy_loop fuel' st1 os1 dctx1 size (done + blob_len d)
    end
  else Ret (done, st, os, dctx).

(** apk_stream_copy(is, os, size, NULL, NULL, dctx): the result, both
    streams and the digest context afterwards. *)
Definition apk_stream_copy (st : apk_istream S) (os : ostream)
    (dctx : option apk_digest_ctx) (size : Z)
  : outcome (Z * apk_istream S * ostream * option apk_digest_ctx) :=
  copy_loop (Datatypes.S (Z.to_nat size)) st os dctx size 0.

End Copy.

End Io.

(** The bytes a buffered stream has still to deliver: those in its buffer,
    then those its source holds, [rem] giving the latter. *)
Definition pending {S : Type} (rem : S -> list byte) (st : Io.apk_istream S)
  : list byte :=
  Io.i_data st ++ rem (Io.i_src st).

(** The buffer holds no more than its size, and the status is 0, or 1
    with the source at its end. *)
Definition istream_ok {S : Type} (rem : S -> list byte)
    (st : Io.apk_istream S) : Prop :=
  0 < Io.i_buf_size st /\
  Z.of_nat (length (Io.i_data st)) <= Io.i_buf_size st /\
  (Io.i_err st = 0 \/ (Io.i_err st = 1 /\ rem (Io.i_src st) = [])).

(** What a buffered stream delivers from now on: the bytes in its buffer
    and, unless its status marks it as ended, those its source holds. *)
Definition to_deliver {S : Type} (rem : S -> list byte)
    (st : Io.apk_istream S) : list byte :=
  Io.i_data st ++ (if Io.i_err st =? 0 then rem (Io.i_src st) else []).

(** The buffer holds no more than its size, and the status is 0 or 1. *)
Definition istream_wf {S : Type} (st : Io.apk_istream S) : Prop :=
  0 < Io.i_buf_size st /\
  Z.of_nat (length (Io.i_data st)) <= Io.i_buf_size st /\
  (Io.i_err st = 0 \/ Io.i_err st = 1).

(** A source that does not fail: a read takes some of the bytes that
    remain, no more than asked for, and none only at the end of the
    source or when none are asked for. *)
Definition source_ok {S : Type} (rem : S -> list byte)
    (read : S -> Z -> Z * list byte * S) : Prop :=
  forall s n r bs s',
    read s n = (r, bs, s') ->
    0 <= r <= Z.max 0 n /\ r <= Z.of_nat (length (rem s)) /\
    bs = take (Z.to_nat r) (rem s) /\
    rem s' = drop (Z.to_nat r) (rem s) /\
    (r = 0 -> n <= 0 \/ rem s = []).

(** A source that hands out at most three bytes at a time. *)
Definition read_3 (s : list byte) (n : Z) : Z * list byte * list byte :=
  let r := Z.max 0 (Z.min (Z.min 3 n) (Z.of_nat (length s))) in
  (r, take (Z.to_nat r) s, drop (Z.to_nat r) s).

(* ------------------------------------------------------------------ *)
(** ** Signatures *)

Definition ENOTSUP : Z := 95.
Definition EKEYREJECTED : Z := 129.

(** [struct adb_verify_ctx]: the digests computed so far, [calc] holding
    one bit per algorithm. *)
Record adb_verify_ctx : Type := mk_verify_ctx {
  calc : Z;
  sha512 : list byte
}.

(** struct adb_verify_ctx vfy = {}; *)
Definition verify_ctx_zero : adb_verify_ctx := mk_verify_ctx 0 [].

(** [n] bytes read at offset [off] of the memory [mem]. *)
Definition read_at (mem : list byte) (off n : nat) : outcome (list byte) :=
  let bs := take n (drop off mem) in
  if (length bs =? n)%nat then Ret bs else Fault OutOfBounds.

Section Trust.

(** The crypto layer (apk_crypto.h), by its interface: keys with their
    identifier [key.id], the one-shot digest, and a digest context that
    signing and verification are started on, fed, and finished with.
    Every call returns its status, 0 for success. *)
Variable apk_pkey : Type.
Variable pkey_id : apk_pkey -> list byte.
Variable apk_digest_ctx : Type.
Variable APK_DIGEST_SHA512 : Z.
Variable apk_digest_calc : Z -> list byte -> Z * list byte.
Variable apk_digest_ctx_update :
  apk_digest_ctx -> list byte -> Z * apk_digest_ctx.
Variable apk_sign_start : apk_digest_ctx -> apk_pkey -> Z * apk_digest_ctx.
Variable apk_sign : apk_digest_ctx -> Z -> Z * list byte * apk_digest_ctx.
Variable apk_verify_start : apk_digest_ctx -> apk_pkey -> Z * apk_digest_ctx.
Variable apk_verify : apk_digest_ctx -> list byte -> Z * apk_digest_ctx.

(** The signature record of adb.h.  Modelled from the spec: the version
    and the hash algorithm are the first two bytes of the header, the key
    identifier follows the header, the signature follows the identifier.
    The sizes are parameters. *)
Variable sizeof_adb_sign_hdr : nat.
Variable sizeof_key_id : nat.
Variable ADB_MAX_SIGNATURE_LEN : Z.

Definition sizeof_adb_sign_v0 : nat := (sizeof_adb_sign_hdr + sizeof_key_id)%nat.

(** The output stream the signatures are written to. *)
Variable ostream : Type.
Variable apk_ostream_write : ostream -> list byte -> outcome (Z * ostream).
Variable apk_ostream_cancel : ostream -> Z -> Z * ostream.

(** [struct apk_trust_key] and [struct apk_trust] of apk_trust.h, as
    trust.c uses them. *)
Record apk_trust_key : Type := mk_trust_key {
  tk_key : apk_pkey;
  tk_filename : option (list byte)
}.

Record apk_trust : Type := mk_trust {
  t_dctx : apk_digest_ctx;
  trusted_key_list : list apk_trust_key;
  private_key_list : list apk_trust_key;
  initialized : bool
}.

Definition set_t_dctx (t : apk_trust) (d : apk_digest_ctx) : apk_trust :=
  mk_trust d (trusted_key_list t) (private_key_list t) (initialized t).

(** adb_digest_adb(vfy, hash_alg, data, &md): the result, the digest blob
    [*pmd] and the context afterwards. *)
Definition adb_digest_adb (vfy : adb_verify_ctx) (hash_alg : Z)
    (data : apk_blob_t) : outcome (Z * list byte * adb_verify_ctx) :=
  if hash_alg =? APK_DIGEST_SHA512 then
    if Z.land (calc vfy) (Z.shiftl 1 hash_alg) =? 0 then
      if APK_BLOB_IS_NULL data then Ret (- ENOMSG, [], vfy)
      else
        bytes ← blob_read data;
        let '(r, d) := apk_digest_calc hash_alg bytes in
        if negb (r =? 0) then Ret (r, [], mk_verify_ctx (calc vfy) d)
        else
          Ret (0, d,
               mk_verify_ctx (Z.lor (calc vfy) (Z.shiftl 1 hash_alg)) d)
    else Ret (0, sha512 vfy, vfy)
  else Ret (- ENOTSUP, [], vfy).

(** adb_digest_v0_signature(dctx, hdr, sig0, md) *)
Definition adb_digest_v0_signature (dctx : apk_digest_ctx) (h : adb_header)
    (sig0 md : list byte) : Z * apk_digest_ctx :=
  let '(r, d1) := apk_digest_ctx_update dctx (adb_c_header h) in
  if negb (r =? 0) then (r, d1) else
  let '(r, d2) := apk_digest_ctx_update d1 sig0 in
  if negb (r =? 0) then (r, d2) else
  apk_digest_ctx_update d2 md.

(** The signature header and identifier adb_trust_write_signatures
    prepares for a key: version 0, the hash algorithm, the rest of the
    header zero, then sizeof(sig.v0.id) bytes of the key's identifier. *)
Definition sign_v0_of (key : apk_pkey) : outcome (list byte) :=
  id ← read_at (pkey_id key) 0 sizeof_key_id;
  Ret (take sizeof_adb_sign_hdr
         (x00 :: byte_of_Z APK_DIGEST_SHA512
          :: zeroes (sizeof_adb_sign_hdr - 2)) ++ id).

(** The loop of adb_trust_write_signatures over the private keys, with
    its error exit. *)
Fixpoint sign_keys (keys : list apk_trust_key) (dctx : apk_digest_ctx)
    (db : adb) (md : list byte) (os : ostream)
  : outcome (Z * apk_digest_ctx * ostream) :=
  match keys with
  | [] => Ret (0, dctx, os)
  | tkey :: rest =>
    let err r d os := Ret (r, d, (apk_ostream_cancel os r).2) in
    sig0 ← sign_v0_of (tk_key tkey);
    let siglen := ADB_MAX_SIGNATURE_LEN - Z.of_nat sizeof_adb_sign_v0 in
    let '(r, d1) := apk_sign_start dctx (tk_key tkey) in
    if negb (r =? 0) then err r d1 os else
    let '(r, d2) := adb_digest_v0_signature d1 (hdr db) sig0 md in
    if negb (r =? 0) then err r d2 os else
    let '(r, sig, d3) := apk_sign d2 siglen in
    if negb (r =? 0) then err r d3 os else
    '(r, os1) ←
      adb_c_block_os ostream apk_ostream_write os ADB_BLOCK_SIG
        (APK_BLOB_PTR_LEN (Some (sig0 ++ sig))
           (Z.of_nat sizeof_adb_sign_v0 + Z.of_nat (length sig)));
    if r <? 0 then err r d3 os1
    else sign_keys rest d3 db md os1
  end.

(** adb_trust_write_signatures(trust, db, vfy, os); [vfy] is NULL
    ([None]) or the caller's context. *)
Definition adb_trust_write_signatures (trust : apk_trust) (db : adb)
    (vfy : option adb_verify_ctx) (os : ostream)
  : outcome (Z * apk_trust * adb_verify_ctx * ostream) :=
  let vfy0 := match vfy with Some v => v | None => verify_ctx_zero end in
  '(r, md, vfy1) ← adb_digest_adb vfy0 APK_DIGEST_SHA512 (adb_ db);
  if negb (r =? 0) then Ret (r, trust, vfy1, os)
  else
    '(r, d, os1) ← sign_keys (private_key_list trust) (t_dctx trust) db md os;
    Ret (r, set_t_dctx trust d, vfy1, os1).

(** The loop of adb_trust_verify_signature over the trusted keys; [mem]
    is the memory at [sigb.ptr], [len] is [sigb.len]. *)
Fixpoint verify_keys (keys : list apk_trust_key) (dctx : apk_digest_ctx)
    (vfy : adb_verify_ctx) (db : adb) (mem : list byte) (len : Z)
  : outcome (Z * apk_digest_ctx * adb_verify_ctx) :=
  match keys with
  | [] => Ret (- EKEYREJECTED, dctx, vfy)
  | tkey :: rest =>
    id ← read_at mem sizeof_adb_sign_hdr sizeof_key_id;
    kid ← read_at (pkey_id (tk_key tkey)) 0 sizeof_key_id;
    if negb (bytes_eqb id kid) then verify_keys rest dctx vfy db mem len
    else
      hash_alg ← read_at mem 1 1;
      '(r, md, vfy1) ← adb_digest_adb vfy (le_decode hash_alg) (adb_ db);
      if negb (r =? 0) then verify_keys rest dctx vfy1 db mem len
      else
        let '(r, d1) := apk_verify_start dctx (tk_key tkey) in
        if negb (r =? 0) then verify_keys rest d1 vfy1 db mem len
        else
          sig0 ← read_at mem 0 sizeof_adb_sign_v0;
          let '(r, d2) := adb_digest_v0_signature d1 (hdr db) sig0 md in
          if negb (r =? 0) then verify_keys rest d2 vfy1 db mem len
          else
            sig ← read_at mem sizeof_adb_sign_v0
                    (Z.to_nat ((len - Z.of_nat sizeof_adb_sign_v0) mod 2^64));
            let '(r, d3) := apk_verify d2 sig in
            if negb (r =? 0) then verify_keys rest d3 vfy1 db mem len
            else Ret (0, d3, vfy1)
  end.

(** adb_trust_verify_signature(trust, db, vfy, sigb) *)
Definition adb_trust_verify_signature (trust : apk_trust) (db : adb)
    (vfy : adb_verify_ctx) (sigb : apk_blob_t)
  : outcome (Z * apk_trust * adb_verify_ctx) :=
  if APK_BLOB_IS_NULL (adb_ db) then Ret (- ENOMSG, trust, vfy)
  else if blob_len sigb <? Z.of_nat sizeof_adb_sign_hdr
  then Ret (- EBADMSG, trust, vfy)
  else
    match blob_ptr sigb with
    | None => Fault NullDeref
    | Some mem =>
      sign_ver ← read_at mem 0 1;
      if negb (le_decode sign_ver =? 0) then Ret (- ENOSYS, trust, vfy)
      else
        '(r, d, vfy1) ←
          verify_keys (trusted_key_list trust) (t_dctx trust) vfy db mem
            (blob_len sigb);
        Ret (r, set_t_dctx trust d, vfy1)
    end.

(** adb_trust_write_signatures(t, db, NULL, os), as adb_c_adb calls
    it. *)
Definition write_signatures (trust : apk_trust) (db : adb) (os : ostream)
  : outcome (Z * ostream) :=
  '(r, _, _, os1) ← adb_trust_write_signatures trust db None os;
  Ret (r, os1).

(** The result of a verification started on a fresh context, as the
    parsers compare it with 0; a run that faults returns nothing, for
    which 1 stands. *)
Definition verify_result (trust : apk_trust) (db : adb) (sigb : apk_blob_t)
  : Z :=
  match adb_trust_verify_signature trust db verify_ctx_zero sigb with
  | Ret (r, _, _) => r
  | Fault _ => 1
  end.

(** A verification context that holds the digest [md] of the arena, or
    none yet. *)
Definition vfy_ok (md : list byte) (vfy : adb_verify_ctx) : Prop :=
  Z.land (calc vfy) (Z.shiftl 1 APK_DIGEST_SHA512) = 0 \/ sha512 vfy = md.

(** What the signature code needs of the crypto layer to produce
    signatures that verify: signing with a signing key succeeds, the
    signature fits the room given, and a verification with a key paired
    with the signing key accepts the signature over the same header,
    record and digest, whatever the contexts were used for before. *)
Definition crypto_ok (signer : apk_pkey -> Prop)
    (key_pair : apk_pkey -> apk_pkey -> Prop) (room : Z) : Prop :=
  forall d k h sig0 md, signer k ->
  exists d1 d2 sig d3,
    apk_sign_start d k = (0, d1) /\
    adb_digest_v0_signature d1 h sig0 md = (0, d2) /\
    apk_sign d2 room = (0, sig, d3) /\
    Z.of_nat (length sig) <= room /\
    forall k' d', key_pair k k' ->
      exists e1 e2 e3,
        apk_verify_start d' k' = (0, e1) /\
        adb_digest_v0_signature e1 h sig0 md = (0, e2) /\
        apk_verify e2 sig = (0, e3).

(** The payload of a signature block for a key: the record prepared for
    the key, then a signature that every key paired with it verifies
    over the header [h] and the digest [md]. *)
Definition signed_by (key_pair : apk_pkey -> apk_pkey -> Prop)
    (h : adb_header) (md : list byte) (tk : apk_trust_key) (s : list byte)
  : Prop :=
  exists sig0 sig,
    s = sig0 ++ sig /\ sign_v0_of (tk_key tk) = Ret sig0 /\
    forall k' d', key_pair (tk_key tk) k' ->
      exists e1 e2 e3,
        apk_verify_start d' k' = (0, e1) /\
        adb_digest_v0_signature e1 h sig0 md = (0, e2) /\
        apk_verify e2 sig = (0, e3).

End Trust.

(** A crypto layer to run the signature code on: keys are their
    identifiers, the digest of data is the data, a context collects the
    key and the bytes it is fed, and the signature of a key over bytes is
    the first four bytes of the key followed by the sum of the bytes as a
    32-bit word. *)
Definition toy_sum (bs : list byte) : Z :=
  fold_right (fun b z => byte_val b + z) 0 bs.
Definition toy_signature (d : list byte * list byte) : list byte :=
  take 4 d.1 ++ le_encode 4 (toy_sum d.2).
Definition toy_digest_calc (alg : Z) (bs : list byte) : Z * list byte :=
  (0, bs).
Definition toy_update (d : list byte * list byte) (bs : list byte)
  : Z * (list byte * list byte) :=
  (0, (d.1, d.2 ++ bs)).
Definition toy_start (d : list byte * list byte) (k : list byte)
  : Z * (list byte * list byte) :=
  (0, (k, [])).
Definition toy_sign (d : list byte * list byte) (room : Z)
  : Z * list byte * (list byte * list byte) :=
  (0, toy_signature d, d).
Definition toy_verify (d : list byte * list byte) (sig : list byte)
  : Z * (list byte * list byte) :=
  (if bytes_eqb sig (toy_signature d) then 0 else -1, d).

(* ================================================================== *)
(** * Theorems *)

(** ** Copy within one database *)

(** C9: adb_w_copy(db, db, v) with the same database as source and
    destination returns v itself and leaves the store, hence the arena
    length and contents, unchanged. *)
Theorem adb_w_copy_same_db `{P : adb_params} (fuel : nat) (h : heap)
    (db : nat) (v : adb_val_t) :
  adb_w_copy fuel h db db v = Ret (h, v).
Proof.
  destruct fuel; simpl; rewrite Nat.eqb_refl; reflexivity.
Qed.

(** ** Interning and alignment *)

(** C1: after "x" and 00 00 10 were written as blobs, the candidate
    03 00 00 10 asked for with alignment 4 is answered with the interned
    entry at offset 2: the bytes there equal the candidate, but 2 is not a
    multiple of 4.  The test is [offs & alignment]. *)
Lemma adb_w_data_returns_misaligned_entry :
  exists db v1 v2,
    two_blobs = Ret (db, v1, v2) /\
    @adb_w_data lp64 db [[x03; x00; x00; x10]] 4 = Ret (db, 2) /\
    take 4 (drop 2 (arena db)) = [x03; x00; x00; x10] /\
    2 mod 4 <> 0.
Proof.
  do 3 eexists.
  split; [vm_compute; reflexivity|].
  split; [vm_compute; reflexivity|].
  split; [vm_compute; reflexivity|].
  vm_compute; discriminate.
Qed.

(** C8: in the same database adb_w_int(db, 0x10000003) stores nothing and
    returns the INT_32 value of offset 2, which is not 4-byte aligned. *)
Lemma adb_w_int_misaligned_int32 :
  exists db v1 v2,
    two_blobs = Ret (db, v1, v2) /\
    @adb_w_int lp64 db 0x10000003 = Ret (db, 0x20000002) /\
    @ADB_VAL_TYPE 0x20000002 = @ADB_TYPE_INT_32 lp64 /\
    @ADB_VAL_VALUE 0x20000002 = 2 /\
    2 mod 4 <> 0.
Proof.
  do 3 eexists.
  split; [vm_compute; reflexivity|].
  split; [vm_compute; reflexivity|].
  split; [vm_compute; reflexivity|].
  split; [vm_compute; reflexivity|].
  vm_compute; discriminate.
Qed.

(** ** Reading scalars *)

(** C3: a container whose arena is the single word 0x80000004, a BLOB_8
    value at offset 4: the length prefix lies past the end of the arena,
    adb_r_deref answers NULL and adb_r_blob reads the length through it. *)
Lemma adb_r_blob_reads_through_null :
  exists db,
    adb_m_blob unit (fun _ _ _ => 0)
      (blob_of (adb_c_block ADB_BLOCK_ADB [x04; x00; x00; x80])) None
      = Ret (0, db) /\
    blob_len (adb_ db) = 4 /\
    @adb_r_root lp64 db = 0x80000004 /\
    ADB_VAL_TYPE 0x80000004 = @ADB_TYPE_BLOB_8 lp64 /\
    @adb_r_deref db 0x80000004 0 1 = None /\
    @adb_r_blob lp64 db 0x80000004 = Fault NullDeref.
Proof.
  eexists.
  split; [vm_compute; reflexivity|].
  repeat split; vm_compute; reflexivity.
Qed.

(** C4: adb_w_int(db, 0x10000000) on a fresh database stores the four
    bytes 00 00 00 10 at offset 0.  The payload lies within the arena, but
    with 8-byte pointers adb_r_int asks adb_r_deref for 8 bytes and returns
    0; with 4-byte pointers it returns the stored integer. *)
Lemma adb_r_int_last_word_reads_zero :
  exists db,
    @adb_w_int lp64 (adb_w_init_dynamic 0 1) 0x10000000
      = Ret (db, 0x20000000) /\
    ADB_VAL_TYPE 0x20000000 = @ADB_TYPE_INT_32 lp64 /\
    arena db = [x00; x00; x00; x10] /\
    le_decode (take 4 (drop 0 (arena db))) = 0x10000000 /\
    @adb_r_int lp64 db 0x20000000 = 0 /\
    @adb_r_int ilp32 db 0x20000000 = 0x10000000.
Proof.
  eexists.
  split; [vm_compute; reflexivity|].
  repeat split; vm_compute; reflexivity.
Qed.

(** ** Cross-database copy of a BLOB_16 *)

(** C6: a blob of 256 bytes is a BLOB_16 payload of 258 bytes.  adb_w_copy
    into another database copies 1 + 256 bytes, so the last data byte is
    missing, and reading the copy yields a blob with a NULL pointer. *)
Lemma adb_w_copy_blob16_short :
  exists src v b h' v' dst,
    blob_256 = Ret (src, v) /\
    ADB_VAL_TYPE v = @ADB_TYPE_BLOB_16 lp64 /\
    length (arena src) = 258%nat /\
    @adb_r_blob lp64 src v = Ret b /\
    blob_bytes b = replicate 256 x61 /\
    @adb_w_copy lp64 1 [adb_w_init_dynamic 0 1; src] 0 1 v = Ret (h', v') /\
    h' !! 0%nat = Some dst /\
    length (arena dst) = 257%nat /\
    @adb_r_blob lp64 dst v' = Ret (APK_BLOB_PTR_LEN None 256).
Proof.
  do 6 eexists.
  split; [vm_compute; reflexivity|].
  split; [vm_compute; reflexivity|].
  split; [vm_compute; reflexivity|].
  split; [vm_compute; reflexivity|].
  split; [vm_compute; reflexivity|].
  split; [vm_compute; reflexivity|].
  split; [vm_compute; reflexivity|].
  split; vm_compute; reflexivity.
Qed.

(** ** Block order in map and blob mode *)

(** C5: with no trust context a blob whose first block is SIG and whose
    second block is ADB parses with result 0 and the ADB payload as arena;
    so does a mapped file whose first block is DATA.  With a trust context
    the blocks DATA, ADB, SIG are accepted once the signature verifies. *)
Lemma adb_m_parse_accepts_adb_not_first :
  (exists db,
     adb_m_blob unit (fun _ _ _ => 1)
       (blob_of (adb_c_block ADB_BLOCK_SIG []
                 ++ adb_c_block ADB_BLOCK_ADB [x01; x02; x03; x04])) None
       = Ret (0, db) /\
     blob_bytes (adb_ db) = [x01; x02; x03; x04]) /\
  (exists db,
     adb_m_map unit (fun _ _ _ => 1) adb_zero
       (adb_c_header (mk_adb_header ADB_FORMAT_MAGIC 0)
        ++ adb_c_block ADB_BLOCK_DATA [x2a]
        ++ adb_c_block ADB_BLOCK_ADB [x01; x02; x03; x04]) 0 None
       = Ret (0, db) /\
     blob_bytes (adb_ db) = [x01; x02; x03; x04]) /\
  (exists db,
     adb_m_blob unit (fun _ _ _ => 0)
       (blob_of (adb_c_block ADB_BLOCK_DATA [x2a]
                 ++ adb_c_block ADB_BLOCK_ADB [x01; x02; x03; x04]
                 ++ adb_c_block ADB_BLOCK_SIG [x00; x00])) (Some tt)
       = Ret (0, db) /\
     blob_bytes (adb_ db) = [x01; x02; x03; x04]).
Proof.
  split; [|split]; eexists; (split; [vm_compute; reflexivity|]);
    vm_compute; reflexivity.
Qed.

(** ** DATA blocks in stream mode *)


(** ** A DATA block of size 0 in stream mode *)

(** C10: without a trust context adb_m_stream answers -ENOKEY.  The
    stream holds a header, an ADB block, and a DATA block whose size field
    is 0: [sz = adb_block_size - sizeof blk] wraps to 2^64 - 4, the segment
    takes over the 122 bytes the stream has buffered, the callback answers
    0, and the skip of [seg.bytes_left = 2^64 - 126] returns -126, which
    adb_m_stream passes on.  -126 is -ENOKEY.  In map mode the same bytes
    are refused as malformed by adb_block_validate. *)
Theorem adb_m_stream_null_trust_no_key :
  adb_block_rawsize (mk_adb_block (Z.shiftl ADB_BLOCK_DATA 30)) = 0 /\
  (exists db,
     adb_m_stream unit (fun _ _ _ => 1) (fun _ _ _ => 122) adb_zero
       (inr data_size_0) 0 None (fun _ _ _ => 0) = Ret (- ENOKEY, db)) /\
  (exists db,
     adb_m_map unit (fun _ _ _ => 1) adb_zero data_size_0_bytes 0 None
     = Ret (- EBADMSG, db)).
Proof.
  split; [reflexivity|].
  split; eexists; lazy; reflexivity.
Qed.

(** ** Where sort and unique do not give a strictly increasing array *)

(** C2, as stated, fails.  Two objects that are distinct values and
    compare equal both stay after adb_wa_sort_unique, which drops a slot
    only when it holds the same word as its neighbour: the array is then
    not strictly increasing under the comparator.  And the array of
    scalar ints built as 5, 2, 2, 9 does not read back as 2, 5, 9:
    adb_wa_sort has no case for that element kind, and the array comes
    back as 5, 2, 9. *)
Lemma adb_wa_sort_unique_not_strict :
  ((o ← @adb_wa_sort_unique lp64 isort equal_object_array; Ret (elements o))
   = Ret [0xe0000008; 0xe0000000] /\
   cmp_value (@wacmp lp64 two_equal_objects two_equal_objects
                (Some one_int_schema)) 0xe0000008 0xe0000000 = 0) /\
  ((o ← ints_5_2_2_9; @read_ints lp64 o) = Ret [5; 2; 2; 9] /\
   (o ← ints_5_2_2_9; o' ← @adb_wa_sort_unique lp64 isort o;
    @read_ints lp64 o') = Ret [5; 2; 9] /\
   [5; 2; 9] <> [2; 5; 9]).
Proof.
  split; [split; vm_compute; reflexivity|].
  split; [vm_compute; reflexivity|].
  split; [vm_compute; reflexivity | discriminate].
Qed.

(* ================================================================== *)
(** * Bytes, words and blocks: supporting lemmas *)

Lemma byte_val_of_Z z : byte_val (byte_of_Z z) = z mod 256.
Proof.
  unfold byte_val, byte_of_Z.
  assert (Hr : 0 <= z mod 256 < 256) by (apply Z.mod_pos_bound; lia).
  destruct (Byte.of_N (Z.to_N (z mod 256))) as [b|] eqn:E.
  - apply Byte.to_of_N in E. rewrite E. rewrite Z2N.id; lia.
  - apply Byte.of_N_None_iff in E. lia.
Qed.

Lemma length_le_encode n z : length (le_encode n z) = n.
Proof. revert z; induction n; intros; simpl; [reflexivity | now rewrite IHn]. Qed.

Lemma le_decode_encode n z :
  le_decode (le_encode n z) = z mod 2 ^ (8 * Z.of_nat n).
Proof.
  revert z; induction n as [|n IH]; intros z.
  - simpl. now rewrite Z.mod_1_r.
  - cbn [le_encode le_decode]. rewrite byte_val_of_Z, IH.
    replace (8 * Z.of_nat (S n)) with (8 + 8 * Z.of_nat n) by lia.
    rewrite Z.pow_add_r by lia.
    change (2 ^ 8) with 256.
    rewrite Z.rem_mul_r by lia. reflexivity.
Qed.

Lemma le_decode_encode_4 z :
  0 <= z < 2 ^ 32 -> le_decode (le_encode 4 z) = z.
Proof.
  intros Hz. rewrite le_decode_encode.
  change (2 ^ (8 * Z.of_nat 4)) with (2 ^ 32). apply Z.mod_small; lia.
Qed.

Lemma land_mul_pow2_small a k b :
  0 <= k -> 0 <= b < 2 ^ k -> Z.land (a * 2 ^ k) b = 0.
Proof.
  intros Hk Hb. apply Z.bits_inj'; intros n Hn.
  rewrite Z.land_spec, Z.bits_0.
  destruct (Z.lt_ge_cases n k) as [Hlt|Hge].
  - rewrite Z.mul_pow2_bits_low by lia. reflexivity.
  - replace (Z.testbit b n) with false; [apply andb_false_r|].
    symmetry. destruct (Z.eq_dec b 0) as [->|Hb0]; [apply Z.bits_0|].
    apply Z.bits_above_log2; [lia|].
    apply Z.lt_le_trans with k; [|lia].
    apply Z.log2_lt_pow2; lia.
Qed.
Lemma lor_shiftl_small a k b :
  0 <= k -> 0 <= b < 2 ^ k ->
  Z.lor (Z.shiftl a k) b = a * 2 ^ k + b.
Proof.
  intros Hk Hb.
  rewrite Z.shiftl_mul_pow2 by lia.
  pose proof (land_mul_pow2_small a k b Hk Hb) as H0.
  rewrite <- Z.lxor_lor by exact H0.
  symmetry. apply Z.add_nocarry_lxor. exact H0.
Qed.

Section BlockFacts.
Variables (type n : Z).
Hypothesis Htype : 0 <= type < 4.
Hypothesis Hn : 0 <= n /\ sizeof_adb_block + n < 2 ^ 30.

Lemma type_size_init :
  type_size (adb_block_init type n) = type * 2 ^ 30 + (sizeof_adb_block + n).
Proof.
  unfold adb_block_init, sizeof_adb_block in *. cbn [type_size].
  rewrite lor_shiftl_small by lia. apply Z.mod_small. lia.
Qed.

Lemma adb_block_type_init : adb_block_type (adb_block_init type n) = type.
Proof.
  unfold adb_block_type. rewrite type_size_init.
  rewrite Z.shiftr_div_pow2 by lia.
  unfold sizeof_adb_block in *.
  rewrite Z.div_add_l by lia. rewrite Z.div_small by lia. lia.
Qed.

Lemma adb_block_rawsize_init :
  adb_block_rawsize (adb_block_init type n) = sizeof_adb_block + n.
Proof.
  unfold adb_block_rawsize. rewrite type_size_init.
  change 0x3fffffff with (Z.ones 30). rewrite Z.land_ones by lia.
  unfold sizeof_adb_block in *.
  rewrite Z.add_comm, Z.mod_add by lia. apply Z.mod_small. lia.
Qed.

Lemma adb_block_length_init : adb_block_length (adb_block_init type n) = n.
Proof.
  unfold adb_block_length. rewrite adb_block_rawsize_init.
  unfold sizeof_adb_block in *. replace (4 + n - 4) with n by lia.
  apply Z.mod_small. lia.
Qed.

Lemma type_size_init_range :
  0 <= type_size (adb_block_init type n) < 2 ^ 32.
Proof. rewrite type_size_init. unfold sizeof_adb_block in *. lia. Qed.

End BlockFacts.

Lemma ROUND_UP_ge x a : 0 < a -> x <= ROUND_UP x a.
Proof.
  intros Ha. unfold ROUND_UP.
  pose proof (Z.mod_pos_bound (a - x) a Ha). lia.
Qed.

Lemma ROUND_UP_lt x a : 0 < a -> ROUND_UP x a < x + a.
Proof.
  intros Ha. unfold ROUND_UP.
  pose proof (Z.mod_pos_bound (a - x) a Ha). lia.
Qed.

Lemma blob_bytes_blob_of bs : blob_bytes (blob_of bs) = bs.
Proof.
  unfold blob_bytes, blob_of; cbn. rewrite Nat2Z.id. apply firstn_all.
Qed.

(** Boolean comparisons in hypotheses, as propositions. *)
Ltac zbool :=
  repeat match goal with
  | H : _ || _ = false |- _ => apply orb_false_iff in H as [? ?]
  | H : _ && _ = true |- _ => apply andb_true_iff in H as [? ?]
  | H : negb _ = false |- _ => apply negb_false_iff in H
  | H : negb _ = true |- _ => apply negb_true_iff in H
  | H : (_ =? _) = true |- _ => apply Z.eqb_eq in H
  | H : (_ =? _) = false |- _ => apply Z.eqb_neq in H
  | H : (_ <? _) = true |- _ => apply Z.ltb_lt in H
  | H : (_ <? _) = false |- _ => apply Z.ltb_ge in H
  | H : (_ <=? _) = true |- _ => apply Z.leb_le in H
  | H : (_ <=? _) = false |- _ => apply Z.leb_gt in H
  | H : (_ >? _) = _ |- _ => rewrite Z.gtb_ltb in H
  | H : (_ >=? _) = _ |- _ => rewrite Z.geb_leb in H
  end.

(* ================================================================== *)
(** * Map and blob mode *)

Section ParseFacts.
Variable apk_trust : Type.
Variable verify : apk_trust -> adb -> apk_blob_t -> Z.

Abbreviation parse_block := (__adb_m_parse_block apk_trust verify).
Abbreviation parse_loop := (__adb_m_parse_loop apk_trust verify).

Lemma validate_BLK pos b q :
  adb_block_validate pos b = BLK q ->
  q = pos /\ sizeof_adb_block <= blob_len b - pos /\
  sizeof_adb_block <= adb_block_rawsize (block_at b pos) /\
  adb_block_size (block_at b pos) <= blob_len b - pos.
Proof.
  unfold adb_block_validate.
  destruct (pos =? blob_len b); [discriminate|].
  destruct (sizeof_adb_block >? blob_len b - pos) eqn:E1; [discriminate|].
  destruct (adb_block_rawsize (block_at b pos) <? sizeof_adb_block) eqn:E2;
    [discriminate|].
  destruct (adb_block_size (block_at b pos) >? blob_len b - pos) eqn:E3;
    [discriminate|].
  intros [= <-]. lia.
Qed.

Lemma parse_block_data t db trusted pos :
  data (parse_block t db trusted pos).1 = data db.
Proof.
  unfold __adb_m_parse_block. repeat case_match; reflexivity.
Qed.

Lemma parse_block_trusted t db pos :
  (parse_block t db true pos).2 = true.
Proof.
  unfold __adb_m_parse_block, verify_step. repeat case_match; reflexivity.
Qed.

Lemma validate_ERR pos b e :
  adb_block_validate pos b = BLK_ERR e -> e = - EBADMSG.
Proof.
  unfold adb_block_validate. repeat case_match; congruence.
Qed.

(** The loop leaves through a NULL or an error pointer: the fuel given by
    __adb_m_parse is never used up. *)
Lemma parse_loop_terminates fuel t db trusted blk :
  (forall pos, blk = BLK pos ->
     adb_block_validate pos (data db) = BLK pos /\
     blob_len (data db) - pos < Z.of_nat fuel) ->
  (forall e, blk = BLK_ERR e -> e = - EBADMSG) ->
  exists db' trusted' blk',
    parse_loop fuel t db trusted blk = Ret (db', trusted', blk') /\
    (forall pos, blk' <> BLK pos) /\
    (forall e, blk' = BLK_ERR e -> e = - EBADMSG).
Proof.
  revert db trusted blk.
  induction fuel as [|fuel IH]; intros db trusted blk Hblk Herr.
  - destruct blk as [| e | pos]; cbn [__adb_m_parse_loop];
      try (do 3 eexists; split; [reflexivity|split; [discriminate|assumption]]).
    destruct (Hblk pos eq_refl) as [Hv Hlt].
    apply validate_BLK in Hv. unfold sizeof_adb_block in Hv. lia.
  - destruct blk as [| e | pos]; cbn [__adb_m_parse_loop];
      try (do 3 eexists; split; [reflexivity|split; [discriminate|assumption]]).
    destruct (Hblk pos eq_refl) as [Hv Hlt].
    pose proof (parse_block_data t db trusted pos) as Hd.
    destruct (parse_block t db trusted pos) as [db1 trusted1]. cbn [fst] in Hd.
    apply IH.
    + intros p Hp. rewrite Hd.
      unfold adb_block_next in Hp.
      pose proof Hp as Hp'. apply validate_BLK in Hp' as [-> _].
      split; [exact Hp|].
      apply validate_BLK in Hv as (_ & _ & Hraw & _).
      pose proof (ROUND_UP_ge (adb_block_rawsize (block_at (data db) pos))
                    ADB_BLOCK_ALIGNMENT eq_refl) as Hge.
      unfold adb_block_size, sizeof_adb_block in *. lia.
    + intros e. unfold adb_block_next. apply validate_ERR.
Qed.

(** Without a trust context the flag stays set. *)
Lemma parse_loop_trusted fuel db blk db' trusted' blk' :
  parse_loop fuel None db true blk = Ret (db', trusted', blk') ->
  trusted' = true.
Proof.
  revert db blk. induction fuel as [|fuel IH]; intros db blk.
  - destruct blk; cbn [__adb_m_parse_loop]; congruence.
  - destruct blk as [| e | pos]; cbn [__adb_m_parse_loop]; try congruence.
    pose proof (parse_block_trusted None db pos) as Ht.
    destruct (parse_block None db true pos) as [db1 trusted1].
    cbn [snd] in Ht; subst. apply IH.
Qed.

End ParseFacts.

(** Without a trust context the verification function is never consulted. *)
Lemma parse_block_no_verify T (v1 v2 : T -> adb -> apk_blob_t -> Z) db pos :
  __adb_m_parse_block T v1 None db true pos
  = __adb_m_parse_block T v2 None db true pos.
Proof. reflexivity. Qed.

Lemma parse_loop_no_verify T (v1 v2 : T -> adb -> apk_blob_t -> Z)
    fuel db blk :
  __adb_m_parse_loop T v1 fuel None db true blk
  = __adb_m_parse_loop T v2 fuel None db true blk.
Proof.
  revert db blk. induction fuel as [|fuel IH]; intros db blk.
  - destruct blk; reflexivity.
  - destruct blk as [| e | pos]; cbn [__adb_m_parse_loop]; try reflexivity.
    rewrite (parse_block_no_verify T v1 v2).
    pose proof (parse_block_trusted T v2 None db pos) as Ht.
    destruct (__adb_m_parse_block T v2 None db true pos) as [db1 trusted1].
    cbn [snd] in Ht; subst. apply IH.
Qed.

Lemma parse_no_verify T (v1 v2 : T -> adb -> apk_blob_t -> Z) db :
  __adb_m_parse T v1 db None = __adb_m_parse T v2 db None.
Proof.
  unfold __adb_m_parse. rewrite (parse_loop_no_verify T v1 v2). reflexivity.
Qed.

Lemma parse_null_trust T (v : T -> adb -> apk_blob_t -> Z) db :
  APK_BLOB_IS_NULL (data db) = false \/ blob_len (data db) < sizeof_adb_block ->
  exists r db', __adb_m_parse T v db None = Ret (r, db') /\ r <> - ENOKEY.
Proof.
  intros Hd. unfold __adb_m_parse.
  replace (APK_BLOB_IS_NULL (data db) && (sizeof_adb_block <=? blob_len (data db)))
    with false by (destruct Hd as [-> | Hd]; [reflexivity|];
                   symmetry; apply andb_false_iff; right; lia).
  destruct (parse_loop_terminates T v
              (S (Z.to_nat (blob_len (data db)))) None db true
              (adb_block_first (data db))) as (db1 & tr1 & blk1 & Hl & Hb & He).
  { intros pos Hp. split.
    - unfold adb_block_first in Hp. pose proof Hp as Hp'.
      apply validate_BLK in Hp' as [-> _]. exact Hp.
    - apply validate_BLK in Hp as (-> & ?). unfold sizeof_adb_block in *. lia. }
  { intros e. apply validate_ERR. }
  rewrite Hl. cbn [mbind outcome_bind obind].
  apply parse_loop_trusted in Hl as ->. cbn [negb].
  destruct blk1 as [| e | pos]; [| | now destruct (Hb pos)].
  - destruct (APK_BLOB_IS_NULL (adb_ db1)) eqn:E; cbn [negb];
      do 2 eexists; (split; [reflexivity|]); discriminate.
  - rewrite (He e eq_refl). do 2 eexists. split; [reflexivity|discriminate].
Qed.


(** ** Parsing what adb_c_block writes *)

Lemma fits_init p : fits p ->
  0 <= Z.of_nat (length p) /\ sizeof_adb_block + Z.of_nat (length p) < 2 ^ 30.
Proof. unfold fits. lia. Qed.

Section Encoded.
Variables (type : Z) (p : list byte).
Hypothesis Htype : 0 <= type < 4.
Hypothesis Hfits : fits p.

Let blk := adb_block_init type (Z.of_nat (length p)).

Lemma block_size_bounds :
  sizeof_adb_block + Z.of_nat (length p) <= adb_block_size blk
  /\ adb_block_padding blk = adb_block_size blk - (sizeof_adb_block + Z.of_nat (length p)).
Proof.
  unfold adb_block_padding, adb_block_size, blk.
  rewrite adb_block_rawsize_init by (auto using fits_init).
  split; [apply ROUND_UP_ge; reflexivity | reflexivity].
Qed.

Lemma length_adb_c_block :
  Z.of_nat (length (adb_c_block type p)) = adb_block_size blk.
Proof.
  unfold adb_c_block. fold blk.
  rewrite !length_app, length_le_encode. unfold zeroes. rewrite length_replicate.
  destruct block_size_bounds as [Hle Hpad]. unfold sizeof_adb_block in *.
  rewrite Hpad. lia.
Qed.

Lemma block_at_encoded pre rest :
  block_at (blob_of (pre ++ adb_c_block type p ++ rest))
           (Z.of_nat (length pre)) = blk.
Proof.
  unfold block_at. rewrite blob_bytes_blob_of, Nat2Z.id.
  rewrite drop_app_length. unfold adb_c_block. fold blk.
  rewrite <- !app_assoc.
  rewrite take_app_length' by now rewrite length_le_encode.
  rewrite le_decode_encode_4
    by (apply type_size_init_range; auto using fits_init).
  now destruct blk.
Qed.

Lemma validate_encoded pre rest :
  adb_block_validate (Z.of_nat (length pre))
    (blob_of (pre ++ adb_c_block type p ++ rest))
  = BLK (Z.of_nat (length pre)).
Proof.
  unfold adb_block_validate. rewrite block_at_encoded. fold blk.
  pose proof length_adb_c_block as Hlen.
  destruct block_size_bounds as [Hle _].
  assert (Hraw : adb_block_rawsize blk = sizeof_adb_block + Z.of_nat (length p))
    by (apply adb_block_rawsize_init; auto using fits_init).
  unfold blob_of; cbn [blob_len]. rewrite !length_app.
  unfold sizeof_adb_block in *.
  repeat match goal with
  | |- context [if ?c then _ else _] => destruct c eqn:?
  end; try reflexivity; exfalso; zbool; lia.
Qed.

Lemma next_encoded pre rest :
  adb_block_next (Z.of_nat (length pre))
    (blob_of (pre ++ adb_c_block type p ++ rest))
  = adb_block_validate (Z.of_nat (length (pre ++ adb_c_block type p)))
      (blob_of (pre ++ adb_c_block type p ++ rest)).
Proof.
  unfold adb_block_next. rewrite block_at_encoded. fold blk.
  rewrite length_app, Nat2Z.inj_add, length_adb_c_block. reflexivity.
Qed.

Lemma blob_encoded pre rest :
  blob_bytes (adb_block_blob (blob_of (pre ++ adb_c_block type p ++ rest))
                             (Z.of_nat (length pre))) = p.
Proof.
  unfold adb_block_blob, blob_bytes. cbn [blob_ptr blob_len].
  rewrite block_at_encoded. fold blk.
  unfold blk. rewrite adb_block_length_init by (auto using fits_init).
  fold (blob_bytes (blob_of (pre ++ adb_c_block type p ++ rest))).
  rewrite blob_bytes_blob_of.
  replace (Z.to_nat (Z.of_nat (length pre) + sizeof_adb_block))
    with (length pre + 4)%nat by (unfold sizeof_adb_block; lia).
  rewrite <- drop_drop, drop_app_length.
  unfold adb_c_block. rewrite <- !app_assoc.
  rewrite drop_app_length' by now rewrite length_le_encode.
  rewrite Nat2Z.id. apply take_app_length.
Qed.

Lemma type_encoded pre rest :
  adb_block_type (block_at (blob_of (pre ++ adb_c_block type p ++ rest))
                           (Z.of_nat (length pre))) = type.
Proof.
  rewrite block_at_encoded. apply adb_block_type_init; auto using fits_init.
Qed.

End Encoded.


Section ParseContainer.
Variable apk_trust : Type.
Variable verify : apk_trust -> adb -> apk_blob_t -> Z.

Lemma sig_type_ok : 0 <= ADB_BLOCK_SIG < 4.
Proof. unfold ADB_BLOCK_SIG. lia. Qed.
Lemma adb_type_ok : 0 <= ADB_BLOCK_ADB < 4.
Proof. unfold ADB_BLOCK_ADB. lia. Qed.

(** Signature blocks after the ADB block are passed over. *)
Lemma parse_loop_sigs sigs : forall pre fuel db res,
  data db = blob_of (pre ++ concat (map (adb_c_block ADB_BLOCK_SIG) sigs)) ->
  Forall fits sigs ->
  APK_BLOB_IS_NULL (adb_ db) = false ->
  __adb_m_parse_loop apk_trust verify fuel None db true
    (adb_block_validate (Z.of_nat (length pre))
       (blob_of (pre ++ concat (map (adb_c_block ADB_BLOCK_SIG) sigs))))
    = Ret res ->
  res = (db, true, BLK_NULL).
Proof.
  induction sigs as [|s sigs IH]; intros pre fuel db res Hd Hf Ha Hl.
  - cbn [map concat] in Hl. rewrite app_nil_r in Hl.
    unfold adb_block_validate, blob_of in Hl. cbn [blob_len] in Hl.
    rewrite Z.eqb_refl in Hl.
    destruct fuel; cbn [__adb_m_parse_loop] in Hl; congruence.
  - cbn [map concat] in Hd, Hl.
    inversion Hf as [|? ? Hs Hf']; subst.
    rewrite (validate_encoded _ _ sig_type_ok Hs) in Hl.
    destruct fuel as [|fuel]; cbn [__adb_m_parse_loop] in Hl; [discriminate|].
    unfold __adb_m_parse_block in Hl.
    rewrite Hd in Hl.
    rewrite (type_encoded _ _ sig_type_ok Hs) in Hl.
    change (ADB_BLOCK_SIG =? ADB_BLOCK_ADB) with false in Hl.
    change (ADB_BLOCK_SIG =? ADB_BLOCK_SIG) with true in Hl.
    cbv iota in Hl. rewrite Ha in Hl. cbn [verify_step] in Hl.
    rewrite (next_encoded _ _ sig_type_ok Hs) in Hl.
    rewrite app_assoc in Hl.
    apply (IH (pre ++ adb_c_block ADB_BLOCK_SIG s) fuel db res); auto.
    rewrite Hd, <- app_assoc. reflexivity.
Qed.

Lemma parse_container p sigs db :
  fits p -> Forall fits sigs ->
  data db = blob_of (container_blocks p sigs) ->
  APK_BLOB_IS_NULL (adb_ db) = true ->
  exists db', __adb_m_parse apk_trust verify db None = Ret (0, db') /\
              blob_bytes (adb_ db') = p.
Proof.
  intros Hp Hs Hd Ha.
  set (rest := concat (map (adb_c_block ADB_BLOCK_SIG) sigs)).
  set (blocks := blob_of (container_blocks p sigs)) in *.
  assert (Hv : adb_block_validate 0 blocks = BLK 0)
    by exact (validate_encoded _ _ adb_type_ok Hp [] rest).
  assert (Ht : adb_block_type (block_at blocks 0) = ADB_BLOCK_ADB)
    by exact (type_encoded _ _ adb_type_ok Hp [] rest).
  assert (Hn : adb_block_next 0 blocks
               = adb_block_validate
                   (Z.of_nat (length (adb_c_block ADB_BLOCK_ADB p))) blocks)
    by exact (next_encoded _ _ adb_type_ok Hp [] rest).
  assert (Hb : blob_bytes (adb_block_blob blocks 0) = p)
    by exact (blob_encoded _ _ adb_type_ok Hp [] rest).
  destruct (parse_null_trust apk_trust verify db) as (r & db' & Hr & _).
  { left. rewrite Hd. reflexivity. }
  exists (set_adb db (adb_block_blob (data db) 0)).
  split; [|cbn [set_adb adb_]; rewrite Hd; exact Hb].
  rewrite Hr. unfold __adb_m_parse in Hr.
  replace (APK_BLOB_IS_NULL (data db)) with false in Hr
    by (rewrite Hd; reflexivity).
  cbn [andb] in Hr.
  destruct (__adb_m_parse_loop _ _ _ _ _ _ _) as [[[db1 tr1] blk1]|] eqn:Hl;
    [|discriminate].
  unfold adb_block_first in Hl.
  cbn [__adb_m_parse_loop] in Hl.
  unfold __adb_m_parse_block in Hl.
  rewrite Hd in Hl.
  rewrite Hv in Hl. rewrite Ht in Hl.
  change (ADB_BLOCK_ADB =? ADB_BLOCK_ADB) with true in Hl.
  cbv iota in Hl. rewrite Ha in Hl. cbn [negb] in Hl.
  rewrite Hn in Hl.
  apply (parse_loop_sigs sigs (adb_c_block ADB_BLOCK_ADB p)) in Hl; auto.
  injection Hl as E1 E2 E3. subst db1 tr1 blk1.
  cbn [mbind outcome_bind obind] in Hr.
  cbn [negb set_adb adb_ APK_BLOB_IS_NULL adb_block_blob blob_ptr] in Hr.
  change (0 =? 0) with true in Hr. cbv iota in Hr.
  rewrite Hd. symmetry. exact Hr.
Qed.

End ParseContainer.


(* ================================================================== *)
(** * Stream mode *)

(** A read of fewer than 2^63 bytes delivers the next bytes. *)
Lemma apk_istream_read_small ist size :
  size < 2 ^ 63 ->
  apk_istream_read ist size
  = (Z.of_nat (length (take (Z.to_nat size) (is_bytes ist))),
     take (Z.to_nat size) (is_bytes ist),
     mk_istream (drop (Z.to_nat size) (is_bytes ist)) (is_buf_size ist)).
Proof.
  intros H. unfold apk_istream_read.
  replace (size <? 2 ^ 63) with true by (symmetry; apply Z.ltb_lt; exact H).
  reflexivity.
Qed.

(** Case analysis on one iteration of the stream loop. *)
Ltac block_cases H :=
  unfold adb_m_stream_block, apk_istream_read, apk_istream_get,
    bad_msg, err, done in H;
  cbv beta iota zeta in H;
  repeat match type of H with
  | context [if ?c then _ else _] => destruct c eqn:?
  | context [match ?c with _ => _ end] => destruct c eqn:?
  end;
  try discriminate.

Section StreamFacts.
Variable apk_trust : Type.
Variable verify : apk_trust -> adb -> apk_blob_t -> Z.
Variable taken : adb -> apk_istream -> Z -> Z.
Variable t : option apk_trust.
Variable datacb : adb -> Z -> list byte -> Z.

Abbreviation stream_block := (adb_m_stream_block apk_trust verify taken t datacb).
Abbreviation stream_loop := (fun fuel => adb_m_stream_loop apk_trust verify taken fuel t datacb).

(** Every iteration that continues has read a block header. *)
Lemma stream_block_consumes st st' :
  stream_block st = Continue st' ->
  (stream_left st' + 4 <= stream_left st)%nat.
Proof.
  intros H. block_cases H.
  all: injection H as <-; unfold stream_left; cbn [s_is is_bytes].
  all: zbool; rewrite ?length_drop; rewrite length_take in *;
    unfold sizeof_adb_block in *; lia.
Qed.

Lemma stream_loop_terminates fuel st :
  (stream_left st < fuel)%nat ->
  exists r db, stream_loop fuel st = Ret (r, db).
Proof.
  revert st. induction fuel as [|fuel IH]; intros st Hlt; [lia|].
  cbn [adb_m_stream_loop].
  destruct (stream_block st) as [st'|r db] eqn:E.
  - apply IH. apply stream_block_consumes in E. lia.
  - eauto.
Qed.

(** Once set, the trusted flag stays set. *)
Lemma stream_block_trusted st st' :
  stream_block st = Continue st' ->
  s_trusted st = true -> s_trusted st' = true.
Proof.
  intros H Ht. block_cases H.
  all: injection H as <-; cbn [s_trusted]; try assumption.
  rewrite Ht. reflexivity.
Qed.

End StreamFacts.

(** While the flag is set no signature is verified. *)
Lemma stream_block_no_verify T (v1 v2 : T -> adb -> apk_blob_t -> Z)
    taken t datacb st :
  s_trusted st = true ->
  adb_m_stream_block T v1 taken t datacb st = adb_m_stream_block T v2 taken t datacb st.
Proof.
  intros Ht. unfold adb_m_stream_block, verify_step. rewrite Ht. reflexivity.
Qed.

Lemma stream_loop_no_verify T (v1 v2 : T -> adb -> apk_blob_t -> Z)
    taken t datacb fuel st :
  s_trusted st = true ->
  adb_m_stream_loop T v1 taken fuel t datacb st
  = adb_m_stream_loop T v2 taken fuel t datacb st.
Proof.
  revert st. induction fuel as [|fuel IH]; intros st Ht; [reflexivity|].
  cbn [adb_m_stream_loop].
  rewrite (stream_block_no_verify T v1 v2 taken) by exact Ht.
  destruct (adb_m_stream_block T v2 taken t datacb st) as [st'|r db] eqn:E;
    [|reflexivity].
  apply IH. eapply stream_block_trusted; eauto.
Qed.

Lemma stream_no_verify T (v1 v2 : T -> adb -> apk_blob_t -> Z)
    taken db ist e datacb :
  adb_m_stream T v1 taken db ist e None datacb
  = adb_m_stream T v2 taken db ist e None datacb.
Proof.
  unfold adb_m_stream. destruct ist as [err|is0]; [reflexivity|].
  destruct (apk_istream_read is0 8) as [[r got] is1].
  repeat case_match; try reflexivity.
  apply stream_loop_no_verify. reflexivity.
Qed.


(** ** Streaming what adb_c_block writes *)

Section StreamEncoded.
Variable apk_trust : Type.
Variable verify : apk_trust -> adb -> apk_blob_t -> Z.
Variable taken : adb -> apk_istream -> Z -> Z.
Variable t : option apk_trust.
Variable datacb : adb -> Z -> list byte -> Z.

Abbreviation stream_block := (adb_m_stream_block apk_trust verify taken t datacb).

Lemma length_block_body type p :
  0 <= type < 4 -> fits p ->
  Z.of_nat (length (block_body type p)) = body_size type p.
Proof.
  intros Ht Hp. unfold block_body, body_size.
  destruct (block_size_bounds type p Ht Hp) as [Hle Hpad].
  rewrite length_app. unfold zeroes. rewrite length_replicate, Hpad.
  unfold sizeof_adb_block in *. lia.
Qed.

Lemma body_size_range type p :
  0 <= type < 4 -> fits p -> 0 <= body_size type p < 2 ^ 64.
Proof.
  intros Ht Hp. unfold body_size.
  destruct (block_size_bounds type p Ht Hp) as [Hle _].
  pose proof (ROUND_UP_lt (adb_block_rawsize
                (adb_block_init type (Z.of_nat (length p))))
                ADB_BLOCK_ALIGNMENT eq_refl) as Hlt.
  rewrite adb_block_rawsize_init in Hlt by (auto using fits_init).
  unfold adb_block_size in *.
  rewrite adb_block_rawsize_init in * by (auto using fits_init).
  unfold fits, sizeof_adb_block, ADB_BLOCK_ALIGNMENT in *. lia.
Qed.

Lemma body_size_small type p :
  0 <= type < 4 -> fits p -> body_size type p < 2 ^ 63.
Proof.
  intros Ht Hp. unfold body_size.
  pose proof (ROUND_UP_lt (adb_block_rawsize
                (adb_block_init type (Z.of_nat (length p))))
                ADB_BLOCK_ALIGNMENT eq_refl) as Hlt.
  rewrite adb_block_rawsize_init in Hlt by (auto using fits_init).
  unfold adb_block_size.
  rewrite adb_block_rawsize_init by (auto using fits_init).
  unfold fits, sizeof_adb_block, ADB_BLOCK_ALIGNMENT in *. lia.
Qed.

(** Reading the header word of an encoded block at the head of a stream. *)
Lemma read_header type p rest buf :
  0 <= type < 4 -> fits p ->
  apk_istream_read (mk_istream (adb_c_block type p ++ rest) buf)
    sizeof_adb_block
  = (sizeof_adb_block,
     le_encode 4 (type_size (adb_block_init type (Z.of_nat (length p)))),
     mk_istream (block_body type p ++ rest) buf).
Proof.
  intros Ht Hp. unfold apk_istream_read, adb_c_block. cbn [is_bytes is_buf_size].
  change (Z.to_nat sizeof_adb_block) with 4%nat.
  fold (block_body type p). rewrite <- !app_assoc.
  rewrite take_app_length' by now rewrite length_le_encode.
  rewrite drop_app_length' by now rewrite length_le_encode.
  rewrite length_le_encode. reflexivity.
Qed.

Lemma stream_block_eof st :
  is_bytes (s_is st) = [] ->
  s_trusted st = true ->
  APK_BLOB_IS_NULL (adb_ (s_db st)) = false ->
  stream_block st = Return 0 (s_db st).
Proof.
  intros Hb Ht Ha. unfold adb_m_stream_block, apk_istream_read.
  rewrite Hb, Ht, Ha. reflexivity.
Qed.

Lemma stream_block_sig st s rest :
  is_bytes (s_is st) = adb_c_block ADB_BLOCK_SIG s ++ rest ->
  fits s ->
  body_size ADB_BLOCK_SIG s <= is_buf_size (s_is st) ->
  s_trusted st = true ->
  0 < s_block_no st ->
  APK_BLOB_IS_NULL (adb_ (s_db st)) = false ->
  stream_block st
  = Continue (mk_stream_state (s_db st)
                (mk_istream rest (is_buf_size (s_is st)))
                (s_block_no st + 1) true).
Proof.
  intros Hb Hs Hbuf Ht Hno Ha.
  pose proof (read_header ADB_BLOCK_SIG s rest (is_buf_size (s_is st))
                sig_type_ok Hs) as Hr.
  rewrite <- Hb in Hr.
  replace (mk_istream (is_bytes (s_is st)) (is_buf_size (s_is st)))
    with (s_is st) in Hr by (destruct (s_is st); reflexivity).
  unfold adb_m_stream_block. rewrite Hr. cbv beta iota zeta.
  change (sizeof_adb_block =? 0) with false.
  change ((sizeof_adb_block <? 0) || negb (sizeof_adb_block =? sizeof_adb_block))
    with false.
  cbv iota.
  rewrite le_decode_encode_4
    by (apply type_size_init_range; auto using fits_init, sig_type_ok).
  replace (mk_adb_block (type_size (adb_block_init ADB_BLOCK_SIG (Z.of_nat (length s)))))
    with (adb_block_init ADB_BLOCK_SIG (Z.of_nat (length s)))
    by (now destruct (adb_block_init _ _)).
  rewrite adb_block_type_init by (auto using fits_init, sig_type_ok).
  replace (s_block_no st =? 0) with false by (symmetry; apply Z.eqb_neq; lia).
  change (ADB_BLOCK_SIG =? ADB_BLOCK_ADB) with false.
  change (ADB_BLOCK_SIG =? ADB_BLOCK_SIG) with true.
  cbn [Bool.eqb negb]. cbv iota. rewrite Ha.
  fold (body_size ADB_BLOCK_SIG s).
  pose proof (body_size_range _ _ sig_type_ok Hs) as Hrange.
  pose proof (length_block_body _ _ sig_type_ok Hs) as Hlen.
  rewrite Z.mod_small by exact Hrange.
  unfold apk_istream_get. cbn [is_bytes is_buf_size].
  replace (body_size ADB_BLOCK_SIG s <=? is_buf_size (s_is st)) with true
    by (symmetry; apply Z.leb_le; exact Hbuf).
  replace (body_size ADB_BLOCK_SIG s <=?
           Z.of_nat (length (block_body ADB_BLOCK_SIG s ++ rest))) with true
    by (symmetry; apply Z.leb_le; rewrite length_app; lia).
  cbn [andb]. cbv iota.
  rewrite drop_app_length' by lia.
  unfold verify_step. rewrite Ht. reflexivity.
Qed.

Lemma stream_block_adb st p rest :
  is_bytes (s_is st) = adb_c_block ADB_BLOCK_ADB p ++ rest ->
  fits p ->
  s_block_no st = 0 ->
  APK_BLOB_IS_NULL (adb_ (s_db st)) = true ->
  stream_block st
  = Continue (mk_stream_state
                (set_adb (s_db st)
                   (APK_BLOB_PTR_LEN (Some (block_body ADB_BLOCK_ADB p))
                      (Z.of_nat (length p))))
                (mk_istream rest (is_buf_size (s_is st)))
                1 (s_trusted st)).
Proof.
  intros Hb Hp Hno Ha.
  pose proof (read_header ADB_BLOCK_ADB p rest (is_buf_size (s_is st))
                adb_type_ok Hp) as Hr.
  rewrite <- Hb in Hr.
  replace (mk_istream (is_bytes (s_is st)) (is_buf_size (s_is st)))
    with (s_is st) in Hr by (destruct (s_is st); reflexivity).
  unfold adb_m_stream_block. rewrite Hr. cbv beta iota zeta.
  change (sizeof_adb_block =? 0) with false.
  change ((sizeof_adb_block <? 0) || negb (sizeof_adb_block =? sizeof_adb_block))
    with false.
  cbv iota.
  rewrite le_decode_encode_4
    by (apply type_size_init_range; auto using fits_init, adb_type_ok).
  replace (mk_adb_block (type_size (adb_block_init ADB_BLOCK_ADB (Z.of_nat (length p)))))
    with (adb_block_init ADB_BLOCK_ADB (Z.of_nat (length p)))
    by (now destruct (adb_block_init _ _)).
  rewrite adb_block_type_init by (auto using fits_init, adb_type_ok).
  rewrite adb_block_length_init by (auto using fits_init, adb_type_ok).
  rewrite Hno.
  change (ADB_BLOCK_ADB =? ADB_BLOCK_ADB) with true.
  change (0 =? 0) with true.
  cbn [Bool.eqb negb]. cbv iota. rewrite Ha. cbn [negb]. cbv iota.
  fold (body_size ADB_BLOCK_ADB p).
  pose proof (body_size_range _ _ adb_type_ok Hp) as Hrange.
  pose proof (length_block_body _ _ adb_type_ok Hp) as Hlen.
  rewrite Z.mod_small by exact Hrange.
  pose proof (body_size_small _ _ adb_type_ok Hp) as Hsmall.
  rewrite apk_istream_read_small by exact Hsmall.
  replace (body_size ADB_BLOCK_ADB p <? 2 ^ 63) with true
    by (symmetry; apply Z.ltb_lt; exact Hsmall).
  cbn [is_bytes is_buf_size].
  rewrite take_app_length' by lia.
  rewrite drop_app_length' by lia.
  rewrite Hlen, Z.eqb_refl. reflexivity.
Qed.

End StreamEncoded.


Section StreamContainer.
Variable apk_trust : Type.
Variable verify : apk_trust -> adb -> apk_blob_t -> Z.
Variable taken : adb -> apk_istream -> Z -> Z.
Variable datacb : adb -> Z -> list byte -> Z.

Abbreviation stream_loop0 :=
  (fun fuel => adb_m_stream_loop apk_trust verify taken fuel None datacb).

Lemma stream_loop_sigs sigs : forall fuel st res,
  is_bytes (s_is st) = concat (map (adb_c_block ADB_BLOCK_SIG) sigs) ->
  Forall fits sigs ->
  Forall (fun s => body_size ADB_BLOCK_SIG s <= is_buf_size (s_is st)) sigs ->
  s_trusted st = true ->
  0 < s_block_no st ->
  APK_BLOB_IS_NULL (adb_ (s_db st)) = false ->
  stream_loop0 fuel st = Ret res ->
  res = (0, s_db st).
Proof.
  induction sigs as [|s sigs IH]; intros fuel st res Hb Hf Hbuf Ht Hno Ha Hl.
  - destruct fuel as [|fuel]; [discriminate|].
    cbn [adb_m_stream_loop] in Hl.
    rewrite (stream_block_eof _ _ _ _ _ st Hb Ht Ha) in Hl. congruence.
  - cbn [map concat] in Hb.
    inversion Hf as [|? ? Hs Hf']; subst.
    inversion Hbuf as [|? ? Hbs Hbuf']; subst.
    destruct fuel as [|fuel]; [discriminate|].
    cbn [adb_m_stream_loop] in Hl.
    rewrite (stream_block_sig _ _ _ _ _ st s _ Hb Hs Hbs Ht Hno Ha) in Hl.
    apply IH in Hl; cbn [s_is s_db s_trusted s_block_no is_bytes is_buf_size] in *;
      auto; lia.
Qed.

Lemma le_decode_take_4 w rest :
  0 <= w < 2 ^ 32 -> le_decode (take 4 (le_encode 4 w ++ rest)) = w.
Proof.
  intros Hw. rewrite take_app_length' by now rewrite length_le_encode.
  apply le_decode_encode_4; exact Hw.
Qed.

Lemma stream_container db is0 e h p sigs :
  is_bytes is0 = adb_c_header h ++ container_blocks p sigs ->
  magic h = ADB_FORMAT_MAGIC ->
  fits p -> Forall fits sigs ->
  Forall (fun s => body_size ADB_BLOCK_SIG s <= is_buf_size is0) sigs ->
  APK_BLOB_IS_NULL (adb_ db) = true ->
  exists db',
    adb_m_stream apk_trust verify taken db (inr is0) e None datacb = Ret (0, db')
    /\ blob_bytes (adb_ db') = p.
Proof.
  intros Hb Hm Hp Hs Hbuf Ha.
  unfold adb_m_stream. rewrite (apk_istream_read_small is0 8) by reflexivity.
  cbv beta iota zeta.
  rewrite Hb. unfold adb_c_header.
  assert (Hlen : length (le_encode 4 (magic h) ++ le_encode 4 (schema_id h)) = 8%nat)
    by (rewrite length_app, !length_le_encode; reflexivity).
  change (Z.to_nat 8) with 8%nat.
  rewrite take_app_length' by (symmetry; exact Hlen).
  rewrite drop_app_length' by (symmetry; exact Hlen).
  rewrite Hlen. change (negb (Z.of_nat 8 =? 8)) with false. cbv iota.
  unfold hdr_store. rewrite Hlen.
  set (old := le_encode 4 (magic (hdr db)) ++ le_encode 4 (schema_id (hdr db))).
  cbn [set_hdr hdr magic].
  rewrite <- app_assoc.
  rewrite le_decode_take_4 by (rewrite Hm; unfold ADB_FORMAT_MAGIC; lia).
  rewrite Hm. change (negb (ADB_FORMAT_MAGIC =? ADB_FORMAT_MAGIC)) with false.
  cbv iota.
  match goal with
  | |- context [adb_m_stream_loop _ _ _ ?f _ _ ?st] =>
    destruct (stream_loop_terminates apk_trust verify taken None datacb f st)
      as (r & db' & Hl); [unfold stream_left; cbn [s_is is_bytes]; lia|];
    set (st0 := st) in *
  end.
  rewrite Hl. cbn [adb_m_stream_loop] in Hl.
  unfold container_blocks in Hl.
  erewrite (stream_block_adb _ _ _ _ _ st0 p) in Hl;
    [| reflexivity | exact Hp | reflexivity | exact Ha].
  apply stream_loop_sigs with (sigs := sigs) in Hl;
    cbn [s_is s_db s_trusted s_block_no is_bytes is_buf_size set_adb adb_
         APK_BLOB_IS_NULL blob_ptr]; auto; try lia.
  injection Hl as -> ->. eexists. split; [reflexivity|].
  cbn [s_db st0 set_adb adb_]. unfold blob_bytes, block_body.
  cbn [blob_ptr blob_len]. rewrite Nat2Z.id. apply take_app_length.
Qed.

End StreamContainer.


(* ================================================================== *)
(** * Parsing without a trust context *)

Lemma map_null_trust T (v : T -> adb -> apk_blob_t -> Z) db file e :
  exists r db', adb_m_map T v db file e None = Ret (r, db') /\ r <> - ENOKEY.
Proof.
  unfold adb_m_map. repeat case_match;
    try (do 2 eexists; split; [reflexivity|discriminate]).
  apply parse_null_trust. left. reflexivity.
Qed.

Lemma map_no_verify T (v1 v2 : T -> adb -> apk_blob_t -> Z) db file e :
  adb_m_map T v1 db file e None = adb_m_map T v2 db file e None.
Proof.
  unfold adb_m_map. repeat case_match; try reflexivity.
  apply parse_no_verify.
Qed.

Lemma map_container T (v : T -> adb -> apk_blob_t -> Z) db h p sigs e :
  magic h = ADB_FORMAT_MAGIC ->
  0 <= schema_id h < 2 ^ 32 ->
  e = 0 \/ e = schema_id h ->
  fits p -> Forall fits sigs ->
  exists db',
    adb_m_map T v db (adb_c_header h ++ container_blocks p sigs) e None
      = Ret (0, db')
    /\ blob_bytes (adb_ db') = p.
Proof.
  intros Hm Hsch He Hp Hs. unfold adb_m_map, adb_c_header.
  rewrite <- !app_assoc.
  replace (Z.of_nat (length (le_encode 4 (magic h) ++ le_encode 4 (schema_id h)
                             ++ container_blocks p sigs)) <? 8) with false
    by (symmetry; apply Z.ltb_ge; rewrite !length_app, !length_le_encode; lia).
  replace (drop 8 (le_encode 4 (magic h) ++ le_encode 4 (schema_id h)
                   ++ container_blocks p sigs))
    with (container_blocks p sigs)
    by (change 8%nat with (4 + 4)%nat; rewrite <- drop_drop;
        rewrite !drop_app_length' by (now rewrite length_le_encode);
        reflexivity).
  rewrite drop_app_length' by now rewrite length_le_encode.
  rewrite !le_decode_take_4
    by (try exact Hsch; rewrite Hm; unfold ADB_FORMAT_MAGIC; lia).
  cbn [magic schema_id]. rewrite Hm.
  change (negb (ADB_FORMAT_MAGIC =? ADB_FORMAT_MAGIC)) with false.
  replace (negb (e =? 0) && negb (e =? schema_id h)) with false
    by (destruct He as [-> | ->]; [reflexivity|];
        rewrite Z.eqb_refl; cbn; now rewrite andb_false_r).
  cbv iota.
  apply (parse_container T v p sigs); auto.
Qed.

Lemma blob_container T (v : T -> adb -> apk_blob_t -> Z) p sigs :
  fits p -> Forall fits sigs ->
  exists db',
    adb_m_blob T v (blob_of (container_blocks p sigs)) None = Ret (0, db')
    /\ blob_bytes (adb_ db') = p.
Proof.
  intros Hp Hs. unfold adb_m_blob. apply (parse_container T v p sigs); auto.
Qed.

(* ================================================================== *)
(** * Block order and DATA blocks in stream mode *)

Section StreamOrder.
Variable apk_trust : Type.
Variable verify : apk_trust -> adb -> apk_blob_t -> Z.
Variable taken : adb -> apk_istream -> Z -> Z.
Variable t : option apk_trust.
Variable datacb : adb -> Z -> list byte -> Z.

Abbreviation stream_block := (adb_m_stream_block apk_trust verify taken t datacb).
Abbreviation stream_loop := (fun fuel => adb_m_stream_loop apk_trust verify taken fuel t datacb).
Abbreviation steps := (stream_steps apk_trust verify taken t datacb).

(** A run that reaches [st], where the iteration returns, returns that. *)
Lemma steps_return st0 st r d :
  steps st0 st ->
  stream_block st = Return r d ->
  forall fuel, (stream_left st0 < fuel)%nat ->
  stream_loop fuel st0 = Ret (r, d).
Proof.
  induction 1 as [st | st st1 st2 Hc Hs IH]; intros Hr fuel Hf.
  - destruct fuel as [|fuel]; [lia|].
    cbn [adb_m_stream_loop]. rewrite Hr. reflexivity.
  - destruct fuel as [|fuel]; [lia|].
    cbn [adb_m_stream_loop]. rewrite Hc. apply IH; [exact Hr|].
    apply stream_block_consumes in Hc. lia.
Qed.

Lemma steps_trans st0 st1 st2 :
  steps st0 st1 -> steps st1 st2 -> steps st0 st2.
Proof.
  induction 1; intros; [assumption|].
  eapply stream_steps_next; eauto.
Qed.

Lemma stream_block_arena_set st st' :
  stream_block st = Continue st' -> arena_set st -> arena_set st'.
Proof.
  intros H [Hno Ha]. block_cases H.
  all: injection H as <-; split; cbn [s_block_no s_db set_adb adb_]; try lia.
  all: intros _; try reflexivity; try assumption.
  all: zbool; try congruence.
Qed.

Lemma steps_arena_set st0 st :
  steps st0 st -> arena_set st0 -> arena_set st.
Proof.
  induction 1; intros; [assumption|].
  eauto using stream_block_arena_set.
Qed.

(** The flag is set by a signature that verifies, and by nothing else. *)
Lemma stream_block_trust_gained st st' :
  stream_block st = Continue st' ->
  s_trusted st = false -> s_trusted st' = true ->
  exists tr b, t = Some tr /\ stream_sig st = Some b
               /\ verify tr (s_db st) b = 0.
Proof.
  intros H Hf Ht. block_cases H.
  all: injection H as <-; cbn [s_trusted] in Ht; try congruence.
  unfold verify_step in Ht. rewrite Hf in Ht.
  destruct t as [tr|]; [|discriminate].
  exists tr. eexists. split; [reflexivity|]. split; [|apply Z.eqb_eq; exact Ht].
  unfold stream_sig, apk_istream_read, apk_istream_get. cbv beta iota zeta.
  repeat match goal with
  | H : _ || _ = false |- _ => apply orb_false_iff in H as [? ?]
  | H : negb _ = false |- _ => apply negb_false_iff in H
  end.
  repeat match goal with
  | H : ?c = _ |- context [?c] => rewrite H
  end.
  reflexivity.
Qed.

Lemma steps_trust_gained st0 st :
  steps st0 st ->
  s_trusted st0 = false -> s_trusted st = true ->
  exists st1 tr b,
    steps st0 st1 /\ t = Some tr /\ stream_sig st1 = Some b
    /\ verify tr (s_db st1) b = 0.
Proof.
  induction 1 as [st | st st1 st2 Hc Hs IH]; intros Hf Ht; [congruence|].
  destruct (s_trusted st1) eqn:E.
  - destruct (stream_block_trust_gained _ _ Hc Hf E) as (tr & b & ? & ? & ?).
    exists st, tr, b. repeat split; auto. constructor.
  - destruct (IH eq_refl Ht) as (st' & tr & b & Hs' & ? & ? & ?).
    exists st', tr, b. repeat split; auto.
    eapply stream_steps_next; eauto.
Qed.

(** What one iteration does with the block header [w] at the head of the
    stream. *)
Section Header.
Variables (st : stream_state) (w : Z) (rest : list byte).
Hypothesis Hbytes : is_bytes (s_is st) = le_encode 4 w ++ rest.
Hypothesis Hw : 0 <= w < 2 ^ 32.

Lemma read_block_header :
  apk_istream_read (s_is st) sizeof_adb_block
  = (sizeof_adb_block, le_encode 4 w,
     mk_istream rest (is_buf_size (s_is st))).
Proof.
  unfold apk_istream_read. rewrite Hbytes.
  change (Z.to_nat sizeof_adb_block) with 4%nat.
  rewrite take_app_length' by now rewrite length_le_encode.
  rewrite drop_app_length' by now rewrite length_le_encode.
  rewrite length_le_encode. reflexivity.
Qed.

Lemma stream_block_first_not_adb :
  s_block_no st = 0 ->
  adb_block_type (mk_adb_block w) <> ADB_BLOCK_ADB ->
  stream_block st = Return (- EBADMSG) (s_db st).
Proof.
  intros Hno Hty. unfold adb_m_stream_block.
  rewrite read_block_header. cbv beta iota zeta.
  change (sizeof_adb_block =? 0) with false.
  change ((sizeof_adb_block <? 0) || negb (sizeof_adb_block =? sizeof_adb_block))
    with false.
  cbv iota. rewrite le_decode_encode_4 by exact Hw.
  rewrite Hno. change (0 =? 0) with true.
  replace (adb_block_type (mk_adb_block w) =? ADB_BLOCK_ADB) with false
    by (symmetry; apply Z.eqb_neq; exact Hty).
  reflexivity.
Qed.

Lemma stream_block_later_adb :
  s_block_no st <> 0 ->
  adb_block_type (mk_adb_block w) = ADB_BLOCK_ADB ->
  stream_block st = Return (- EBADMSG) (s_db st).
Proof.
  intros Hno Hty. unfold adb_m_stream_block.
  rewrite read_block_header. cbv beta iota zeta.
  change (sizeof_adb_block =? 0) with false.
  change ((sizeof_adb_block <? 0) || negb (sizeof_adb_block =? sizeof_adb_block))
    with false.
  cbv iota. rewrite le_decode_encode_4 by exact Hw.
  rewrite Hty.
  replace (s_block_no st =? 0) with false
    by (symmetry; apply Z.eqb_neq; exact Hno).
  reflexivity.
Qed.

Lemma stream_block_data_untrusted :
  s_block_no st <> 0 ->
  APK_BLOB_IS_NULL (adb_ (s_db st)) = false ->
  adb_block_type (mk_adb_block w) = ADB_BLOCK_DATA ->
  s_trusted st = false ->
  stream_block st = Return (- ENOKEY) (s_db st).
Proof.
  intros Hno Ha Hty Ht. unfold adb_m_stream_block.
  rewrite read_block_header. cbv beta iota zeta.
  change (sizeof_adb_block =? 0) with false.
  change ((sizeof_adb_block <? 0) || negb (sizeof_adb_block =? sizeof_adb_block))
    with false.
  cbv iota. rewrite le_decode_encode_4 by exact Hw.
  rewrite Hty, Ha, Ht.
  replace (s_block_no st =? 0) with false
    by (symmetry; apply Z.eqb_neq; exact Hno).
  reflexivity.
Qed.

End Header.

End StreamOrder.

(** adb_m_stream enters its loop once the header is read and its magic
    accepted. *)
Lemma stream_enters_loop T (v : T -> adb -> apk_blob_t -> Z) taken t datacb
    db is0 e :
  (8 <= length (is_bytes is0))%nat ->
  le_decode (take 4 (is_bytes is0)) = ADB_FORMAT_MAGIC ->
  adb_m_stream T v taken db (inr is0) e t datacb
  = adb_m_stream_loop T v taken (S (stream_left (stream_init T t db is0))) t datacb
      (stream_init T t db is0).
Proof.
  intros Hlen Hm. unfold adb_m_stream, stream_init, stream_left.
  rewrite (apk_istream_read_small is0 8) by reflexivity.
  cbv beta iota zeta. change (Z.to_nat 8) with 8%nat.
  cbn [s_is is_bytes].
  rewrite length_take.
  replace (Z.of_nat (8 `min` length (is_bytes is0)) =? 8) with true
    by (symmetry; apply Z.eqb_eq; lia).
  cbn [negb]. cbv iota.
  unfold hdr_store. cbn [set_hdr hdr magic].
  rewrite take_app_le by (rewrite length_take; lia).
  rewrite take_take. change (4 `min` 8)%nat with 4%nat.
  rewrite Hm. change (negb (ADB_FORMAT_MAGIC =? ADB_FORMAT_MAGIC)) with false.
  reflexivity.
Qed.



(* ================================================================== *)
(** * Sort and unique *)

(** ** The in-place loop removes adjacent duplicates *)

Lemma last_snoc_tail (u g : list adb_val_t) x :
  last ((u ++ [x]) ++ tail (g ++ [x])) = Some x.
Proof.
  destruct g as [|g0 g]; cbn [app tail].
  - rewrite app_nil_r. apply last_snoc.
  - rewrite app_assoc. apply last_snoc.
Qed.

Lemma unique_loop_spec todo : forall u g prev h rest,
  last (u ++ g) = Some prev ->
  exists g',
    unique_loop (length todo) (S (length u + length g)) (S (length u))
      (h :: u ++ g ++ todo ++ rest)
    = (S (length u + length (uniq_adjacent prev todo)),
       h :: (u ++ uniq_adjacent prev todo) ++ g' ++ rest).
Proof.
  induction todo as [|x todo IH]; intros u g prev h rest Hlast.
  - exists g. cbn [length unique_loop uniq_adjacent app].
    rewrite !app_nil_r, Nat.add_0_r. reflexivity.
  - cbn [length unique_loop uniq_adjacent].
    apply last_Some in Hlast as [w Hw].
    assert (Hi : (h :: u ++ g ++ (x :: todo) ++ rest) !!! S (length u + length g) = x).
    { rewrite (app_assoc u g).
      apply (list_lookup_total_middle (h :: u ++ g) (todo ++ rest) x).
      cbn [length]. rewrite length_app. lia. }
    assert (Hp : (h :: u ++ g ++ (x :: todo) ++ rest)
                   !!! (S (length u + length g) - 1)%nat = prev).
    { rewrite (app_assoc u g), Hw.
      rewrite <- (app_assoc w [prev]).
      apply (list_lookup_total_middle (h :: w) ((x :: todo) ++ rest) prev).
      apply (f_equal length) in Hw. rewrite !length_app in Hw.
      cbn [length] in *. lia. }
    rewrite Hi, Hp.
    destruct (x =? prev) eqn:E.
    + apply Z.eqb_eq in E. subst x.
      destruct (IH u (g ++ [prev]) prev h rest) as [g' Hg'].
      { rewrite app_assoc. apply last_snoc. }
      exists g'. rewrite length_app in Hg'. cbn [length] in Hg'.
      replace (S (length u + (length g + 1))) with (S (S (length u + length g)))
        in Hg' by lia.
      rewrite <- !app_assoc in Hg'. cbn [app] in Hg'.
      rewrite <- !app_assoc. cbn [app]. exact Hg'.
    + destruct (IH (u ++ [x]) (tail (g ++ [x])) x h rest) as [g' Hg'].
      { apply last_snoc_tail. }
      exists g'.
      assert (Hins : <[S (length u) := x]> (h :: u ++ g ++ (x :: todo) ++ rest)
                     = h :: (u ++ [x]) ++ tail (g ++ [x]) ++ todo ++ rest).
      { pose proof (insert_app_r_alt (h :: u) (g ++ (x :: todo) ++ rest)
                      (S (length u)) x) as HH.
        cbn [length] in HH. rewrite <- !(app_comm_cons u) in HH.
        rewrite HH by lia. rewrite Nat.sub_diag.
        rewrite <- !app_assoc. do 2 f_equal.
        destruct g as [|g0 g]; cbn [app tail]; [reflexivity|].
        rewrite <- !app_assoc. reflexivity. }
      rewrite Hins.
      assert (Hlen : (length (u ++ [x]) + length (tail (g ++ [x]))
                      = S (length u + length g))%nat).
      { rewrite length_app. cbn [length].
        destruct g; cbn [app tail length]; [lia|].
        rewrite length_app. cbn [length]. lia. }
      rewrite Hlen in Hg'.
      replace (S (length (u ++ [x]))) with (S (S (length u))) in Hg'
        by (rewrite length_app; cbn [length]; lia).
      rewrite Hg'. f_equal.
      * rewrite length_app. cbn [length]. lia.
      * rewrite <- !app_assoc. reflexivity.
Qed.

(** From the loop's entry state: the slots after the length slot end up
    holding the elements without adjacent duplicates. *)
Lemma unique_loop_uniq h x l rest :
  exists g',
    unique_loop (length l) 2 2 (h :: (x :: l) ++ rest)
    = (S (length (uniq (x :: l))),
       h :: uniq (x :: l) ++ g' ++ rest).
Proof.
  destruct (unique_loop_spec l [x] [] x h rest eq_refl) as [g' Hg'].
  exists g'. cbn [length app Nat.add] in Hg'. cbn [uniq length app].
  exact Hg'.
Qed.

(** ** Removing adjacent duplicates from a sorted list *)

Lemma uniq_adjacent_distinct l : forall prev,
  Sorted (fun a b => a <> b) (prev :: uniq_adjacent prev l).
Proof.
  induction l as [|x l IH]; intros prev; cbn [uniq_adjacent].
  - repeat constructor.
  - destruct (x =? prev) eqn:E.
    + apply Z.eqb_eq in E. subst x. apply IH.
    + apply Z.eqb_neq in E. constructor; [apply IH|]. constructor. congruence.
Qed.

Lemma uniq_adjacent_elem l : forall prev y,
  y ∈ prev :: uniq_adjacent prev l <-> y ∈ prev :: l.
Proof.
  induction l as [|x l IH]; intros prev y; cbn [uniq_adjacent]; [reflexivity|].
  destruct (x =? prev) eqn:E.
  - apply Z.eqb_eq in E. subst x. rewrite IH, !elem_of_cons. tauto.
  - rewrite !(elem_of_cons _ y prev). rewrite IH. reflexivity.
Qed.

Lemma uniq_distinct l : Sorted (fun a b => a <> b) (uniq l).
Proof. destruct l; [constructor|]. apply uniq_adjacent_distinct. Qed.

Lemma uniq_elem l y : y ∈ uniq l <-> y ∈ l.
Proof. destruct l; [reflexivity|]. apply uniq_adjacent_elem. Qed.

Lemma uniq_short l : (length l < 2)%nat -> uniq l = l.
Proof. destruct l as [|x [|y l]]; cbn; intros; try reflexivity; lia. Qed.

Section Uniq.
Variable c : adb_val_t -> adb_val_t -> Z.

Lemma uniq_adjacent_sorted l : forall prev,
  Sorted (fun a b => c a b <= 0) (prev :: l) ->
  Sorted (fun a b => c a b <= 0) (prev :: uniq_adjacent prev l).
Proof.
  induction l as [|x l IH]; intros prev Hs; cbn [uniq_adjacent]; [exact Hs|].
  inversion Hs as [|? ? Hs' Hhd]; subst. inversion Hhd; subst.
  destruct (x =? prev) eqn:E.
  - apply Z.eqb_eq in E. subst x. apply IH. exact Hs'.
  - constructor; [apply IH; exact Hs' | constructor; assumption].
Qed.

Lemma uniq_adjacent_strict l : forall prev,
  Sorted (fun a b => c a b <= 0) (prev :: l) ->
  (forall a b, a ∈ prev :: l -> b ∈ prev :: l -> c a b = 0 -> a = b) ->
  Sorted (fun a b => c a b < 0) (prev :: uniq_adjacent prev l).
Proof.
  induction l as [|x l IH]; intros prev Hs Hsep; cbn [uniq_adjacent].
  - repeat constructor.
  - inversion Hs as [|? ? Hs' Hhd]; subst. inversion Hhd; subst.
    destruct (x =? prev) eqn:E.
    + apply Z.eqb_eq in E. subst x. apply IH; [exact Hs'|].
      intros a b Ha Hb. apply Hsep; apply elem_of_cons; right; assumption.
    + apply Z.eqb_neq in E. constructor.
      * apply IH; [exact Hs'|].
        intros a b Ha Hb. apply Hsep; apply elem_of_cons; right; assumption.
      * constructor.
        destruct (Z.eq_dec (c prev x) 0) as [Hz|Hz]; [|lia].
        exfalso. apply E. symmetry. apply Hsep; [| |exact Hz].
        -- apply elem_of_cons; left; reflexivity.
        -- apply elem_of_cons; right; apply elem_of_cons; left; reflexivity.
Qed.

Lemma uniq_sorted l :
  Sorted (fun a b => c a b <= 0) l -> Sorted (fun a b => c a b <= 0) (uniq l).
Proof. destruct l; [auto|]. apply uniq_adjacent_sorted. Qed.

Lemma uniq_strict l :
  Sorted (fun a b => c a b <= 0) l ->
  (forall a b, a ∈ l -> b ∈ l -> c a b = 0 -> a = b) ->
  Sorted (fun a b => c a b < 0) (uniq l).
Proof. destruct l; [constructor|]. apply uniq_adjacent_strict. Qed.

End Uniq.

(** ** Insertion sort meets the specification of qsort *)

Lemma cmp_consistentb_total c l :
  cmp_consistentb c l = true ->
  forall a b, In a l -> In b l -> c a b <= 0 \/ c b a <= 0.
Proof.
  unfold cmp_consistentb. intros H a b Ha Hb.
  rewrite forallb_forall in H.
  pose proof (H a Ha) as Hab. rewrite forallb_forall in Hab.
  specialize (Hab b Hb). apply andb_true_iff in Hab as [Hab _].
  pose proof (H b Hb) as Hba. rewrite forallb_forall in Hba.
  specialize (Hba a Ha). apply andb_true_iff in Hba as [Hba _].
  apply Bool.eqb_prop in Hab, Hba.
  destruct (c a b <? 0) eqn:E1, (c b a <? 0) eqn:E2; zbool; lia.
Qed.

Lemma isort_insert_perm c x l : Permutation (isort_insert c x l) (x :: l).
Proof.
  induction l as [|y l IH]; cbn [isort_insert]; [reflexivity|].
  destruct (c x y <=? 0); [reflexivity|].
  rewrite IH. apply perm_swap.
Qed.

Lemma isort_perm c l : Permutation (isort c l) l.
Proof.
  induction l as [|x l IH]; cbn; [reflexivity|].
  fold (isort c l). rewrite isort_insert_perm, IH. reflexivity.
Qed.

Lemma isort_insert_sorted c x l :
  (forall y, In y l -> c x y <= 0 \/ c y x <= 0) ->
  Sorted (fun a b => c a b <= 0) l ->
  Sorted (fun a b => c a b <= 0) (isort_insert c x l).
Proof.
  induction l as [|y l IH]; intros Ht Hs; cbn [isort_insert].
  - repeat constructor.
  - destruct (c x y <=? 0) eqn:E.
    + constructor; [exact Hs|]. constructor. lia.
    + inversion Hs as [|? ? Hs' Hhd]; subst.
      constructor.
      * apply IH; [|exact Hs']. intros z Hz. apply Ht. right. exact Hz.
      * destruct l as [|z l]; cbn [isort_insert].
        -- constructor. destruct (Ht y (or_introl eq_refl)); lia.
        -- destruct (c x z <=? 0).
           ++ constructor. destruct (Ht y (or_introl eq_refl)); lia.
           ++ inversion Hhd; subst. constructor. assumption.
Qed.

Lemma isort_qsort_spec : qsort_spec isort.
Proof.
  intros c l Hc. split; [apply isort_perm|].
  pose proof (cmp_consistentb_total c l Hc) as Ht.
  assert (Hsub : forall x, In x l -> In x l) by auto.
  revert Hsub. generalize l at 1 3. intros l'.
  induction l' as [|x l' IH]; intros Hsub; cbn; [constructor|].
  fold (isort c l'). apply isort_insert_sorted.
  - intros y Hy. apply Ht.
    + apply Hsub. left. reflexivity.
    + apply Hsub. right.
      eapply Permutation_in; [apply isort_perm | exact Hy].
  - apply IH. intros z Hz. apply Hsub. right. exact Hz.
Qed.

(** ** adb_wa_sort and adb_wa_sort_unique *)

Section SortUnique.
Context `{P : adb_params}.
Variable qsort : (adb_val_t -> adb_val_t -> Z) -> list adb_val_t
                 -> list adb_val_t.
Hypothesis Hqsort : qsort_spec qsort.

Variables (arr : adb_obj) (s f0 : adb_schema) (fs : list adb_schema)
          (cmp : adb_val_t -> adb_val_t -> outcome Z) (vec : list adb_val_t).
Hypothesis Hschema : o_schema arr = Some s.
Hypothesis Hkind : schema_kind s = ADB_KIND_ARRAY.
Hypothesis Hfields : schema_fields s = f0 :: fs.
Hypothesis Hcmp : wa_comparator arr f0 = Some cmp.
Hypothesis Hvec : o_obj arr = Some vec.
Hypothesis Hnum : 1 <= o_num arr.
Hypothesis Hlen : (Z.to_nat (o_num arr) <= length vec)%nat.
Hypothesis Hfault : first_fault cmp (elements arr) = None.

Let n := Z.to_nat (adb_ra_num arr).
Let sorted := qsort (cmp_value cmp) (elements arr).

Lemma ra_num_eq : adb_ra_num arr = o_num arr - 1.
Proof.
  unfold adb_ra_num. destruct (o_num arr =? 0) eqn:E; [|reflexivity].
  zbool. lia.
Qed.

Lemma elements_eq : elements arr = take n (drop 1 vec).
Proof. unfold elements. rewrite Hvec. reflexivity. Qed.

Lemma adb_wa_sort_ok :
  adb_wa_sort qsort arr
  = Ret (set_o_obj arr (take 1 vec ++ sorted ++ drop (1 + n) vec)).
Proof.
  unfold adb_wa_sort, assert_kind. rewrite Hschema, Hkind.
  cbn [adb_kind_eqb negb]. rewrite andb_false_r.
  cbn [mbind outcome_bind obind]. rewrite Hfields, Hcmp, Hvec.
  fold n. pose proof ra_num_eq as Hra.
  replace (length vec <? 1 + n)%nat with false
    by (symmetry; apply Nat.ltb_ge; unfold n; lia).
  unfold qsort_trap. rewrite <- elements_eq, Hfault.
  destruct (2 <=? length (elements arr))%nat; reflexivity.
Qed.

Hypothesis Hcons : cmp_consistentb (cmp_value cmp) (elements arr) = true.

Lemma sorted_perm : Permutation sorted (elements arr).
Proof. apply Hqsort. exact Hcons. Qed.

Lemma sorted_sorted : Sorted (fun a b => cmp_value cmp a b <= 0) sorted.
Proof. apply Hqsort. exact Hcons. Qed.

Lemma length_sorted : length sorted = n.
Proof.
  rewrite (Permutation_length sorted_perm), elements_eq.
  rewrite length_take, length_drop. pose proof ra_num_eq. unfold n. lia.
Qed.

Lemma adb_wa_sort_unique_uniq :
  exists arr',
    adb_wa_sort_unique qsort arr = Ret arr' /\ elements arr' = uniq sorted.
Proof.
  unfold adb_wa_sort_unique. rewrite adb_wa_sort_ok.
  cbn [mbind outcome_bind obind].
  pose proof ra_num_eq as Hra. pose proof length_sorted as Hls.
  destruct vec as [|h vtail] eqn:Ev; [cbn [length] in Hlen; lia|].
  cbn [take]. change (take 0 vtail) with (@nil Z).
  set (rest := drop (1 + n) (h :: vtail)).
  assert (Hra1 : adb_ra_num (set_o_obj arr ([h] ++ sorted ++ rest))
                 = adb_ra_num arr) by reflexivity.
  rewrite Hra1.
  destruct (adb_ra_num arr >=? 2) eqn:E.
  - cbn [set_o_obj o_obj]. fold n.
    replace (length ([h] ++ sorted ++ rest) <? 1 + n)%nat with false
      by (symmetry; apply Nat.ltb_ge; rewrite !length_app; cbn [length]; lia).
    destruct sorted as [|x l] eqn:Es; [cbn [length] in Hls; zbool; unfold n in *; lia|].
    destruct (unique_loop_uniq h x l rest) as [g' Hg'].
    replace (n - 1)%nat with (length l) by (cbn [length] in Hls; lia).
    cbn [app] in *. rewrite Hg'.
    eexists. split; [reflexivity|].
    unfold elements, adb_ra_num. cbn [set_o_num set_o_obj o_num o_obj].
    replace (Z.of_nat (S (length (uniq (x :: l)))) =? 0) with false
      by (symmetry; apply Z.eqb_neq; lia).
    replace (Z.to_nat (Z.of_nat (S (length (uniq (x :: l)))) - 1))
      with (length (uniq (x :: l))) by lia.
    change (drop 1 (h :: uniq (x :: l) ++ g' ++ rest))
      with (uniq (x :: l) ++ g' ++ rest).
    apply take_app_length.
  - eexists. split; [reflexivity|].
    unfold elements. rewrite Hra1. cbn [set_o_obj o_obj]. fold n.
    change (drop 1 ([h] ++ sorted ++ rest)) with (sorted ++ rest).
    rewrite <- Hls, take_app_length.
    symmetry. apply uniq_short. zbool. unfold n in *. lia.
Qed.

End SortUnique.

(** C2, amended: let the element kind of a writable array be one for which
    adb_wa_sort installs a comparator (OBJECT, or ADB), let the comparator
    run on its elements without a trap and be consistent on them, as
    qsort demands; then adb_wa_sort_unique returns, the elements are in
    non-decreasing order under the comparator, no two neighbours are the
    same value, the elements are those of the array before, and the order
    is strictly increasing when the comparator returns 0 on identical
    values only.  Nothing is said of an array of another element kind,
    such as scalar ints, for which adb_wa_sort installs no comparator. *)
Theorem adb_wa_sort_unique_sorted `{P : adb_params}
    (qsort : (adb_val_t -> adb_val_t -> Z) -> list adb_val_t -> list adb_val_t)
    (arr : adb_obj) (s f0 : adb_schema) (fs : list adb_schema)
    (cmp : adb_val_t -> adb_val_t -> outcome Z) (vec : list adb_val_t) :
  qsort_spec qsort ->
  o_schema arr = Some s ->
  schema_kind s = ADB_KIND_ARRAY ->
  schema_fields s = f0 :: fs ->
  wa_comparator arr f0 = Some cmp ->
  o_obj arr = Some vec ->
  1 <= o_num arr ->
  (Z.to_nat (o_num arr) <= length vec)%nat ->
  first_fault cmp (elements arr) = None ->
  cmp_consistentb (cmp_value cmp) (elements arr) = true ->
  exists arr',
    adb_wa_sort_unique qsort arr = Ret arr' /\
    Sorted (fun a b => cmp_value cmp a b <= 0) (elements arr') /\
    Sorted (fun a b => a <> b) (elements arr') /\
    (forall x, x ∈ elements arr' <-> x ∈ elements arr) /\
    ((forall a b, a ∈ elements arr -> b ∈ elements arr ->
                  cmp_value cmp a b = 0 -> a = b) ->
     Sorted (fun a b => cmp_value cmp a b < 0) (elements arr')).
Proof.
  intros Hq Hs Hk Hf Hc Hv Hn Hl Hft Hcons.
  destruct (adb_wa_sort_unique_uniq qsort Hq arr s f0 fs cmp vec
              Hs Hk Hf Hc Hv Hn Hl Hft Hcons) as (arr' & Hr & He).
  pose proof (sorted_perm qsort Hq arr cmp Hcons) as Hperm.
  pose proof (sorted_sorted qsort Hq arr cmp Hcons) as Hsorted.
  exists arr'. rewrite He. split; [exact Hr|].
  split; [apply uniq_sorted; exact Hsorted|].
  split; [apply uniq_distinct|].
  split.
  - intros x. rewrite uniq_elem, !list_elem_of_In.
    split; apply Permutation_in; [exact Hperm | symmetry; exact Hperm].
  - intros Hsep. apply uniq_strict; [exact Hsorted|].
    intros a b Ha Hb. rewrite list_elem_of_In in Ha, Hb.
    apply Hsep; rewrite list_elem_of_In;
      eapply Permutation_in; try exact Hperm; assumption.
Qed.

(** The theorem at an array of three objects with the int fields 7, 3, 7,
    the first and the last being the same object: after
    adb_wa_sort_unique the 3-object precedes the 7-object. *)
Lemma adb_wa_sort_unique_sorted_witness :
  let cmp := @wacmp lp64 two_objects two_objects (Some one_int_schema) in
  exists arr',
    @adb_wa_sort_unique lp64 isort object_array = Ret arr' /\
    Sorted (fun a b => cmp_value cmp a b <= 0) (elements arr') /\
    Sorted (fun a b => a <> b) (elements arr') /\
    (forall x, x ∈ elements arr' <-> x ∈ elements object_array) /\
    ((forall a b, a ∈ elements object_array -> b ∈ elements object_array ->
                  cmp_value cmp a b = 0 -> a = b) ->
     Sorted (fun a b => cmp_value cmp a b < 0) (elements arr')).
Proof.
  intros cmp.
  apply (@adb_wa_sort_unique_sorted lp64 isort object_array
           object_array_schema one_int_schema []
           cmp [8; 0xe0000000; 0xe0000008; 0xe0000000; 0; 0; 0; 0]).
  - exact isort_qsort_spec.
  - reflexivity.
  - reflexivity.
  - reflexivity.
  - reflexivity.
  - reflexivity.
  - vm_compute. discriminate.
  - vm_compute. lia.
  - vm_compute. reflexivity.
  - vm_compute. reflexivity.
Defined.

Example object_array_sorted :
  (o ← @adb_wa_sort_unique lp64 isort object_array; Ret (elements o))
  = Ret [0xe0000008; 0xe0000000].
Proof. vm_compute. reflexivity. Qed.


(* ================================================================== *)
(** * What an interned offset guarantees *)

Lemma bytes_eqb_eq a : forall b, bytes_eqb a b = true -> a = b.
Proof.
  induction a as [|x a IH]; intros [|y b] H; cbn [bytes_eqb] in H;
    try discriminate; [reflexivity|].
  apply andb_true_iff in H as [Hx Hab].
  apply Byte.byte_dec_bl in Hx. subst. f_equal. apply IH. exact Hab.
Qed.

Lemma iovec_memcmp_eq vec : forall base,
  iovec_memcmp vec base = 0 ->
  take (length (concat vec)) base = concat vec.
Proof.
  induction vec as [|f vec IH]; intros base H; cbn [iovec_memcmp concat] in *.
  - reflexivity.
  - destruct (bytes_eqb (take (length f) base) f) eqn:E; cbn [negb] in H;
      [|discriminate].
    apply bytes_eqb_eq in E. apply IH in H.
    rewrite length_app, <- take_take_drop, E, H. reflexivity.
Qed.

Section Interned.
Context `{P : adb_params}.
Variables (db : adb) (vec : iovec) (hash len alignment : Z).

Lemma walk_entries_found entries : forall k i offs,
  walk_entries db vec hash len alignment k i entries = Found offs ->
  iovec_memcmp vec (drop (Z.to_nat offs) (arena_mem db)) = 0
  /\ Z.land offs alignment = 0.
Proof.
  induction entries as [|e entries IH]; intros k i offs H;
    cbn [walk_entries] in H; [discriminate|].
  destruct (e_len e =? 0); [discriminate|].
  destruct (negb (e_hash e =? hash)); [eauto|].
  destruct ((e_len e =? len)
            && (iovec_memcmp vec (drop (Z.to_nat (e_offs e)) (arena_mem db))
                =? 0)) eqn:E; [|eauto].
  destruct (negb (Z.land (e_offs e) alignment =? 0)) eqn:Ea; [discriminate|].
  injection H as <-. zbool. auto.
Qed.

Lemma walk_chain_found chain : forall k offs,
  walk_chain db vec hash len alignment k chain = Found offs ->
  iovec_memcmp vec (drop (Z.to_nat offs) (arena_mem db)) = 0
  /\ Z.land offs alignment = 0.
Proof.
  induction chain as [|b chain IH]; intros k offs H;
    cbn [walk_chain] in H; [discriminate|].
  destruct (walk_entries db vec hash len alignment k 0 b) eqn:E.
  - injection H as <-. eapply walk_entries_found; eauto.
  - discriminate.
  - eauto.
Qed.

End Interned.

(** When adb_w_data answers with an interned entry, the database is left
    as it is, the bytes at the offset are the candidate's, and the offset
    has no bit in common with the alignment: [offs & alignment] is 0,
    which is weaker than [offs] being a multiple of [alignment]. *)
Lemma adb_w_data_found `{P : adb_params} db vec alignment chain offs :
  num_buckets db <> 0 ->
  bucket db !! Z.to_nat ((iovec_hash vec).1 mod num_buckets db) = Some chain ->
  walk_chain db vec (iovec_hash vec).1 (iovec_hash vec).2 alignment 0 chain
    = Found offs ->
  adb_w_data db vec alignment = Ret (db, offs)
  /\ take (length (concat vec)) (drop (Z.to_nat offs) (arena_mem db))
     = concat vec
  /\ Z.land offs alignment = 0.
Proof.
  intros Hn Hb Hw. split.
  - unfold adb_w_data.
    replace (num_buckets db =? 0) with false
      by (symmetry; apply Z.eqb_neq; exact Hn).
    destruct (iovec_hash vec) as [h l]. cbn [fst snd] in *.
    rewrite Hb, Hw. reflexivity.
  - apply walk_chain_found in Hw as [Hm Ha].
    split; [apply iovec_memcmp_eq; exact Hm | exact Ha].
Qed.

(* ================================================================== *)
(** * Scalars: what holds in general *)

Section Scalars.
Context `{P : adb_params}.

(** adb_w_int keeps a value below 2^28 inline and leaves the database
    alone. *)
Lemma adb_w_int_inline db val :
  val < 0x10000000 ->
  adb_w_int db val = Ret (db, ADB_VAL ADB_TYPE_INT val).
Proof.
  intros H. unfold adb_w_int.
  replace (val >=? 0x10000000) with false by (symmetry; lia).
  reflexivity.
Qed.

(** adb_r_int on an INT_32 value: the stored integer when [sizeof_ptr]
    bytes from the offset lie within the arena, 0 when they do not. *)
Lemma adb_r_int_int32 db v :
  ADB_VAL_TYPE v = ADB_TYPE_INT_32 ->
  ADB_TYPE_INT_32 <> ADB_TYPE_INT ->
  APK_BLOB_IS_NULL (adb_ db) = false ->
  adb_r_int db v
  = if ADB_VAL_VALUE v + sizeof_ptr >? blob_len (adb_ db) then 0
    else le_decode (take 4 (drop (Z.to_nat (ADB_VAL_VALUE v)) (arena_mem db))).
Proof.
  intros Ht Hne Ha. unfold adb_r_int, adb_r_deref. rewrite Ht, Ha.
  replace (ADB_TYPE_INT_32 =? ADB_TYPE_INT) with false
    by (symmetry; apply Z.eqb_neq; exact Hne).
  rewrite Z.eqb_refl, Z.add_0_l.
  destruct (ADB_VAL_VALUE v + sizeof_ptr >? blob_len (adb_ db)); reflexivity.
Qed.

(** adb_r_blob on a BLOB_8 value whose prefix lies outside the arena. *)
Lemma adb_r_blob_prefix_outside db v :
  ADB_VAL_TYPE v = ADB_TYPE_BLOB_8 ->
  adb_r_deref db v 0 1 = None ->
  adb_r_blob db v = Fault NullDeref.
Proof.
  intros Ht Hd. unfold adb_r_blob, adb_r_blob_w. rewrite Ht, Z.eqb_refl.
  change (Z.of_nat 1) with 1. rewrite Hd. reflexivity.
Qed.

End Scalars.

(* ================================================================== *)
(** * Values: tag and payload *)

Lemma val_type_value y :
  0 <= y < 2 ^ 32 -> ADB_VAL_TYPE y + ADB_VAL_VALUE y = y.
Proof.
  intros Hy. unfold ADB_VAL_TYPE, ADB_VAL_VALUE, ADB_TYPE_MASK, ADB_VALUE_MASK.
  assert (H0 : Z.land (Z.land y 0xf0000000) (Z.land y 0x0fffffff) = 0).
  { rewrite Z.land_assoc, (Z.land_comm (Z.land y _) y), Z.land_assoc,
      Z.land_diag, <- Z.land_assoc.
    change (Z.land 0xf0000000 0x0fffffff) with 0. apply Z.land_0_r. }
  rewrite Z.add_nocarry_lxor by exact H0. rewrite Z.lxor_lor by exact H0.
  rewrite <- Z.land_lor_distr_r.
  change (Z.lor 0xf0000000 0x0fffffff) with (Z.ones 32).
  rewrite Z.land_ones by lia. apply Z.mod_small; lia.
Qed.

Lemma val_value_range y : 0 <= ADB_VAL_VALUE y < 2 ^ 28.
Proof.
  unfold ADB_VAL_VALUE, ADB_VALUE_MASK. change 0x0fffffff with (Z.ones 28).
  rewrite Z.land_ones by lia. apply Z.mod_pos_bound. lia.
Qed.

Section Tags.
Context `{P : adb_params}.

Lemma is_tag_mod t : is_tag t -> t mod 2 ^ 28 = 0 /\ 0 <= t <= 15 * 2 ^ 28.
Proof.
  intros [Hr Hl]. unfold ADB_VALUE_MASK in Hl.
  change 0x0fffffff with (Z.ones 28) in Hl. rewrite Z.land_ones in Hl by lia.
  split; [exact Hl|].
  pose proof (Z.div_mod t (2 ^ 28) ltac:(lia)) as Hd. rewrite Hl in Hd. lia.
Qed.

(** ADB_VAL(tag, x) for a payload of 28 bits: the tag and the payload can
    be read back. *)
Lemma tagged t x :
  is_tag t -> 0 <= x < 2 ^ 28 ->
  ADB_VAL t x = t + x /\ ADB_VAL_TYPE (ADB_VAL t x) = t
  /\ ADB_VAL_VALUE (ADB_VAL t x) = x.
Proof.
  intros Ht Hx. destruct (is_tag_mod t Ht) as [Hm Hr].
  assert (Hv : ADB_VAL t x = t + x).
  { unfold ADB_VAL.
    pose proof (Z.div_mod t (2 ^ 28) ltac:(lia)) as Hd. rewrite Hm in Hd.
    replace t with (Z.shiftl (t / 2 ^ 28) 28) at 1
      by (rewrite Z.shiftl_mul_pow2 by lia; lia).
    rewrite lor_shiftl_small by lia.
    replace (t / 2 ^ 28 * 2 ^ 28) with t by lia.
    apply Z.mod_small. lia. }
  assert (Hval : ADB_VAL_VALUE (t + x) = x).
  { unfold ADB_VAL_VALUE, ADB_VALUE_MASK. change 0x0fffffff with (Z.ones 28).
    rewrite Z.land_ones by lia.
    rewrite <- Z.add_mod_idemp_l, Hm by lia. apply Z.mod_small. lia. }
  rewrite Hv. split; [reflexivity|]. split; [|exact Hval].
  pose proof (val_type_value (t + x) ltac:(lia)) as Hs. lia.
Qed.

Lemma tags_ok_tag t : tags_ok -> t ∈ all_tags -> is_tag t.
Proof. intros [Hf _] Hin. rewrite Forall_forall in Hf. auto. Qed.

(** Two tags at different positions of the list differ. *)
Lemma tags_ok_neq i j s t :
  tags_ok -> all_tags !! i = Some s -> all_tags !! j = Some t -> i <> j ->
  s <> t.
Proof.
  intros (_ & Hn & _) Hi Hj Hij ->. apply Hij.
  eapply NoDup_lookup; eauto.
Qed.

End Tags.

(** [tags_ok] for the numbering of the format. *)
Lemma tags_ok_params ptr_size : @tags_ok (params_with ptr_size).
Proof.
  split; [|split; [|reflexivity]].
  - repeat constructor; try discriminate; reflexivity.
  - unfold all_tags. cbn.
    repeat (apply NoDup_cons_2;
            [rewrite ?elem_of_cons, elem_of_nil; intuition discriminate|]).
    apply NoDup_nil_2.
Qed.
(* ================================================================== *)
(** * The write path: what adb_w_raw and adb_w_data keep *)

Lemma arena_take db :
  arena db = take (Z.to_nat (blob_len (adb_ db))) (arena_mem db).
Proof.
  unfold arena, blob_bytes, arena_mem.
  destruct (blob_ptr (adb_ db)); [reflexivity | now rewrite take_nil].
Qed.

Lemma length_arena db :
  arena_ok db -> Z.of_nat (length (arena db)) = blob_len (adb_ db).
Proof. intros [H0 H1]. rewrite arena_take, length_take. lia. Qed.

Lemma iovec_len_from (vec : iovec) : forall acc,
  fold_left (fun l f => l + Z.of_nat (length f)) vec acc
  = acc + Z.of_nat (length (concat vec)).
Proof.
  induction vec as [|f vec IH]; intros acc; cbn [fold_left concat].
  - cbn [length]. lia.
  - rewrite IH, length_app. lia.
Qed.

Lemma iovec_len_concat (vec : iovec) :
  iovec_len vec = Z.of_nat (length (concat vec)).
Proof. unfold iovec_len. rewrite iovec_len_from. lia. Qed.

Lemma iovec_hash_from (vec : iovec) : forall h l,
  (fold_left
     (fun '(h, l) f => (apk_blob_hash_seed f h, l + Z.of_nat (length f)))
     vec (h, l)).2
  = fold_left (fun l f => l + Z.of_nat (length f)) vec l.
Proof.
  induction vec as [|f vec IH]; intros h l; cbn [fold_left]; [reflexivity|].
  apply IH.
Qed.

Lemma iovec_hash_len (vec : iovec) : (iovec_hash vec).2 = iovec_len vec.
Proof. apply iovec_hash_from. Qed.

Lemma hash_seed_nonneg b : forall seed,
  0 <= seed -> 0 <= apk_blob_hash_seed b seed.
Proof.
  unfold apk_blob_hash_seed.
  induction b as [|c b IH]; intros seed Hs; cbn [fold_left]; [exact Hs|].
  apply IH. apply Z.lxor_nonneg.
  pose proof (Z.mod_pos_bound (seed * 33) (2 ^ 32) ltac:(lia)).
  unfold byte_val. lia.
Qed.

Lemma iovec_hash_nonneg_from (vec : iovec) : forall h l,
  0 <= h ->
  0 <= (fold_left
          (fun '(h, l) f => (apk_blob_hash_seed f h, l + Z.of_nat (length f)))
          vec (h, l)).1.
Proof.
  induction vec as [|f vec IH]; intros h l Hh; cbn [fold_left]; [exact Hh|].
  apply IH. apply hash_seed_nonneg. exact Hh.
Qed.

Lemma iovec_hash_nonneg (vec : iovec) : 0 <= (iovec_hash vec).1.
Proof. apply iovec_hash_nonneg_from. lia. Qed.

Lemma ROUND_UP_mod x a : 0 < a -> ROUND_UP x a mod a = 0.
Proof.
  intros Ha. unfold ROUND_UP.
  rewrite Z.add_mod_idemp_r by lia.
  replace (x + (a - x)) with (1 * a) by lia. apply Z.mod_mul. lia.
Qed.

(** The doubling loop ends well within its bound. *)
Lemma grow_returns fuel : forall need cap,
  1 <= cap -> need <= cap * 2 ^ Z.of_nat fuel ->
  exists cap', grow fuel need cap = Ret cap'.
Proof.
  induction fuel as [|fuel IH]; intros need cap Hc Hn; cbn [grow].
  - destruct (need >? cap) eqn:E; [|eauto]. exfalso. zbool.
    change (2 ^ Z.of_nat 0) with 1 in Hn. lia.
  - destruct (need >? cap) eqn:E; [|eauto].
    apply IH; [lia|].
    rewrite Nat2Z.inj_succ, Z.pow_succ_r in Hn by lia. lia.
Qed.

Lemma grow_ge fuel : forall need cap cap',
  0 <= cap -> grow fuel need cap = Ret cap' -> cap <= cap'.
Proof.
  induction fuel as [|fuel IH]; intros need cap cap' Hc H; cbn [grow] in H.
  - destruct (need >? cap); [discriminate|]. injection H as <-. lia.
  - destruct (need >? cap).
    + apply IH in H; lia.
    + injection H as <-. lia.
Qed.

Section RawWrite.
Variables (db : adb) (vec : iovec) (len alignment : Z).
Hypothesis Harena : arena_ok db.
Hypothesis Halign : 0 < alignment.

Lemma adb_w_raw_spec db' offs :
  adb_w_raw db vec len alignment = Ret (db', offs) ->
  offs = ROUND_UP (blob_len (adb_ db)) alignment /\
  arena_mem db'
  = arena db ++ zeroes (Z.to_nat (offs - blob_len (adb_ db))) ++ concat vec /\
  blob_len (adb_ db') = offs + Z.of_nat (length (concat vec)) /\
  arena_ok db' /\
  num_buckets db' = num_buckets db /\ bucket db' = bucket db /\
  hdr db' = hdr db /\ data db' = data db /\
  (0 <= blob_len (mmap db) -> 0 <= blob_len (mmap db')).
Proof.
  unfold adb_w_raw. intros H.
  pose proof (ROUND_UP_ge (blob_len (adb_ db)) alignment Halign) as Hge.
  pose proof (length_arena db Harena) as Hla.
  match type of H with
  | (?m ≫= _) = _ => destruct m as [cap|] eqn:Ecap; [|discriminate]
  end.
  cbn [mbind outcome_bind obind] in H. injection H as <- <-.
  replace (blob_len (adb_ db)
           + (ROUND_UP (blob_len (adb_ db)) alignment - blob_len (adb_ db)))
    with (ROUND_UP (blob_len (adb_ db)) alignment) in * by lia.
  unfold set_arena, arena_ok, arena_mem, blob_of.
  cbn [adb_ blob_ptr blob_len num_buckets bucket hdr data mmap].
  rewrite <- app_assoc.
  repeat split; try lia.
  - rewrite !length_app. unfold zeroes. rewrite length_replicate. lia.
  - intros Hm.
    destruct (_ >? _) in Ecap; [|injection Ecap as <-; exact Hm].
    destruct (num_buckets db =? 0); [discriminate|].
    apply grow_ge in Ecap; destruct (blob_len (mmap db) =? 0); lia.
Qed.

Lemma adb_w_raw_returns :
  0 <= blob_len (mmap db) -> has_room db (alignment + len) ->
  exists db' offs, adb_w_raw db vec len alignment = Ret (db', offs).
Proof.
  intros Hm Hroom. unfold adb_w_raw.
  pose proof (ROUND_UP_lt (blob_len (adb_ db)) alignment Halign) as Hlt.
  destruct Harena as [H0 _].
  match goal with
  | |- exists _ _, (?m ≫= _) = _ =>
    assert (Hc : exists cap, m = Ret cap); [|destruct Hc as [cap ->]; eauto]
  end.
  destruct (_ >? _) eqn:E; [|eauto].
  destruct Hroom as [Hroom | [Hdyn Hroom]]; [exfalso; zbool; lia|].
  replace (num_buckets db =? 0) with false
    by (symmetry; apply Z.eqb_neq; exact Hdyn).
  apply grow_returns.
  - destruct (blob_len (mmap db) =? 0) eqn:E0; zbool; lia.
  - assert (2 ^ 62 <= 1 * 2 ^ Z.of_nat 64) by (change (Z.of_nat 64) with 64; lia).
    destruct (blob_len (mmap db) =? 0) eqn:E0; zbool; nia.
Qed.

End RawWrite.

(** ** The dedup table *)

Section Walk.
Context `{P : adb_params}.
Variables (db : adb) (vec : iovec) (hash len alignment : Z).

Lemma walk_entries_found_in entries : forall k i offs,
  walk_entries db vec hash len alignment k i entries = Found offs ->
  exists e, e ∈ entries /\ e_offs e = offs /\ e_len e = len /\ e_len e <> 0
            /\ iovec_memcmp vec (drop (Z.to_nat offs) (arena_mem db)) = 0
            /\ Z.land offs alignment = 0.
Proof.
  induction entries as [|e entries IH]; intros k i offs H;
    cbn [walk_entries] in H; [discriminate|].
  assert (Hnext : forall i',
            walk_entries db vec hash len alignment k i' entries = Found offs ->
            exists e0, e0 ∈ e :: entries /\ e_offs e0 = offs /\ e_len e0 = len
                       /\ e_len e0 <> 0
                       /\ iovec_memcmp vec (drop (Z.to_nat offs) (arena_mem db)) = 0
                       /\ Z.land offs alignment = 0).
  { intros i' Hi. destruct (IH _ _ _ Hi) as (e0 & Hin & Hrest).
    exists e0. split; [apply elem_of_cons; right; exact Hin | exact Hrest]. }
  destruct (e_len e =? 0) eqn:E0; [discriminate|].
  destruct (negb (e_hash e =? hash)); [eauto|].
  destruct ((e_len e =? len)
            && (iovec_memcmp vec (drop (Z.to_nat (e_offs e)) (arena_mem db))
                =? 0)) eqn:E; [|eauto].
  destruct (negb (Z.land (e_offs e) alignment =? 0)) eqn:Ea; [discriminate|].
  injection H as <-. zbool. exists e.
  split; [apply elem_of_cons; left; reflexivity|]. auto.
Qed.

Lemma walk_chain_found_in chain : forall k offs,
  walk_chain db vec hash len alignment k chain = Found offs ->
  exists b e, b ∈ chain /\ e ∈ b /\ e_offs e = offs /\ e_len e = len
              /\ e_len e <> 0
              /\ iovec_memcmp vec (drop (Z.to_nat offs) (arena_mem db)) = 0
              /\ Z.land offs alignment = 0.
Proof.
  induction chain as [|b chain IH]; intros k offs H;
    cbn [walk_chain] in H; [discriminate|].
  destruct (walk_entries db vec hash len alignment k 0 b) eqn:E.
  - injection H as <-. apply walk_entries_found_in in E as (e & Hin & Hrest).
    exists b, e. split; [apply elem_of_cons; left; reflexivity|]. auto.
  - discriminate.
  - destruct (IH _ _ H) as (b0 & e & Hb & Hrest).
    exists b0, e. split; [apply elem_of_cons; right; exact Hb | exact Hrest].
Qed.

End Walk.

Section Buckets.
Context `{P : adb_params}.

Lemma entry_ok_mono limit limit' e :
  limit <= limit' -> entry_ok limit e -> entry_ok limit' e.
Proof. unfold entry_ok. intros Hl He Hn. specialize (He Hn). lia. Qed.

Lemma buckets_ok_grow db db' :
  buckets_ok db ->
  num_buckets db' = num_buckets db -> bucket db' = bucket db ->
  blob_len (adb_ db) <= blob_len (adb_ db') ->
  buckets_ok db'.
Proof.
  intros (Hn & Hl & Hf) En Eb Hle. unfold buckets_ok. rewrite En, Eb.
  split; [exact Hn|]. split; [exact Hl|].
  eapply Forall_impl; [exact Hf|]. intros chain Hc.
  eapply Forall_impl; [exact Hc|]. intros b [Hlen Hb].
  split; [exact Hlen|].
  eapply Forall_impl; [exact Hb|]. intros e. apply entry_ok_mono. exact Hle.
Qed.

Lemma buckets_ok_set_entry db bucketno k i e :
  buckets_ok db -> entry_ok (blob_len (adb_ db)) e ->
  buckets_ok (set_entry db bucketno k i e).
Proof.
  intros (Hn & Hl & Hf) He. unfold buckets_ok, set_entry, set_bucket.
  cbn [num_buckets bucket adb_].
  split; [exact Hn|]. split; [rewrite length_alter; exact Hl|].
  apply Forall_alter; [exact Hf|]. intros chain _ Hc.
  apply Forall_alter; [exact Hc|]. intros b _ [Hlen Hb]. cbv beta.
  split; [etrans; [apply length_insert | exact Hlen]|].
  apply Forall_insert; assumption.
Qed.

Lemma buckets_ok_new_bucket db bucketno :
  buckets_ok db ->
  buckets_ok (set_bucket db
                (alter (fun c => c ++ [new_bucket]) bucketno (bucket db))).
Proof.
  intros (Hn & Hl & Hf). unfold buckets_ok, set_bucket.
  cbn [num_buckets bucket adb_].
  split; [exact Hn|]. split; [rewrite length_alter; exact Hl|].
  apply Forall_alter; [exact Hf|]. intros chain _ Hc. cbv beta.
  apply Forall_app. split; [exact Hc|].
  apply Forall_singleton. unfold new_bucket.
  split; [apply length_replicate|].
  apply Forall_replicate. intros Hne. now cbn in Hne.
Qed.

(** adb_w_data: the database it leaves and the offset it returns. *)
Lemma adb_w_data_spec db vec alignment db' offs :
  writer_ok db -> 0 < alignment ->
  adb_w_data db vec alignment = Ret (db', offs) ->
  writer_ok db' /\
  0 <= offs /\ offs + iovec_len vec <= blob_len (adb_ db') /\
  take (length (concat vec)) (drop (Z.to_nat offs) (arena_mem db'))
  = concat vec /\
  (exists suffix, arena db' = arena db ++ suffix) /\
  hdr db' = hdr db /\ num_buckets db' = num_buckets db /\
  data db' = data db /\
  ((db' = db /\ Z.land offs alignment = 0) \/
   (offs = ROUND_UP (blob_len (adb_ db)) alignment
    /\ blob_len (adb_ db') = offs + iovec_len vec)).
Proof.
  intros (Ha & Hb & Hm) Halign H.
  pose proof (ROUND_UP_ge (blob_len (adb_ db)) alignment Halign) as Hge.
  pose proof (iovec_len_concat vec) as Hlen.
  pose proof Ha as [Hpos _].
  (* what a call of adb_w_raw gives, whatever was done to the table *)
  assert (Hraw : forall db0 len db1 o,
            adb_ db0 = adb_ db -> mmap db0 = mmap db ->
            adb_w_raw db0 vec len alignment = Ret (db1, o) ->
            o = ROUND_UP (blob_len (adb_ db)) alignment /\
            arena_ok db1 /\ 0 <= blob_len (mmap db1) /\
            blob_len (adb_ db1) = o + iovec_len vec /\
            take (length (concat vec)) (drop (Z.to_nat o) (arena_mem db1))
            = concat vec /\
            (exists suffix, arena db1 = arena db ++ suffix) /\
            num_buckets db1 = num_buckets db0 /\ bucket db1 = bucket db0 /\
            hdr db1 = hdr db0 /\ data db1 = data db0).
  { intros db0 len db1 o Ea Em Hr.
    assert (Ha0 : arena_ok db0)
      by (unfold arena_ok, arena_mem in *; rewrite Ea; exact Ha).
    destruct (adb_w_raw_spec db0 vec len alignment Ha0 Halign db1 o Hr)
      as (Ho & Hmem & Hl & Hok & Hnb & Hbk & Hh & Hd & Hcap).
    assert (Earena : arena db0 = arena db) by (unfold arena; now rewrite Ea).
    rewrite Ea in Ho, Hmem. rewrite Em in Hcap. rewrite Earena in Hmem.
    pose proof (length_arena db Ha) as Hla.
    split; [exact Ho|]. split; [exact Hok|]. split; [auto|].
    split; [lia|]. split; [|split; [|auto]].
    - rewrite Hmem, app_assoc.
      rewrite drop_app_length'
        by (rewrite length_app; unfold zeroes; rewrite length_replicate; lia).
      rewrite take_ge by lia. reflexivity.
    - exists (zeroes (Z.to_nat (o - blob_len (adb_ db))) ++ concat vec).
      rewrite arena_take, Hmem, Hl.
      apply take_ge. rewrite !length_app. unfold zeroes.
      rewrite length_replicate. lia. }
  unfold adb_w_data in H.
  destruct (num_buckets db =? 0) eqn:E0.
  - (* no dedup table *)
    destruct (Hraw db _ db' offs eq_refl eq_refl H)
      as (Ho & Hok & Hcap & Hl & Hbytes & Hsuf & Hnb & Hbk & Hh & Hd).
    split.
    { split; [exact Hok|]. split; [|exact Hcap].
      eapply buckets_ok_grow; eauto. lia. }
    split; [lia|]. split; [lia|]. split; [exact Hbytes|].
    split; [exact Hsuf|].
    cbn [set_entry set_bucket hdr num_buckets data adb_] in *.
    split; [congruence|]. split; [congruence|]. split; [congruence|].
    right. split; [exact Ho | exact Hl].
  - destruct (iovec_hash vec) as [hash len] eqn:Eh.
    assert (Hlen' : len = iovec_len vec)
      by (rewrite <- iovec_hash_len, Eh; reflexivity).
    subst len.
    destruct (bucket db !! _) as [chain|] eqn:Ec; [|discriminate].
    destruct (walk_chain db vec hash (iovec_len vec) alignment 0 chain)
      as [o | k i |] eqn:Ew.
    + (* an interned entry *)
      injection H as <- <-.
      apply walk_chain_found_in in Ew
        as (b & e & Hbin & Hein & Eo & El & Hne & Hcmp & Hland).
      destruct Hb as (Hn & Hlb & Hf).
      assert (He : entry_ok (blob_len (adb_ db)) e).
      { rewrite Forall_forall in Hf.
        apply list_elem_of_lookup_2 in Ec.
        specialize (Hf _ Ec). rewrite Forall_forall in Hf.
        destruct (Hf _ Hbin) as [_ Hfe]. rewrite Forall_forall in Hfe. auto. }
      destruct (He Hne) as [He0 He1]. rewrite Eo, El in *.
      split; [exact (conj Ha (conj (conj Hn (conj Hlb Hf)) Hm))|].
      split; [exact He0|]. split; [exact He1|].
      split; [apply iovec_memcmp_eq; exact Hcmp|].
      split; [exists []; now rewrite app_nil_r|].
      auto 10.
    + (* goto add *)
      destruct (adb_w_raw db vec (iovec_len vec) alignment)
        as [[db1 o]|] eqn:Er; [|discriminate].
      cbn [mbind outcome_bind obind] in H. injection H as <- <-.
      destruct (Hraw db _ db1 o eq_refl eq_refl Er)
        as (Ho & Hok & Hcap & Hl & Hbytes & Hsuf & Hnb & Hbk & Hh & Hd).
      split.
      { split; [exact Hok|]. split; [|exact Hcap].
        apply buckets_ok_set_entry.
        - eapply buckets_ok_grow; eauto. lia.
        - intros _. cbn [e_offs e_len]. lia. }
      cbn [set_entry set_bucket hdr num_buckets data adb_] in *.
      split; [lia|]. split; [lia|]. split; [exact Hbytes|].
      split; [exact Hsuf|].
      split; [congruence|]. split; [congruence|]. split; [congruence|].
      right. split; [exact Ho | exact Hl].
    + (* a new bucket at the end of the chain *)
      match type of H with
      | (adb_w_raw ?d _ _ _ ≫= _) = _ =>
        set (db0 := d) in *;
        destruct (adb_w_raw db0 vec (iovec_len vec) alignment)
          as [[db1 o]|] eqn:Er; [|discriminate]
      end.
      cbn [mbind outcome_bind obind] in H. injection H as <- <-.
      destruct (Hraw db0 _ db1 o eq_refl eq_refl Er)
        as (Ho & Hok & Hcap & Hl & Hbytes & Hsuf & Hnb & Hbk & Hh & Hd).
      split.
      { split; [exact Hok|]. split; [|exact Hcap].
        apply buckets_ok_set_entry.
        - apply (buckets_ok_grow db0); auto;
            [apply buckets_ok_new_bucket; exact Hb
            | unfold db0; cbn [set_bucket adb_]; lia].
        - intros _. cbn [e_offs e_len]. lia. }
      unfold db0 in *.
      cbn [set_entry set_bucket hdr num_buckets data adb_] in *.
      split; [lia|]. split; [lia|]. split; [exact Hbytes|].
      split; [exact Hsuf|].
      split; [congruence|]. split; [congruence|]. split; [congruence|].
      right. split; [exact Ho | exact Hl].
Qed.

(** adb_w_data returns: the table has a chain for every hash, and the
    arena has room or grows. *)
Lemma adb_w_data_returns db vec alignment :
  writer_ok db -> 0 < alignment ->
  has_room db (alignment + iovec_len vec) ->
  exists db' offs, adb_w_data db vec alignment = Ret (db', offs).
Proof.
  intros (Ha & Hb & Hm) Halign Hroom. unfold adb_w_data.
  destruct (num_buckets db =? 0) eqn:E0;
    [apply adb_w_raw_returns; assumption|].
  destruct (iovec_hash vec) as [hash len] eqn:Eh.
  assert (Hlen' : len = iovec_len vec)
    by (rewrite <- iovec_hash_len, Eh; reflexivity).
  assert (Hhash : 0 <= hash)
    by (pose proof (iovec_hash_nonneg vec) as Hh; rewrite Eh in Hh; exact Hh).
  subst len. destruct Hb as (Hn & Hlb & Hf). zbool.
  destruct (bucket db !! Z.to_nat (hash mod num_buckets db)) as [chain|] eqn:Ec.
  2: { apply lookup_ge_None in Ec.
       pose proof (Z.mod_pos_bound hash (num_buckets db) ltac:(lia)). lia. }
  destruct (walk_chain _ _ _ _ _ _ _); [eauto| |].
  - destruct (adb_w_raw_returns db vec (iovec_len vec) alignment Ha Halign Hm Hroom)
      as (db1 & o & ->).
    cbn [mbind outcome_bind obind]. eauto.
  - match goal with
    | |- exists _ _, (adb_w_raw ?d _ _ _ ≫= _) = _ =>
      destruct (adb_w_raw_returns d vec (iovec_len vec) alignment)
        as (db1 & o & ->); auto
    end.
    cbn [mbind outcome_bind obind]. eauto.
Qed.

End Buckets.

(** ** The databases the initialisers set up *)

Section Init.
Context `{P : adb_params}.

Lemma writer_ok_init_dynamic schema n :
  0 <= n -> writer_ok (adb_w_init_dynamic schema n).
Proof.
  intros Hn. unfold writer_ok, arena_ok, buckets_ok, adb_w_init_dynamic.
  cbn. rewrite length_replicate.
  repeat split; try lia. apply Forall_replicate. constructor.
Qed.

Lemma writer_ok_init_static bufsz :
  0 <= bufsz -> writer_ok (adb_w_init_static bufsz).
Proof.
  intros Hn. unfold writer_ok, arena_ok, buckets_ok, adb_w_init_static.
  cbn. repeat split; try lia. constructor.
Qed.

Lemma has_room_le db n m : has_room db m -> n <= m -> has_room db n.
Proof. unfold has_room. intros [H | [Hd H]] Hle; [left | right]; try split; lia. Qed.

(** A dynamic database with a small arena has room. *)
Lemma has_room_dynamic db n :
  num_buckets db <> 0 -> blob_len (adb_ db) + n <= 2 ^ 62 -> has_room db n.
Proof. intros. right. auto. Qed.

End Init.

(** Reading inside the arena in use is reading the memory behind it. *)
Lemma take_drop_arena db (o n : nat) :
  Z.of_nat (o + n) <= blob_len (adb_ db) ->
  take n (drop o (arena db)) = take n (drop o (arena_mem db)).
Proof.
  intros H. rewrite arena_take.
  rewrite !take_drop_commute, take_take. do 2 f_equal. lia.
Qed.

(* ================================================================== *)
(** * adb_w_data: stored bytes, append-only arena, alignment *)



(** X2: adb_w_data only appends.  The arena before the call is a prefix
    of the arena after it, so whatever was stored stays at its offset;
    the header and the size of the dedup table are left alone. *)
Theorem adb_w_data_append_only `{P : adb_params} db vec alignment :
  writer_ok db -> 0 < alignment ->
  has_room db (alignment + iovec_len vec) ->
  exists db' offs suffix,
    adb_w_data db vec alignment = Ret (db', offs) /\
    arena db' = arena db ++ suffix /\
    hdr db' = hdr db /\ num_buckets db' = num_buckets db.
Proof.
  intros Hok Ha Hroom.
  destruct (adb_w_data_returns db vec alignment Hok Ha Hroom)
    as (db' & offs & Hw).
  destruct (adb_w_data_spec db vec alignment db' offs Hok Ha Hw)
    as (_ & _ & _ & _ & [suffix Hs] & Hh & Hn & _).
  exists db', offs, suffix. auto.
Qed.

(** The theorem at a database that already holds a blob. *)
Lemma adb_w_data_append_only_witness :
  exists db' offs suffix,
    @adb_w_data lp64
      (set_arena (adb_w_init_dynamic 0 1) [x03; x61; x62; x63] 8192)
      [[x01; x02]] 4 = Ret (db', offs) /\
    arena db' = [x03; x61; x62; x63] ++ suffix /\
    hdr db' = mk_adb_header ADB_FORMAT_MAGIC 0 /\ num_buckets db' = 1.
Proof.
  apply (@adb_w_data_append_only lp64
           (set_arena (adb_w_init_dynamic 0 1) [x03; x61; x62; x63] 8192)
           [[x01; x02]] 4).
  - split; [|split];
      [vm_compute; split; discriminate | | vm_compute; discriminate].
    split; [vm_compute; discriminate|]. split; [reflexivity|].
    repeat constructor.
  - lia.
  - left. vm_compute. discriminate.
Defined.



(* ================================================================== *)
(** * Scalars written and read back *)

Lemma arena_not_null db :
  arena_ok db -> 0 < blob_len (adb_ db) -> APK_BLOB_IS_NULL (adb_ db) = false.
Proof.
  unfold arena_ok, arena_mem, APK_BLOB_IS_NULL.
  destruct (blob_ptr (adb_ db)); [reflexivity|]. cbn [length]. lia.
Qed.

Section ReadBack.
Context `{P : adb_params}.
Hypothesis Htags : tags_ok.

Lemma int_tag : is_tag ADB_TYPE_INT.
Proof. apply tags_ok_tag; [exact Htags|]. apply (list_elem_of_lookup_2 _ 1). reflexivity. Qed.
Lemma int32_tag : is_tag ADB_TYPE_INT_32.
Proof. apply tags_ok_tag; [exact Htags|]. apply (list_elem_of_lookup_2 _ 2). reflexivity. Qed.
Lemma blob8_tag : is_tag ADB_TYPE_BLOB_8.
Proof. apply tags_ok_tag; [exact Htags|]. apply (list_elem_of_lookup_2 _ 4). reflexivity. Qed.
Lemma blob16_tag : is_tag ADB_TYPE_BLOB_16.
Proof. apply tags_ok_tag; [exact Htags|]. apply (list_elem_of_lookup_2 _ 5). reflexivity. Qed.
Lemma blob32_tag : is_tag ADB_TYPE_BLOB_32.
Proof. apply tags_ok_tag; [exact Htags|]. apply (list_elem_of_lookup_2 _ 6). reflexivity. Qed.
Lemma array_tag : is_tag ADB_TYPE_ARRAY.
Proof. apply tags_ok_tag; [exact Htags|]. apply (list_elem_of_lookup_2 _ 7). reflexivity. Qed.
Lemma object_tag : is_tag ADB_TYPE_OBJECT.
Proof. apply tags_ok_tag; [exact Htags|]. apply (list_elem_of_lookup_2 _ 8). reflexivity. Qed.

(** The value adb_r_int finds behind an INT_32 whose four bytes lie
    inside the arena, when the bounds check lets it through. *)
Lemma adb_r_int_at db offs val :
  arena_ok db ->
  0 <= offs < 2 ^ 28 -> offs + 4 <= blob_len (adb_ db) ->
  offs + sizeof_ptr <= blob_len (adb_ db) ->
  0 <= val < 2 ^ 32 ->
  take 4 (drop (Z.to_nat offs) (arena_mem db)) = le_encode 4 val ->
  adb_r_int db (ADB_VAL ADB_TYPE_INT_32 offs) = val.
Proof.
  intros Ha Ho Hin Hptr Hval Hbytes.
  destruct (tagged _ offs int32_tag Ho) as (_ & Ht & Hv).
  unfold adb_r_int, adb_r_deref. rewrite Ht, Hv.
  replace (ADB_TYPE_INT_32 =? ADB_TYPE_INT) with false
    by (symmetry; apply Z.eqb_neq;
        apply (tags_ok_neq 2 1 _ _ Htags); [reflexivity | reflexivity | lia]).
  rewrite Z.eqb_refl, Z.add_0_l.
  replace (offs + sizeof_ptr >? blob_len (adb_ db)) with false
    by (symmetry; rewrite Z.gtb_ltb; apply Z.ltb_ge; lia).
  rewrite arena_not_null by (auto; lia).
  rewrite Hbytes. apply le_decode_encode_4. exact Hval.
Qed.

End ReadBack.

(** X5: an integer written with adb_w_int is read back by adb_r_int:
    always when it is kept inline (below 2^28), and for an INT_32 when the
    size of a pointer, which adb_r_int uses as the size of the word it
    checks, is no more than 4. *)
Theorem adb_w_int_read_back `{P : adb_params} db val :
  tags_ok -> writer_ok db -> has_room db 8 ->
  blob_len (adb_ db) + 8 <= 2 ^ 28 ->
  0 <= val < 2 ^ 32 ->
  val < 0x10000000 \/ sizeof_ptr <= 4 ->
  exists db' v, adb_w_int db val = Ret (db', v) /\ adb_r_int db' v = val.
Proof.
  intros Htags Hok Hroom Hsmall Hval Hcase. unfold adb_w_int.
  destruct (val >=? 0x10000000) eqn:E.
  - destruct Hcase as [Hlt | Hptr]; [exfalso; zbool; lia|].
    unfold adb_w_data1. rewrite length_le_encode.
    change (4 <? Z.to_nat 4)%nat with false. cbv iota.
    change (Z.to_nat 4) with 4%nat.
    rewrite take_ge by (rewrite length_le_encode; lia).
    assert (Hlen : iovec_len [le_encode 4 val] = 4)
      by (rewrite iovec_len_concat; cbn [concat]; rewrite app_nil_r,
            length_le_encode; reflexivity).
    destruct (adb_w_data_returns db [le_encode 4 val] 4 Hok ltac:(lia))
      as (db' & offs & Hw); [rewrite Hlen; exact Hroom|].
    destruct (adb_w_data_spec db _ 4 db' offs Hok ltac:(lia) Hw)
      as (Hok' & H0 & H1 & Hbytes & _ & _ & _ & _ & Hcases).
    rewrite Hw. cbn [mbind outcome_bind obind]. exists db'. eexists.
    split; [reflexivity|].
    rewrite Hlen in *. cbn [concat] in Hbytes.
    rewrite app_nil_r, length_le_encode in Hbytes.
    assert (Hb : blob_len (adb_ db') <= 2 ^ 28).
    { destruct Hcases as [[-> _] | [Ho Hl]]; [lia|].
      pose proof (ROUND_UP_lt (blob_len (adb_ db)) 4 ltac:(lia)). lia. }
    apply adb_r_int_at; auto; try lia. apply Hok'.
  - exists db. eexists. split; [reflexivity|].
    zbool.
    assert (Htag : is_tag ADB_TYPE_INT) by (apply int_tag; exact Htags).
    destruct (tagged _ val Htag ltac:(lia)) as (_ & Ht & Hv).
    unfold adb_r_int. rewrite Ht, Hv, Z.eqb_refl. reflexivity.
Qed.

(** The theorem at 2^28, the least integer stored out of line, on a
    32-bit build. *)
Lemma adb_w_int_read_back_witness :
  exists db' v,
    @adb_w_int ilp32 (adb_w_init_dynamic 0 1) 0x10000000 = Ret (db', v)
    /\ @adb_r_int ilp32 db' v = 0x10000000.
Proof.
  apply (@adb_w_int_read_back ilp32 (adb_w_init_dynamic 0 1) 0x10000000).
  - apply tags_ok_params.
  - apply writer_ok_init_dynamic. lia.
  - right. split; [discriminate | vm_compute; discriminate].
  - vm_compute. discriminate.
  - lia.
  - right. vm_compute. discriminate.
Defined.

Section BlobReadBack.
Context `{P : adb_params}.

(** The blob adb_r_blob_w finds behind a value whose offset holds a
    length prefix of [w] bytes and a payload, all inside the arena. *)
Lemma adb_r_blob_w_at db v offs (w : nat) n payload :
  arena_ok db -> ADB_VAL_VALUE v = offs -> (0 < w)%nat ->
  0 <= n < 2 ^ (8 * Z.of_nat w) -> n = Z.of_nat (length payload) ->
  offs + Z.of_nat w + n <= blob_len (adb_ db) ->
  take (w + length payload) (drop (Z.to_nat offs) (arena_mem db))
  = le_encode w n ++ payload ->
  adb_r_blob_w db v w
  = Ret (APK_BLOB_PTR_LEN
           (Some (drop (Z.to_nat (Z.of_nat w + offs)) (arena_mem db))) n)
  /\ take (length payload)
          (drop (Z.to_nat (Z.of_nat w + offs)) (arena_mem db)) = payload.
Proof.
  intros Ha Hv Hw Hn Hlen Hin Hbytes.
  pose proof (val_value_range v) as Hrange. rewrite Hv in Hrange.
  assert (Hnull : APK_BLOB_IS_NULL (adb_ db) = false)
    by (apply arena_not_null; [exact Ha | lia]).
  set (X := drop (Z.to_nat offs) (arena_mem db)) in *.
  assert (HX : X = (le_encode w n ++ payload) ++ drop (w + length payload) X)
    by (rewrite <- Hbytes; symmetry; apply take_drop).
  assert (Hpfx : take w X = le_encode w n).
  { rewrite HX, <- app_assoc.
    apply take_app_length'. now rewrite length_le_encode. }
  assert (Hpay : take (length payload)
                   (drop (Z.to_nat (Z.of_nat w + offs)) (arena_mem db))
                 = payload).
  { replace (Z.to_nat (Z.of_nat w + offs)) with (Z.to_nat offs + w)%nat by lia.
    rewrite <- drop_drop. fold X. rewrite HX, <- app_assoc.
    rewrite drop_app_length' by now rewrite length_le_encode.
    apply take_app_length. }
  split; [|exact Hpay].
  unfold adb_r_blob_w, adb_r_deref, load. rewrite Hv, Z.add_0_l.
  replace (offs + Z.of_nat w >? blob_len (adb_ db)) with false
    by (symmetry; rewrite Z.gtb_ltb; apply Z.ltb_ge; lia).
  rewrite Hnull. fold X. rewrite Hpfx, length_le_encode, Nat.eqb_refl.
  cbn [mbind outcome_bind obind].
  rewrite le_decode_encode, Z.mod_small by exact Hn.
  replace (Z.of_nat w + offs + n >? blob_len (adb_ db)) with false
    by (symmetry; rewrite Z.gtb_ltb; apply Z.ltb_ge; lia).
  reflexivity.
Qed.

End BlobReadBack.

(** X6: a non-empty blob written with adb_w_blob is read back by
    adb_r_blob with the same length and the same bytes, whichever of the
    three prefix widths its length selects. *)
Theorem adb_w_blob_read_back `{P : adb_params} db b mem :
  tags_ok -> writer_ok db ->
  blob_ptr b = Some mem ->
  0 < blob_len b -> blob_len b <= Z.of_nat (length mem) ->
  has_room db (blob_len b + 8) ->
  blob_len (adb_ db) + blob_len b + 8 <= 2 ^ 28 ->
  exists db' v b',
    adb_w_blob db b = Ret (db', v) /\ adb_r_blob db' v = Ret b' /\
    blob_len b' = blob_len b /\ blob_bytes b' = blob_bytes b.
Proof.
  intros Htags Hok Hptr Hpos Hmem Hroom Hsmall.
  pose proof Hok as ([Ha0 _] & _ & _).
  unfold adb_w_blob. rewrite Z.mod_small by lia.
  replace (blob_len b =? 0) with false by (symmetry; apply Z.eqb_neq; lia).
  rewrite Hptr.
  replace (length mem <? Z.to_nat (blob_len b))%nat with false
    by (symmetry; apply Nat.ltb_ge; lia).
  set (n := blob_len b) in *.
  set (payload := take (Z.to_nat n) mem).
  assert (Hpl : Z.of_nat (length payload) = n)
    by (unfold payload; rewrite length_take; lia).
  (* the three widths at once *)
  assert (Hgen : forall (w : nat) o,
            is_tag o -> (w = 1 \/ w = 2 \/ w = 4)%nat ->
            0 <= n < 2 ^ (8 * Z.of_nat w) ->
            (forall db' v, ADB_VAL_TYPE v = o ->
               adb_r_blob db' v = adb_r_blob_w db' v w) ->
            exists db' v b',
              ('(db1, offs) ← adb_w_data db [le_encode w n; payload]
                                 (Z.of_nat w);
               Ret (db1, ADB_VAL o offs)) = Ret (db', v)
              /\ adb_r_blob db' v = Ret b'
              /\ blob_len b' = n /\ blob_bytes b' = blob_bytes b).
  { intros w o Htag Hw Hn Hdisp.
    assert (Hil : iovec_len [le_encode w n; payload] = Z.of_nat w + n)
      by (rewrite iovec_len_concat; cbn [concat];
          rewrite app_nil_r, length_app, length_le_encode; lia).
    destruct (adb_w_data_returns db [le_encode w n; payload] (Z.of_nat w) Hok)
      as (db' & offs & Hw'); [lia | |].
    { rewrite Hil. eapply has_room_le; [exact Hroom|]. lia. }
    destruct (adb_w_data_spec db _ (Z.of_nat w) db' offs Hok ltac:(lia) Hw')
      as (Hok' & H0 & H1 & Hbytes & _ & _ & _ & _ & Hcases).
    rewrite Hw'. cbn [mbind outcome_bind obind].
    rewrite Hil in *. cbn [concat] in Hbytes.
    rewrite app_nil_r, length_app, length_le_encode in Hbytes.
    assert (Hb : blob_len (adb_ db') <= 2 ^ 28).
    { destruct Hcases as [[-> _] | [Ho Hl]]; [lia|].
      pose proof (ROUND_UP_lt (blob_len (adb_ db)) (Z.of_nat w) ltac:(lia)).
      lia. }
    destruct (tagged o offs Htag ltac:(lia)) as (_ & Ht & Hv).
    destruct (adb_r_blob_w_at db' (ADB_VAL o offs) offs w n payload)
      as [Hr Hpay]; auto; try lia; [apply Hok'|].
    exists db', (ADB_VAL o offs). eexists.
    split; [reflexivity|]. rewrite (Hdisp _ _ Ht).
    split; [exact Hr|]. split; [reflexivity|].
    unfold blob_bytes at 1. cbn [blob_ptr blob_len].
    rewrite <- Hpl, Nat2Z.id, Hpay.
    unfold blob_bytes. rewrite Hptr. reflexivity. }
  assert (Hne : forall i j s t,
            all_tags !! i = Some s -> all_tags !! j = Some t -> i <> j ->
            (s =? t) = false).
  { intros i j s t Hi Hj Hij. apply Z.eqb_neq.
    eapply tags_ok_neq; eauto. }
  destruct (n >? 0xffff) eqn:E32; [|destruct (n >? 0xff) eqn:E16].
  - apply Hgen; [apply blob32_tag; exact Htags | auto | |].
    + change (2 ^ (8 * Z.of_nat 4)) with (2 ^ 32). lia.
    + intros db' v Ht. unfold adb_r_blob. rewrite Ht.
      rewrite (Hne 6 4)%nat, (Hne 6 5)%nat, Z.eqb_refl by (reflexivity || lia).
      reflexivity.
  - apply Hgen; [apply blob16_tag; exact Htags | auto | |].
    + change (2 ^ (8 * Z.of_nat 2)) with (2 ^ 16). zbool. lia.
    + intros db' v Ht. unfold adb_r_blob. rewrite Ht.
      rewrite (Hne 5 4)%nat, Z.eqb_refl by (reflexivity || lia).
      reflexivity.
  - apply Hgen; [apply blob8_tag; exact Htags | auto | |].
    + change (2 ^ (8 * Z.of_nat 1)) with (2 ^ 8). zbool. lia.
    + intros db' v Ht. unfold adb_r_blob. rewrite Ht, Z.eqb_refl.
      reflexivity.
Qed.

(** The theorem at a blob of 300 bytes, stored with a 16-bit prefix. *)
Lemma adb_w_blob_read_back_witness :
  exists db' v b',
    @adb_w_blob lp64 (adb_w_init_dynamic 0 1) (blob_of (replicate 300 x61))
      = Ret (db', v)
    /\ @adb_r_blob lp64 db' v = Ret b'
    /\ blob_len b' = 300 /\ blob_bytes b' = replicate 300 x61.
Proof.
  destruct (@adb_w_blob_read_back lp64 (adb_w_init_dynamic 0 1)
              (blob_of (replicate 300 x61)) (replicate 300 x61))
    as (db' & v & b' & Hw & Hr & Hl & Hb).
  - apply tags_ok_params.
  - apply writer_ok_init_dynamic. lia.
  - reflexivity.
  - vm_compute. reflexivity.
  - vm_compute. discriminate.
  - right. split; [discriminate | vm_compute; discriminate].
  - vm_compute. discriminate.
  - exists db', v, b'. rewrite blob_bytes_blob_of in Hb. auto.
Defined.

(** X7: the root value written with adb_w_root is the one adb_r_root
    reads, and it is the last word of the arena, at an offset that is a
    multiple of 4. *)
Theorem adb_w_root_read_back `{P : adb_params} db v :
  arena_ok db -> 0 <= blob_len (mmap db) -> has_room db 8 ->
  0 <= v < 2 ^ 32 ->
  exists db',
    adb_w_root db v = Ret db' /\ adb_r_root db' = v /\
    blob_len (adb_ db') mod 4 = 0 /\
    blob_len (adb_ db) + 4 <= blob_len (adb_ db').
Proof.
  intros Ha Hm Hroom Hv. unfold adb_w_root.
  destruct (adb_w_raw_returns db [le_encode 4 v] 4 4 Ha ltac:(lia) Hm Hroom)
    as (db' & offs & Hw).
  destruct (adb_w_raw_spec db _ 4 4 Ha ltac:(lia) db' offs Hw)
    as (Ho & Hmem & Hl & Hok' & _).
  rewrite Hw. cbn [mbind outcome_bind obind]. exists db'.
  split; [reflexivity|].
  cbn [concat] in Hmem, Hl. rewrite app_nil_r in Hmem, Hl.
  rewrite length_le_encode in Hl.
  pose proof (ROUND_UP_ge (blob_len (adb_ db)) 4 ltac:(lia)) as Hge.
  pose proof (ROUND_UP_mod (blob_len (adb_ db)) 4 ltac:(lia)) as Hmod.
  pose proof (length_arena db Ha) as Hla. destruct Ha as [Ha0 _].
  split; [|split].
  - unfold adb_r_root.
    replace (blob_len (adb_ db') <? 4) with false
      by (symmetry; apply Z.ltb_ge; lia).
    rewrite Hl, Hmem, app_assoc.
    replace (offs + Z.of_nat 4 - 4) with offs by lia.
    rewrite drop_app_length'
      by (rewrite length_app; unfold zeroes; rewrite length_replicate; lia).
    rewrite take_ge by (rewrite length_le_encode; lia).
    apply le_decode_encode_4. exact Hv.
  - rewrite Hl. change (Z.of_nat 4) with (1 * 4).
    rewrite Z.mod_add by lia. subst offs. exact Hmod.
  - lia.
Qed.

(** The theorem at a database holding one byte: the root goes to offset 4. *)
Lemma adb_w_root_read_back_witness :
  exists db',
    adb_w_root (set_arena (@adb_w_init_dynamic 0 1) [x2a] 8192) 0xe0000000
      = Ret db'
    /\ @adb_r_root lp64 db' = 0xe0000000
    /\ blob_len (adb_ db') mod 4 = 0
    /\ 1 + 4 <= blob_len (adb_ db').
Proof.
  apply (@adb_w_root_read_back lp64
           (set_arena (@adb_w_init_dynamic 0 1) [x2a] 8192) 0xe0000000).
  - vm_compute. split; discriminate.
  - vm_compute. discriminate.
  - left. vm_compute. discriminate.
  - lia.
Defined.

(* ================================================================== *)
(** * A database stored as a value, and reset *)

(** X8: adb_w_adb stores the arena of another database as a BLOB_32
    holding an ADB block.  Read with adb_r_blob and parsed with adb_m_blob
    without a trust context, as wadbcmp does, the value gives the arena of
    the stored database back.  A database whose arena is no longer than
    4 bytes is not stored: the value is ADB_NULL. *)
Theorem adb_w_adb_read_back `{P : adb_params} db valdb :
  tags_ok -> arena_ok db -> 0 <= blob_len (mmap db) -> arena_ok valdb ->
  has_room db (blob_len (adb_ valdb) + 48) ->
  blob_len (adb_ db) + blob_len (adb_ valdb) + 48 <= 2 ^ 28 ->
  (blob_len (adb_ valdb) <= 4 -> adb_w_adb db valdb = Ret (db, ADB_NULL)) /\
  (4 < blob_len (adb_ valdb) ->
   exists db' v b a,
     adb_w_adb db valdb = Ret (db', v) /\ adb_r_blob db' v = Ret b /\
     adb_m_blob0 b = Ret (0, a) /\ blob_bytes (adb_ a) = arena valdb).
Proof.
  intros Htags Ha Hm Hav Hroom Hsmall.
  split.
  { intros Hle. unfold adb_w_adb.
    replace (blob_len (adb_ valdb) <=? 4) with true
      by (symmetry; apply Z.leb_le; exact Hle).
    reflexivity. }
  intros Hlen. unfold adb_w_adb.
  replace (blob_len (adb_ valdb) <=? 4) with false
    by (symmetry; apply Z.leb_gt; exact Hlen).
  pose proof (arena_not_null valdb Hav ltac:(lia)) as Hnn.
  pose proof (length_arena valdb Hav) as Hlv.
  pose proof (length_arena db Ha) as Hla.
  pose proof Ha as [Ha0 _].
  unfold APK_BLOB_IS_NULL in Hnn. unfold arena, blob_bytes in Hlv.
  pose proof Hav as [_ Hmemv]. unfold arena_mem in Hmemv.
  destruct (blob_ptr (adb_ valdb)) as [mem|] eqn:Eptr; [|discriminate].
  replace (length mem <? Z.to_nat (blob_len (adb_ valdb)))%nat with false
    by (symmetry; apply Nat.ltb_ge; lia).
  set (p := take (Z.to_nat (blob_len (adb_ valdb))) mem) in *.
  assert (Hp : arena valdb = p) by (unfold arena, blob_bytes; now rewrite Eptr).
  assert (Hfits : fits p) by (unfold fits, sizeof_adb_block; lia).
  rewrite <- Hlv.
  (* the frame is the block adb_c_block writes *)
  assert (Hframe : forall bsz,
            concat [le_encode 4 bsz;
                    le_encode 4 (type_size
                                   (adb_block_init ADB_BLOCK_ADB
                                      (Z.of_nat (length p))));
                    p;
                    zeroes (Z.to_nat (adb_block_padding
                                        (adb_block_init ADB_BLOCK_ADB
                                           (Z.of_nat (length p)))))]
            = le_encode 4 bsz ++ adb_c_block ADB_BLOCK_ADB p).
  { intros bsz. unfold adb_c_block. cbn [concat]. now rewrite app_nil_r. }
  pose proof (length_adb_c_block _ p adb_type_ok Hfits) as HL.
  destruct (block_size_bounds _ p adb_type_ok Hfits) as [Hbl _].
  pose proof (ROUND_UP_lt (adb_block_rawsize
                (adb_block_init ADB_BLOCK_ADB (Z.of_nat (length p))))
                ADB_BLOCK_ALIGNMENT eq_refl) as Hlt.
  fold (adb_block_size (adb_block_init ADB_BLOCK_ADB (Z.of_nat (length p))))
    in Hlt.
  rewrite adb_block_rawsize_init in Hlt by (auto using fits_init, adb_type_ok).
  set (L := adb_block_size (adb_block_init ADB_BLOCK_ADB (Z.of_nat (length p))))
    in *.
  unfold sizeof_adb_block, ADB_BLOCK_ALIGNMENT in *.
  assert (Hil : forall bsz,
            iovec_len [le_encode 4 bsz;
                       le_encode 4 (type_size
                                      (adb_block_init ADB_BLOCK_ADB
                                         (Z.of_nat (length p))));
                       p;
                       zeroes (Z.to_nat (adb_block_padding
                                           (adb_block_init ADB_BLOCK_ADB
                                              (Z.of_nat (length p)))))]
            = 4 + L).
  { intros bsz. rewrite iovec_len_concat, Hframe, length_app, length_le_encode.
    lia. }
  rewrite !Hil. replace (4 + L - 4) with L by lia.
  rewrite (Z.mod_small L) by lia.
  match goal with
  | |- context [adb_w_raw db ?vec ?len 4] =>
    destruct (adb_w_raw_returns db vec len 4 Ha ltac:(lia) Hm)
      as (db' & offs & Hw);
      [eapply has_room_le; [exact Hroom | lia]|];
    destruct (adb_w_raw_spec db vec len 4 Ha ltac:(lia) db' offs Hw)
      as (Ho & Hmem & Hl & Hok' & _)
  end.
  rewrite Hw. cbn [mbind outcome_bind obind].
  rewrite Hframe in Hmem, Hl. rewrite length_app, length_le_encode in Hl.
  pose proof (ROUND_UP_ge (blob_len (adb_ db)) 4 ltac:(lia)) as Hge.
  pose proof (ROUND_UP_lt (blob_len (adb_ db)) 4 ltac:(lia)) as Hlt4.
  destruct (tagged ADB_TYPE_BLOB_32 offs (blob32_tag Htags) ltac:(lia))
    as (_ & Ht & Hv).
  assert (Hdrop : drop (Z.to_nat offs) (arena_mem db')
                  = le_encode 4 L ++ adb_c_block ADB_BLOCK_ADB p).
  { rewrite Hmem, app_assoc. apply drop_app_length'.
    rewrite length_app. unfold zeroes. rewrite length_replicate. lia. }
  destruct (adb_r_blob_w_at db' (ADB_VAL ADB_TYPE_BLOB_32 offs) offs 4 L
              (adb_c_block ADB_BLOCK_ADB p)) as [Hr _]; auto; try lia.
  all: try (change (2 ^ (8 * Z.of_nat 4)) with (2 ^ 32); lia).
  { rewrite Hdrop. apply take_ge. rewrite length_app, length_le_encode. lia. }
  replace (drop (Z.to_nat (Z.of_nat 4 + offs)) (arena_mem db'))
    with (adb_c_block ADB_BLOCK_ADB p) in Hr.
  2: { replace (Z.to_nat (Z.of_nat 4 + offs)) with (Z.to_nat offs + 4)%nat by lia.
       rewrite <- drop_drop, Hdrop.
       symmetry. apply drop_app_length'. now rewrite length_le_encode. }
  destruct (blob_container unit (fun _ _ _ => 0) p [] Hfits (Forall_nil_2 _))
    as (a & Hparse & Harena).
  unfold container_blocks in Hparse. cbn [map concat] in Hparse.
  rewrite app_nil_r in Hparse.
  exists db', (ADB_VAL ADB_TYPE_BLOB_32 offs). do 2 eexists.
  split; [reflexivity|]. split.
  - unfold adb_r_blob. rewrite Ht.
    replace (ADB_TYPE_BLOB_32 =? ADB_TYPE_BLOB_8) with false
      by (symmetry; apply Z.eqb_neq;
          apply (tags_ok_neq 6 4 _ _ Htags); [reflexivity | reflexivity | lia]).
    replace (ADB_TYPE_BLOB_32 =? ADB_TYPE_BLOB_16) with false
      by (symmetry; apply Z.eqb_neq;
          apply (tags_ok_neq 6 5 _ _ Htags); [reflexivity | reflexivity | lia]).
    rewrite Z.eqb_refl. exact Hr.
  - unfold adb_m_blob0. rewrite <- HL. fold (blob_of (adb_c_block ADB_BLOCK_ADB p)).
    split; [exact Hparse|]. rewrite Hp. exact Harena.
Qed.

(** The theorem at a database of eight bytes stored into a fresh one. *)
Lemma adb_w_adb_read_back_witness :
  exists db' v b a,
    @adb_w_adb lp64 (adb_w_init_dynamic 0 1)
      (set_arena (adb_w_init_dynamic 0 1)
         [x01; x02; x03; x04; x05; x06; x07; x08] 8192) = Ret (db', v)
    /\ @adb_r_blob lp64 db' v = Ret b
    /\ adb_m_blob0 b = Ret (0, a)
    /\ blob_bytes (adb_ a) = [x01; x02; x03; x04; x05; x06; x07; x08].
Proof.
  refine (proj2 (@adb_w_adb_read_back lp64 (adb_w_init_dynamic 0 1)
           (set_arena (adb_w_init_dynamic 0 1)
              [x01; x02; x03; x04; x05; x06; x07; x08] 8192) _ _ _ _ _ _) _).
  - apply tags_ok_params.
  - vm_compute. split; discriminate.
  - vm_compute. discriminate.
  - vm_compute. split; discriminate.
  - right. split; [discriminate | vm_compute; discriminate].
  - vm_compute. discriminate.
  - vm_compute. reflexivity.
Defined.

(** X9: adb_reset leaves a well-formed, empty database: the arena has
    length 0, so there is no root, and no chain of the dedup table holds
    an entry, so the next write cannot be answered with an offset from
    before the reset: its data goes to offset 0. *)
Theorem adb_reset_empties `{P : adb_params} db vec alignment :
  writer_ok db -> 0 < alignment ->
  (alignment + iovec_len vec <= blob_len (mmap db)
   \/ (num_buckets db <> 0 /\ alignment + iovec_len vec <= 2 ^ 62)) ->
  exists db0 db1,
    adb_reset db = Ret db0 /\ writer_ok db0 /\
    blob_len (adb_ db0) = 0 /\ adb_r_root db0 = ADB_NULL /\
    hdr db0 = hdr db /\ num_buckets db0 = num_buckets db /\
    adb_w_data db0 vec alignment = Ret (db1, 0) /\ arena db1 = concat vec.
Proof.
  intros (Ha & (Hn & Hlb & Hf) & Hm) Halign Hroom. unfold adb_reset.
  replace (length (bucket db) <? Z.to_nat (num_buckets db))%nat with false
    by (symmetry; apply Nat.ltb_ge; lia).
  set (db0 := mk_adb _ _ _ _ _ _).
  assert (Hok0 : writer_ok db0).
  { split; [|split].
    - unfold arena_ok, arena_mem, db0. cbn [adb_ blob_len blob_ptr]. lia.
    - unfold buckets_ok, db0. cbn [num_buckets bucket adb_ blob_len].
      split; [exact Hn|].
      rewrite drop_ge by lia. rewrite app_nil_r, length_replicate.
      split; [reflexivity|]. apply Forall_replicate. constructor.
    - exact Hm. }
  assert (Hroom0 : has_room db0 (alignment + iovec_len vec)).
  { unfold has_room. replace (blob_len (adb_ db0)) with 0 by reflexivity.
    exact Hroom. }
  destruct (adb_w_data_returns db0 vec alignment Hok0 Halign Hroom0)
    as (db1 & offs & Hw).
  destruct (adb_w_data_spec db0 vec alignment db1 offs Hok0 Halign Hw)
    as (Hok1 & H0 & H1 & Hbytes & _ & _ & _ & _ & Hcases).
  assert (Hoffs : offs = 0 /\ blob_len (adb_ db1) = iovec_len vec).
  { pose proof (iovec_len_concat vec) as Hil.
    assert (Hlen0 : blob_len (adb_ db0) = 0) by reflexivity.
    destruct Hcases as [[-> _] | [Ho Hl]]; [lia|].
    rewrite Hlen0 in Ho. unfold ROUND_UP in Ho.
    rewrite Z.sub_0_r, Z.mod_same in Ho by lia. lia. }
  destruct Hoffs as [-> Hl1].
  exists db0, db1. repeat split; try apply Hok0; try reflexivity.
  - exact Hw.
  - rewrite arena_take, Hl1, iovec_len_concat, Nat2Z.id. exact Hbytes.
Qed.

(** The theorem at a database whose arena holds two bytes. *)
Lemma adb_reset_empties_witness :
  exists db0 db1,
    adb_reset (set_arena (adb_w_init_dynamic 0 1) [x01; x61] 8192) = Ret db0
    /\ @writer_ok lp64 db0
    /\ blob_len (adb_ db0) = 0 /\ @adb_r_root lp64 db0 = @ADB_NULL lp64
    /\ hdr db0 = mk_adb_header ADB_FORMAT_MAGIC 0 /\ num_buckets db0 = 1
    /\ @adb_w_data lp64 db0 [[x07]] 4 = Ret (db1, 0)
    /\ arena db1 = [x07].
Proof.
  apply (@adb_reset_empties lp64
           (set_arena (adb_w_init_dynamic 0 1) [x01; x61] 8192) [[x07]] 4).
  - split; [|split];
      [vm_compute; split; discriminate | | vm_compute; discriminate].
    split; [vm_compute; discriminate|]. split; [reflexivity|].
    repeat constructor.
  - lia.
  - left. vm_compute. discriminate.
Defined.

(* ================================================================== *)
(** * Dedup: the same bytes a second time *)

Lemma iovec_memcmp_ext (vec : iovec) : forall b1 b2,
  take (length (concat vec)) b1 = take (length (concat vec)) b2 ->
  iovec_memcmp vec b1 = iovec_memcmp vec b2.
Proof.
  induction vec as [|f vec IH]; intros b1 b2 H; cbn [iovec_memcmp concat] in *;
    [reflexivity|].
  rewrite length_app in H.
  assert (H1 : take (length f) b1 = take (length f) b2).
  { apply (f_equal (take (length f))) in H. rewrite !take_take in H.
    replace (length f `min` (length f + length (concat vec)))%nat
      with (length f) in H by lia.
    exact H. }
  rewrite H1. destruct (negb _); [reflexivity|]. apply IH.
  apply (f_equal (drop (length f))) in H.
  rewrite <- !take_drop_commute in H. exact H.
Qed.

Lemma iovec_memcmp_stored (vec : iovec) base :
  take (length (concat vec)) base = concat vec -> iovec_memcmp vec base = 0.
Proof.
  revert base. induction vec as [|f vec IH]; intros base H;
    cbn [iovec_memcmp concat] in *; [reflexivity|].
  rewrite length_app in H.
  assert (H1 : take (length f) base = f).
  { apply (f_equal (take (length f))) in H. rewrite take_take in H.
    replace (length f `min` (length f + length (concat vec)))%nat
      with (length f) in H by lia.
    rewrite H. apply take_app_length. }
  rewrite H1.
  replace (bytes_eqb f f) with true.
  2: { symmetry. clear. induction f as [|x f IHf]; cbn [bytes_eqb]; [reflexivity|].
       rewrite IHf, andb_true_r. apply Byte.byte_dec_lb. reflexivity. }
  cbn [negb]. apply IH.
  apply (f_equal (drop (length f))) in H.
  rewrite <- take_drop_commute, drop_app_length in H. exact H.
Qed.

Section Twice.
Context `{P : adb_params}.
Variables (db db1 : adb) (vec : iovec) (hash alignment offs : Z).
Let len := iovec_len vec.
Let e := mk_entry hash len offs.

(** The second walk reads the arena after the first call; inside the old
    arena it holds the same bytes. *)
Hypothesis Hext : forall o n : nat,
  Z.of_nat (o + n) <= blob_len (adb_ db) ->
  take n (drop o (arena_mem db1)) = take n (drop o (arena_mem db)).
Hypothesis Hlen : len <> 0.
Hypothesis Hstored :
  iovec_memcmp vec (drop (Z.to_nat offs) (arena_mem db1)) = 0.
Hypothesis Hland : Z.land offs alignment = 0.

Lemma memcmp_ext entry :
  entry_ok (blob_len (adb_ db)) entry -> e_len entry <> 0 ->
  e_len entry = len ->
  iovec_memcmp vec (drop (Z.to_nat (e_offs entry)) (arena_mem db1))
  = iovec_memcmp vec (drop (Z.to_nat (e_offs entry)) (arena_mem db)).
Proof.
  intros Hok Hne Hl. destruct (Hok Hne) as [H0 H1].
  apply iovec_memcmp_ext. apply Hext.
  unfold len in Hl. rewrite iovec_len_concat in Hl. lia.
Qed.

Lemma walk_at_new k i rest :
  walk_entries db1 vec hash len alignment k i (e :: rest) = Found offs.
Proof.
  cbn [walk_entries]. unfold e at 1 2 3 4 5 6. cbn [e_len e_hash e_offs].
  replace (len =? 0) with false by (symmetry; apply Z.eqb_neq; exact Hlen).
  rewrite !Z.eqb_refl, Hstored, Hland. reflexivity.
Qed.

Lemma walk_entries_ext entries : forall k i,
  Forall (entry_ok (blob_len (adb_ db))) entries ->
  walk_entries db1 vec hash len alignment k i entries
  = walk_entries db vec hash len alignment k i entries.
Proof.
  induction entries as [|entry entries IH]; intros k i Hf; [reflexivity|].
  inversion Hf as [|? ? Hok Hf']; subst. cbn [walk_entries].
  destruct (e_len entry =? 0) eqn:E0; [reflexivity|].
  destruct (negb (e_hash entry =? hash)); [apply IH; exact Hf'|].
  destruct (e_len entry =? len) eqn:El; cbn [andb]; [|apply IH; exact Hf'].
  zbool. rewrite (memcmp_ext entry Hok E0 El).
  destruct (_ =? 0); [reflexivity | apply IH; exact Hf'].
Qed.

Lemma walk_entries_add entries : forall k i0 k' i,
  Forall (entry_ok (blob_len (adb_ db))) entries ->
  walk_entries db vec hash len alignment k i0 entries = AddAt k' i ->
  k' = k /\ (i0 <= i)%nat /\
  walk_entries db1 vec hash len alignment k i0 (<[(i - i0)%nat := e]> entries)
  = Found offs.
Proof.
  induction entries as [|entry entries IH]; intros k i0 k' i Hf H;
    [discriminate|].
  inversion Hf as [|? ? Hok Hf']; subst. cbn [walk_entries] in H.
  assert (Hhere : AddAt k i0 = AddAt k' i ->
            k' = k /\ (i0 <= i)%nat /\
            walk_entries db1 vec hash len alignment k i0
              (<[(i - i0)%nat := e]> (entry :: entries)) = Found offs).
  { intros [= <- <-]. rewrite Nat.sub_diag. cbn [insert list_insert].
    split; [reflexivity|]. split; [lia|]. apply walk_at_new. }
  assert (Hnext : forall c : bool,
            walk_entries db vec hash len alignment k (S i0) entries = AddAt k' i ->
            (forall r, walk_entries db1 vec hash len alignment k i0
                         (entry :: r)
                       = walk_entries db1 vec hash len alignment k (S i0) r) ->
            k' = k /\ (i0 <= i)%nat /\
            walk_entries db1 vec hash len alignment k i0
              (<[(i - i0)%nat := e]> (entry :: entries)) = Found offs).
  { intros _ Hr Hskip. destruct (IH _ _ _ _ Hf' Hr) as (-> & Hle & Hw).
    split; [reflexivity|]. split; [lia|].
    replace (i - i0)%nat with (S (i - S i0)) by lia.
    cbn [insert list_insert]. rewrite Hskip. exact Hw. }
  destruct (e_len entry =? 0) eqn:E0; [exact (Hhere H)|].
  destruct (negb (e_hash entry =? hash)) eqn:Eh.
  { apply (Hnext true H). intros r. cbn [walk_entries]. now rewrite E0, Eh. }
  destruct (e_len entry =? len) eqn:El; cbn [andb] in H.
  2: { apply (Hnext true H). intros r. cbn [walk_entries].
       now rewrite E0, Eh, El. }
  destruct (iovec_memcmp vec (drop (Z.to_nat (e_offs entry)) (arena_mem db))
            =? 0) eqn:Em.
  - destruct (negb (Z.land (e_offs entry) alignment =? 0));
      [exact (Hhere H) | discriminate].
  - apply (Hnext true H). intros r. cbn [walk_entries].
    rewrite E0, Eh, El. cbn [andb]. zbool.
    rewrite (memcmp_ext entry Hok E0 El).
    replace (iovec_memcmp vec (drop (Z.to_nat (e_offs entry)) (arena_mem db))
             =? 0) with false by (symmetry; apply Z.eqb_neq; exact Em).
    reflexivity.
Qed.

Abbreviation bucket_ok :=
  (fun b : adb_w_bucket => length b = ADB_W_BUCKET_ENTRIES
                           /\ Forall (entry_ok (blob_len (adb_ db))) b).

Lemma walk_chain_add chain : forall k0 k i,
  Forall bucket_ok chain ->
  walk_chain db vec hash len alignment k0 chain = AddAt k i ->
  (k0 <= k)%nat /\
  walk_chain db1 vec hash len alignment k0
    (alter (fun b => <[i := e]> b) (k - k0)%nat chain) = Found offs.
Proof.
  induction chain as [|b chain IH]; intros k0 k i Hf H; [discriminate|].
  inversion Hf as [|? ? [_ Hb] Hf']; subst. cbn [walk_chain] in H.
  destruct (walk_entries db vec hash len alignment k0 0 b) as [o|k' i'|] eqn:E.
  - discriminate.
  - injection H as -> ->.
    destruct (walk_entries_add b _ _ _ _ Hb E) as (-> & _ & Hw).
    split; [lia|]. rewrite Nat.sub_diag. cbn [alter list_alter walk_chain].
    cbv beta. rewrite Nat.sub_0_r in Hw.
    match goal with
    | |- match ?x with _ => _ end = _ =>
      replace x with (Found offs) by (symmetry; exact Hw)
    end.
    reflexivity.
  - destruct (IH _ _ _ Hf' H) as [Hle Hw]. split; [lia|].
    replace (k - k0)%nat with (S (k - S k0)) by lia.
    cbn [alter list_alter walk_chain].
    rewrite (walk_entries_ext b _ _ Hb), E. exact Hw.
Qed.

Lemma walk_chain_next chain : forall k0,
  (0 < ADB_W_BUCKET_ENTRIES)%nat ->
  Forall bucket_ok chain ->
  walk_chain db vec hash len alignment k0 chain = NextBucket ->
  walk_chain db1 vec hash len alignment k0
    (chain ++ [<[0%nat := e]> new_bucket]) = Found offs.
Proof.
  intros k0 Hn. revert k0.
  induction chain as [|b chain IH]; intros k0 Hf H.
  - cbn [app walk_chain]. unfold new_bucket.
    destruct ADB_W_BUCKET_ENTRIES as [|n]; [lia|].
    cbn [replicate insert list_insert]. rewrite walk_at_new. reflexivity.
  - inversion Hf as [|? ? [_ Hb] Hf']; subst. cbn [walk_chain] in H.
    cbn [app walk_chain]. rewrite (walk_entries_ext b _ _ Hb).
    destruct (walk_entries db vec hash len alignment k0 0 b); try discriminate.
    apply IH; assumption.
Qed.

End Twice.



(* ================================================================== *)
(** * Vectors of values in the arena *)

Lemma load_vals_lookup k : forall mem i,
  (i < k)%nat ->
  load_vals k mem !! i = Some (le_decode (take 4 (drop (4 * i) mem))).
Proof.
  induction k as [|k IH]; intros mem i Hi; [lia|].
  cbn [load_vals]. destruct i as [|i]; [reflexivity|].
  cbn [lookup list_lookup]. rewrite IH by lia. rewrite drop_drop.
  do 4 f_equal. lia.
Qed.

Lemma length_words (l : list Z) :
  length (concat (map (le_encode 4) l)) = (4 * length l)%nat.
Proof.
  induction l as [|x l IH]; [reflexivity|].
  cbn [map concat length]. rewrite length_app, length_le_encode, IH. lia.
Qed.

Lemma take_words n : forall l : list Z,
  take (4 * n) (concat (map (le_encode 4) l))
  = concat (map (le_encode 4) (take n l)).
Proof.
  induction n as [|n IH]; intros l; [reflexivity|].
  destruct l as [|x l]; [reflexivity|].
  cbn [map concat take].
  replace (4 * S n)%nat with (length (le_encode 4 x) + 4 * n)%nat
    by (rewrite length_le_encode; lia).
  rewrite take_app_add, IH. reflexivity.
Qed.

Lemma word_at (l : list Z) : forall i x rest,
  l !! i = Some x ->
  take 4 (drop (4 * i) (concat (map (le_encode 4) l) ++ rest)) = le_encode 4 x.
Proof.
  induction l as [|y l IH]; intros i x rest Hl; [discriminate|].
  cbn [map concat]. rewrite <- app_assoc. destruct i as [|i].
  - injection Hl as ->. apply take_app_length'. now rewrite length_le_encode.
  - cbn [lookup list_lookup] in Hl.
    replace (4 * S i)%nat with (length (le_encode 4 y) + 4 * i)%nat
      by (rewrite length_le_encode; lia).
    rewrite <- drop_drop, drop_app_length. apply IH. exact Hl.
Qed.

Section ObjAt.
Context `{P : adb_params}.
Hypothesis Htags : tags_ok.

Lemma ADB_NULL_0 : ADB_NULL = 0.
Proof.
  destruct Htags as (_ & _ & H0). unfold ADB_NULL, ADB_VAL, ADB_VAL_NULL.
  rewrite H0. reflexivity.
Qed.

(** The object adb_r_obj finds behind an ARRAY or OBJECT value whose
    offset holds a vector of [n >= 1] words, the count first: it has [n]
    slots, and they read as the words. *)
Lemma adb_r_obj_at db type offs (words : list Z) rest schema :
  arena_ok db ->
  type = ADB_TYPE_OBJECT \/ type = ADB_TYPE_ARRAY ->
  0 <= offs < 2 ^ 28 ->
  drop (Z.to_nat offs) (arena_mem db)
  = concat (map (le_encode 4) words) ++ rest ->
  offs + 4 * Z.of_nat (length words) <= blob_len (adb_ db) ->
  words !! 0%nat = Some (Z.of_nat (length words)) ->
  Forall (fun x => 0 <= x < 2 ^ 32) words ->
  exists ro,
    adb_r_obj db (ADB_VAL type offs) schema = Ret ro /\
    o_num ro = Z.of_nat (length words) /\ o_db ro = db /\
    o_schema ro = schema /\
    forall i x, words !! i = Some x -> adb_ro_val ro (Z.of_nat i) = Ret x.
Proof.
  intros Ha Hty Ho Hmem Hin H0 Hw.
  assert (Htag : is_tag type)
    by (destruct Hty as [-> | ->]; [apply object_tag | apply array_tag];
        exact Htags).
  destruct (tagged type offs Htag Ho) as (_ & Ht & Hv).
  assert (Hn : (1 <= length words)%nat)
    by (destruct words; [discriminate | cbn [length]; lia]).
  assert (Hnull : APK_BLOB_IS_NULL (adb_ db) = false)
    by (apply arena_not_null; [exact Ha | lia]).
  assert (Hword : forall i x, words !! i = Some x ->
            le_decode (take 4 (drop (4 * i) (drop (Z.to_nat offs) (arena_mem db))))
            = x).
  { intros i x Hi. rewrite Hmem, (word_at words i x rest Hi).
    apply le_decode_encode_4.
    rewrite Forall_forall in Hw. apply Hw.
    eapply list_elem_of_lookup_2; exact Hi. }
  unfold adb_r_obj, adb_r_deref. rewrite Ht, Hv.
  replace (negb (type =? ADB_TYPE_ARRAY) && negb (type =? ADB_TYPE_OBJECT))
    with false
    by (destruct Hty as [-> | ->]; rewrite Z.eqb_refl; cbn [negb andb];
        [now rewrite andb_false_r | reflexivity]).
  unfold ADBI_NUM_ENTRIES. rewrite Z.mul_0_r, Z.add_0_l, Z.add_0_r.
  replace (offs >? blob_len (adb_ db)) with false
    by (symmetry; rewrite Z.gtb_ltb; apply Z.ltb_ge; lia).
  rewrite Hnull. unfold load.
  assert (Hlen4 : length (take 4 (drop (Z.to_nat offs) (arena_mem db))) = 4%nat).
  { rewrite Hmem, length_take, length_app, length_words. lia. }
  rewrite Hlen4. cbn [Nat.eqb mbind outcome_bind obind].
  specialize (Hword 0%nat _ H0) as Hcount.
  change (4 * 0)%nat with 0%nat in Hcount. rewrite drop_0 in Hcount.
  rewrite Hcount.
  replace (offs + 4 * Z.of_nat (length words) >? blob_len (adb_ db)) with false
    by (symmetry; rewrite Z.gtb_ltb; apply Z.ltb_ge; lia).
  eexists. split; [reflexivity|]. cbn [o_num o_db o_schema].
  split; [reflexivity|]. split; [reflexivity|]. split; [reflexivity|].
  intros i x Hi. pose proof (lookup_lt_Some _ _ _ Hi) as Hlt.
  unfold adb_ro_val, obj_slot. cbn [o_num o_obj].
  replace (Z.of_nat i >=? Z.of_nat (length words)) with false
    by (symmetry; rewrite Z.geb_leb; apply Z.leb_gt; lia).
  rewrite Nat2Z.id. unfold vals_at.
  rewrite load_vals_lookup.
  - rewrite (Hword i x Hi). reflexivity.
  - rewrite Hmem, length_app, length_words.
    apply Nat.div_le_lower_bound; lia.
Qed.

End ObjAt.

(* ================================================================== *)
(** * Object builders *)

Section BuilderFacts.
Context `{P : adb_params}.
Hypothesis Htags : tags_ok.

Lemma trim_spec obj : forall n m,
  trim n obj = Ret m ->
  (m <= n)%nat /\ ((1 <= n)%nat -> (1 <= m)%nat) /\
  (forall j, (m <= j < n)%nat -> obj !! j = Some ADB_NULL).
Proof.
  induction n as [|n IH]; intros m H; cbn [trim] in H.
  - injection H as <-. repeat split; intros; lia.
  - destruct (n =? 0)%nat eqn:E0.
    { injection H as <-. repeat split; intros; lia. }
    apply Nat.eqb_neq in E0.
    destruct (obj !! n) as [x|] eqn:Ex; [|discriminate].
    destruct (x =? ADB_NULL) eqn:Enull.
    + apply Z.eqb_eq in Enull. subst x.
      destruct (IH _ H) as (Hle & H1 & Hz).
      split; [lia|]. split; [intros _; apply H1; lia|].
      intros j Hj. destruct (Nat.eq_dec j n) as [->|Hne]; [exact Ex|].
      apply Hz. lia.
    + injection H as <-. repeat split; intros; lia.
Qed.

Lemma trim_returns obj : forall n,
  (n <= length obj)%nat -> exists m, trim n obj = Ret m.
Proof.
  induction n as [|n IH]; intros Hn; cbn [trim]; [eauto|].
  destruct (n =? 0)%nat; [eauto|].
  destruct (lookup_lt_is_Some_2 obj n ltac:(lia)) as [x ->].
  destruct (x =? ADB_NULL); [apply IH; lia | eauto].
Qed.

Lemma cleared_ok (o : adb_obj) db vec max :
  o_obj o = Some vec -> vec !! 0%nat = Some max ->
  Z.of_nat (length vec) = max -> 1 <= o_num o <= max ->
  (forall j, (Z.to_nat (o_num o) <= j < length vec)%nat -> vec !! j = Some 0) ->
  Forall (fun x => 0 <= x < 2 ^ 32) vec ->
  builder_ok (mk_adb_obj (o_schema o) db 1
                (Some (cleared max (Z.to_nat (o_num o)) vec))).
Proof.
  intros Hobj H0 Hlen Hnum Hzero Hrange.
  assert (Hl : length (cleared max (Z.to_nat (o_num o)) vec) = length vec).
  { unfold cleared. rewrite length_insert, length_app, length_replicate,
      length_drop. lia. }
  assert (Hmax : 0 <= max < 2 ^ 32).
  { rewrite Forall_forall in Hrange. apply Hrange.
    eapply list_elem_of_lookup_2; exact H0. }
  exists (cleared max (Z.to_nat (o_num o)) vec), max. cbn [o_obj o_num].
  split; [reflexivity|]. split.
  { unfold cleared. apply list_lookup_insert_eq.
    rewrite length_app, length_replicate. lia. }
  split; [lia|]. split; [lia|]. split.
  - intros j Hj. rewrite Hl in Hj. unfold cleared.
    rewrite list_lookup_insert_ne by lia.
    destruct (Nat.lt_ge_cases j (Z.to_nat (o_num o))) as [Hlt | Hge].
    + rewrite lookup_app_l by (rewrite length_replicate; lia).
      apply lookup_replicate. split; [reflexivity | lia].
    + rewrite lookup_app_r by (rewrite length_replicate; lia).
      rewrite length_replicate, lookup_drop.
      replace (Z.to_nat (o_num o) + (j - Z.to_nat (o_num o)))%nat with j by lia.
      apply Hzero. lia.
  - unfold cleared. apply Forall_insert; [|exact Hmax].
    apply Forall_app. split.
    + apply Forall_replicate. lia.
    + apply Forall_drop. exact Hrange.
Qed.

Lemma cleared_reads (o : adb_obj) db vec max i :
  1 <= i ->
  adb_ro_val (mk_adb_obj (o_schema o) db 1
                (Some (cleared max (Z.to_nat (o_num o)) vec))) i
  = Ret ADB_NULL.
Proof.
  intros Hi. unfold adb_ro_val. cbn [o_num].
  replace (i >=? 1) with true by (symmetry; rewrite Z.geb_leb; apply Z.leb_le; lia).
  reflexivity.
Qed.

Lemma adb_wo_reset_spec (o : adb_obj) vec m0 :
  o_obj o = Some vec -> vec !! 0%nat = Some m0 ->
  (Z.to_nat (o_num o) <= length vec)%nat ->
  adb_wo_reset o
  = Ret (mk_adb_obj (o_schema o) (o_db o) 1
           (Some (cleared m0 (Z.to_nat (o_num o)) vec))).
Proof.
  intros Hobj H0 Hn. unfold adb_wo_reset, obj_slot, ADBI_NUM_ENTRIES.
  rewrite Hobj. change (Z.to_nat 0) with 0%nat. rewrite H0.
  cbn [mbind outcome_bind obind].
  replace (length vec <? Z.to_nat (o_num o))%nat with false
    by (symmetry; apply Nat.ltb_ge; exact Hn).
  reflexivity.
Qed.

Lemma cleared_twice max m0 num vec :
  (1 <= num <= length vec)%nat ->
  <[0%nat := max]> (cleared m0 num (<[0%nat := m0]> vec)) = cleared max num vec.
Proof.
  intros Hn. unfold cleared. rewrite list_insert_insert_eq.
  do 2 f_equal. destruct num as [|num]; [lia|].
  destruct vec as [|x vec]; reflexivity.
Qed.

Lemma cleared_again max num vec :
  <[0%nat := max]> (cleared max num vec) = cleared max num vec.
Proof. unfold cleared. apply list_insert_insert_eq. Qed.

End BuilderFacts.

(** ** Capacity after a write *)

Lemma adb_w_raw_cap db vec len alignment db' offs :
  0 <= blob_len (mmap db) ->
  adb_w_raw db vec len alignment = Ret (db', offs) ->
  blob_len (mmap db) <= blob_len (mmap db').
Proof.
  intros Hm H. unfold adb_w_raw in H.
  match type of H with
  | (?m ≫= _) = _ => destruct m as [cap|] eqn:Ecap; [|discriminate]
  end.
  cbn [mbind outcome_bind obind] in H. injection H as <- <-.
  unfold set_arena. cbn [mmap blob_len].
  destruct (_ >? _) in Ecap; [|injection Ecap as <-; lia].
  destruct (num_buckets db =? 0); [discriminate|].
  apply grow_ge in Ecap; destruct (blob_len (mmap db) =? 0) eqn:E; zbool; lia.
Qed.

Lemma adb_w_data_cap `{P : adb_params} db vec alignment db' offs :
  0 <= blob_len (mmap db) ->
  adb_w_data db vec alignment = Ret (db', offs) ->
  blob_len (mmap db) <= blob_len (mmap db').
Proof.
  intros Hm H. unfold adb_w_data in H.
  destruct (num_buckets db =? 0); [eapply adb_w_raw_cap; eauto|].
  destruct (iovec_hash vec) as [hash len].
  destruct (bucket db !! _) as [chain|]; [|discriminate].
  destruct (walk_chain _ _ _ _ _ _ _).
  - injection H as <- <-. lia.
  - destruct (adb_w_raw _ _ _ _) as [[db1 o]|] eqn:Er; [|discriminate].
    cbn [mbind outcome_bind obind] in H. injection H as <- <-.
    apply adb_w_raw_cap in Er; [|exact Hm]. exact Er.
  - destruct (adb_w_raw _ _ _ _) as [[db1 o]|] eqn:Er; [|discriminate].
    cbn [mbind outcome_bind obind] in H. injection H as <- <-.
    apply adb_w_raw_cap in Er; [|exact Hm]. exact Er.
Qed.

(** Room left after adb_w_data has taken its share. *)
Lemma has_room_after `{P : adb_params} db vec alignment db' offs m :
  writer_ok db -> 0 < alignment -> 0 <= m ->
  adb_w_data db vec alignment = Ret (db', offs) ->
  has_room db (alignment + iovec_len vec + m) ->
  has_room db' m.
Proof.
  intros Hok Ha Hm Hw Hroom.
  destruct (adb_w_data_spec db vec alignment db' offs Hok Ha Hw)
    as (_ & _ & _ & _ & _ & _ & Hnb & _ & Hcases).
  pose proof (adb_w_data_cap db vec alignment db' offs (proj2 (proj2 Hok)) Hw)
    as Hcap.
  pose proof (iovec_len_concat vec) as Hil.
  assert (Hlen : blob_len (adb_ db') + m
                 <= blob_len (adb_ db) + (alignment + iovec_len vec + m)).
  { destruct Hcases as [[-> _] | [Ho Hl]]; [lia|].
    pose proof (ROUND_UP_lt (blob_len (adb_ db)) alignment Ha). lia. }
  unfold has_room in *. rewrite Hnb.
  destruct Hroom as [Hr | [Hd Hr]]; [left | right; split]; auto; lia.
Qed.


Section Commit.
Context `{P : adb_params}.
Variable pre : adb_schema -> option (adb_obj -> outcome adb_obj).
Hypothesis Htags : tags_ok.

(** What __adb_w_obj returns and leaves, for a schema without a
    pre-commit hook. *)
Lemma w_obj_spec o type :
  builder_ok o -> writer_ok (o_db o) ->
  (forall s, o_schema o = Some s -> pre s = None) ->
  type = ADB_TYPE_OBJECT \/ type = ADB_TYPE_ARRAY ->
  has_room (o_db o) (4 * o_num o + 4) ->
  blob_len (adb_ (o_db o)) + 4 * o_num o + 4 <= 2 ^ 28 ->
  exists o' v,
    __adb_w_obj pre o type = Ret (o', v) /\
    builder_ok o' /\ o_num o' = 1 /\ o_schema o' = o_schema o /\
    obj_slot o' 0 = obj_slot o 0 /\
    (forall i, 1 <= i -> adb_ro_val o' i = Ret ADB_NULL) /\
    writer_ok (o_db o') /\
    (exists suffix, arena (o_db o') = arena (o_db o) ++ suffix) /\
    hdr (o_db o') = hdr (o_db o) /\
    (forall m, 0 <= m -> has_room (o_db o) (4 * o_num o + 4 + m) ->
               has_room (o_db o') m) /\
    ((v = ADB_NULL /\ o_db o' = o_db o /\
      forall i, 1 <= i -> adb_ro_val o i = Ret ADB_NULL) \/
     (exists offs words,
        v = ADB_VAL type offs /\ 0 <= offs < 2 ^ 28 /\
        take (4 * length words) (drop (Z.to_nat offs) (arena_mem (o_db o')))
        = concat (map (le_encode 4) words) /\
        offs + 4 * Z.of_nat (length words) <= blob_len (adb_ (o_db o')) /\
        words !! 0%nat = Some (Z.of_nat (length words)) /\
        Forall (fun x => 0 <= x < 2 ^ 32) words /\
        (2 <= length words)%nat /\
        forall i, 1 <= i ->
          adb_ro_val o i
          = Ret (match words !! Z.to_nat i with
                 | Some x => x
                 | None => ADB_NULL
                 end))).
Proof.
  intros Hb Hok Hpre Hty Hroom Hsmall.
  pose proof Hb as (vec & max & Hobj & H0 & Hlen & Hnum & Hzero & Hrange).
  pose proof ADB_NULL_0 Htags as Hnull.
  assert (Hslot : obj_slot o 0 = Ret max).
  { unfold obj_slot. rewrite Hobj. change (Z.to_nat 0) with 0%nat.
    rewrite H0. reflexivity. }
  unfold __adb_w_obj, ADBI_NUM_ENTRIES. rewrite Hslot.
  cbn [mbind outcome_bind obind].
  assert (Hpc : pre_commit pre o = Ret o).
  { unfold pre_commit. destruct (o_schema o) as [s|] eqn:Es; [|reflexivity].
    rewrite (Hpre s eq_refl). reflexivity. }
  rewrite Hpc. cbn [mbind outcome_bind obind]. rewrite Hobj.
  destruct (trim_returns vec (Z.to_nat (o_num o)) ltac:(lia)) as [n Hn].
  rewrite Hn. cbn [mbind outcome_bind obind].
  destruct (trim_spec vec _ _ Hn) as (Hle & Hge1 & Hz).
  specialize (Hge1 ltac:(lia)).
  (* how the builder reads, from the trimmed vector *)
  assert (Hread : forall i, 1 <= i ->
            adb_ro_val o i
            = Ret (match take n (<[0%nat := Z.of_nat n]> vec) !! Z.to_nat i with
                   | Some x => x
                   | None => ADB_NULL
                   end)).
  { intros i Hi. unfold adb_ro_val, obj_slot. rewrite Hobj.
    destruct (Nat.lt_ge_cases (Z.to_nat i) n) as [Hlt | Hge].
    - replace (i >=? o_num o) with false
        by (symmetry; rewrite Z.geb_leb; apply Z.leb_gt; lia).
      rewrite lookup_take_lt by lia.
      rewrite list_lookup_insert_ne by lia.
      destruct (lookup_lt_is_Some_2 vec (Z.to_nat i) ltac:(lia)) as [x ->].
      reflexivity.
    - rewrite lookup_take_ge by lia.
      destruct (i >=? o_num o) eqn:E; [reflexivity|].
      rewrite Z.geb_leb in E. apply Z.leb_gt in E.
      rewrite (Hz (Z.to_nat i)) by lia. reflexivity. }
  destruct (1 <? n)%nat eqn:E1.
  - (* something to write *)
    apply Nat.ltb_lt in E1.
    set (obj' := <[0%nat := Z.of_nat n]> vec) in *.
    assert (Hl' : length obj' = length vec) by apply length_insert.
    set (words := take n obj').
    assert (Hlw : length words = n)
      by (unfold words; rewrite length_take; lia).
    assert (Hbytes : take (Z.to_nat (4 * Z.of_nat n))
                       (concat (map (le_encode 4) obj'))
                     = concat (map (le_encode 4) words)).
    { replace (Z.to_nat (4 * Z.of_nat n)) with (4 * n)%nat by lia.
      apply take_words. }
    unfold adb_w_data1.
    replace (length (concat (map (le_encode 4) obj'))
             <? Z.to_nat (4 * Z.of_nat n))%nat with false
      by (symmetry; apply Nat.ltb_ge; rewrite length_words; lia).
    rewrite Hbytes.
    assert (Hil : iovec_len [concat (map (le_encode 4) words)]
                  = 4 * Z.of_nat n).
    { rewrite iovec_len_concat. cbn [concat].
      rewrite app_nil_r, length_words, Hlw. lia. }
    destruct (adb_w_data_returns (o_db o) [concat (map (le_encode 4) words)] 4
                Hok ltac:(lia)) as (db1 & offs & Hw).
    { rewrite Hil. eapply has_room_le; [exact Hroom | lia]. }
    destruct (adb_w_data_spec (o_db o) _ 4 db1 offs Hok ltac:(lia) Hw)
      as (Hok1 & Ho0 & Ho1 & Hstored & Hsuf & Hh & _ & _ & Hcases).
    rewrite Hw. cbn [mbind outcome_bind obind].
    pose proof Hil as Hil'.
    rewrite Hil in Ho1, Hcases. cbn [concat] in Hstored.
    rewrite app_nil_r, length_words, Hlw in Hstored.
    assert (Hb1 : blob_len (adb_ db1) <= 2 ^ 28).
    { destruct Hcases as [[-> _] | [Ho Hl]]; [lia|].
      pose proof (ROUND_UP_lt (blob_len (adb_ (o_db o))) 4 ltac:(lia)). lia. }
    rewrite (adb_wo_reset_spec _ obj' (Z.of_nat n));
      [| reflexivity
       | apply list_lookup_insert_eq; lia
       | cbn [set_o_db set_o_obj o_num]; lia].
    cbn [mbind outcome_bind obind o_obj set_o_obj set_o_db o_schema o_db o_num].
    unfold obj'. rewrite cleared_twice by lia.
    exists (mk_adb_obj (o_schema o) db1 1
              (Some (cleared max (Z.to_nat (o_num o)) vec))),
           (ADB_VAL type offs).
    split; [reflexivity|].
    split; [apply (cleared_ok o db1 vec max); assumption|].
    split; [reflexivity|]. split; [reflexivity|].
    split.
    { unfold obj_slot. cbn [set_o_obj o_obj].
      change (Z.to_nat 0) with 0%nat.
      unfold cleared. rewrite list_lookup_insert_eq
        by (rewrite length_app, length_replicate; lia).
      reflexivity. }
    split; [intros i Hi; apply cleared_reads; exact Hi|].
    split; [exact Hok1|]. split; [exact Hsuf|]. split; [exact Hh|].
    split.
    { intros m Hm Hr. cbn [o_db].
      apply (has_room_after (o_db o) [concat (map (le_encode 4) words)] 4
               db1 offs m Hok ltac:(lia) Hm Hw).
      rewrite Hil'. eapply has_room_le; [exact Hr | lia]. }
    right. exists offs, words. rewrite Hlw. cbn [o_db].
    split; [reflexivity|]. split; [lia|]. split; [exact Hstored|].
    split; [lia|]. split.
    { unfold words, obj'. rewrite lookup_take_lt by lia.
      apply list_lookup_insert_eq. lia. }
    split.
    { unfold words, obj'. apply Forall_take. apply Forall_insert; [exact Hrange|].
      lia. }
    split; [lia|]. exact Hread.
  - (* every field is ADB_NULL: nothing is written *)
    apply Nat.ltb_ge in E1. cbn [mbind outcome_bind obind].
    rewrite (adb_wo_reset_spec o vec max Hobj H0 ltac:(lia)).
    cbn [mbind outcome_bind obind o_obj].
    rewrite cleared_again.
    exists (mk_adb_obj (o_schema o) (o_db o) 1
              (Some (cleared max (Z.to_nat (o_num o)) vec))),
           ADB_NULL.
    split; [reflexivity|].
    split; [apply (cleared_ok o (o_db o) vec max); assumption|].
    split; [reflexivity|]. split; [reflexivity|].
    split.
    { unfold obj_slot. cbn [set_o_obj o_obj].
      change (Z.to_nat 0) with 0%nat.
      unfold cleared. rewrite list_lookup_insert_eq
        by (rewrite length_app, length_replicate; lia).
      reflexivity. }
    split; [intros i Hi; apply cleared_reads; exact Hi|].
    split; [exact Hok|]. split; [exists []; now rewrite app_nil_r|].
    split; [reflexivity|].
    split; [intros m Hm Hr; cbn [o_db]; eapply has_room_le; [exact Hr | lia]|].
    left. split; [reflexivity|]. split; [reflexivity|].
    intros i Hi. rewrite (Hread i Hi).
    rewrite lookup_take_ge by lia. reflexivity.
Qed.

End Commit.

(** ** The root value *)

Lemma adb_w_root_spec `{P : adb_params} db v :
  arena_ok db -> 0 <= blob_len (mmap db) -> has_room db 8 ->
  0 <= v < 2 ^ 32 ->
  exists db' offs,
    adb_w_root db v = Ret db' /\ adb_r_root db' = v /\ arena_ok db' /\
    offs = ROUND_UP (blob_len (adb_ db)) 4 /\
    blob_len (adb_ db') = offs + 4 /\
    arena_mem db'
    = arena db ++ zeroes (Z.to_nat (offs - blob_len (adb_ db)))
      ++ le_encode 4 v /\
    hdr db' = hdr db.
Proof.
  intros Ha Hm Hroom Hv. unfold adb_w_root.
  destruct (adb_w_raw_returns db [le_encode 4 v] 4 4 Ha ltac:(lia) Hm Hroom)
    as (db' & offs & Hw).
  destruct (adb_w_raw_spec db _ 4 4 Ha ltac:(lia) db' offs Hw)
    as (Ho & Hmem & Hl & Hok' & _ & _ & Hh & _).
  rewrite Hw. cbn [mbind outcome_bind obind]. exists db', offs.
  split; [reflexivity|].
  cbn [concat] in Hmem, Hl. rewrite app_nil_r in Hmem, Hl.
  rewrite length_le_encode in Hl.
  pose proof (ROUND_UP_ge (blob_len (adb_ db)) 4 ltac:(lia)) as Hge.
  pose proof (length_arena db Ha) as Hla. destruct Ha as [Ha0 _].
  split; [|split; [exact Hok'|]; split; [exact Ho|]; split; [lia|];
           split; [exact Hmem | exact Hh]].
  unfold adb_r_root.
  replace (blob_len (adb_ db') <? 4) with false
    by (symmetry; apply Z.ltb_ge; lia).
  rewrite Hl, Hmem, app_assoc.
  replace (offs + Z.of_nat 4 - 4) with offs by lia.
  rewrite drop_app_length'
    by (rewrite length_app; unfold zeroes; rewrite length_replicate; lia).
  rewrite take_ge by (rewrite length_le_encode; lia).
  apply le_decode_encode_4. exact Hv.
Qed.

(* ================================================================== *)
(** * Objects committed and read back *)

Section CommitRead.
Context `{P : adb_params}.
Variable pre : adb_schema -> option (adb_obj -> outcome adb_obj).
Hypothesis Htags : tags_ok.

(** Reading a value that __adb_w_obj returned, from the database it left
    or from one whose arena extends that arena. *)
Lemma committed_reads o db v schema :
  arena_ok db ->
  (v = ADB_NULL /\ forall i, 1 <= i -> adb_ro_val o i = Ret ADB_NULL) \/
  (exists type offs words,
     (type = ADB_TYPE_OBJECT \/ type = ADB_TYPE_ARRAY) /\
     v = ADB_VAL type offs /\ 0 <= offs < 2 ^ 28 /\
     take (4 * length words) (drop (Z.to_nat offs) (arena_mem db))
     = concat (map (le_encode 4) words) /\
     offs + 4 * Z.of_nat (length words) <= blob_len (adb_ db) /\
     words !! 0%nat = Some (Z.of_nat (length words)) /\
     Forall (fun x => 0 <= x < 2 ^ 32) words /\
     forall i, 1 <= i ->
       adb_ro_val o i
       = Ret (match words !! Z.to_nat i with
              | Some x => x
              | None => ADB_NULL
              end)) ->
  exists ro,
    adb_r_obj db v schema = Ret ro /\
    forall i, 1 <= i -> adb_ro_val ro i = adb_ro_val o i.
Proof.
  intros Ha [[-> Hnull] | (type & offs & words & Hty & -> & Ho & Hbytes & Hin
                           & H0 & Hrange & Hread)].
  - exists (adb_r_obj_err db schema). split.
    + unfold adb_r_obj. rewrite (ADB_NULL_0 Htags).
      change (ADB_VAL_TYPE 0) with 0.
      destruct Htags as (_ & Hnd & Hs).
      replace (0 =? ADB_TYPE_ARRAY) with false
        by (symmetry; apply Z.eqb_neq; rewrite <- Hs;
            apply (tags_ok_neq 0 7 _ _ Htags); [reflexivity | reflexivity | lia]).
      replace (0 =? ADB_TYPE_OBJECT) with false
        by (symmetry; apply Z.eqb_neq; rewrite <- Hs;
            apply (tags_ok_neq 0 8 _ _ Htags); [reflexivity | reflexivity | lia]).
      reflexivity.
    + intros i Hi. rewrite (Hnull i Hi). unfold adb_ro_val, adb_r_obj_err.
      cbn [o_num].
      replace (i >=? 1) with true
        by (symmetry; rewrite Z.geb_leb; apply Z.leb_le; lia).
      reflexivity.
  - destruct (adb_r_obj_at Htags db type offs words
                (drop (4 * length words) (drop (Z.to_nat offs) (arena_mem db)))
                schema Ha Hty Ho)
      as (ro & Hr & Hnum & _ & _ & Hslots); auto.
    { rewrite <- Hbytes. symmetry. apply take_drop. }
    exists ro. split; [exact Hr|].
    intros i Hi. rewrite (Hread i Hi).
    destruct (words !! Z.to_nat i) as [x|] eqn:Ex.
    + rewrite <- (Hslots _ _ Ex). f_equal. lia.
    + apply lookup_ge_None in Ex. unfold adb_ro_val. rewrite Hnum.
      replace (i >=? Z.of_nat (length words)) with true
        by (symmetry; rewrite Z.geb_leb; apply Z.leb_le; lia).
      reflexivity.
Qed.

End CommitRead.


Lemma builder_7_ok : builder_ok builder_7.
Proof.
  exists [3; 0x10000007; 0], 3. cbn [builder_7 o_obj o_num].
  split; [reflexivity|]. split; [reflexivity|]. split; [reflexivity|].
  split; [lia|]. split.
  - intros j Hj. change (Z.to_nat 2) with 2%nat in Hj. cbn [length] in Hj.
    replace j with 2%nat by lia. reflexivity.
  - repeat constructor; lia.
Qed.


(** X11: adb_w_rootobj commits the builder and makes the value the root
    of the database; adb_r_rootobj then finds the object, and every field
    reads from it as it read in the builder. *)
Theorem adb_w_rootobj_read_back `{P : adb_params}
    (pre : adb_schema -> option (adb_obj -> outcome adb_obj))
    (o : adb_obj) (schema : option adb_schema) :
  tags_ok -> builder_ok o -> writer_ok (o_db o) ->
  (forall s, o_schema o = Some s -> pre s = None) ->
  has_room (o_db o) (4 * o_num o + 12) ->
  blob_len (adb_ (o_db o)) + 4 * o_num o + 12 <= 2 ^ 28 ->
  exists o' ro,
    adb_w_rootobj pre o = Ret o' /\
    adb_r_rootobj (o_db o') schema = Ret ro /\
    (forall i, 1 <= i -> adb_ro_val ro i = adb_ro_val o i).
Proof.
  intros Htags Hb Hok Hpre Hroom Hsmall.
  destruct (w_obj_spec pre Htags o ADB_TYPE_OBJECT Hb Hok Hpre
              (or_introl eq_refl))
    as (o1 & v & Hw & _ & _ & _ & _ & _ & Hok1 & _ & _ & Hroom1 & Hcases);
    [eapply has_room_le; [exact Hroom | lia] | lia |].
  assert (Hv : 0 <= v < 2 ^ 32).
  { destruct Hcases as [(-> & _) | (offs & words & -> & _)].
    - rewrite (ADB_NULL_0 Htags). lia.
    - unfold ADB_VAL. apply Z.mod_pos_bound. lia. }
  destruct Hok1 as (Ha1 & Hbk1 & Hm1).
  destruct (adb_w_root_spec (o_db o1) v Ha1 Hm1) as
    (db2 & roffs & Hroot & Hrr & Ha2 & Hro & Hl2 & Hmem2 & _); [|exact Hv|].
  { apply Hroom1; [lia|]. eapply has_room_le; [exact Hroom | lia]. }
  unfold adb_w_rootobj, adb_w_obj. rewrite Hw.
  cbn [mbind outcome_bind obind]. rewrite Hroot.
  cbn [mbind outcome_bind obind].
  exists (set_o_db o1 db2). cbn [set_o_db o_db].
  unfold adb_r_rootobj. rewrite Hrr.
  destruct (committed_reads Htags o db2 v schema Ha2) as (ro & Hr & Hreads);
    [|exists ro; auto].
  destruct Hcases as [(-> & _ & Hnull) | (offs & words & Hrest)];
    [left; auto|].
  right. exists ADB_TYPE_OBJECT, offs, words.
  destruct Hrest as (Hvv & Ho & Hbytes & Hin & H0 & Hrange & _ & Hread).
  pose proof (ROUND_UP_ge (blob_len (adb_ (o_db o1))) 4 ltac:(lia)) as Hge.
  pose proof (length_arena (o_db o1) Ha1) as Hla.
  repeat split; auto; try lia.
  rewrite <- Hbytes, <- (take_drop_arena (o_db o1)) by lia.
  rewrite Hmem2, !take_drop_commute. f_equal.
  apply take_app_le. lia.
Qed.

(** The theorem at the builder with field 1 set to 7. *)
Lemma adb_w_rootobj_read_back_witness :
  exists o' ro,
    @adb_w_rootobj lp64 (fun _ => None) builder_7 = Ret o' /\
    @adb_r_rootobj lp64 (o_db o') (Some one_int_schema) = Ret ro /\
    (forall i, 1 <= i ->
       @adb_ro_val lp64 ro i = @adb_ro_val lp64 builder_7 i).
Proof.
  apply (@adb_w_rootobj_read_back lp64 (fun _ => None) builder_7
           (Some one_int_schema)).
  - apply tags_ok_params.
  - exact builder_7_ok.
  - apply writer_ok_init_dynamic. lia.
  - reflexivity.
  - right. split; [discriminate | vm_compute; discriminate].
  - vm_compute. discriminate.
Defined.

(* ================================================================== *)
(** * Fields of a builder *)

Section Fields.
Context `{P : adb_params}.
Hypothesis Htags : tags_ok.

Lemma not_error_tag t x :
  is_tag t -> t <> ADB_TYPE_ERROR -> 0 <= x < 2 ^ 28 ->
  ADB_IS_ERROR (ADB_VAL t x) = false /\ ADB_VAL t x <> ADB_NULL
  \/ t = ADB_TYPE_SPECIAL.
Proof.
  intros Ht Hne Hx.
  destruct (Z.eq_dec t ADB_TYPE_SPECIAL) as [->|Hs]; [right; reflexivity|].
  left. destruct (tagged t x Ht Hx) as (Hv & Hty & _).
  split.
  - unfold ADB_IS_ERROR. rewrite Hty. apply Z.eqb_neq. exact Hne.
  - rewrite (ADB_NULL_0 Htags), Hv.
    destruct (is_tag_mod t Ht) as [_ Hr].
    destruct Htags as (_ & _ & H0). lia.
Qed.

(** What adb_w_int returns: a value that is neither an error nor
    ADB_NULL, and reads back as the integer (for an INT_32 under the
    condition on the size of a pointer). *)
Lemma adb_w_int_spec db val :
  writer_ok db -> has_room db 8 ->
  blob_len (adb_ db) + 8 <= 2 ^ 28 ->
  0 <= val < 2 ^ 32 ->
  exists db' v,
    adb_w_int db val = Ret (db', v) /\ writer_ok db' /\
    0 <= v < 2 ^ 32 /\ ADB_IS_ERROR v = false /\ v <> ADB_NULL /\
    (val < 0x10000000 \/ sizeof_ptr <= 4 -> adb_r_int db' v = val) /\
    (val < 0x10000000 -> db' = db) /\
    (forall m, 0 <= m -> has_room db (8 + m) -> has_room db' m) /\
    blob_len (adb_ db') <= blob_len (adb_ db) + 8.
Proof.
  intros Hok Hroom Hsmall Hval. unfold adb_w_int.
  assert (Hrange : forall t x, 0 <= ADB_VAL t x < 2 ^ 32)
    by (intros; unfold ADB_VAL; apply Z.mod_pos_bound; lia).
  destruct (val >=? 0x10000000) eqn:E.
  - unfold adb_w_data1. rewrite length_le_encode.
    change (4 <? Z.to_nat 4)%nat with false. cbv iota.
    change (Z.to_nat 4) with 4%nat.
    rewrite take_ge by (rewrite length_le_encode; lia).
    assert (Hlen : iovec_len [le_encode 4 val] = 4)
      by (rewrite iovec_len_concat; cbn [concat]; rewrite app_nil_r,
            length_le_encode; reflexivity).
    destruct (adb_w_data_returns db [le_encode 4 val] 4 Hok ltac:(lia))
      as (db' & offs & Hw); [rewrite Hlen; exact Hroom|].
    destruct (adb_w_data_spec db _ 4 db' offs Hok ltac:(lia) Hw)
      as (Hok' & H0 & H1 & Hbytes & _ & _ & _ & _ & Hcases).
    rewrite Hw. cbn [mbind outcome_bind obind].
    exists db', (ADB_VAL ADB_TYPE_INT_32 offs).
    split; [reflexivity|]. split; [exact Hok'|]. split; [apply Hrange|].
    rewrite Hlen in H1, Hcases. cbn [concat] in Hbytes.
    rewrite app_nil_r, length_le_encode in Hbytes.
    assert (Hb : blob_len (adb_ db') <= blob_len (adb_ db) + 8).
    { destruct Hcases as [[-> _] | [Ho Hl]]; [lia|].
      pose proof (ROUND_UP_lt (blob_len (adb_ db)) 4 ltac:(lia)). lia. }
    destruct (not_error_tag ADB_TYPE_INT_32 offs (int32_tag Htags)) as [[He Hn]|Hs];
      [ apply (tags_ok_neq 2 9 _ _ Htags); [reflexivity | reflexivity | lia]
      | lia | |].
    2: { exfalso. revert Hs.
         apply (tags_ok_neq 2 0 _ _ Htags); [reflexivity | reflexivity | lia]. }
    split; [exact He|]. split; [exact Hn|]. split.
    { intros [Hlt | Hptr]; [exfalso; zbool; lia|].
      apply adb_r_int_at; auto; try lia. apply Hok'. }
    split; [intros Hlt; exfalso; zbool; lia|].
    split; [|exact Hb].
    intros m Hm Hr.
    apply (has_room_after db [le_encode 4 val] 4 db' offs m Hok ltac:(lia) Hm Hw).
    rewrite Hlen. eapply has_room_le; [exact Hr | lia].
  - exists db, (ADB_VAL ADB_TYPE_INT val). zbool.
    split; [reflexivity|]. split; [exact Hok|]. split; [apply Hrange|].
    destruct (not_error_tag ADB_TYPE_INT val (int_tag Htags)) as [[He Hn]|Hs];
      [ apply (tags_ok_neq 1 9 _ _ Htags); [reflexivity | reflexivity | lia]
      | lia | |].
    2: { exfalso. revert Hs.
         apply (tags_ok_neq 1 0 _ _ Htags); [reflexivity | reflexivity | lia]. }
    split; [exact He|]. split; [exact Hn|]. split.
    { intros _. destruct (tagged _ val (int_tag Htags) ltac:(lia)) as (_ & Ht & Hv).
      unfold adb_r_int. rewrite Ht, Hv, Z.eqb_refl. reflexivity. }
    split; [reflexivity|]. split; [|lia].
    intros m Hm Hr. eapply has_room_le; [exact Hr | lia].
Qed.

(** adb_wo_val on a field inside the capacity. *)
Lemma adb_wo_val_spec o i v max :
  builder_ok o -> obj_slot o 0 = Ret max -> 1 <= i < max ->
  0 <= v < 2 ^ 32 -> ADB_IS_ERROR v = false ->
  exists o',
    adb_wo_val o i v = Ret (o', v) /\ builder_ok o' /\
    o_db o' = o_db o /\ o_schema o' = o_schema o /\
    obj_slot o' 0 = Ret max /\
    adb_ro_val o' i = Ret v /\
    (forall j, 1 <= j -> j <> i -> adb_ro_val o' j = adb_ro_val o j) /\
    o_num o' = (if v =? ADB_NULL then o_num o else Z.max (o_num o) (i + 1)).
Proof.
  intros Hb Hslot Hi Hv Herr.
  pose proof Hb as (vec & max' & Hobj & H0 & Hlen & Hnum & Hzero & Hrange).
  pose proof (ADB_NULL_0 Htags) as Hnull.
  assert (Hmax : max' = max).
  { unfold obj_slot in Hslot. rewrite Hobj in Hslot.
    change (Z.to_nat 0) with 0%nat in Hslot. rewrite H0 in Hslot. congruence. }
  rewrite Hmax in *. clear Hmax max'.
  unfold adb_wo_val, ADBI_NUM_ENTRIES. rewrite Hslot.
  cbn [mbind outcome_bind obind].
  replace (i >=? max) with false
    by (symmetry; rewrite Z.geb_leb; apply Z.leb_gt; lia).
  rewrite Herr.
  set (num' := if v =? ADB_NULL then o_num o else Z.max (o_num o) (i + 1)).
  set (o1 := if negb (v =? ADB_NULL) && (i >=? o_num o)
             then set_o_num o (i + 1) else o).
  assert (Ho1 : o1 = set_o_num o num').
  { unfold o1, num'. destruct (v =? ADB_NULL); cbn [negb andb].
    - now destruct o.
    - destruct (i >=? o_num o) eqn:E; rewrite Z.geb_leb in E.
      + apply Z.leb_le in E. f_equal. lia.
      + apply Z.leb_gt in E. replace (Z.max (o_num o) (i + 1)) with (o_num o) by lia.
        now destruct o. }
  rewrite Ho1. cbn [set_o_num o_obj]. rewrite Hobj.
  replace (length vec <=? Z.to_nat i)%nat with false
    by (symmetry; apply Nat.leb_gt; lia).
  assert (Hnum' : o_num o <= num' <= max /\ (v <> 0 -> i + 1 <= num'))
    by (unfold num'; rewrite Hnull; destruct (v =? 0) eqn:E; zbool; lia).
  clearbody num'. clear o1 Ho1.
  exists (mk_adb_obj (o_schema o) (o_db o) num'
            (Some (<[Z.to_nat i := v]> vec))).
  split; [reflexivity|].
  split.
  { exists (<[Z.to_nat i := v]> vec), max. cbn [o_obj o_num].
    rewrite length_insert.
    split; [reflexivity|].
    split; [rewrite list_lookup_insert_ne by lia; exact H0|].
    split; [exact Hlen|]. split; [lia|]. split.
    - intros j Hj.
      destruct (Nat.eq_dec j (Z.to_nat i)) as [->|Hne].
      + rewrite list_lookup_insert_eq by lia.
        destruct (Z.eq_dec v 0) as [->|Hv0]; [reflexivity | lia].
      + rewrite list_lookup_insert_ne by lia. apply Hzero. lia.
    - apply Forall_insert; assumption. }
  split; [reflexivity|]. split; [reflexivity|]. split.
  { unfold obj_slot. cbn [o_obj]. change (Z.to_nat 0) with 0%nat.
    rewrite list_lookup_insert_ne by lia. rewrite H0. reflexivity. }
  split.
  { unfold adb_ro_val, obj_slot. cbn [o_num o_obj].
    rewrite list_lookup_insert_eq by lia.
    destruct (i >=? num') eqn:E; [|reflexivity].
    rewrite Z.geb_leb in E. apply Z.leb_le in E.
    destruct (Z.eq_dec v 0) as [->|Hv0]; [now rewrite Hnull | lia]. }
  split; [|reflexivity].
  intros j Hj Hne. unfold adb_ro_val, obj_slot. cbn [o_num o_obj]. rewrite Hobj.
  rewrite list_lookup_insert_ne by lia.
  destruct (j >=? num') eqn:E1; destruct (j >=? o_num o) eqn:E2;
    rewrite Z.geb_leb in E1, E2; try reflexivity.
  - apply Z.leb_le in E1. apply Z.leb_gt in E2. lia.
  - apply Z.leb_gt in E1. apply Z.leb_le in E2.
    rewrite (Hzero (Z.to_nat j)) by lia. now rewrite Hnull.
Qed.

End Fields.

(** X12: adb_wo_val on a field within the capacity of the builder stores
    the value: the field reads as the value, every other field reads as
    before, the database is not touched, and the slot count covers the
    field unless the value is ADB_NULL. *)
Theorem adb_wo_val_sets_field `{P : adb_params} o i v max :
  tags_ok -> builder_ok o -> obj_slot o 0 = Ret max -> 1 <= i < max ->
  0 <= v < 2 ^ 32 -> ADB_IS_ERROR v = false ->
  exists o',
    adb_wo_val o i v = Ret (o', v) /\ builder_ok o' /\
    o_db o' = o_db o /\
    adb_ro_val o' i = Ret v /\
    (forall j, 1 <= j -> j <> i -> adb_ro_val o' j = adb_ro_val o j) /\
    o_num o' = (if v =? ADB_NULL then o_num o else Z.max (o_num o) (i + 1)).
Proof.
  intros Htags Hb Hslot Hi Hv Herr.
  destruct (adb_wo_val_spec Htags o i v max Hb Hslot Hi Hv Herr)
    as (o' & Hw & Hb' & Hdb & _ & _ & Hr & Hothers & Hnum).
  exists o'. auto 10.
Qed.

(** The theorem at the builder holding 7 in field 1: field 2 is set. *)
Lemma adb_wo_val_sets_field_witness :
  exists o',
    @adb_wo_val lp64 builder_7 2 0x10000009 = Ret (o', 0x10000009) /\
    builder_ok o' /\ o_db o' = o_db builder_7 /\
    @adb_ro_val lp64 o' 2 = Ret 0x10000009 /\
    (forall j, 1 <= j -> j <> 2 ->
       @adb_ro_val lp64 o' j = @adb_ro_val lp64 builder_7 j) /\
    o_num o' = (if 0x10000009 =? @ADB_NULL lp64 then o_num builder_7
                else Z.max (o_num builder_7) (2 + 1)).
Proof.
  apply (@adb_wo_val_sets_field lp64 builder_7 2 0x10000009 3).
  - apply tags_ok_params.
  - exact builder_7_ok.
  - reflexivity.
  - lia.
  - lia.
  - reflexivity.
Defined.

(** X13: an integer field set with adb_wo_int on a field that was unset
    reads back through adb_ro_int, for a value below 2^28, which is kept
    inline, and for every 32-bit value when the size of a pointer, which
    adb_r_int bounds-checks with, is at most 4: the default of the field
    is not stored (the object and the database are left as they are) and
    is supplied on reading; any other value is written with adb_w_int and
    stored in the field. *)
Theorem adb_wo_int_read_back `{P : adb_params} o i v max :
  tags_ok -> builder_ok o -> writer_ok (o_db o) ->
  obj_slot o 0 = Ret max -> 1 <= i < max ->
  adb_ro_val o i = Ret ADB_NULL ->
  0 <= v < 2 ^ 32 -> v < 0x10000000 \/ sizeof_ptr <= 4 ->
  has_room (o_db o) 8 -> blob_len (adb_ (o_db o)) + 8 <= 2 ^ 28 ->
  exists o' r,
    adb_wo_int o i v = Ret (o', r) /\ adb_ro_int o' i = Ret v /\
    builder_ok o' /\ writer_ok (o_db o') /\
    (forall s d, o_schema o = Some s -> schema_get_default_int s = Some d ->
                 v = d i -> o' = o /\ r = ADB_NULL).
Proof.
  intros Htags Hb Hok Hslot Hi Hunset Hv Hcase Hroom Hsmall.
  assert (Hstore :
    exists o' r,
      ('(db1, val) ← adb_w_int (o_db o) v; adb_wo_val (set_o_db o db1) i val)
      = Ret (o', r) /\
      builder_ok o' /\ writer_ok (o_db o') /\ o_schema o' = o_schema o /\
      exists val, adb_ro_val o' i = Ret val /\ val <> ADB_NULL
                  /\ adb_r_int (o_db o') val = v).
  { destruct (adb_w_int_spec Htags (o_db o) v Hok Hroom Hsmall Hv)
      as (db1 & val & Hw & Hok1 & Hval & Herr & Hnn & Hr & _).
    rewrite Hw. cbn [mbind outcome_bind obind].
    destruct (adb_wo_val_spec Htags (set_o_db o db1) i val max)
      as (o' & Hwo & Hb' & Hdb & Hs & _ & Hread & _); auto.
    exists o', val. rewrite Hdb. cbn [set_o_db o_db] in *.
    split; [exact Hwo|]. split; [exact Hb'|]. split; [exact Hok1|].
    split; [exact Hs|]. exists val. auto. }
  assert (Hfin : forall (o' : adb_obj) (r : Z),
            builder_ok o' -> writer_ok (o_db o') -> o_schema o' = o_schema o ->
            (exists val, adb_ro_val o' i = Ret val /\ val <> ADB_NULL
                         /\ adb_r_int (o_db o') val = v) ->
            adb_ro_int o' i = Ret v).
  { intros o' r _ _ Hs (val & Hr & Hnn & Hint). unfold adb_ro_int.
    rewrite Hr. cbn [mbind outcome_bind obind]. rewrite Hs.
    replace (val =? ADB_NULL) with false
      by (symmetry; apply Z.eqb_neq; exact Hnn).
    rewrite Hint. repeat case_match; reflexivity. }
  unfold adb_wo_int.
  destruct (o_schema o) as [s|] eqn:Es.
  2: { destruct Hstore as (o' & r & Hw & Hb' & Hok' & Hs & Hval).
       exists o', r. rewrite Hw. split; [reflexivity|].
       split; [apply (Hfin o' r); auto|]. split; [exact Hb'|].
       split; [exact Hok'|]. intros; discriminate. }
  destruct (schema_get_default_int s) as [d|] eqn:Ed.
  2: { destruct Hstore as (o' & r & Hw & Hb' & Hok' & Hs & Hval).
       exists o', r. rewrite Hw. split; [reflexivity|].
       split; [apply (Hfin o' r); auto|]. split; [exact Hb'|].
       split; [exact Hok'|]. intros ? ? [= <-]. congruence. }
  destruct (v =? d i) eqn:Edef.
  - apply Z.eqb_eq in Edef. exists o, ADB_NULL.
    split; [reflexivity|]. split.
    { unfold adb_ro_int. rewrite Hunset. cbn [mbind outcome_bind obind].
      rewrite Es, Ed, Z.eqb_refl, Edef. reflexivity. }
    auto.
  - destruct Hstore as (o' & r & Hw & Hb' & Hok' & Hs & Hval).
    exists o', r. rewrite Hw. split; [reflexivity|].
    split; [apply (Hfin o' r); auto|]. split; [exact Hb'|].
    split; [exact Hok'|].
    intros s' d' [= <-] Hd' Hvd. rewrite Ed in Hd'. injection Hd' as <-.
    apply Z.eqb_neq in Edef. contradiction.
Qed.

Lemma adb_wo_init_ok schema db :
  1 <= schema_num_fields schema < 2 ^ 32 ->
  builder_ok (adb_wo_init schema db)
  /\ obj_slot (adb_wo_init schema db) 0 = Ret (schema_num_fields schema)
  /\ forall `{P : adb_params} i, 1 <= i ->
       adb_ro_val (adb_wo_init schema db) i = Ret ADB_NULL.
Proof.
  intros Hn. unfold adb_wo_init, ADBI_NUM_ENTRIES.
  change (Z.to_nat 0) with 0%nat.
  set (n := schema_num_fields schema) in *.
  assert (Hl : length (<[0%nat := n]> (replicate (Z.to_nat n) 0)) = Z.to_nat n)
    by (rewrite length_insert; apply length_replicate).
  assert (H0 : <[0%nat := n]> (replicate (Z.to_nat n) 0) !! 0%nat = Some n)
    by (apply list_lookup_insert_eq; rewrite length_replicate; lia).
  split; [|split].
  - exists (<[0%nat := n]> (replicate (Z.to_nat n) 0)), n. cbn [o_obj o_num].
    split; [reflexivity|]. split; [exact H0|]. split; [lia|]. split; [lia|].
    split.
    + intros j Hj. rewrite list_lookup_insert_ne by lia.
      apply lookup_replicate. split; [reflexivity | lia].
    + apply Forall_insert; [apply Forall_replicate; lia | lia].
  - unfold obj_slot. cbn [o_obj]. change (Z.to_nat 0) with 0%nat.
    rewrite H0. reflexivity.
  - intros P i Hi. unfold adb_ro_val. cbn [o_num].
    replace (i >=? 1) with true
      by (symmetry; rewrite Z.geb_leb; apply Z.leb_le; lia).
    reflexivity.
Qed.

(** The theorem at a fresh builder whose fields default to 42: setting
    field 1 to 42 stores nothing, and 42 is read. *)
Lemma adb_wo_int_read_back_witness :
  exists o' r,
    @adb_wo_int lp64 builder_42 1 42 = Ret (o', r) /\
    @adb_ro_int lp64 o' 1 = Ret 42 /\
    builder_ok o' /\ @writer_ok lp64 (o_db o') /\
    (forall s d, o_schema builder_42 = Some s ->
                 schema_get_default_int s = Some d ->
                 42 = d 1 -> o' = builder_42 /\ r = @ADB_NULL lp64).
Proof.
  apply (@adb_wo_int_read_back lp64 builder_42 1 42 3).
  - apply tags_ok_params.
  - apply adb_wo_init_ok. cbn. lia.
  - apply writer_ok_init_dynamic. lia.
  - reflexivity.
  - lia.
  - reflexivity.
  - lia.
  - left. lia.
  - right. split; [discriminate | vm_compute; discriminate].
  - vm_compute. discriminate.
Defined.

(** X14: adb_wa_append on an array builder with a free slot appends the
    value after the elements there are; appending ADB_NULL changes
    nothing.  The database is not touched. *)
Theorem adb_wa_append_appends `{P : adb_params} o s v max :
  tags_ok -> builder_ok o ->
  o_schema o = Some s -> schema_kind s = ADB_KIND_ARRAY ->
  obj_slot o 0 = Ret max -> o_num o < max ->
  0 <= v < 2 ^ 32 -> ADB_IS_ERROR v = false ->
  exists o',
    adb_wa_append o v = Ret (o', v) /\ builder_ok o' /\
    o_db o' = o_db o /\
    elements o' = (if v =? ADB_NULL then elements o else elements o ++ [v]).
Proof.
  intros Htags Hb Hs Hk Hslot Hfree Hv Herr.
  pose proof Hb as (vec & max' & Hobj & H0 & Hlen & Hnum & Hzero & Hrange).
  pose proof (ADB_NULL_0 Htags) as Hnull.
  assert (Hmax : max' = max).
  { unfold obj_slot in Hslot. rewrite Hobj in Hslot.
    change (Z.to_nat 0) with 0%nat in Hslot. rewrite H0 in Hslot. congruence. }
  rewrite Hmax in *. clear Hmax max'.
  unfold adb_wa_append, assert_kind, ADBI_NUM_ENTRIES. rewrite Hs, Hk.
  cbn [adb_kind_eqb negb]. rewrite andb_false_r.
  cbn [mbind outcome_bind obind]. rewrite Hslot.
  cbn [mbind outcome_bind obind].
  replace (o_num o >=? max) with false
    by (symmetry; rewrite Z.geb_leb; apply Z.leb_gt; lia).
  rewrite Herr. unfold ADB_VAL_NULL. rewrite Hnull.
  destruct (v =? 0) eqn:E0; cbn [negb].
  - exists o. auto.
  - apply Z.eqb_neq in E0. rewrite Hobj.
    exists (mk_adb_obj (o_schema o) (o_db o) (o_num o + 1)
              (Some (<[Z.to_nat (o_num o) := v]> vec))).
    split; [reflexivity|].
    split; [|split; [reflexivity|]].
    + exists (<[Z.to_nat (o_num o) := v]> vec), max. cbn [o_obj o_num].
      rewrite length_insert.
      split; [reflexivity|].
      split; [rewrite list_lookup_insert_ne by lia; exact H0|].
      split; [exact Hlen|]. split; [lia|]. split.
      * intros j Hj. rewrite list_lookup_insert_ne by lia. apply Hzero. lia.
      * apply Forall_insert; assumption.
    + unfold elements, adb_ra_num. cbn [o_num o_obj]. rewrite Hobj.
      replace (o_num o + 1 =? 0) with false by (symmetry; apply Z.eqb_neq; lia).
      replace (o_num o =? 0) with false by (symmetry; apply Z.eqb_neq; lia).
      replace (Z.to_nat (o_num o + 1 - 1)) with (S (Z.to_nat (o_num o - 1)))
        by lia.
      destruct vec as [|h vec]; [discriminate|].
      replace (Z.to_nat (o_num o)) with (S (Z.to_nat (o_num o - 1))) by lia.
      cbn [insert list_insert drop]. rewrite !drop_0.
      cbn [length] in Hlen.
      rewrite (take_S_r _ _ v)
        by (apply list_lookup_insert_eq; lia).
      f_equal. apply take_insert_ge. lia.
Qed.

(** The theorem at an empty array builder: 5 becomes its one element. *)
Lemma adb_wa_append_appends_witness :
  exists o',
    @adb_wa_append lp64 (adb_wo_init int_array_schema (adb_w_init_dynamic 0 1))
      0x10000005 = Ret (o', 0x10000005) /\
    builder_ok o' /\ o_db o' = adb_w_init_dynamic 0 1 /\
    elements o' = (if 0x10000005 =? @ADB_NULL lp64 then [] else [] ++ [0x10000005]).
Proof.
  apply (@adb_wa_append_appends lp64
           (adb_wo_init int_array_schema (adb_w_init_dynamic 0 1))
           int_array_schema 0x10000005 8).
  - apply tags_ok_params.
  - apply adb_wo_init_ok. cbn. lia.
  - reflexivity.
  - reflexivity.
  - reflexivity.
  - vm_compute. reflexivity.
  - lia.
  - reflexivity.
Defined.

(* ================================================================== *)
(** * Map and blob mode with a trust context *)

Section ParseTrust.
Variable apk_trust : Type.
Variable verify : apk_trust -> adb -> apk_blob_t -> Z.

Abbreviation parse_block := (__adb_m_parse_block apk_trust verify).
Abbreviation parse_loop := (__adb_m_parse_loop apk_trust verify).

(** What one block does to the database and to the flag. *)
Lemma parse_block_cases t db trusted pos db1 trusted1 :
  parse_block t db trusted pos = (db1, trusted1) ->
  (db1 = db /\
   (trusted1 = trusted \/
    (trusted = false /\ trusted1 = true /\
     APK_BLOB_IS_NULL (adb_ db) = false /\
     adb_block_type (block_at (data db) pos) = ADB_BLOCK_SIG /\
     exists tr, t = Some tr /\
                verify tr db (adb_block_blob (data db) pos) = 0)))
  \/ (APK_BLOB_IS_NULL (adb_ db) = true /\
      adb_block_type (block_at (data db) pos) = ADB_BLOCK_ADB /\
      db1 = set_adb db (adb_block_blob (data db) pos) /\
      trusted1 = trusted).
Proof.
  unfold __adb_m_parse_block.
  destruct (adb_block_type (block_at (data db) pos) =? ADB_BLOCK_ADB) eqn:Etype.
  - apply Z.eqb_eq in Etype.
    destruct (APK_BLOB_IS_NULL (adb_ db)) eqn:Hnull; cbn [negb];
      intros [= <- <-]; [right | left]; auto.
  - destruct (adb_block_type (block_at (data db) pos) =? ADB_BLOCK_SIG)
      eqn:Esig; [|intros [= <- <-]; left; auto].
    apply Z.eqb_eq in Esig.
    destruct (APK_BLOB_IS_NULL (adb_ db)) eqn:Hnull;
      [intros [= <- <-]; left; auto|].
    intros [= <- <-]. left. split; [reflexivity|].
    unfold verify_step. destruct trusted; [left; reflexivity|].
    destruct t as [tr|]; [|left; reflexivity].
    destruct (verify tr db (adb_block_blob (data db) pos) =? 0) eqn:Ev;
      [|left; reflexivity].
    apply Z.eqb_eq in Ev. right. repeat split; auto. exists tr. auto.
Qed.

(** The block after a valid one lies further on. *)
Lemma next_further pos b q :
  adb_block_validate pos b = BLK pos ->
  adb_block_next pos b = BLK q ->
  pos < q /\ adb_block_validate q b = BLK q.
Proof.
  intros Hv Hn. unfold adb_block_next in Hn.
  pose proof Hn as Hn'. apply validate_BLK in Hn' as [-> _].
  split; [|exact Hn].
  apply validate_BLK in Hv as (_ & _ & Hraw & _).
  pose proof (ROUND_UP_ge (adb_block_rawsize (block_at b pos))
                ADB_BLOCK_ALIGNMENT eq_refl) as Hge.
  unfold adb_block_size, sizeof_adb_block in *. lia.
Qed.

(** Once the arena is set the loop leaves the database alone, and the flag
    is raised only by a signature block that verifies against it. *)
Lemma parse_loop_set fuel t : forall db trusted blk db' trusted' blk',
  APK_BLOB_IS_NULL (adb_ db) = false ->
  (forall pos, blk = BLK pos -> adb_block_validate pos (data db) = BLK pos) ->
  parse_loop fuel t db trusted blk = Ret (db', trusted', blk') ->
  db' = db /\
  (trusted = false -> trusted' = true ->
   exists tr p0 ps,
     t = Some tr /\ blk = BLK p0 /\ p0 <= ps /\
     adb_block_type (block_at (data db) ps) = ADB_BLOCK_SIG /\
     verify tr db (adb_block_blob (data db) ps) = 0).
Proof.
  induction fuel as [|fuel IH]; intros db trusted blk db' trusted' blk' Ha Hv Hl.
  - destruct blk; cbn [__adb_m_parse_loop] in Hl; try discriminate;
      injection Hl as <- <- <-; split; congruence.
  - destruct blk as [| e | pos]; cbn [__adb_m_parse_loop] in Hl;
      try (injection Hl as <- <- <-; split; congruence).
    destruct (parse_block t db trusted pos) as [db1 trusted1] eqn:Hb.
    apply parse_block_cases in Hb as [[-> Hflag] | (Hnull & _)];
      [|congruence].
    apply IH in Hl as [-> Hgain]; [|exact Ha|].
    2:{ intros q Hq. eapply next_further; [apply Hv; reflexivity | exact Hq]. }
    split; [reflexivity|]. intros Hf Ht.
    destruct Hflag as [-> | (_ & -> & _ & Hsig & tr & -> & Hver)].
    + destruct (Hgain Hf Ht) as (tr & p0 & ps & -> & Hn & Hle & Hsig & Hver).
      exists tr, pos, ps. repeat split; auto.
      apply (next_further pos (data db) p0 (Hv pos eq_refl)) in Hn. lia.
    + exists tr, pos, pos. repeat split; auto. lia.
Qed.

(** From an unset arena: either no ADB block comes, or the first one
    becomes the arena and a signature that raises the flag comes after
    it. *)
Lemma parse_loop_unset fuel t : forall db trusted blk db' trusted' blk',
  APK_BLOB_IS_NULL (adb_ db) = true ->
  (forall pos, blk = BLK pos -> adb_block_validate pos (data db) = BLK pos) ->
  parse_loop fuel t db trusted blk = Ret (db', trusted', blk') ->
  (db' = db /\ trusted' = trusted) \/
  (exists pa,
     adb_block_type (block_at (data db) pa) = ADB_BLOCK_ADB /\
     db' = set_adb db (adb_block_blob (data db) pa) /\
     (trusted = false -> trusted' = true ->
      exists tr ps,
        t = Some tr /\ pa < ps /\
        adb_block_type (block_at (data db) ps) = ADB_BLOCK_SIG /\
        verify tr db' (adb_block_blob (data db) ps) = 0)).
Proof.
  induction fuel as [|fuel IH]; intros db trusted blk db' trusted' blk' Ha Hv Hl.
  - destruct blk; cbn [__adb_m_parse_loop] in Hl; try discriminate;
      injection Hl as <- <- <-; left; auto.
  - destruct blk as [| e | pos]; cbn [__adb_m_parse_loop] in Hl;
      try (injection Hl as <- <- <-; left; auto).
    destruct (parse_block t db trusted pos) as [db1 trusted1] eqn:Hb.
    assert (Hnext : forall q, adb_block_next pos (data db) = BLK q ->
                              pos < q /\ adb_block_validate q (data db) = BLK q)
      by (intros q Hq; eapply next_further; [apply Hv; reflexivity | exact Hq]).
    apply parse_block_cases in Hb
      as [[-> Hflag] | (_ & Hadb & -> & ->)].
    + destruct Hflag as [-> | (_ & _ & Hnn & _)]; [|congruence].
      apply IH in Hl; [exact Hl | exact Ha |].
      intros q Hq. apply Hnext, Hq.
    + right. exists pos. split; [exact Hadb|].
      apply parse_loop_set in Hl as [-> Hgain]; [| reflexivity |].
      2:{ intros q Hq. cbn [set_adb data]. apply Hnext, Hq. }
      split; [reflexivity|]. intros Hf Ht.
      destruct (Hgain Hf Ht) as (tr & p0 & ps & -> & Hn & Hle & Hsig & Hver).
      cbn [set_adb data] in *.
      exists tr, ps. repeat split; auto.
      apply Hnext in Hn. lia.
Qed.

(** __adb_m_parse returns, with one of three results. *)
Lemma parse_returns db t :
  APK_BLOB_IS_NULL (data db) = false ->
  exists db1 trusted1 blk,
    parse_loop (S (Z.to_nat (blob_len (data db)))) t db
      (match t with Some _ => false | None => true end)
      (adb_block_first (data db)) = Ret (db1, trusted1, blk) /\
    (forall pos, blk <> BLK pos) /\
    (forall e, blk = BLK_ERR e -> e = - EBADMSG) /\
    __adb_m_parse apk_trust verify db t
    = Ret (let r := match blk with
                    | BLK_ERR e => e
                    | _ => if negb trusted1 then - ENOKEY
                           else if negb (APK_BLOB_IS_NULL (adb_ db1)) then 0
                           else - EBADMSG
                    end in
           (r, if r =? 0 then db1 else set_adb db1 APK_BLOB_NULL)).
Proof.
  intros Hd.
  destruct (parse_loop_terminates apk_trust verify
              (S (Z.to_nat (blob_len (data db)))) t db
              (match t with Some _ => false | None => true end)
              (adb_block_first (data db))) as (db1 & tr1 & blk1 & Hl & Hb & He).
  { intros pos Hp. split.
    - unfold adb_block_first in Hp. pose proof Hp as Hp'.
      apply validate_BLK in Hp' as [-> _]. exact Hp.
    - apply validate_BLK in Hp as (-> & ?). unfold sizeof_adb_block in *. lia. }
  { intros e. apply validate_ERR. }
  exists db1, tr1, blk1. repeat split; auto.
  unfold __adb_m_parse. rewrite Hd. cbn [andb]. rewrite Hl. reflexivity.
Qed.

End ParseTrust.

(** X15: with a trust context adb_m_blob returns 0, -EBADMSG or -ENOKEY; on
    any result but 0 the arena is reset to the null blob; and it returns 0
    only when the blob holds an ADB block, whose payload is the arena
    returned, and after it a signature block that the verification function
    accepted for the database holding that arena. *)
Theorem adb_m_blob_needs_signature
    (T : Type) (verify : T -> adb -> apk_blob_t -> Z)
    (blob : apk_blob_t) (tr : T) :
  APK_BLOB_IS_NULL blob = false ->
  exists r db',
    adb_m_blob T verify blob (Some tr) = Ret (r, db') /\
    (r = 0 \/ r = - EBADMSG \/ r = - ENOKEY) /\
    (r <> 0 -> adb_ db' = APK_BLOB_NULL) /\
    (r = 0 ->
     exists pa ps,
       pa < ps /\
       adb_block_type (block_at blob pa) = ADB_BLOCK_ADB /\
       adb_ db' = adb_block_blob blob pa /\
       adb_block_type (block_at blob ps) = ADB_BLOCK_SIG /\
       verify tr db' (adb_block_blob blob ps) = 0).
Proof.
  intros Hd. unfold adb_m_blob.
  set (db := set_data adb_zero blob).
  destruct (parse_returns T verify db (Some tr) Hd)
    as (db1 & tr1 & blk & Hl & Hb & He & ->).
  apply parse_loop_unset in Hl; [|reflexivity|].
  2:{ intros pos Hp. unfold adb_block_first in Hp. pose proof Hp as Hp'.
      apply validate_BLK in Hp' as [-> _]. exact Hp. }
  do 2 eexists. split; [reflexivity|].
  destruct blk as [| e | pos]; [| | now destruct (Hb pos)].
  - destruct tr1; cbn [negb].
    + destruct Hl as [[-> Hf] | (pa & Hadb & -> & Hgain)]; [discriminate|].
      cbn [set_adb adb_ APK_BLOB_IS_NULL adb_block_blob blob_ptr negb].
      change (0 =? 0) with true. cbv iota.
      split; [left; reflexivity|]. split; [congruence|]. intros _.
      destruct (Hgain eq_refl eq_refl) as (tr' & ps & [= <-] & Hlt & Hsig & Hver).
      exists pa, ps. repeat split; auto.
    + split; [right; right; reflexivity|].
      split; [reflexivity | discriminate].
  - rewrite (He e eq_refl).
    split; [right; left; reflexivity|].
    split; [reflexivity | discriminate].
Qed.

(** The theorem at a container of an ADB block and one signature block,
    with a verification function that accepts. *)
Lemma adb_m_blob_needs_signature_witness :
  exists r db',
    adb_m_blob unit (fun _ _ _ => 0)
      (blob_of (container_blocks [x01; x02; x03; x04] [[x00; x00]]))
      (Some tt) = Ret (r, db') /\
    (r = 0 \/ r = - EBADMSG \/ r = - ENOKEY) /\
    (r <> 0 -> adb_ db' = APK_BLOB_NULL) /\
    (r = 0 ->
     exists pa ps,
       pa < ps /\
       adb_block_type
         (block_at (blob_of (container_blocks [x01; x02; x03; x04]
                               [[x00; x00]])) pa) = ADB_BLOCK_ADB /\
       adb_ db'
       = adb_block_blob (blob_of (container_blocks [x01; x02; x03; x04]
                                    [[x00; x00]])) pa /\
       adb_block_type
         (block_at (blob_of (container_blocks [x01; x02; x03; x04]
                               [[x00; x00]])) ps) = ADB_BLOCK_SIG /\
       (fun (_ : unit) (_ : adb) (_ : apk_blob_t) => 0) tt db'
         (adb_block_blob (blob_of (container_blocks [x01; x02; x03; x04]
                                     [[x00; x00]])) ps) = 0).
Proof.
  apply (adb_m_blob_needs_signature unit (fun _ _ _ => 0)
           (blob_of (container_blocks [x01; x02; x03; x04] [[x00; x00]])) tt).
  reflexivity.
Defined.

(* ================================================================== *)
(** * Blobs that do not end at a block boundary *)

Lemma block_size_aligned b :
  adb_block_size b mod ADB_BLOCK_ALIGNMENT = 0.
Proof. unfold adb_block_size. apply ROUND_UP_mod. reflexivity. Qed.

Lemma parse_loop_unaligned T (v : T -> adb -> apk_blob_t -> Z) fuel t :
  forall db trusted pos db' trusted' blk',
  pos mod ADB_BLOCK_ALIGNMENT = 0 ->
  blob_len (data db) mod ADB_BLOCK_ALIGNMENT <> 0 ->
  __adb_m_parse_loop T v fuel t db trusted (adb_block_validate pos (data db))
  = Ret (db', trusted', blk') ->
  exists e, blk' = BLK_ERR e.
Proof.
  induction fuel as [|fuel IH]; intros db trusted pos db' trusted' blk' Hp Hl H.
  - destruct (adb_block_validate pos (data db)) as [| e | q] eqn:Hv;
      cbn [__adb_m_parse_loop] in H; try discriminate.
    + unfold adb_block_validate in Hv.
      destruct (pos =? blob_len (data db)) eqn:E;
        [apply Z.eqb_eq in E; congruence|].
      repeat case_match; discriminate.
    + injection H as <- <- <-. eauto.
  - destruct (adb_block_validate pos (data db)) as [| e | q] eqn:Hv;
      cbn [__adb_m_parse_loop] in H.
    + unfold adb_block_validate in Hv.
      destruct (pos =? blob_len (data db)) eqn:E;
        [apply Z.eqb_eq in E; congruence|].
      repeat case_match; discriminate.
    + injection H as <- <- <-. eauto.
    + apply validate_BLK in Hv as [-> _].
      pose proof (parse_block_data T v t db trusted pos) as Hd.
      destruct (__adb_m_parse_block T v t db trusted pos) as [db1 trusted1].
      cbn [fst] in Hd. unfold adb_block_next in H. rewrite <- Hd in H.
      apply IH in H; [exact H | | rewrite Hd; exact Hl].
      rewrite Hd. rewrite Z.add_mod by discriminate.
      rewrite Hp, block_size_aligned. reflexivity.
Qed.

(** X16: a blob whose length is not a multiple of the block alignment is
    rejected as malformed by adb_m_blob, whatever it holds and with or
    without a trust context, and no arena is returned. *)
Theorem adb_m_blob_rejects_unaligned
    (T : Type) (verify : T -> adb -> apk_blob_t -> Z)
    (blob : apk_blob_t) (t : option T) :
  APK_BLOB_IS_NULL blob = false ->
  blob_len blob mod ADB_BLOCK_ALIGNMENT <> 0 ->
  exists db',
    adb_m_blob T verify blob t = Ret (- EBADMSG, db') /\
    adb_ db' = APK_BLOB_NULL.
Proof.
  intros Hd Hlen. unfold adb_m_blob.
  set (db := set_data adb_zero blob).
  destruct (parse_returns T verify db t Hd)
    as (db1 & tr1 & blk & Hl & Hb & He & ->).
  unfold adb_block_first in Hl.
  apply parse_loop_unaligned in Hl as [e ->]; [| reflexivity | exact Hlen].
  rewrite (He e eq_refl). eexists. split; reflexivity.
Qed.

(** The theorem at a framed container cut short by one byte. *)
Lemma adb_m_blob_rejects_unaligned_witness :
  exists db',
    adb_m_blob unit (fun _ _ _ => 0)
      (blob_of (take 31 (container_blocks [x01; x02; x03; x04] [])))
      (Some tt) = Ret (- EBADMSG, db') /\
    adb_ db' = APK_BLOB_NULL.
Proof.
  apply (adb_m_blob_rejects_unaligned unit (fun _ _ _ => 0)
           (blob_of (take 31 (container_blocks [x01; x02; x03; x04] [])))
           (Some tt)).
  - reflexivity.
  - vm_compute. discriminate.
Defined.

(* ================================================================== *)
(** * The header checks of map mode *)

(** X17: adb_m_map returns 0, -EIO, -EBADMSG or -ENOKEY; -EIO exactly when
    the file is shorter than the header; and it returns 0 only when the
    file starts with the format magic, the expected schema is 0 or the
    schema of the header, in which case the database holds that header,
    the blocks are the file after the header, and the arena is the payload
    of an ADB block among them, followed, if a trust context is given, by
    a signature block that verified. *)
Theorem adb_m_map_checks
    (T : Type) (verify : T -> adb -> apk_blob_t -> Z)
    (db : adb) (file : list byte) (expected_schema : Z) (t : option T) :
  exists r db',
    adb_m_map T verify db file expected_schema t = Ret (r, db') /\
    (r = 0 \/ r = - EIO \/ r = - EBADMSG \/ r = - ENOKEY) /\
    (r = - EIO <-> (length file < 8)%nat) /\
    (r = 0 ->
     let h := mk_adb_header (le_decode (take 4 file))
                            (le_decode (take 4 (drop 4 file))) in
     let blocks := blob_of (drop 8 file) in
     magic h = ADB_FORMAT_MAGIC /\
     (expected_schema = 0 \/ expected_schema = schema_id h) /\
     hdr db' = h /\ mmap db' = blob_of file /\ data db' = blocks /\
     exists pa,
       adb_block_type (block_at blocks pa) = ADB_BLOCK_ADB /\
       adb_ db' = adb_block_blob blocks pa /\
       forall tr, t = Some tr ->
         exists ps,
           pa < ps /\
           adb_block_type (block_at blocks ps) = ADB_BLOCK_SIG /\
           verify tr db' (adb_block_blob blocks ps) = 0).
Proof.
  unfold adb_m_map.
  destruct (Z.of_nat (length file) <? 8) eqn:Elen.
  { apply Z.ltb_lt in Elen. do 2 eexists. split; [reflexivity|].
    split; [right; left; reflexivity|].
    split; [split; [lia | reflexivity] | discriminate]. }
  apply Z.ltb_ge in Elen.
  set (h := mk_adb_header _ _).
  destruct (magic h =? ADB_FORMAT_MAGIC) eqn:Emagic; cbn [negb].
  2:{ do 2 eexists. split; [reflexivity|].
      split; [right; right; left; reflexivity|].
      split; [split; [discriminate | lia] | discriminate]. }
  apply Z.eqb_eq in Emagic.
  destruct (negb (expected_schema =? 0)
            && negb (expected_schema =? schema_id h)) eqn:Eschema.
  { do 2 eexists. split; [reflexivity|].
    split; [right; right; left; reflexivity|].
    split; [split; [discriminate | lia] | discriminate]. }
  assert (Hschema : expected_schema = 0 \/ expected_schema = schema_id h).
  { apply andb_false_iff in Eschema as [E | E];
      apply negb_false_iff, Z.eqb_eq in E; auto. }
  set (db3 := set_data _ _).
  destruct (parse_returns T verify db3 t eq_refl)
    as (db1 & tr1 & blk & Hl & Hb & He & ->).
  apply parse_loop_unset in Hl; [|reflexivity|].
  2:{ intros pos Hp. unfold adb_block_first in Hp. pose proof Hp as Hp'.
      apply validate_BLK in Hp' as [-> _]. exact Hp. }
  do 2 eexists. split; [reflexivity|].
  destruct blk as [| e | pos]; [| | now destruct (Hb pos)].
  - destruct tr1; cbn [negb].
    + destruct Hl as [[-> Hf] | (pa & Hadb & -> & Hgain)].
      * change (APK_BLOB_IS_NULL (adb_ db3)) with true. cbn [negb].
        split; [right; right; left; reflexivity|].
        split; [split; [discriminate | lia] | discriminate].
      * cbn [set_adb adb_ APK_BLOB_IS_NULL adb_block_blob blob_ptr negb].
        change (0 =? 0) with true. cbv iota.
        split; [left; reflexivity|].
        split; [split; [discriminate | lia]|]. intros _.
        repeat (split; [first [exact Emagic | exact Hschema | reflexivity]|]).
        exists pa. repeat split; auto.
        intros tr ->.
        destruct (Hgain eq_refl eq_refl) as (tr' & ps & [= <-] & Hlt & Hsig & Hver).
        exists ps. repeat split; auto.
    + split; [right; right; right; reflexivity|].
      split; [split; [discriminate | lia] | discriminate].
  - rewrite (He e eq_refl).
    split; [right; right; left; reflexivity|].
    split; [split; [discriminate | lia] | discriminate].
Qed.

(* ================================================================== *)
(** * What stream mode returns *)

Section StreamResult.
Variable apk_trust : Type.
Variable verify : apk_trust -> adb -> apk_blob_t -> Z.
Variable taken : adb -> apk_istream -> Z -> Z.
Variable t : option apk_trust.
Variable datacb : adb -> Z -> list byte -> Z.

Abbreviation stream_block :=
  (adb_m_stream_block apk_trust verify taken t datacb).
Abbreviation stream_loop :=
  (fun fuel => adb_m_stream_loop apk_trust verify taken fuel t datacb).
Abbreviation steps := (stream_steps apk_trust verify taken t datacb).

(** A run of the loop that returns has come to a state whose iteration
    returns. *)
Lemma loop_steps fuel : forall st r db,
  stream_loop fuel st = Ret (r, db) ->
  exists st', steps st st' /\ stream_block st' = Return r db.
Proof.
  induction fuel as [|fuel IH]; intros st r db H; [discriminate|].
  cbn [adb_m_stream_loop] in H.
  destruct (stream_block st) as [st1|r1 db1] eqn:E.
  - destruct (IH _ _ _ H) as (st' & Hs & Hr).
    exists st'. split; [|exact Hr]. eapply stream_steps_next; eauto.
  - injection H as <- <-. exists st. split; [constructor | exact E].
Qed.

(** The results an iteration leaves the loop with. *)
Lemma stream_block_return st r db :
  stream_block st = Return r db ->
  r <= 0 /\ hdr db = hdr (s_db st) /\
  (r = 0 -> db = s_db st /\ s_trusted st = true /\
            APK_BLOB_IS_NULL (adb_ db) = false).
Proof.
  intros H. block_cases H.
  all: injection H as <- <-; zbool; cbn [is_bytes is_buf_size] in *.
  all: repeat match goal with
       | H : (if ?c then _ else _) = (inl _, _) |- _ => destruct c
       | H : (_, _) = (_, _) |- _ => injection H as ? ?; subst
       end.
  all: split; [unfold EBADMSG, ENOKEY, ENOMSG, ENOBUFS in *; lia|].
  all: split; [reflexivity|].
  all: try (intros Hr; exfalso; revert Hr;
            unfold EBADMSG, ENOKEY, ENOMSG, ENOBUFS in *; lia).
  intros _. repeat split; auto.
Qed.

(** The database changes once: when the arena is read. *)
Lemma stream_block_db st st' :
  stream_block st = Continue st' ->
  hdr (s_db st') = hdr (s_db st) /\
  (APK_BLOB_IS_NULL (adb_ (s_db st)) = false -> s_db st' = s_db st).
Proof.
  intros H. block_cases H.
  all: injection H as <-; cbn [s_db set_adb hdr]; split; auto.
  all: zbool; congruence.
Qed.

Lemma steps_hdr st st' : steps st st' -> hdr (s_db st') = hdr (s_db st).
Proof.
  induction 1 as [|st st1 st2 Hc Hs IH]; [reflexivity|].
  rewrite IH. apply (stream_block_db _ _ Hc).
Qed.

Lemma steps_db st st' :
  steps st st' ->
  APK_BLOB_IS_NULL (adb_ (s_db st)) = false -> s_db st' = s_db st.
Proof.
  induction 1 as [|st st1 st2 Hc Hs IH]; intros Ha; [reflexivity|].
  destruct (stream_block_db _ _ Hc) as [_ Hdb].
  rewrite IH; rewrite (Hdb Ha); auto.
Qed.

(** A signature is only verified once the arena is there. *)
Lemma stream_block_gain st st' :
  stream_block st = Continue st' ->
  s_trusted st = false -> s_trusted st' = true ->
  APK_BLOB_IS_NULL (adb_ (s_db st)) = false.
Proof.
  intros H Hf Ht. block_cases H.
  all: injection H as <-; cbn [s_trusted] in Ht; try congruence.
Qed.

Lemma steps_gain st0 st :
  steps st0 st ->
  s_trusted st0 = false -> s_trusted st = true ->
  exists st1 tr b,
    steps st0 st1 /\ t = Some tr /\ stream_sig st1 = Some b /\
    s_db st = s_db st1 /\ verify tr (s_db st1) b = 0.
Proof.
  induction 1 as [st | st st1 st2 Hc Hs IH]; intros Hf Ht; [congruence|].
  destruct (s_trusted st1) eqn:E.
  - destruct (stream_block_trust_gained _ _ _ _ _ _ _ Hc Hf E)
      as (tr & b & ? & ? & ?).
    exists st, tr, b. repeat split; auto; [constructor|].
    pose proof (stream_block_gain _ _ Hc Hf E) as Ha.
    apply (steps_db st st2); [|exact Ha].
    eapply stream_steps_next; eauto.
  - destruct (IH eq_refl Ht) as (st' & tr & b & Hs' & ? & ? & ? & ?).
    exists st', tr, b. repeat split; auto.
    eapply stream_steps_next; eauto.
Qed.

End StreamResult.


(* ================================================================== *)
(** * The expected schema in stream mode *)

(** X19: adb_m_stream does not compare the schema of the header with the
    expected schema.  A framed container whose header carries another
    schema than the expected, non-zero one is refused as malformed by
    adb_m_map and read with result 0 by adb_m_stream, the arena being the
    payload of the ADB block. *)
Theorem adb_m_stream_skips_schema_check
    (T : Type) (v : T -> adb -> apk_blob_t -> Z)
    (taken : adb -> apk_istream -> Z -> Z)
    (datacb : adb -> Z -> list byte -> Z)
    (db : adb) (h : adb_header) (p : list byte) (sigs : list (list byte))
    (buf_size e : Z) :
  magic h = ADB_FORMAT_MAGIC -> 0 <= schema_id h < 2 ^ 32 ->
  e <> 0 -> e <> schema_id h ->
  fits p -> Forall fits sigs ->
  Forall (fun s => body_size ADB_BLOCK_SIG s <= buf_size) sigs ->
  APK_BLOB_IS_NULL (adb_ db) = true ->
  let file := adb_c_header h ++ container_blocks p sigs in
  (exists db', adb_m_map T v db file e None = Ret (- EBADMSG, db')) /\
  (exists db', adb_m_stream T v taken db (inr (mk_istream file buf_size)) e
                 None datacb = Ret (0, db')
               /\ blob_bytes (adb_ db') = p).
Proof.
  intros Hm Hsch He0 He Hp Hs Hbuf Ha file. split.
  - unfold adb_m_map, file, adb_c_header.
    rewrite <- !app_assoc.
    replace (Z.of_nat (length (le_encode 4 (magic h) ++ le_encode 4 (schema_id h)
                               ++ container_blocks p sigs)) <? 8) with false
      by (symmetry; apply Z.ltb_ge; rewrite !length_app, !length_le_encode; lia).
    rewrite drop_app_length' by now rewrite length_le_encode.
    rewrite !le_decode_take_4
      by (try exact Hsch; rewrite Hm; unfold ADB_FORMAT_MAGIC; lia).
    cbn [magic schema_id]. rewrite Hm.
    change (negb (ADB_FORMAT_MAGIC =? ADB_FORMAT_MAGIC)) with false.
    replace (negb (e =? 0) && negb (e =? schema_id h)) with true
      by (symmetry; apply andb_true_iff; split;
          apply negb_true_iff, Z.eqb_neq; assumption).
    cbv iota. eexists. reflexivity.
  - apply (stream_container T v taken datacb db (mk_istream file buf_size) e h p sigs);
      auto.
Qed.

(** The theorem at a container of schema 7 read with expected schema 9. *)
Lemma adb_m_stream_skips_schema_check_witness :
  (exists db',
     adb_m_map unit (fun _ _ _ => 1) adb_zero
       (adb_c_header (mk_adb_header ADB_FORMAT_MAGIC 7)
        ++ container_blocks [x01; x02; x03; x04] [[x00; x00]])
       9 None = Ret (- EBADMSG, db')) /\
  (exists db',
     adb_m_stream unit (fun _ _ _ => 1) (fun _ _ len => len) adb_zero
       (inr (mk_istream
               (adb_c_header (mk_adb_header ADB_FORMAT_MAGIC 7)
                ++ container_blocks [x01; x02; x03; x04] [[x00; x00]]) 4096))
       9 None (fun _ _ _ => 0) = Ret (0, db')
     /\ blob_bytes (adb_ db') = [x01; x02; x03; x04]).
Proof.
  apply (adb_m_stream_skips_schema_check unit (fun _ _ _ => 1)
           (fun _ _ len => len) (fun _ _ _ => 0) adb_zero (mk_adb_header ADB_FORMAT_MAGIC 7)
           [x01; x02; x03; x04] [[x00; x00]] 4096 9).
  - reflexivity.
  - split; [discriminate | reflexivity].
  - discriminate.
  - discriminate.
  - reflexivity.
  - repeat constructor.
  - repeat constructor; discriminate.
  - reflexivity.
Defined.

(* ================================================================== *)
(** * The descriptor output stream *)

Section FdFacts.
Variable sys_write : list byte -> list byte -> Z.
Variable sys_close : Z -> Z.
Variable sys_renameat : Z.
Variable cancel : Z -> Z -> Z.

(** write(2) makes progress and takes no more than it is given. *)
Hypothesis Hwrite : forall taken req,
  req <> [] -> 0 < sys_write taken req <= Z.of_nat (length req).

Lemma safe_write_loop_all fuel : forall taken ptr i,
  0 <= i <= Z.of_nat (length ptr) ->
  Z.of_nat (length ptr) - i < Z.of_nat fuel ->
  safe_write_loop sys_write fuel taken ptr i
  = Ret (Z.of_nat (length ptr), taken ++ drop (Z.to_nat i) ptr).
Proof.
  induction fuel as [|fuel IH]; intros taken ptr i Hi Hf.
  - cbn [safe_write_loop].
    replace (i <? Z.of_nat (length ptr)) with false by (symmetry; lia).
    replace i with (Z.of_nat (length ptr)) by lia.
    rewrite Nat2Z.id, drop_all, app_nil_r. reflexivity.
  - cbn [safe_write_loop].
    destruct (i <? Z.of_nat (length ptr)) eqn:E.
    2:{ apply Z.ltb_ge in E. replace i with (Z.of_nat (length ptr)) by lia.
        rewrite Nat2Z.id, drop_all, app_nil_r. reflexivity. }
    apply Z.ltb_lt in E. cbv zeta.
    set (req := drop (Z.to_nat i) ptr).
    assert (Hlen : Z.of_nat (length req) = Z.of_nat (length ptr) - i)
      by (unfold req; rewrite length_drop; lia).
    assert (Hne : req <> []) by (intros Hn; rewrite Hn in Hlen; cbn in Hlen; lia).
    pose proof (Hwrite taken req Hne) as Hr.
    replace (sys_write taken req <? 0) with false by (symmetry; lia).
    replace (sys_write taken req =? 0) with false by (symmetry; lia).
    rewrite IH by lia. f_equal. f_equal.
    rewrite <- app_assoc. f_equal.
    replace (Z.to_nat (i + sys_write taken req))
      with (Z.to_nat i + Z.to_nat (sys_write taken req))%nat by lia.
    rewrite <- drop_drop. fold req. apply take_drop.
Qed.

Lemma safe_write_all taken ptr :
  safe_write sys_write taken ptr = Ret (Z.of_nat (length ptr), taken ++ ptr).
Proof.
  unfold safe_write. rewrite safe_write_loop_all by lia. reflexivity.
Qed.

Lemma fdo_flush_all fos :
  fdo_flush sys_write cancel fos
  = Ret (0, set_fos_buffer
              (set_fd_taken fos (fd_taken fos ++ fos_buffer fos)) []).
Proof.
  unfold fdo_flush. cbv zeta.
  destruct (Z.of_nat (length (fos_buffer fos)) =? 0) eqn:E.
  - apply Z.eqb_eq in E.
    assert (Hb : fos_buffer fos = []) by (apply length_zero_iff_nil; lia).
    destruct fos as [rc fd f buf taken]. cbn [fos_buffer] in Hb. subst buf.
    unfold set_fos_buffer, set_fd_taken.
    cbn [os_rc fos_fd fos_file fos_buffer fd_taken]. rewrite app_nil_r.
    reflexivity.
  - rewrite safe_write_all. cbn [mbind outcome_bind obind].
    rewrite Z.eqb_refl. reflexivity.
Qed.

(** One write: taken whole, in order, the buffer within its bounds. *)
Lemma fdo_write_all_taken fos ptr :
  Z.of_nat (length (fos_buffer fos)) < sizeof_fos_buffer ->
  exists fos',
    fdo_write sys_write cancel fos ptr = Ret (Z.of_nat (length ptr), fos') /\
    Z.of_nat (length (fos_buffer fos')) < sizeof_fos_buffer /\
    fd_taken fos' ++ fos_buffer fos'
    = (fd_taken fos ++ fos_buffer fos) ++ ptr /\
    os_rc fos' = os_rc fos /\ fos_fd fos' = fos_fd fos /\
    fos_file fos' = fos_file fos.
Proof.
  intros Hb. unfold fdo_write, fdo_buffer, sizeof_fos_buffer in *. cbv zeta.
  destruct (_ >=? 1024) eqn:E1.
  - rewrite fdo_flush_all. cbn [mbind outcome_bind obind].
    change (negb (0 =? 0)) with false. cbv iota.
    change (1024 / 2) with 512.
    destruct (_ >=? 512) eqn:E2; zbool.
    + rewrite safe_write_all. cbn [mbind outcome_bind obind].
      rewrite Z.eqb_refl. cbn [negb].
      eexists. split; [reflexivity|].
      unfold set_fos_buffer, set_fd_taken.
      cbn [os_rc fos_fd fos_file fos_buffer fd_taken length].
      rewrite app_nil_r. repeat split; auto; lia.
    + unfold set_fos_buffer, set_fd_taken.
      cbn [os_rc fos_fd fos_file fos_buffer fd_taken length app].
      replace (Z.of_nat 0 + Z.of_nat (length ptr) >? 1024) with false
        by (symmetry; rewrite Z.gtb_ltb; apply Z.ltb_ge; lia).
      eexists. split; [reflexivity|].
      cbn [os_rc fos_fd fos_file fos_buffer fd_taken].
      repeat split; auto; lia.
  - zbool.
    replace (Z.of_nat (length (fos_buffer fos)) + Z.of_nat (length ptr) >? 1024)
      with false by (symmetry; rewrite Z.gtb_ltb; apply Z.ltb_ge; lia).
    eexists. split; [reflexivity|].
    unfold set_fos_buffer. cbn [os_rc fos_fd fos_file fos_buffer fd_taken].
    rewrite length_app, app_assoc. repeat split; auto; lia.
Qed.

Lemma fdo_write_all_run chunks : forall fos,
  Z.of_nat (length (fos_buffer fos)) < sizeof_fos_buffer ->
  exists fos',
    fdo_write_all sys_write cancel fos chunks = Ret (0, fos') /\
    Z.of_nat (length (fos_buffer fos')) < sizeof_fos_buffer /\
    fd_taken fos' ++ fos_buffer fos'
    = (fd_taken fos ++ fos_buffer fos) ++ concat chunks /\
    os_rc fos' = os_rc fos /\ fos_fd fos' = fos_fd fos /\
    fos_file fos' = fos_file fos.
Proof.
  induction chunks as [|c rest IH]; intros fos Hb; cbn [fdo_write_all concat].
  - exists fos. rewrite app_nil_r. repeat split; auto.
  - destruct (fdo_write_all_taken fos c Hb)
      as (fos1 & -> & Hb1 & Hbytes1 & Hrc1 & Hfd1 & Hf1).
    cbn [mbind outcome_bind obind]. rewrite Z.eqb_refl. cbn [negb].
    destruct (IH fos1 Hb1) as (fos' & Hrun & Hb' & Hbytes & Hrc & Hfd & Hf).
    exists fos'. split; [exact Hrun|].
    rewrite Hbytes, Hbytes1, Hrc, Hrc1, Hfd, Hfd1, Hf, Hf1, <- !app_assoc.
    repeat split; auto.
Qed.

Lemma fdo_close_all fos :
  fdo_close sys_write sys_close sys_renameat cancel fos
  = Ret (let rc := os_rc fos in
         let rc := if (fos_fd fos >? STDERR_FILENO)
                      && (sys_close (fos_fd fos) <? 0)
                   then sys_close (fos_fd fos) else rc in
         if fos_file fos then
           if rc =? 0 then (if sys_renameat <? 0 then sys_renameat else rc)
           else rc
         else rc,
         fd_taken fos ++ fos_buffer fos).
Proof.
  unfold fdo_close. rewrite fdo_flush_all. reflexivity.
Qed.

End FdFacts.

(** X20: on a descriptor whose write(2) always takes at least one byte
    (and may take fewer than asked), a run of fdo_write calls takes every
    chunk whole, never fills the 1024-byte buffer beyond its end and
    leaves the status alone; the bytes the descriptor has taken, followed
    by those still buffered, are the chunks in the order written; and
    fdo_close hands the rest to the descriptor, so that it holds all of
    them, and returns the status when close and rename succeed. *)
Theorem fdo_writes_reach_descriptor
    (sys_write : list byte -> list byte -> Z) (sys_close : Z -> Z)
    (sys_renameat : Z) (cancel : Z -> Z -> Z)
    (fos : apk_fd_ostream) (chunks : list (list byte)) :
  (forall taken req,
     req <> [] -> 0 < sys_write taken req <= Z.of_nat (length req)) ->
  Z.of_nat (length (fos_buffer fos)) < sizeof_fos_buffer ->
  exists fos' rc,
    fdo_write_all sys_write cancel fos chunks = Ret (0, fos') /\
    Z.of_nat (length (fos_buffer fos')) < sizeof_fos_buffer /\
    os_rc fos' = os_rc fos /\
    fd_taken fos' ++ fos_buffer fos'
    = fd_taken fos ++ fos_buffer fos ++ concat chunks /\
    fdo_close sys_write sys_close sys_renameat cancel fos'
    = Ret (rc, fd_taken fos ++ fos_buffer fos ++ concat chunks) /\
    (0 <= sys_close (fos_fd fos) -> 0 <= sys_renameat -> rc = os_rc fos).
Proof.
  intros Hw Hb.
  destruct (fdo_write_all_run sys_write cancel Hw chunks fos Hb)
    as (fos' & Hrun & Hb' & Hbytes & Hrc & Hfd & Hf).
  exists fos'. eexists. split; [exact Hrun|].
  split; [exact Hb'|]. split; [exact Hrc|].
  rewrite <- app_assoc in Hbytes. split; [exact Hbytes|].
  split; [rewrite (fdo_close_all sys_write sys_close sys_renameat cancel Hw),
            Hbytes; reflexivity|].
  intros Hc Hren. cbv zeta. rewrite Hfd, Hrc.
  replace (sys_close (fos_fd fos) <? 0) with false by (symmetry; lia).
  rewrite andb_false_r.
  replace (sys_renameat <? 0) with false by (symmetry; lia).
  destruct (fos_file fos'); [|reflexivity].
  destruct (os_rc fos =? 0); reflexivity.
Qed.

(** The theorem at a descriptor that takes three bytes at a time. *)
Lemma fdo_writes_reach_descriptor_witness :
  exists fos' rc,
    fdo_write_all (fun _ req => Z.min 3 (Z.of_nat (length req)))
      (fun rc _ => rc) (apk_ostream_to_fd 5)
      [[x01; x02; x03; x04; x05]; [x06]] = Ret (0, fos') /\
    Z.of_nat (length (fos_buffer fos')) < sizeof_fos_buffer /\
    os_rc fos' = 0 /\
    fd_taken fos' ++ fos_buffer fos' = [x01; x02; x03; x04; x05; x06] /\
    fdo_close (fun _ req => Z.min 3 (Z.of_nat (length req)))
      (fun _ => 0) 0 (fun rc _ => rc) fos'
    = Ret (rc, [x01; x02; x03; x04; x05; x06]) /\
    (0 <= 0 -> 0 <= 0 -> rc = 0).
Proof.
  apply (fdo_writes_reach_descriptor
           (fun _ req => Z.min 3 (Z.of_nat (length req)))
           (fun _ => 0) 0 (fun rc _ => rc) (apk_ostream_to_fd 5)
           [[x01; x02; x03; x04; x05]; [x06]]).
  - intros taken req Hne. destruct req; [congruence|]. cbn [length]. lia.
  - reflexivity.
Defined.

(* ================================================================== *)
(** * Container creation and mapping back *)

(** The parse of a framed container, with the database it returns. *)
Lemma parse_container_arena T (v : T -> adb -> apk_blob_t -> Z) p sigs db :
  fits p -> Forall fits sigs ->
  data db = blob_of (container_blocks p sigs) ->
  APK_BLOB_IS_NULL (adb_ db) = true ->
  __adb_m_parse T v db None
  = Ret (0, set_adb db (adb_block_blob (data db) 0)).
Proof.
  intros Hp Hs Hd Ha.
  set (rest := concat (map (adb_c_block ADB_BLOCK_SIG) sigs)).
  set (blocks := blob_of (container_blocks p sigs)) in *.
  assert (Hv : adb_block_validate 0 blocks = BLK 0)
    by exact (validate_encoded _ _ adb_type_ok Hp [] rest).
  assert (Ht : adb_block_type (block_at blocks 0) = ADB_BLOCK_ADB)
    by exact (type_encoded _ _ adb_type_ok Hp [] rest).
  assert (Hn : adb_block_next 0 blocks
               = adb_block_validate
                   (Z.of_nat (length (adb_c_block ADB_BLOCK_ADB p))) blocks)
    by exact (next_encoded _ _ adb_type_ok Hp [] rest).
  destruct (parse_null_trust T v db) as (r & db' & Hr & _).
  { left. rewrite Hd. reflexivity. }
  rewrite Hr. unfold __adb_m_parse in Hr.
  replace (APK_BLOB_IS_NULL (data db)) with false in Hr
    by (rewrite Hd; reflexivity).
  cbn [andb] in Hr.
  destruct (__adb_m_parse_loop _ _ _ _ _ _ _) as [[[db1 tr1] blk1]|] eqn:Hl;
    [|discriminate].
  unfold adb_block_first in Hl.
  cbn [__adb_m_parse_loop] in Hl.
  unfold __adb_m_parse_block in Hl.
  rewrite Hd in Hl.
  rewrite Hv in Hl. rewrite Ht in Hl.
  change (ADB_BLOCK_ADB =? ADB_BLOCK_ADB) with true in Hl.
  cbv iota in Hl. rewrite Ha in Hl. cbn [negb] in Hl.
  rewrite Hn in Hl.
  apply (parse_loop_sigs T v sigs (adb_c_block ADB_BLOCK_ADB p)) in Hl; auto.
  injection Hl as E1 E2 E3. subst db1 tr1 blk1.
  cbn [mbind outcome_bind obind] in Hr.
  cbn [negb set_adb adb_ APK_BLOB_IS_NULL adb_block_blob blob_ptr] in Hr.
  change (0 =? 0) with true in Hr. cbv iota in Hr.
  rewrite Hd. symmetry. exact Hr.
Qed.

(** What a write reads through the arena pointer. *)
Lemma blob_read_arena db :
  arena_ok db -> blob_read (adb_ db) = Ret (arena db).
Proof.
  intros [H0 H1]. unfold blob_read, arena, blob_bytes, arena_mem in *.
  destruct (blob_ptr (adb_ db)) as [mem|].
  - replace (length mem <? Z.to_nat (blob_len (adb_ db)))%nat with false
      by (symmetry; apply Nat.ltb_ge; lia).
    reflexivity.
  - cbn [length] in H1.
    replace (blob_len (adb_ db) =? 0) with true by (symmetry; lia).
    reflexivity.
Qed.

Section CreateFd.
Variable sys_write : list byte -> list byte -> Z.
Variable sys_close : Z -> Z.
Variable sys_renameat : Z.
Variable cancel_rc : Z -> Z -> Z.
Variable os_cancel : apk_fd_ostream -> Z -> Z * apk_fd_ostream.
Variable os_error : apk_fd_ostream -> Z.
Variable apk_trust : Type.
Variable write_signatures :
  apk_trust -> adb -> apk_fd_ostream -> outcome (Z * apk_fd_ostream).
Variable EAPKFORMAT : Z.

Hypothesis Hwrite : forall taken req,
  req <> [] -> 0 < sys_write taken req <= Z.of_nat (length req).

Abbreviation os_write := (fdo_write sys_write cancel_rc).

(** adb_c_block on the descriptor stream hands it the framed block. *)
Lemma adb_c_block_fd fos type val bytes :
  Z.of_nat (length (fos_buffer fos)) < sizeof_fos_buffer ->
  blob_read val = Ret bytes ->
  blob_len val = Z.of_nat (length bytes) ->
  0 <= adb_block_padding (adb_block_init type (blob_len val)) ->
  exists fos',
    adb_c_block_os apk_fd_ostream os_write fos type val = Ret (0, fos') /\
    Z.of_nat (length (fos_buffer fos')) < sizeof_fos_buffer /\
    fd_taken fos' ++ fos_buffer fos'
    = (fd_taken fos ++ fos_buffer fos) ++ adb_c_block type bytes /\
    os_rc fos' = os_rc fos /\ fos_fd fos' = fos_fd fos /\
    fos_file fos' = fos_file fos.
Proof.
  intros Hb Hread Hlen Hpad. unfold adb_c_block_os, adb_c_block. cbv zeta.
  rewrite <- Hlen.
  set (blk := adb_block_init type (blob_len val)) in *.
  destruct (fdo_write_all_taken sys_write cancel_rc Hwrite fos
              (le_encode 4 (type_size blk)) Hb)
    as (fos1 & -> & Hb1 & Hbytes1 & Hrc1 & Hfd1 & Hf1).
  cbn [mbind outcome_bind obind].
  replace (Z.of_nat (length (le_encode 4 (type_size blk))) <? 0) with false
    by (symmetry; apply Z.ltb_ge; lia).
  rewrite Hread. cbn [mbind outcome_bind obind].
  destruct (fdo_write_all_taken sys_write cancel_rc Hwrite fos1 bytes Hb1)
    as (fos2 & -> & Hb2 & Hbytes2 & Hrc2 & Hfd2 & Hf2).
  cbn [mbind outcome_bind obind].
  replace (Z.of_nat (length bytes) <? 0) with false
    by (symmetry; apply Z.ltb_ge; lia).
  destruct (adb_block_padding blk =? 0) eqn:Ep; cbn [negb].
  - apply Z.eqb_eq in Ep. rewrite Ep. cbn [Z.to_nat zeroes replicate].
    exists fos2. rewrite app_nil_r.
    rewrite Hbytes2, Hbytes1, Hrc2, Hrc1, Hfd2, Hfd1, Hf2, Hf1, <- !app_assoc.
    repeat split; auto.
  - destruct (fdo_write_all_taken sys_write cancel_rc Hwrite fos2
                (zeroes (Z.to_nat (adb_block_padding blk))) Hb2)
      as (fos3 & -> & Hb3 & Hbytes3 & Hrc3 & Hfd3 & Hf3).
    cbn [mbind outcome_bind obind].
    replace (Z.of_nat (length (zeroes (Z.to_nat (adb_block_padding blk)))) <? 0)
      with false by (symmetry; apply Z.ltb_ge; lia).
    exists fos3.
    rewrite Hbytes3, Hbytes2, Hbytes1, Hrc3, Hrc2, Hrc1, Hfd3, Hfd2, Hfd1,
      Hf3, Hf2, Hf1, <- !app_assoc.
    repeat split; auto.
Qed.

(** adb_c_adb without signing hands the stream header and ADB block. *)
Lemma adb_c_adb_fd fos db :
  Z.of_nat (length (fos_buffer fos)) < sizeof_fos_buffer ->
  magic (hdr db) = ADB_FORMAT_MAGIC ->
  arena_ok db -> fits (arena db) ->
  exists fos',
    adb_c_adb apk_fd_ostream os_write os_cancel os_error apk_trust
      write_signatures EAPKFORMAT fos db None
    = Ret (os_error fos', fos') /\
    Z.of_nat (length (fos_buffer fos')) < sizeof_fos_buffer /\
    fd_taken fos' ++ fos_buffer fos'
    = (fd_taken fos ++ fos_buffer fos)
      ++ adb_c_header (hdr db) ++ adb_c_block ADB_BLOCK_ADB (arena db) /\
    os_rc fos' = os_rc fos /\ fos_fd fos' = fos_fd fos /\
    fos_file fos' = fos_file fos.
Proof.
  intros Hb Hm Hok Hfits. unfold adb_c_adb, adb_c_header_os.
  rewrite Hm. change (negb (ADB_FORMAT_MAGIC =? ADB_FORMAT_MAGIC)) with false.
  cbv iota.
  destruct (fdo_write_all_taken sys_write cancel_rc Hwrite fos
              (adb_c_header (hdr db)) Hb)
    as (fos1 & -> & Hb1 & Hbytes1 & Hrc1 & Hfd1 & Hf1).
  cbn [mbind outcome_bind obind].
  pose proof (length_arena db Hok) as Hlen.
  destruct (adb_c_block_fd fos1 ADB_BLOCK_ADB (adb_ db) (arena db) Hb1
              (blob_read_arena db Hok) (eq_sym Hlen))
    as (fos2 & -> & Hb2 & Hbytes2 & Hrc2 & Hfd2 & Hf2).
  { rewrite <- Hlen.
    destruct (block_size_bounds ADB_BLOCK_ADB (arena db) adb_type_ok Hfits) as [Hle ->].
    lia. }
  cbn [mbind outcome_bind obind].
  exists fos2. split; [reflexivity|].
  rewrite Hbytes2, Hbytes1, Hrc2, Hrc1, Hfd2, Hfd1, Hf2, Hf1, <- !app_assoc.
  repeat split; auto.
Qed.

End CreateFd.

(** X21: adb_c_create, without signing, on a fresh descriptor stream whose
    write(2) makes progress leaves a file that holds the header of the
    database and its arena framed as one ADB block; adb_m_map (with the
    schema of the header, or none, expected, and no trust context) maps
    that file back to a database with the same header, the same arena
    length and bytes, and the same root value. *)
Theorem adb_c_create_maps_back `{P : adb_params}
    (sys_write : list byte -> list byte -> Z) (sys_close : Z -> Z)
    (sys_renameat : Z) (cancel_rc : Z -> Z -> Z)
    (os_cancel : apk_fd_ostream -> Z -> Z * apk_fd_ostream)
    (os_error : apk_fd_ostream -> Z)
    (S : Type)
    (write_signatures : S -> adb -> apk_fd_ostream
                        -> outcome (Z * apk_fd_ostream))
    (EAPKFORMAT : Z)
    (T : Type) (verify : T -> adb -> apk_blob_t -> Z)
    (fos : apk_fd_ostream) (db db0 : adb) (e : Z) :
  (forall taken req,
     req <> [] -> 0 < sys_write taken req <= Z.of_nat (length req)) ->
  fos_buffer fos = [] -> fd_taken fos = [] ->
  magic (hdr db) = ADB_FORMAT_MAGIC -> 0 <= schema_id (hdr db) < 2 ^ 32 ->
  arena_ok db -> fits (arena db) ->
  e = 0 \/ e = schema_id (hdr db) ->
  exists rc file db',
    adb_c_create apk_fd_ostream (list byte)
      (fdo_write sys_write cancel_rc)
      (fdo_close sys_write sys_close sys_renameat cancel_rc)
      os_cancel os_error S write_signatures EAPKFORMAT fos db None
    = Ret (rc, file) /\
    file = adb_c_header (hdr db) ++ adb_c_block ADB_BLOCK_ADB (arena db) /\
    (0 <= sys_close (fos_fd fos) -> 0 <= sys_renameat -> rc = os_rc fos) /\
    adb_m_map T verify db0 file e None = Ret (0, db') /\
    hdr db' = hdr db /\
    blob_len (adb_ db') = blob_len (adb_ db) /\
    blob_bytes (adb_ db') = arena db /\
    adb_r_root db' = adb_r_root db.
Proof.
  intros Hw Hbuf Htaken Hm Hsch Hok Hfits He. unfold adb_c_create.
  destruct (adb_c_adb_fd sys_write cancel_rc os_cancel os_error S
              write_signatures EAPKFORMAT Hw fos db)
    as (fos' & -> & Hb' & Hbytes & Hrc & Hfd & Hf); auto.
  { rewrite Hbuf. reflexivity. }
  cbn [mbind outcome_bind obind].
  rewrite (fdo_close_all sys_write sys_close sys_renameat cancel_rc Hw).
  rewrite Hbytes, Hbuf, Htaken. cbn [app].
  set (p := arena db) in *.
  set (file := adb_c_header (hdr db) ++ adb_c_block ADB_BLOCK_ADB p).
  set (blocks := blob_of (container_blocks p [])).
  assert (Hfile : file = adb_c_header (hdr db) ++ container_blocks p [])
    by (unfold container_blocks; cbn [map concat]; now rewrite app_nil_r).
  assert (Hblk : block_at blocks 0
                 = adb_block_init ADB_BLOCK_ADB (Z.of_nat (length p)))
    by exact (block_at_encoded _ _ adb_type_ok Hfits [] []).
  assert (Hbb : blob_bytes (adb_block_blob blocks 0) = p)
    by exact (blob_encoded _ _ adb_type_ok Hfits [] []).
  assert (Hmap : adb_m_map T verify db0 file e None
                 = Ret (0, set_adb
                             (set_data
                                (set_hdr (set_mmap adb_zero (blob_of file))
                                   (hdr db)) blocks)
                             (adb_block_blob blocks 0))).
  { rewrite Hfile. unfold adb_m_map, adb_c_header.
    rewrite <- !app_assoc.
    replace (Z.of_nat (length (le_encode 4 (magic (hdr db))
                               ++ le_encode 4 (schema_id (hdr db))
                               ++ container_blocks p [])) <? 8) with false
      by (symmetry; apply Z.ltb_ge; rewrite !length_app, !length_le_encode; lia).
    replace (drop 8 (le_encode 4 (magic (hdr db))
                     ++ le_encode 4 (schema_id (hdr db))
                     ++ container_blocks p []))
      with (container_blocks p [])
      by (change 8%nat with (4 + 4)%nat; rewrite <- drop_drop;
          rewrite !drop_app_length' by (now rewrite length_le_encode);
          reflexivity).
    rewrite drop_app_length' by now rewrite length_le_encode.
    rewrite !le_decode_take_4
      by (try exact Hsch; rewrite Hm; unfold ADB_FORMAT_MAGIC; lia).
    cbn [magic schema_id]. rewrite Hm.
    change (negb (ADB_FORMAT_MAGIC =? ADB_FORMAT_MAGIC)) with false.
    replace (negb (e =? 0) && negb (e =? schema_id (hdr db))) with false
      by (destruct He as [-> | ->]; [reflexivity|];
          rewrite Z.eqb_refl; cbn; now rewrite andb_false_r).
    cbv iota.
    replace (mk_adb_header ADB_FORMAT_MAGIC (schema_id (hdr db)))
      with (hdr db) by (rewrite <- Hm; now destruct (hdr db)).
    rewrite (parse_container_arena T verify p []); auto. }
  do 3 eexists. split; [reflexivity|].
  split; [reflexivity|].
  split.
  { intros Hc Hren. cbv zeta. rewrite Hfd, Hrc.
    replace (sys_close (fos_fd fos) <? 0) with false by (symmetry; lia).
    rewrite andb_false_r.
    replace (sys_renameat <? 0) with false by (symmetry; lia).
    destruct (fos_file fos'); [|reflexivity].
    destruct (os_rc fos =? 0); reflexivity. }
  split; [exact Hmap|].
  set (db' := set_adb _ _).
  assert (Hlen' : blob_len (adb_ db') = blob_len (adb_ db)).
  { unfold db'. cbn [set_adb adb_ adb_block_blob blob_len].
    rewrite Hblk.
    rewrite (adb_block_length_init _ _ adb_type_ok (fits_init _ Hfits)).
    apply length_arena, Hok. }
  split; [reflexivity|]. split; [exact Hlen'|].
  split; [exact Hbb|].
  unfold adb_r_root. rewrite Hlen'.
  destruct (blob_len (adb_ db) <? 4) eqn:E4; [reflexivity|].
  apply Z.ltb_ge in E4.
  replace 4%nat with (Z.to_nat 4) by reflexivity.
  rewrite <- (take_drop_arena db) by lia.
  rewrite <- Hlen' at 1.
  rewrite <- (take_drop_arena db') by lia.
  fold p. unfold arena. fold db'.
  change (blob_bytes (adb_ db')) with (blob_bytes (adb_block_blob blocks 0)).
  rewrite Hbb, Hlen'. reflexivity.
Qed.

(** The theorem at a database holding the integer 0x12345678 as root, on
    a descriptor that takes three bytes at a time. *)
Lemma adb_c_create_maps_back_witness :
  exists rc file db',
    adb_c_create apk_fd_ostream (list byte)
      (fdo_write (fun _ req => Z.min 3 (Z.of_nat (length req)))
                 (fun rc _ => rc))
      (fdo_close (fun _ req => Z.min 3 (Z.of_nat (length req)))
                 (fun _ => 0) 0 (fun rc _ => rc))
      (fun fos rc => (rc, fos)) os_rc unit (fun _ _ fos => Ret (0, fos)) 1000
      (apk_ostream_to_fd 5)
      (set_arena (adb_w_init_dynamic 7 1)
         [x78; x56; x34; x12; x00; x00; x00; x20] 8192) None
    = Ret (rc, file) /\
    file = adb_c_header (mk_adb_header ADB_FORMAT_MAGIC 7)
           ++ adb_c_block ADB_BLOCK_ADB
                [x78; x56; x34; x12; x00; x00; x00; x20] /\
    (0 <= 0 -> 0 <= 0 -> rc = 0) /\
    adb_m_map unit (fun _ _ _ => 1) adb_zero file 7 None = Ret (0, db') /\
    hdr db' = mk_adb_header ADB_FORMAT_MAGIC 7 /\
    blob_len (adb_ db') = 8 /\
    blob_bytes (adb_ db') = [x78; x56; x34; x12; x00; x00; x00; x20] /\
    @adb_r_root lp64 db' = 0x20000000.
Proof.
  apply (@adb_c_create_maps_back lp64
           (fun _ req => Z.min 3 (Z.of_nat (length req))) (fun _ => 0) 0
           (fun rc _ => rc) (fun fos rc => (rc, fos)) os_rc unit
           (fun _ _ fos => Ret (0, fos)) 1000 unit (fun _ _ _ => 1)
           (apk_ostream_to_fd 5)
           (set_arena (adb_w_init_dynamic 7 1)
              [x78; x56; x34; x12; x00; x00; x00; x20] 8192)
           adb_zero 7).
  - intros taken req Hne. destruct req; [congruence|]. cbn [length]. lia.
  - reflexivity.
  - reflexivity.
  - reflexivity.
  - split; [discriminate | reflexivity].
  - vm_compute. split; discriminate.
  - vm_compute. reflexivity.
  - right. reflexivity.
Defined.

(* ================================================================== *)
(** * Write errors and container creation *)

Section Poison.
Context `{P : adb_params}.

(** The writer never touches the header. *)
Lemma adb_w_raw_hdr db vec len alignment db' offs :
  adb_w_raw db vec len alignment = Ret (db', offs) -> hdr db' = hdr db.
Proof.
  unfold adb_w_raw. cbv zeta.
  destruct (_ >? blob_len (mmap db)).
  - destruct (num_buckets db =? 0); [discriminate|].
    destruct (grow _ _ _); [|discriminate].
    cbn [mbind outcome_bind obind]. intros [= <- _]. reflexivity.
  - cbn [mbind outcome_bind obind]. intros [= <- _]. reflexivity.
Qed.

Lemma adb_w_data_hdr db vec alignment db' offs :
  adb_w_data db vec alignment = Ret (db', offs) -> hdr db' = hdr db.
Proof.
  unfold adb_w_data.
  destruct (num_buckets db =? 0); [apply adb_w_raw_hdr|].
  destruct (iovec_hash vec) as [hash len].
  destruct (bucket db !! _) as [chain|]; [|discriminate].
  destruct (walk_chain _ _ _ _ _ _ _) as [o | k i |].
  - intros [= <- _]. reflexivity.
  - destruct (adb_w_raw db vec len alignment) as [[db1 o]|] eqn:E;
      [|discriminate].
    cbn [mbind outcome_bind obind]. intros [= <- _].
    cbn [set_entry set_bucket hdr]. eapply adb_w_raw_hdr; eauto.
  - destruct (adb_w_raw _ vec len alignment) as [[db1 o]|] eqn:E;
      [|discriminate].
    cbn [mbind outcome_bind obind]. intros [= <- _].
    cbn [set_entry set_bucket hdr].
    apply adb_w_raw_hdr in E. exact E.
Qed.

End Poison.

(** X22: adb_wo_val with a field index at or beyond the builder's capacity,
    or with an error value, fails through adb_w_error: the process aborts
    when assertions are compiled in; otherwise the call returns
    ADB_ERROR(rc), leaves the slots and the arena alone and zeroes the
    format magic of the database header.  From then on adb_c_adb gives the
    output stream nothing but apk_ostream_cancel with -EAPKFORMAT, also
    after further adb_w_data calls, which never restore the magic. *)
Theorem adb_wo_val_error_poisons `{P : adb_params}
    (ostream S : Type)
    (os_write : ostream -> list byte -> outcome (Z * ostream))
    (os_cancel : ostream -> Z -> Z * ostream)
    (os_error : ostream -> Z)
    (write_signatures : S -> adb -> ostream -> outcome (Z * ostream))
    (EAPKFORMAT : Z)
    (o : adb_obj) (i : Z) (v : adb_val_t) (max : adb_val_t)
    (os : ostream) (t : option S) :
  obj_slot o ADBI_NUM_ENTRIES = Ret max ->
  max <= i \/ ADB_IS_ERROR v = true ->
  exists rc db',
    adb_wo_val o i v
    = (if assert_enabled then Fault AssertFail
       else Ret (set_o_db o db', ADB_ERROR rc)) /\
    (rc = E2BIG \/ rc = ADB_VAL_VALUE v) /\
    db' = set_hdr (o_db o) (mk_adb_header 0 (schema_id (hdr (o_db o)))) /\
    adb_c_adb ostream os_write os_cancel os_error S write_signatures
      EAPKFORMAT os db' t = Ret (os_cancel os (- EAPKFORMAT)) /\
    forall vec alignment db1 offs,
      adb_w_data db' vec alignment = Ret (db1, offs) ->
      magic (hdr db1) = 0 /\
      adb_c_adb ostream os_write os_cancel os_error S write_signatures
        EAPKFORMAT os db1 t = Ret (os_cancel os (- EAPKFORMAT)).
Proof.
  intros Hmax Hbad.
  set (db' := set_hdr (o_db o) (mk_adb_header 0 (schema_id (hdr (o_db o))))).
  assert (Hrefuse : forall db1, magic (hdr db1) = 0 ->
            adb_c_adb ostream os_write os_cancel os_error S write_signatures
              EAPKFORMAT os db1 t = Ret (os_cancel os (- EAPKFORMAT))).
  { intros db1 Hm. unfold adb_c_adb. rewrite Hm. reflexivity. }
  assert (Herr : forall rc,
            wo_error o rc
            = (if assert_enabled then Fault AssertFail
               else Ret (set_o_db o db', ADB_ERROR rc))).
  { intros rc. unfold wo_error, adb_w_error.
    destruct assert_enabled; reflexivity. }
  exists (if i >=? max then E2BIG else ADB_VAL_VALUE v), db'.
  split.
  { unfold adb_wo_val. rewrite Hmax. cbn [mbind outcome_bind obind].
    destruct (i >=? max) eqn:E; [apply Herr|].
    destruct Hbad as [Hi | ->]; [lia | apply Herr]. }
  split; [destruct (i >=? max); auto|].
  split; [reflexivity|].
  split; [apply Hrefuse; reflexivity|].
  intros vec alignment db1 offs Hw.
  apply adb_w_data_hdr in Hw.
  assert (Hm : magic (hdr db1) = 0) by (rewrite Hw; reflexivity).
  split; [exact Hm | apply Hrefuse, Hm].
Qed.

(** The theorem at a builder of capacity 3, field 5, assertions compiled
    out. *)
Lemma adb_wo_val_error_poisons_witness :
  exists rc db',
    @adb_wo_val lp64_ndebug builder_7 5 0x10000001
    = Ret (set_o_db builder_7 db', @ADB_ERROR lp64_ndebug rc) /\
    (rc = E2BIG \/ rc = ADB_VAL_VALUE 0x10000001) /\
    db' = set_hdr (o_db builder_7) (mk_adb_header 0 0) /\
    adb_c_adb (list byte) (fun os bs => Ret (Z.of_nat (length bs), os ++ bs))
      (fun os rc => (rc, os)) (fun _ => 0) unit
      (fun _ _ os => Ret (0, os)) 1000 [] db' None = Ret (-1000, []) /\
    forall vec alignment db1 offs,
      @adb_w_data lp64_ndebug db' vec alignment = Ret (db1, offs) ->
      magic (hdr db1) = 0 /\
      adb_c_adb (list byte)
        (fun os bs => Ret (Z.of_nat (length bs), os ++ bs))
        (fun os rc => (rc, os)) (fun _ => 0) unit
        (fun _ _ os => Ret (0, os)) 1000 [] db1 None = Ret (-1000, []).
Proof.
  apply (@adb_wo_val_error_poisons lp64_ndebug (list byte) unit
           (fun os bs => Ret (Z.of_nat (length bs), os ++ bs))
           (fun os rc => (rc, os)) (fun _ => 0)
           (fun _ _ os => Ret (0, os)) 1000 builder_7 5 0x10000001 3 [] None).
  - reflexivity.
  - left. lia.
Defined.

(* ================================================================== *)
(** * Field lookup by name *)

Lemma bytes_eqb_refl a : bytes_eqb a a = true.
Proof.
  induction a as [|x a IH]; cbn [bytes_eqb]; [reflexivity|].
  rewrite IH, andb_true_r. now destruct x.
Qed.

Lemma bytes_eqb_neq a b : bytes_eqb a b = false -> a <> b.
Proof. intros H ->. rewrite bytes_eqb_refl in H. discriminate. Qed.

Lemma field_by_name_from fields : forall i num_fields name,
  0 <= i ->
  num_fields - 1 - i <= Z.of_nat (length fields) ->
  exists r,
    adb_s_field_by_name_from i num_fields fields name = Ret r /\
    (r = 0 \/ (i < r < num_fields /\
               fields !! Z.to_nat (r - 1 - i) = Some (Some name))) /\
    (forall j, (j < Z.to_nat (if (r =? 0)%Z then (num_fields - 1 - i)%Z
                              else (r - 1 - i)%Z))%nat ->
       (exists f, fields !! j = Some (Some f) /\ f <> name)
       \/ (r = 0 /\ exists k, (k <= j)%nat /\ fields !! k = Some None)).
Proof.
  induction fields as [|[f|] rest IH]; intros i n name Hi Hlen;
    cbn [adb_s_field_by_name_from length] in *.
  - replace (i <? n - 1) with false by (symmetry; apply Z.ltb_ge; lia).
    exists 0. split; [reflexivity|]. split; [left; reflexivity|].
    cbn [Z.eqb]. intros j Hj. lia.
  - destruct (i <? n - 1) eqn:E.
    2:{ apply Z.ltb_ge in E. exists 0. split; [reflexivity|].
        split; [left; reflexivity|]. cbn [Z.eqb]. intros j Hj. lia. }
    apply Z.ltb_lt in E.
    destruct (bytes_eqb f name) eqn:Ef.
    + apply bytes_eqb_eq in Ef. subst f. exists (i + 1).
      split; [reflexivity|]. split.
      * right. split; [lia|].
        replace (i + 1 - 1 - i) with 0 by lia. reflexivity.
      * replace (i + 1 =? 0) with false by (symmetry; apply Z.eqb_neq; lia).
        intros j Hj. lia.
    + apply bytes_eqb_neq in Ef.
      destruct (IH (i + 1) n name) as (r & Hr & Hfound & Hbefore); [lia | lia |].
      exists r. split; [exact Hr|]. split.
      * destruct Hfound as [-> | [Hrange Hat]]; [left; reflexivity|].
        right. split; [lia|].
        replace (Z.to_nat (r - 1 - i)) with (S (Z.to_nat (r - 1 - (i + 1))))
          by lia.
        exact Hat.
      * intros [|j] Hj; [left; exists f; auto|].
        destruct (Hbefore j) as [(g & Hg & Hne) | (Hz & k & Hk & Hnone)].
        { destruct (r =? 0); lia. }
        { left. exists g. auto. }
        { right. split; [exact Hz|]. exists (S k). split; [lia | exact Hnone]. }
  - destruct (i <? n - 1) eqn:E.
    2:{ apply Z.ltb_ge in E. exists 0. split; [reflexivity|].
        split; [left; reflexivity|]. cbn [Z.eqb]. intros j Hj. lia. }
    exists 0. split; [reflexivity|]. split; [left; reflexivity|].
    intros j Hj. right. split; [reflexivity|].
    exists 0%nat. split; [lia | reflexivity].
Qed.

(** X23: adb_s_field_by_name on a schema whose field array holds its
    num_fields - 1 entries returns 0 or the 1-based index, below
    num_fields, of a field with that name.  The index returned is that of
    the first such field, every field before it has another name; and 0
    is returned only when each field either has another name or comes
    after a field whose name is NULL, where the search stops. *)
Theorem adb_s_field_by_name_first
    (num_fields : Z) (fields : list (option (list byte))) (name : list byte) :
  num_fields - 1 <= Z.of_nat (length fields) ->
  exists r,
    adb_s_field_by_name num_fields fields name = Ret r /\
    (r = 0 \/ (1 <= r < num_fields /\
               fields !! Z.to_nat (r - 1) = Some (Some name))) /\
    (r <> 0 ->
     forall j, (j < Z.to_nat (r - 1))%nat ->
       exists f, fields !! j = Some (Some f) /\ f <> name) /\
    (r = 0 ->
     forall j, (j < Z.to_nat (num_fields - 1))%nat ->
       fields !! j = Some (Some name) ->
       exists k, (k < j)%nat /\ fields !! k = Some None).
Proof.
  intros Hlen. unfold adb_s_field_by_name.
  destruct (field_by_name_from fields 0 num_fields name)
    as (r & Hr & Hfound & Hbefore); [lia | lia |].
  exists r. split; [exact Hr|]. split.
  - destruct Hfound as [-> | [Hrange Hat]]; [left; reflexivity|].
    right. split; [lia|]. rewrite Z.sub_0_r in Hat. exact Hat.
  - split.
    + intros Hne j Hj.
      replace (r =? 0) with false in Hbefore
        by (symmetry; apply Z.eqb_neq; exact Hne).
      destruct (Hbefore j) as [H | [Hz _]]; [lia | exact H | contradiction].
    + intros -> j Hj Hat. cbn [Z.eqb] in Hbefore.
      destruct (Hbefore j) as [(f & Hf & Hne) | (_ & k & Hk & Hnone)]; [lia | |].
      * rewrite Hat in Hf. injection Hf as <-. contradiction.
      * exists k. split; [|exact Hnone].
        destruct (decide (k = j)) as [-> | Hkj]; [|lia].
        rewrite Hat in Hnone. discriminate.
Qed.

(** The theorem at a schema of three fields, the second sought. *)
Lemma adb_s_field_by_name_first_witness :
  exists r,
    adb_s_field_by_name 4 [Some [x61]; Some [x62]; Some [x62]] [x62] = Ret r /\
    (r = 0 \/ (1 <= r < 4 /\
               [Some [x61]; Some [x62]; Some [x62]] !! Z.to_nat (r - 1)
               = Some (Some [x62]))) /\
    (r <> 0 ->
     forall j, (j < Z.to_nat (r - 1))%nat ->
       exists f, [Some [x61]; Some [x62]; Some [x62]] !! j = Some (Some f)
                 /\ f <> [x62]) /\
    (r = 0 ->
     forall j, (j < Z.to_nat (4 - 1))%nat ->
       [Some [x61]; Some [x62]; Some [x62]] !! j = Some (Some [x62]) ->
       exists k, (k < j)%nat
                 /\ [Some [x61]; Some [x62]; Some [x62]] !! k = Some None).
Proof.
  apply (adb_s_field_by_name_first 4 [Some [x61]; Some [x62]; Some [x62]] [x62]).
  cbn [length]. lia.
Defined.

(* ================================================================== *)
(** * The buffered input stream *)

Lemma take_add_drop {A} (l : list A) (a b : nat) :
  take (a + b) l = take a l ++ take b (drop a l).
Proof.
  revert l. induction a as [|a IH]; intros l; [reflexivity|].
  destruct l as [|x l]; cbn [Nat.add take drop app].
  - now rewrite take_nil.
  - now rewrite IH.
Qed.

Lemma to_size_small z : 0 <= z < 2 ^ 64 -> Io.to_size z = z.
Proof. intros H. unfold Io.to_size. apply Z.mod_small. exact H. Qed.

Lemma to_ssize_small z : 0 <= z < 2 ^ 63 -> Io.to_ssize z = z.
Proof. intros H. unfold Io.to_ssize. rewrite Z.mod_small; lia. Qed.

Lemma to_ssize_large z : 2 ^ 63 <= z < 2 ^ 64 -> Io.to_ssize z = z - 2 ^ 64.
Proof.
  intros H. unfold Io.to_ssize.
  replace (z + 2 ^ 63) with (z - 2 ^ 63 + 1 * 2 ^ 64) by lia.
  rewrite Z.mod_add by lia. rewrite Z.mod_small; lia.
Qed.

Lemma to_size_neg z : - 2 ^ 63 <= z < 0 -> Io.to_size z = z + 2 ^ 64.
Proof.
  intros H. unfold Io.to_size.
  replace z with (z + 2 ^ 64 + (-1) * 2 ^ 64) at 1 by lia.
  rewrite Z.mod_add by lia. apply Z.mod_small. lia.
Qed.

(** A stream in order is well formed and delivers all that is buffered
    and all that its source holds. *)
Lemma istream_ok_wf {S} (rem : S -> list byte) st :
  istream_ok rem st -> istream_wf st /\ to_deliver rem st = pending rem st.
Proof.
  intros (Hbs & Hlen & Herr). split.
  - repeat split; auto. destruct Herr as [? | [? _]]; auto.
  - unfold to_deliver, pending. destruct Herr as [-> | [-> ->]]; reflexivity.
Qed.

Lemma istream_ok_of {S} (rem : S -> list byte) st st' :
  istream_wf st' -> Io.i_err st' = Io.i_err st ->
  (Io.i_err st <> 0 -> Io.i_src st' = Io.i_src st) ->
  istream_ok rem st -> istream_ok rem st'.
Proof.
  intros (Hbs & Hlen & _) He Hs (_ & _ & Herr).
  repeat split; auto. rewrite He.
  destruct Herr as [? | [H1 Hend]]; [left; assumption | right].
  split; [exact H1|]. rewrite Hs by lia. exact Hend.
Qed.

Section IstreamFacts.
Variable S : Type.
Variable read : S -> Z -> Z * list byte * S.
Variable rem : S -> list byte.
Hypothesis Hsrc : source_ok rem read.

Lemma pending_advance st k :
  0 <= k <= Z.of_nat (length (Io.i_data st)) ->
  pending rem (Io.advance S st k) = drop (Z.to_nat k) (pending rem st) /\
  take (Z.to_nat k) (Io.i_data st) = take (Z.to_nat k) (pending rem st).
Proof.
  intros Hk. unfold pending, Io.advance. cbn [Io.i_data Io.i_src].
  rewrite drop_app_le by lia. rewrite take_app_le by lia. auto.
Qed.

Lemma to_deliver_advance st k :
  0 <= k <= Z.of_nat (length (Io.i_data st)) ->
  to_deliver rem (Io.advance S st k) = drop (Z.to_nat k) (to_deliver rem st) /\
  take (Z.to_nat k) (Io.i_data st) = take (Z.to_nat k) (to_deliver rem st).
Proof.
  intros Hk. unfold to_deliver, Io.advance.
  cbn [Io.i_data Io.i_src Io.i_err].
  rewrite drop_app_le by lia. rewrite take_app_le by lia. auto.
Qed.

Lemma to_deliver_empty st :
  Io.i_data st = [] -> Io.i_err st = 0 ->
  to_deliver rem st = rem (Io.i_src st).
Proof. intros Hd He. unfold to_deliver. rewrite Hd, He. reflexivity. Qed.

Lemma to_deliver_ended st :
  Io.i_err st <> 0 -> to_deliver rem st = Io.i_data st.
Proof.
  intros He. unfold to_deliver.
  replace (Io.i_err st =? 0) with false by (symmetry; apply Z.eqb_neq; exact He).
  apply app_nil_r.
Qed.

(** The loop of apk_istream_read for a count below 2^63. *)
Lemma read_loop_spec fuel : forall st dst remain r out,
  istream_wf st -> 0 <= remain < 2 ^ 63 -> 0 <= r ->
  remain = 0 \/
  2 * remain + (if Z.of_nat (length (Io.i_data st)) =? 0 then 1 else 0)
  <= Z.of_nat fuel ->
  exists remain' r' st',
    Io.read_loop S read fuel st dst remain r out
    = Ret (remain', r',
           out ++ (if dst
                   then take (Z.to_nat (remain - remain')) (to_deliver rem st)
                   else []), st', 0) /\
    0 <= r' /\ 0 <= remain' /\
    remain - remain' = Z.min remain (Z.of_nat (length (to_deliver rem st))) /\
    to_deliver rem st'
    = drop (Z.to_nat (remain - remain')) (to_deliver rem st) /\
    istream_wf st' /\ Io.i_buf_size st' = Io.i_buf_size st /\
    Io.i_err st' = Io.i_err st /\
    (Io.i_err st <> 0 -> Io.i_src st' = Io.i_src st).
Proof.
  induction fuel as [|fuel IH]; intros st dst remain r out Hok Hrem Hr Hfuel.
  - assert (remain = 0) as -> by (destruct (_ =? 0) in Hfuel; lia).
    cbn [Io.read_loop Z.eqb]. exists 0, r, st.
    rewrite Z.sub_0_r. cbn [Z.to_nat take drop].
    destruct dst; rewrite app_nil_r; repeat split; auto; try lia; apply Hok.
  - cbn [Io.read_loop].
    destruct (remain =? 0) eqn:E0.
    { apply Z.eqb_eq in E0. subst remain. exists 0, r, st.
      rewrite Z.sub_0_r. cbn [Z.to_nat take drop].
      destruct dst; rewrite app_nil_r; repeat split; auto; try lia; apply Hok. }
    apply Z.eqb_neq in E0.
    destruct Hfuel as [Hfuel | Hfuel]; [contradiction|].
    pose proof Hok as (Hbs & Hlen & Herr).
    destruct (Z.of_nat (length (Io.i_data st)) =? 0) eqn:Ed; cbn [negb].
    + (* the buffer is empty *)
      apply Z.eqb_eq in Ed.
      assert (Hd : Io.i_data st = []) by (apply length_zero_iff_nil; lia).
      destruct (Io.i_err st =? 0) eqn:Ee; cbn [negb].
      2:{ apply Z.eqb_neq in Ee.
          exists remain, r, st.
          rewrite Z.sub_diag, (to_deliver_ended st Ee), Hd.
          cbn [Z.to_nat take drop length].
          destruct dst; rewrite app_nil_r; repeat split; auto; try lia;
            apply Hok. }
      apply Z.eqb_eq in Ee.
      pose proof (to_deliver_empty st Hd Ee) as Hp.
      rewrite (to_size_small remain) by lia.
      destruct (dst && (remain >? Io.i_buf_size st / 4)) eqn:Edirect.
      * (* read into the destination *)
        apply andb_true_iff in Edirect as [-> _].
        destruct (read (Io.i_src st) remain) as [[r' bs] s'] eqn:Eread.
        destruct (Hsrc _ _ _ _ _ Eread) as (Hr' & Hle & -> & Hrem' & Hzero).
        destruct (r' <=? 0) eqn:Er.
        { apply Z.leb_le in Er. assert (r' = 0) as -> by lia.
          destruct (Hzero eq_refl) as [? | Hend]; [lia|].
          exists remain, 0, (Io.set_src S st s').
          rewrite Z.sub_diag, Hp, Hend. cbn [Z.to_nat take drop length].
          rewrite app_nil_r. repeat split; auto; try lia.
          unfold to_deliver. cbn [Io.set_src Io.i_data Io.i_src Io.i_err].
          rewrite Hd, Ee, Hrem', Hend. reflexivity. }
        apply Z.leb_gt in Er.
        rewrite (to_ssize_small (remain - r')) by lia.
        set (st1 := Io.set_src S st s').
        assert (Hp1 : to_deliver rem st1
                      = drop (Z.to_nat r') (to_deliver rem st)).
        { rewrite Hp. unfold to_deliver, st1.
          cbn [Io.set_src Io.i_data Io.i_src Io.i_err].
          rewrite Hd, Ee, Hrem'. reflexivity. }
        assert (Hok1 : istream_wf st1).
        { unfold istream_wf, st1. cbn [Io.set_src Io.i_data Io.i_src
            Io.i_buf_size Io.i_err]. repeat split; auto. }
        destruct (IH st1 true (remain - r') r'
                    (out ++ take (Z.to_nat r') (rem (Io.i_src st))) Hok1)
          as (remain' & r'' & st' & Hrun & Hr'' & Hrem'' & Hmin & Hpend
              & Hok' & Hbuf & Herr' & _);
          [lia | lia | |].
        { right. unfold st1. cbn [Io.set_src Io.i_data]. rewrite Hd.
          cbn [length]. change (Z.of_nat 0 =? 0) with true. cbv iota. lia. }
        exists remain', r'', st'. rewrite Hrun.
        rewrite Hp1, length_drop in Hmin.
        pose proof Hle as Hle'. rewrite <- Hp in Hle'.
        split.
        { f_equal. f_equal. f_equal. f_equal. rewrite <- app_assoc. f_equal.
          rewrite Hp1, <- Hp.
          replace (Z.to_nat (remain - remain'))
            with (Z.to_nat r' + Z.to_nat (remain - r' - remain'))%nat by lia.
          symmetry. apply take_add_drop. }
        split; [exact Hr''|]. split; [exact Hrem''|].
        split; [lia|].
        split; [rewrite Hpend, Hp1, drop_drop; f_equal; lia|].
        split; [exact Hok'|]. split; [exact Hbuf|].
        split; [exact Herr' | intros; lia].
      * (* fill the buffer *)
        destruct (read (Io.i_src st) (Io.i_buf_size st))
          as [[r' bs] s'] eqn:Eread.
        destruct (Hsrc _ _ _ _ _ Eread) as (Hr' & Hle & -> & Hrem' & Hzero).
        destruct (r' <=? 0) eqn:Er.
        { apply Z.leb_le in Er. assert (r' = 0) as -> by lia.
          destruct (Hzero eq_refl) as [? | Hend]; [lia|].
          exists remain, 0, (Io.set_src S st s').
          rewrite Z.sub_diag, Hp, Hend. cbn [Z.to_nat take drop length].
          destruct dst; rewrite app_nil_r; repeat split; auto; try lia.
          all: unfold to_deliver;
            cbn [Io.set_src Io.i_data Io.i_src Io.i_err];
            rewrite Hd, Ee, Hrem', Hend; reflexivity. }
        apply Z.leb_gt in Er.
        set (st1 := Io.refill S (Io.set_src S st s')
                      (take (Z.to_nat r') (rem (Io.i_src st)))).
        assert (Hp1 : to_deliver rem st1 = to_deliver rem st).
        { rewrite Hp. unfold to_deliver, st1.
          cbn [Io.refill Io.set_src Io.i_data Io.i_src Io.i_err].
          rewrite Ee, Hrem'. apply take_drop. }
        assert (Hlen1 : Z.of_nat (length (Io.i_data st1)) = r').
        { unfold st1. cbn [Io.refill Io.i_data]. rewrite length_take. lia. }
        assert (Hok1 : istream_wf st1).
        { unfold istream_wf. rewrite Hlen1. unfold st1.
          cbn [Io.refill Io.set_src Io.i_data Io.i_src Io.i_buf_size Io.i_err].
          repeat split; auto; lia. }
        destruct (IH st1 dst remain r' out Hok1)
          as (remain' & r'' & st' & Hrun & Hr'' & Hrem'' & Hmin & Hpend
              & Hok' & Hbuf & Herr' & _);
          [lia | lia | |].
        { right. rewrite Hlen1.
          replace (r' =? 0) with false by (symmetry; apply Z.eqb_neq; lia).
          lia. }
        exists remain', r'', st'. rewrite Hrun, Hp1 in *.
        split; [reflexivity|].
        split; [exact Hr''|]. split; [exact Hrem''|].
        split; [exact Hmin|]. split; [exact Hpend|].
        split; [exact Hok'|]. split; [exact Hbuf|].
        split; [exact Herr' | intros; lia].
    + (* bytes in the buffer *)
      apply Z.eqb_neq in Ed. cbv zeta.
      set (k := Z.min remain (Z.of_nat (length (Io.i_data st)))).
      assert (Hk : 0 < k <= Z.of_nat (length (Io.i_data st))) by lia.
      replace (k <? 0) with false by (symmetry; apply Z.ltb_ge; lia).
      destruct (to_deliver_advance st k) as [Hp1 Htake]; [lia|].
      assert (Hok1 : istream_wf (Io.advance S st k)).
      { unfold istream_wf, Io.advance.
        cbn [Io.i_data Io.i_src Io.i_buf_size Io.i_err].
        rewrite length_drop. repeat split; auto; lia. }
      assert (Hlp : Z.of_nat (length (Io.i_data st))
                    <= Z.of_nat (length (to_deliver rem st)))
        by (unfold to_deliver; rewrite length_app; lia).
      destruct (IH (Io.advance S st k) dst (remain - k) k
                  (if dst then out ++ take (Z.to_nat k) (Io.i_data st) else out)
                  Hok1)
        as (remain' & r'' & st' & Hrun & Hr'' & Hrem'' & Hmin & Hpend
            & Hok' & Hbuf & Herr' & Hsrc');
        [lia | lia | |].
      { right. destruct (_ =? 0); lia. }
      exists remain', r'', st'. rewrite Hrun.
      rewrite Hp1, length_drop in Hmin.
      split.
      { f_equal. f_equal. f_equal. f_equal. destruct dst; [|reflexivity].
        rewrite <- app_assoc. f_equal. rewrite Hp1, Htake.
        replace (Z.to_nat (remain - remain'))
          with (Z.to_nat k + Z.to_nat (remain - k - remain'))%nat by lia.
        symmetry. apply take_add_drop. }
      split; [exact Hr''|]. split; [exact Hrem''|].
      split; [lia|].
      split; [rewrite Hpend, Hp1, drop_drop; f_equal; lia|].
      split; [exact Hok'|]. split; [exact Hbuf|].
      split; [exact Herr' | exact Hsrc'].
Qed.

(** The loop of apk_istream_read without a destination when [left] is
    negative: it ends with [left] as the count, the pointer moved back
    by as much, once the buffer holds a byte; and with 0 at the end of
    the stream. *)
Lemma read_loop_negative fuel st remain r out :
  istream_wf st -> remain < 0 -> 0 <= r -> (2 <= fuel)%nat ->
  (to_deliver rem st = [] /\
   exists st',
     Io.read_loop S read fuel st false remain r out
     = Ret (remain, if Io.i_err st =? 0 then 0 else r, out, st', 0) /\
     Io.i_data st' = [] /\ Io.i_buf_size st' = Io.i_buf_size st /\
     Io.i_err st' = Io.i_err st /\
     (Io.i_err st = 0 -> rem (Io.i_src st') = []) /\
     (Io.i_err st <> 0 -> Io.i_src st' = Io.i_src st)) \/
  (to_deliver rem st <> [] /\
   exists st',
     Io.read_loop S read fuel st false remain r out
     = Ret (0, remain, out, st', - remain) /\
     to_deliver rem st' = to_deliver rem st /\ istream_wf st' /\
     Io.i_buf_size st' = Io.i_buf_size st /\
     Io.i_err st' = Io.i_err st /\
     (Io.i_err st <> 0 -> Io.i_src st' = Io.i_src st)).
Proof.
  intros Hok Hrem Hr Hfuel.
  destruct fuel as [|fuel]; [lia|].
  assert (Hbuf : forall fuel' st0 r0,
            Io.i_data st0 <> [] ->
            Io.read_loop S read (Datatypes.S fuel') st0 false remain r0 out
            = Ret (0, remain, out, st0, - remain)).
  { intros fuel' st0 r0 Hne. cbn [Io.read_loop].
    replace (remain =? 0) with false by (symmetry; apply Z.eqb_neq; lia).
    replace (Z.of_nat (length (Io.i_data st0)) =? 0) with false
      by (symmetry; apply Z.eqb_neq; destruct (Io.i_data st0);
          [congruence | cbn [length]; lia]).
    cbn [negb]. cbv zeta.
    rewrite Z.min_l by lia.
    replace (remain <? 0) with true by (symmetry; apply Z.ltb_lt; lia).
    rewrite Z.sub_diag. reflexivity. }
  pose proof Hok as (Hbs & Hlen & Herr).
  destruct (Io.i_data st) as [|b0 data0] eqn:Hd.
  - (* the buffer is empty *)
    cbn [Io.read_loop].
    replace (remain =? 0) with false by (symmetry; apply Z.eqb_neq; lia).
    rewrite Hd. cbn [length]. change (Z.of_nat 0 =? 0) with true.
    cbn [negb andb].
    destruct (Io.i_err st =? 0) eqn:Ee; cbn [negb].
    2:{ apply Z.eqb_neq in Ee. left.
        split; [rewrite (to_deliver_ended st Ee); exact Hd|].
        exists st. repeat split; auto; lia. }
    apply Z.eqb_eq in Ee.
    pose proof (to_deliver_empty st Hd Ee) as Hp.
    destruct (read (Io.i_src st) (Io.i_buf_size st))
      as [[r' bs] s'] eqn:Eread.
    destruct (Hsrc _ _ _ _ _ Eread) as (Hr' & Hle & -> & Hrem' & Hzero).
    destruct (r' <=? 0) eqn:Er.
    + apply Z.leb_le in Er. assert (r' = 0) as -> by lia.
      destruct (Hzero eq_refl) as [? | Hend]; [lia|].
      left. split; [rewrite Hp; exact Hend|].
      exists (Io.set_src S st s').
      cbn [Io.set_src Io.i_data Io.i_src Io.i_buf_size Io.i_err].
      rewrite Hrem', Hend.
      repeat split; auto; lia.
    + apply Z.leb_gt in Er. right.
      assert (Hne : rem (Io.i_src st) <> [])
        by (destruct (rem (Io.i_src st)); [cbn [length] in Hle; lia
                                          | congruence]).
      split; [rewrite Hp; exact Hne|].
      set (st1 := Io.refill S (Io.set_src S st s')
                    (take (Z.to_nat r') (rem (Io.i_src st)))).
      exists st1. split.
      { destruct fuel as [|fuel]; [lia|]. apply Hbuf. unfold st1. cbn [Io.refill Io.i_data].
        destruct (rem (Io.i_src st)); [congruence|].
        destruct (Z.to_nat r') eqn:En; [lia|]. discriminate. }
      split.
      { rewrite Hp. unfold to_deliver, st1.
        cbn [Io.refill Io.set_src Io.i_data Io.i_src Io.i_err].
        rewrite Ee, Hrem'. apply take_drop. }
      split.
      { unfold istream_wf, st1.
        cbn [Io.refill Io.set_src Io.i_data Io.i_src Io.i_buf_size Io.i_err].
        rewrite length_take. repeat split; auto; lia. }
      repeat split; auto. intros; lia.
  - (* bytes in the buffer *)
    right. rewrite <- Hd in *.
    assert (Hne : Io.i_data st <> []) by (rewrite Hd; discriminate).
    split.
    { unfold to_deliver. intros H. apply app_eq_nil in H. tauto. }
    exists st. split; [apply Hbuf; exact Hne|].
    repeat split; auto.
Qed.

End IstreamFacts.

Lemma take_drop_min {A} (l : list A) (k n : Z) :
  0 <= n -> k = Z.min n (Z.of_nat (length l)) ->
  take (Z.to_nat k) l = take (Z.to_nat n) l /\
  drop (Z.to_nat k) l = drop (Z.to_nat n) l /\
  Z.of_nat (length (take (Z.to_nat n) l)) = k.
Proof.
  intros Hn ->. rewrite length_take.
  destruct (Z.le_gt_cases n (Z.of_nat (length l))) as [H | H].
  - rewrite Z.min_l by lia. repeat split; auto. lia.
  - rewrite Z.min_r by lia. rewrite Nat2Z.id.
    rewrite !take_ge, !drop_ge by lia. repeat split; auto. lia.
Qed.

(** X24: apk_istream_read on a buffered stream whose source does not
    fail does what the interface model of the stream says.  For a size
    below 2^63 it delivers the next [size] bytes of what the stream has to
    deliver, or all that is left when the stream ends before that; the
    count returned is their number, which is not negative; the stream
    afterwards has the rest to deliver; and with a NULL destination the
    same bytes are skipped.  For a size of 2^63 up to 2^64 - 1 and a NULL
    destination nothing is skipped: the result is 0 at the end of the
    stream and the negative number size - 2^64 otherwise, is->ptr then
    being moved back by 2^64 - size bytes.  The stream stays well formed,
    and in order when it was. *)
Theorem apk_istream_read_refines
    (S : Type) (read : S -> Z -> Z * list byte * S) (rem : S -> list byte)
    (st : Io.apk_istream S) (dst : bool) (size : Z) :
  source_ok rem read -> istream_wf st -> 0 <= size < 2 ^ 64 ->
  size < 2 ^ 63 \/ dst = false ->
  exists r got st' back,
    Io.apk_istream_read S read st dst size
    = Ret (r, if dst then got else [], st', back) /\
    apk_istream_read (mk_istream (to_deliver rem st) (Io.i_buf_size st)) size
    = (r, got, mk_istream (to_deliver rem st') (Io.i_buf_size st')) /\
    istream_wf st' /\
    (istream_ok rem st -> istream_ok rem st') /\
    (size < 2 ^ 63 ->
     got = take (Z.to_nat size) (to_deliver rem st) /\
     r = Z.of_nat (length got) /\ back = 0) /\
    (2 ^ 63 <= size ->
     got = [] /\
     ((to_deliver rem st = [] /\ r = 0 /\ back = 0) \/
      (to_deliver rem st <> [] /\ r = size - 2 ^ 64 /\
       back = 2 ^ 64 - size))).
Proof.
  intros Hsrc Hok Hsize Hcase. unfold Io.apk_istream_read.
  destruct (Z.lt_ge_cases size (2 ^ 63)) as [Hsmall | Hlarge].
  - (* a size below 2^63 *)
    rewrite (to_ssize_small size) by lia.
    destruct (read_loop_spec S read rem Hsrc (Datatypes.S (2 * Z.to_nat size))
                st dst size 0 [] Hok) as (remain' & r' & st1 & -> & Hr' & Hrem'
                & Hmin & Hpend & Hok1 & Hbuf & Herr1 & Hsrc1);
      [lia | lia | right; destruct (_ =? 0); lia |].
    cbn [mbind outcome_bind obind app].
    replace (r' <? 0) with false by (symmetry; apply Z.ltb_ge; exact Hr').
    destruct (take_drop_min (to_deliver rem st) (size - remain') size
                (proj1 Hsize) Hmin) as (Htake & Hdrop & Hlen).
    rewrite Htake in *. rewrite Hdrop in Hpend.
    rewrite (to_size_small remain') by lia.
    rewrite (to_ssize_small (size - remain')) by lia.
    rewrite (apk_istream_read_small _ size) by exact Hsmall.
    cbn [is_bytes is_buf_size]. rewrite Hlen.
    pose proof Hok1 as (Hbs1 & Hlen1 & Herr1').
    set (st2 := if negb (size =? 0) && (remain' =? size) && (Io.i_err st1 =? 0)
                then Io.set_err S st1 1 else st1).
    assert (H2 : to_deliver rem st2 = to_deliver rem st1 /\
                 Io.i_buf_size st2 = Io.i_buf_size st1 /\
                 istream_wf st2 /\
                 (istream_ok rem st -> istream_ok rem st2)).
    { unfold st2.
      destruct (negb (size =? 0) && (remain' =? size) && (Io.i_err st1 =? 0))
        eqn:Eset.
      - apply andb_true_iff in Eset as [Eset Ee].
        apply andb_true_iff in Eset as [Es Er].
        apply negb_true_iff, Z.eqb_neq in Es.
        apply Z.eqb_eq in Er. apply Z.eqb_eq in Ee. subst remain'.
        assert (Hnil : to_deliver rem st = []).
        { apply length_zero_iff_nil. rewrite Z.sub_diag in Hmin. lia. }
        rewrite Hnil, drop_nil in Hpend.
        pose proof Hpend as Hpend'. unfold to_deliver in Hpend'.
        rewrite Ee in Hpend'. cbn [Z.eqb] in Hpend'.
        apply app_eq_nil in Hpend' as [Hd1 Hr1].
        split.
        { rewrite Hpend. unfold to_deliver.
          cbn [Io.set_err Io.i_data Io.i_err Io.i_src]. rewrite Hd1.
          reflexivity. }
        split; [reflexivity|].
        split.
        { unfold istream_wf.
          cbn [Io.set_err Io.i_buf_size Io.i_data Io.i_err]. auto. }
        intros _. unfold istream_ok.
        cbn [Io.set_err Io.i_buf_size Io.i_data Io.i_err Io.i_src]. auto.
      - split; [reflexivity|]. split; [reflexivity|]. split; [exact Hok1|].
        apply (istream_ok_of rem st st1 Hok1 Herr1 Hsrc1). }
    destruct H2 as (Hp2 & Hb2 & Hok2 & Hpres).
    assert (Herr2 : (Io.i_err st2 <? 0) = false).
    { apply Z.ltb_ge. destruct Hok2 as (_ & _ & [-> | ->]); lia. }
    exists (size - remain'), (take (Z.to_nat size) (to_deliver rem st)), st2, 0.
    split.
    { destruct (size =? remain') eqn:Eq.
      - apply Z.eqb_eq in Eq. subst remain'.
        rewrite Herr2, Z.sub_diag. reflexivity.
      - reflexivity. }
    rewrite Hp2, Hb2, Hpend, Hbuf.
    split; [reflexivity|]. split; [exact Hok2|]. split; [exact Hpres|].
    split; [intros _; repeat split; auto; lia | intros; lia].
  - (* a size of 2^63 or more *)
    destruct Hcase as [? | ->]; [lia|].
    rewrite (to_ssize_large size) by lia.
    unfold apk_istream_read. cbn [is_bytes is_buf_size].
    replace (size <? 2 ^ 63) with false by (symmetry; apply Z.ltb_ge; lia).
    destruct (read_loop_negative S read rem Hsrc
                (Datatypes.S (2 * Z.to_nat size)) st (size - 2 ^ 64) 0 [] Hok)
      as [(Hnil & st1 & -> & Hd1 & Hb1 & He1 & Hend1 & Hs1)
         | (Hne & st1 & -> & Hp1 & Hok1 & Hb1 & He1 & Hs1)];
      [lia | lia | lia | |].
    + (* the stream is at its end *)
      cbn [mbind outcome_bind obind].
      replace (if Io.i_err st =? 0 then 0 else 0) with 0
        by (destruct (_ =? 0); reflexivity).
      change (0 <? 0) with false. cbv iota.
      rewrite (to_size_neg (size - 2 ^ 64)) by lia.
      replace (size - 2 ^ 64 + 2 ^ 64) with size by lia.
      rewrite !Z.eqb_refl.
      replace (negb (size =? 0)) with true
        by (symmetry; apply negb_true_iff, Z.eqb_neq; lia).
      cbn [andb].
      pose proof Hok as (Hbs & Hlen & Herr).
      set (st2 := if Io.i_err st1 =? 0 then Io.set_err S st1 1 else st1).
      assert (H2 : to_deliver rem st2 = [] /\
                   Io.i_buf_size st2 = Io.i_buf_size st /\
                   istream_wf st2 /\
                   (istream_ok rem st -> istream_ok rem st2)).
      { unfold st2. destruct (Io.i_err st1 =? 0) eqn:Ee.
        - apply Z.eqb_eq in Ee. rewrite He1 in Ee.
          unfold to_deliver, istream_wf, istream_ok.
          cbn [Io.set_err Io.i_buf_size Io.i_data Io.i_err Io.i_src].
          rewrite Hd1, Hb1. cbn [length].
          repeat split; auto; lia.
        - apply Z.eqb_neq in Ee.
          assert (Hwf1 : istream_wf st1).
          { unfold istream_wf. rewrite Hd1, Hb1, He1. cbn [length].
            repeat split; auto; lia. }
          split; [rewrite (to_deliver_ended S rem st1 Ee); exact Hd1|].
          split; [exact Hb1|]. split; [exact Hwf1|].
          apply (istream_ok_of rem st st1 Hwf1 He1 Hs1). }
      destruct H2 as (Hp2 & Hb2 & Hok2 & Hpres).
      assert (Herr2 : (Io.i_err st2 <? 0) = false).
      { apply Z.ltb_ge. destruct Hok2 as (_ & _ & [-> | ->]); lia. }
      rewrite Herr2.
      replace (Z.of_nat (length (to_deliver rem st)) =? 0) with true
        by (rewrite Hnil; reflexivity).
      exists 0, [], st2, 0. rewrite Hp2, Hb2, Hnil.
      split; [reflexivity|]. split; [reflexivity|].
      split; [exact Hok2|]. split; [exact Hpres|].
      split; [intros; lia | intros _; split; [reflexivity | left; auto]].
    + (* bytes to deliver: the count is negative *)
      cbn [mbind outcome_bind obind].
      replace (size - 2 ^ 64 <? 0) with true by (symmetry; apply Z.ltb_lt; lia).
      replace (Z.of_nat (length (to_deliver rem st)) =? 0) with false
        by (symmetry; apply Z.eqb_neq; destruct (to_deliver rem st);
            [congruence | cbn [length]; lia]).
      exists (size - 2 ^ 64), [], st1, (- (size - 2 ^ 64)).
      rewrite Hp1, Hb1.
      split; [reflexivity|]. split; [reflexivity|].
      split; [exact Hok1|].
      split; [apply (istream_ok_of rem st st1 Hok1 He1 Hs1)|].
      split; [intros; lia|].
      intros _. split; [reflexivity|]. right. repeat split; auto; lia.
Qed.

(** The theorem at a stream of five bytes over a source that hands out
    three at a time, four of them read. *)
Lemma apk_istream_read_refines_witness :
  exists r got st' back,
    Io.apk_istream_read (list byte) read_3
      (Io.mk_apk_istream None [] 8 0 [x01; x02; x03; x04; x05]) true 4
    = Ret (r, got, st', back) /\
    apk_istream_read
      (mk_istream
         (to_deliver (fun s => s)
            (Io.mk_apk_istream None [] 8 0 [x01; x02; x03; x04; x05])) 8) 4
    = (r, got, mk_istream (to_deliver (fun s => s) st') (Io.i_buf_size st')) /\
    istream_wf st' /\
    (istream_ok (fun s => s)
       (Io.mk_apk_istream None [] 8 0 [x01; x02; x03; x04; x05]) ->
     istream_ok (fun s => s) st') /\
    (4 < 2 ^ 63 ->
     got = take (Z.to_nat 4)
             (to_deliver (fun s => s)
                (Io.mk_apk_istream None [] 8 0 [x01; x02; x03; x04; x05])) /\
     r = Z.of_nat (length got) /\ back = 0) /\
    (2 ^ 63 <= 4 ->
     got = [] /\
     ((to_deliver (fun s => s)
         (Io.mk_apk_istream None [] 8 0 [x01; x02; x03; x04; x05]) = [] /\
       r = 0 /\ back = 0) \/
      (to_deliver (fun s => s)
         (Io.mk_apk_istream None [] 8 0 [x01; x02; x03; x04; x05]) <> [] /\
       r = 4 - 2 ^ 64 /\ back = 2 ^ 64 - 4))).
Proof.
  apply (apk_istream_read_refines (list byte) read_3 (fun s => s)
           (Io.mk_apk_istream None [] 8 0 [x01; x02; x03; x04; x05]) true 4).
  - intros s n r bs s'. unfold read_3. intros [= <- <- <-].
    repeat split; try lia.
    intros Hz. destruct s; [right; reflexivity|]. cbn [length] in Hz. lia.
  - unfold istream_wf. cbn. repeat split; auto; lia.
  - lia.
  - left. lia.
Defined.

(** A read without destination of 2^64 - 126 bytes, on a stream of five
    bytes over a source that hands out three at a time: the buffer is
    filled, nothing is skipped and the count is -126. *)
Example apk_istream_read_negative_count :
  Io.apk_istream_read (list byte) read_3
    (Io.mk_apk_istream None [] 8 0 [x01; x02; x03; x04; x05]) false
    (2 ^ 64 - 126)
  = Ret (-126, [], Io.mk_apk_istream (Some 0) [x01; x02; x03] 8 0 [x04; x05],
         126).
Proof. lazy. reflexivity. Qed.

Section IstreamGet.
Variable S : Type.
Variable read : S -> Z -> Z * list byte * S.
Variable rem : S -> list byte.
Hypothesis Hsrc : source_ok rem read.

(** One fill: the bytes to deliver stay the same; either the buffer has
    grown, or the stream is marked as ended with the buffer full or the
    source at its end. *)
Lemma fill_spec st :
  istream_ok rem st ->
  exists r st1,
    Io.__apk_istream_fill S read st = (r, st1) /\
    pending rem st1 = pending rem st /\
    Io.i_buf_size st1 = Io.i_buf_size st /\
    (r = 0 ->
     istream_ok rem st1 /\
     (length (Io.i_data st) < length (Io.i_data st1))%nat) /\
    (r <> 0 ->
     Io.i_data st1 = Io.i_data st /\ Io.i_err st1 = 1 /\
     (Z.of_nat (length (Io.i_data st)) < Io.i_buf_size st ->
      rem (Io.i_src st) = [])).
Proof.
  intros (Hbs & Hlen & Herr). unfold Io.__apk_istream_fill.
  destruct (Io.i_err st =? 0) eqn:Ee; cbn [negb].
  2:{ apply Z.eqb_neq in Ee. destruct Herr as [? | [He Hend]]; [lia|].
      exists (Io.i_err st), st. repeat split; auto; lia. }
  apply Z.eqb_eq in Ee. cbv zeta.
  set (st0 := match Io.i_ptr st with
              | Some 0 => st
              | _ => Io.refill S st (Io.i_data st)
              end).
  assert (H0 : Io.i_data st0 = Io.i_data st /\ Io.i_src st0 = Io.i_src st /\
               Io.i_buf_size st0 = Io.i_buf_size st /\
               Io.i_err st0 = Io.i_err st).
  { unfold st0. destruct (Io.i_ptr st) as [[| |]|]; repeat split. }
  destruct H0 as (Hd0 & Hs0 & Hb0 & He0).
  rewrite Hd0, Hs0, Hb0.
  destruct (read (Io.i_src st) _) as [[sz bs] s'] eqn:Eread.
  destruct (Hsrc _ _ _ _ _ Eread) as (Hsz & Hle & -> & Hrem' & Hzero).
  destruct (sz <=? 0) eqn:Es.
  - apply Z.leb_le in Es. assert (sz = 0) as -> by lia.
    change (0 =? 0) with true. cbv iota.
    exists 1, (Io.set_err S (Io.set_src S st0 s') 1).
    split; [reflexivity|].
    unfold pending.
    cbn [Io.set_err Io.set_src Io.i_data Io.i_src Io.i_buf_size Io.i_err].
    rewrite Hd0, Hb0, Hrem'. cbn [Z.to_nat drop].
    repeat split; auto; try lia.
    intros Hroom. destruct (Hzero eq_refl) as [? | Hend]; [lia | exact Hend].
  - apply Z.leb_gt in Es.
    exists 0, (Io.refill S (Io.set_src S st0 s')
                 (Io.i_data st ++ take (Z.to_nat sz) (rem (Io.i_src st)))).
    split; [reflexivity|].
    unfold pending, istream_ok.
    cbn [Io.refill Io.set_src Io.i_data Io.i_src Io.i_buf_size Io.i_err].
    rewrite Hb0, He0, Hrem', <- app_assoc, take_drop, length_app, length_take.
    repeat split; auto; try lia.
Qed.

(** One fill of a well-formed stream: the buffer grows and the stream
    delivers what it did; or the stream is marked as ended with the buffer
    as it was, and unless the buffer was full there was nothing more to
    deliver. *)
Lemma fill_wf st :
  istream_wf st ->
  exists r st1,
    Io.__apk_istream_fill S read st = (r, st1) /\
    Io.i_buf_size st1 = Io.i_buf_size st /\ istream_wf st1 /\
    (r = 0 ->
     to_deliver rem st1 = to_deliver rem st /\
     (length (Io.i_data st) < length (Io.i_data st1))%nat /\
     istream_ok rem st1) /\
    (r <> 0 ->
     Io.i_data st1 = Io.i_data st /\ Io.i_err st1 = 1 /\
     (Z.of_nat (length (Io.i_data st)) < Io.i_buf_size st ->
      to_deliver rem st = Io.i_data st /\
      (istream_ok rem st -> istream_ok rem st1))).
Proof.
  intros (Hbs & Hlen & Herr). unfold Io.__apk_istream_fill.
  destruct (Io.i_err st =? 0) eqn:Ee; cbn [negb].
  2:{ apply Z.eqb_neq in Ee. destruct Herr as [? | He]; [lia|].
      exists (Io.i_err st), st.
      split; [reflexivity|]. split; [reflexivity|].
      split; [repeat split; auto|].
      split; [intros; lia|].
      intros _. split; [reflexivity|]. split; [exact He|].
      intros _. split; [apply to_deliver_ended; exact Ee | auto]. }
  apply Z.eqb_eq in Ee. cbv zeta.
  set (st0 := match Io.i_ptr st with
              | Some 0 => st
              | _ => Io.refill S st (Io.i_data st)
              end).
  assert (H0 : Io.i_data st0 = Io.i_data st /\ Io.i_src st0 = Io.i_src st /\
               Io.i_buf_size st0 = Io.i_buf_size st /\
               Io.i_err st0 = Io.i_err st).
  { unfold st0. destruct (Io.i_ptr st) as [[| |]|]; repeat split. }
  destruct H0 as (Hd0 & Hs0 & Hb0 & He0).
  rewrite Hd0, Hs0, Hb0.
  destruct (read (Io.i_src st) _) as [[sz bs] s'] eqn:Eread.
  destruct (Hsrc _ _ _ _ _ Eread) as (Hsz & Hle & -> & Hrem' & Hzero).
  destruct (sz <=? 0) eqn:Es.
  - apply Z.leb_le in Es. assert (sz = 0) as -> by lia.
    change (0 =? 0) with true. cbv iota.
    exists 1, (Io.set_err S (Io.set_src S st0 s') 1).
    split; [reflexivity|].
    unfold istream_wf, istream_ok, to_deliver.
    cbn [Io.set_err Io.set_src Io.i_data Io.i_src Io.i_buf_size Io.i_err].
    rewrite Hd0, Hb0, Hrem', Ee. cbn [Z.to_nat drop Z.eqb].
    split; [reflexivity|]. split; [auto|].
    split; [intros; lia|].
    intros _. split; [reflexivity|]. split; [reflexivity|].
    intros Hroom. destruct (Hzero eq_refl) as [? | Hend]; [lia|].
    rewrite Hend, app_nil_r. split; [reflexivity|].
    intros _. split; [lia|]. split; [lia|]. right. split; reflexivity.
  - apply Z.leb_gt in Es.
    exists 0, (Io.refill S (Io.set_src S st0 s')
                 (Io.i_data st ++ take (Z.to_nat sz) (rem (Io.i_src st)))).
    split; [reflexivity|].
    unfold istream_wf, istream_ok, to_deliver.
    cbn [Io.refill Io.set_src Io.i_data Io.i_src Io.i_buf_size Io.i_err].
    rewrite Hb0, He0, Hrem', Ee. cbn [Z.eqb].
    rewrite <- app_assoc, take_drop, length_app, length_take.
    split; [reflexivity|]. split; [repeat split; auto; lia|].
    split; [|intros; lia].
    intros _. repeat split; auto; lia.
Qed.

Lemma get_loop_spec fuel : forall st len,
  istream_wf st -> 0 <= len ->
  (0 < fuel)%nat ->
  len - Z.of_nat (length (Io.i_data st)) < Z.of_nat fuel ->
  exists res st',
    Io.get_loop S read fuel st len = Ret (res, st') /\
    apk_istream_get (mk_istream (to_deliver rem st) (Io.i_buf_size st)) len
    = (res, mk_istream (to_deliver rem st') (Io.i_buf_size st')) /\
    istream_wf st' /\
    (istream_ok rem st -> res <> inl (- ENOBUFS) -> istream_ok rem st') /\
    (forall e, res = inl e -> Io.i_err st' = 1).
Proof.
  induction fuel as [|fuel IH]; intros st len Hok Hlen Hpos Hfuel; [lia|].
  cbn [Io.get_loop].
  pose proof Hok as (Hbs & Hdata & Herr).
  assert (Hlp : Z.of_nat (length (Io.i_data st))
                <= Z.of_nat (length (to_deliver rem st)))
    by (unfold to_deliver; rewrite length_app; lia).
  destruct (Z.of_nat (length (Io.i_data st)) >=? len) eqn:Ege.
  - (* the buffer holds them *)
    assert (Hge : len <= Z.of_nat (length (Io.i_data st))) by lia.
    destruct (to_deliver_advance S rem st len) as [Hp1 Htake]; [lia|].
    assert (Hwf1 : istream_wf (Io.advance S st len)).
    { unfold istream_wf, Io.advance.
      cbn [Io.i_data Io.i_src Io.i_buf_size Io.i_err].
      rewrite length_drop. repeat split; auto; lia. }
    exists (inr (take (Z.to_nat len) (Io.i_data st))), (Io.advance S st len).
    split; [reflexivity|]. split.
    { unfold apk_istream_get. cbn [is_bytes is_buf_size].
      replace ((len <=? Io.i_buf_size st)
               && (len <=? Z.of_nat (length (to_deliver rem st)))) with true
        by (symmetry; apply andb_true_iff; split; apply Z.leb_le; lia).
      rewrite Hp1, Htake. reflexivity. }
    split; [exact Hwf1|].
    split; [|intros e; discriminate].
    intros Hist _. apply (istream_ok_of rem st _ Hwf1); auto.
  - assert (Hlt : Z.of_nat (length (Io.i_data st)) < len) by lia.
    destruct (fill_wf st Hok) as (r & st1 & -> & Hb1 & Hwf1 & Hzero & Hnz).
    destruct (r =? 0) eqn:Er.
    + apply Z.eqb_eq in Er. destruct (Hzero Er) as (Hp1 & Hgrow & Hok1).
      destruct (IH st1 len Hwf1 Hlen)
        as (res & st' & Hrun & Hbase & Hwf' & Hpres & Hended);
        [lia | lia |].
      exists res, st'. rewrite Hp1, Hb1 in Hbase.
      split; [exact Hrun|]. split; [exact Hbase|]. split; [exact Hwf'|].
      split; [intros _; apply Hpres; exact Hok1 | exact Hended].
    + apply Z.eqb_neq in Er. destruct (Hnz Er) as (Hd1 & He1 & Hend).
      rewrite Hd1, Hb1, He1. change (1 >? 0) with true. cbv iota.
      assert (Hp1 : to_deliver rem st1 = Io.i_data st)
        by (rewrite (to_deliver_ended S rem st1), Hd1; [reflexivity | lia]).
      unfold apk_istream_get. cbn [is_bytes is_buf_size].
      destruct (Z.of_nat (length (Io.i_data st)) =? Io.i_buf_size st) eqn:Efull.
      * apply Z.eqb_eq in Efull.
        exists (inl (- ENOBUFS)), st1. split; [reflexivity|].
        replace ((len <=? Io.i_buf_size st)
                 && (len <=? Z.of_nat (length (to_deliver rem st)))) with false
          by (symmetry; apply andb_false_iff; left; apply Z.leb_gt; lia).
        replace (Io.i_buf_size st <=? Z.of_nat (length (to_deliver rem st)))
          with true by (symmetry; apply Z.leb_le; lia).
        rewrite Hp1, Hb1.
        split.
        { f_equal. f_equal. unfold to_deliver.
          rewrite take_app_length'; [reflexivity | lia]. }
        split; [exact Hwf1|].
        split; [intros _ Hne; congruence | intros; exact He1].
      * apply Z.eqb_neq in Efull.
        destruct Hend as [Hnil Hpres]; [lia|].
        exists (inl (- ENOMSG)), st1. split; [reflexivity|].
        replace ((len <=? Io.i_buf_size st)
                 && (len <=? Z.of_nat (length (to_deliver rem st)))) with false
          by (symmetry; apply andb_false_iff; right; apply Z.leb_gt;
              rewrite Hnil; lia).
        replace (Io.i_buf_size st <=? Z.of_nat (length (to_deliver rem st)))
          with false by (symmetry; apply Z.leb_gt; rewrite Hnil; lia).
        rewrite Hp1, Hb1, Hnil.
        split; [reflexivity|]. split; [exact Hwf1|].
        split; [intros Hist _; apply Hpres; exact Hist | intros; exact He1].
Qed.

End IstreamGet.

(** X25: apk_istream_get on a buffered stream whose source does not fail
    answers as the interface model of the stream says: the next [len]
    bytes when the buffer can hold them and the stream has them, the
    stream then having the rest to deliver; -ENOMSG when the stream ends
    before that, with what is buffered still to deliver; -ENOBUFS when the
    buffer is full before [len] bytes are in it.  The fill that finds the
    buffer full marks the stream as ended: after -ENOBUFS the status is 1
    and the stream delivers the bytes in its buffer, the first buf_size
    of those it had to deliver, and no more, whatever the source still
    holds.  It never answers -EIO for such a source; the stream stays
    well formed, and in order unless the answer is -ENOBUFS. *)
Theorem apk_istream_get_refines
    (S : Type) (read : S -> Z -> Z * list byte * S) (rem : S -> list byte)
    (st : Io.apk_istream S) (len : Z) :
  source_ok rem read -> istream_wf st -> 0 <= len ->
  exists res st',
    Io.apk_istream_get S read st len = Ret (res, st') /\
    apk_istream_get (mk_istream (to_deliver rem st) (Io.i_buf_size st)) len
    = (res, mk_istream (to_deliver rem st') (Io.i_buf_size st')) /\
    istream_wf st' /\
    (istream_ok rem st -> res <> inl (- ENOBUFS) -> istream_ok rem st') /\
    (res = inl (- ENOBUFS) ->
     Io.i_err st' = 1 /\
     to_deliver rem st' = Io.i_data st' /\
     Io.i_data st'
     = take (Z.to_nat (Io.i_buf_size st)) (to_deliver rem st)) /\
    res <> inl (- EIO).
Proof.
  intros Hsrc Hok Hlen. unfold Io.apk_istream_get.
  destruct (get_loop_spec S read rem Hsrc (Datatypes.S (Z.to_nat len)) st len
              Hok Hlen) as (res & st' & Hrun & Hbase & Hwf' & Hpres & Hended);
    [lia | lia |].
  exists res, st'. split; [exact Hrun|]. split; [exact Hbase|].
  split; [exact Hwf'|]. split; [exact Hpres|].
  split.
  - intros ->. pose proof (Hended _ eq_refl) as He.
    assert (Hd : to_deliver rem st' = Io.i_data st')
      by (apply to_deliver_ended; lia).
    split; [exact He|]. split; [exact Hd|].
    rewrite <- Hd. unfold apk_istream_get in Hbase.
    cbn [is_bytes is_buf_size] in Hbase.
    repeat match type of Hbase with
    | context [if ?c then _ else _] => destruct c
    end; try discriminate.
    injection Hbase as Hbase _. symmetry. exact Hbase.
  - intros ->. unfold apk_istream_get in Hbase.
    repeat match type of Hbase with
    | context [if ?c then _ else _] => destruct c
    end; discriminate.
Qed.

(** The theorem at a stream of five bytes over a source that hands out
    three at a time, read through a buffer of four bytes, six of them
    asked for. *)
Lemma apk_istream_get_refines_witness :
  exists res st',
    Io.apk_istream_get (list byte) read_3
      (Io.mk_apk_istream None [] 4 0 [x01; x02; x03; x04; x05]) 6
    = Ret (res, st') /\
    apk_istream_get
      (mk_istream
         (to_deliver (fun s => s)
            (Io.mk_apk_istream None [] 4 0 [x01; x02; x03; x04; x05])) 4) 6
    = (res, mk_istream (to_deliver (fun s => s) st') (Io.i_buf_size st')) /\
    istream_wf st' /\
    (istream_ok (fun s => s)
       (Io.mk_apk_istream None [] 4 0 [x01; x02; x03; x04; x05]) ->
     res <> inl (- ENOBUFS) -> istream_ok (fun s => s) st') /\
    (res = inl (- ENOBUFS) ->
     Io.i_err st' = 1 /\
     to_deliver (fun s => s) st' = Io.i_data st' /\
     Io.i_data st'
     = take (Z.to_nat 4)
         (to_deliver (fun s => s)
            (Io.mk_apk_istream None [] 4 0 [x01; x02; x03; x04; x05]))) /\
    res <> inl (- EIO).
Proof.
  apply (apk_istream_get_refines (list byte) read_3 (fun s => s)
           (Io.mk_apk_istream None [] 4 0 [x01; x02; x03; x04; x05]) 6).
  - intros s n r bs s'. unfold read_3. intros [= <- <- <-].
    repeat split; try lia.
    intros Hz. destruct s; [right; reflexivity|]. cbn [length] in Hz. lia.
  - unfold istream_wf. cbn. repeat split; auto; lia.
  - lia.
Defined.

(** That call answers -ENOBUFS: four bytes are in the buffer, the stream
    is marked as ended and the fifth byte stays with the source. *)
Example apk_istream_get_no_room :
  Io.apk_istream_get (list byte) read_3
    (Io.mk_apk_istream None [] 4 0 [x01; x02; x03; x04; x05]) 6
  = Ret (inl (- ENOBUFS),
         Io.mk_apk_istream (Some 0) [x01; x02; x03; x04] 4 1 [x05]).
Proof. vm_compute. reflexivity. Qed.

(* ================================================================== *)
(** * Reads look at the arena only *)

Lemma le_decode_nonneg bs : 0 <= le_decode bs.
Proof.
  induction bs as [|b bs IH]; cbn [le_decode]; [lia|].
  assert (0 <= byte_val b) by (unfold byte_val; lia). lia.
Qed.

Section SameArena.
Context `{P : adb_params}.
Variables db1 db2 : adb.
Hypothesis Hok1 : arena_ok db1.
Hypothesis Hlen : blob_len (adb_ db1) = blob_len (adb_ db2).
Hypothesis Hnull : APK_BLOB_IS_NULL (adb_ db1) = APK_BLOB_IS_NULL (adb_ db2).
Hypothesis Hbytes : arena db1 = arena db2.

Lemma deref_same v offs s :
  adb_r_deref db1 v offs s = adb_r_deref db2 v offs s.
Proof. unfold adb_r_deref. rewrite Hlen, Hnull. reflexivity. Qed.

Lemma deref_inside v offs s o :
  0 <= offs -> adb_r_deref db1 v offs s = Some o ->
  0 <= o /\ o + s <= blob_len (adb_ db1).
Proof.
  unfold adb_r_deref. intros Ho.
  pose proof (val_value_range v) as Hv.
  destruct (_ >? _) eqn:E; [discriminate|].
  destruct (APK_BLOB_IS_NULL _); [discriminate|].
  intros [= <-]. rewrite Z.gtb_ltb in E. apply Z.ltb_ge in E. lia.
Qed.

(** The same bytes at the same place, as long as it lies in the arena. *)
Lemma same_inside (o n : nat) :
  Z.of_nat (o + n) <= blob_len (adb_ db1) ->
  take n (drop o (arena_mem db1)) = take n (drop o (arena_mem db2)).
Proof.
  intros H.
  rewrite <- (take_drop_arena db1) by exact H.
  rewrite <- (take_drop_arena db2) by (rewrite <- Hlen; exact H).
  rewrite Hbytes. reflexivity.
Qed.

Lemma length_inside db (o n : nat) :
  arena_ok db -> Z.of_nat (o + n) <= blob_len (adb_ db) ->
  length (take n (drop o (arena_mem db))) = n.
Proof.
  intros [H0 H1] H. rewrite length_take, length_drop. lia.
Qed.

Lemma load_same v (w : nat) :
  load db1 (adb_r_deref db1 v 0 (Z.of_nat w)) w
  = load db2 (adb_r_deref db2 v 0 (Z.of_nat w)) w /\
  (forall bs, load db1 (adb_r_deref db1 v 0 (Z.of_nat w)) w = Ret bs ->
     exists o, adb_r_deref db1 v 0 (Z.of_nat w) = Some o).
Proof.
  rewrite <- deref_same.
  destruct (adb_r_deref db1 v 0 (Z.of_nat w)) as [o|] eqn:E;
    [|split; [reflexivity | discriminate]].
  destruct (deref_inside _ _ _ _ (Z.le_refl 0) E) as [Ho Hin].
  unfold load.
  rewrite <- (same_inside (Z.to_nat o) w) by lia.
  split; [|eauto].
  rewrite !(length_inside db1) by (auto; lia).
  reflexivity.
Qed.

Lemma root_same : adb_r_root db1 = adb_r_root db2.
Proof.
  unfold adb_r_root. rewrite <- Hlen.
  destruct (blob_len (adb_ db1) <? 4) eqn:E4; [reflexivity|].
  apply Z.ltb_ge in E4.
  rewrite (same_inside (Z.to_nat (blob_len (adb_ db1) - 4)) 4) by lia.
  reflexivity.
Qed.

Lemma int_same v : 4 <= sizeof_ptr -> adb_r_int db1 v = adb_r_int db2 v.
Proof.
  intros Hptr. unfold adb_r_int.
  destruct (_ =? ADB_TYPE_INT); [reflexivity|].
  destruct (_ =? ADB_TYPE_INT_32); [|reflexivity].
  rewrite <- deref_same.
  destruct (adb_r_deref db1 v 0 sizeof_ptr) as [o|] eqn:E; [|reflexivity].
  destruct (deref_inside _ _ _ _ (Z.le_refl 0) E) as [Ho Hin].
  rewrite (same_inside (Z.to_nat o) 4) by lia. reflexivity.
Qed.

Lemma blob_w_same v (w : nat) :
  (exists f, adb_r_blob_w db1 v w = Fault f /\ adb_r_blob_w db2 v w = Fault f)
  \/ (exists b1 b2,
        adb_r_blob_w db1 v w = Ret b1 /\ adb_r_blob_w db2 v w = Ret b2 /\
        blob_len b1 = blob_len b2 /\
        APK_BLOB_IS_NULL b1 = APK_BLOB_IS_NULL b2 /\
        blob_bytes b1 = blob_bytes b2).
Proof.
  unfold adb_r_blob_w.
  destruct (load_same v w) as [Hload _]. rewrite <- Hload.
  destruct (load db1 _ w) as [pfx|f]; cbn [mbind outcome_bind obind];
    [|left; eauto].
  right. do 2 eexists. split; [reflexivity|]. split; [reflexivity|].
  rewrite <- deref_same. unfold blob_at, APK_BLOB_IS_NULL, blob_bytes.
  cbn [blob_len blob_ptr].
  destruct (adb_r_deref db1 v (Z.of_nat w) (le_decode pfx)) as [o|] eqn:E;
    [|auto].
  destruct (deref_inside _ _ _ _ (Zle_0_nat w) E) as [Ho Hin].
  pose proof (le_decode_nonneg pfx).
  repeat split. apply same_inside. lia.
Qed.

End SameArena.

(** X26: the read functions look at the arena only, within its length.
    On two databases whose arenas have the same length and hold the same
    bytes, adb_r_root returns the same value; adb_r_int returns the same
    integer (for pointers of at least four bytes); adb_r_blob faults alike
    or returns blobs of the same length and bytes; and adb_r_obj on a
    value whose length word lies within the arena yields objects with the
    same slot count of which every slot reads alike. *)
Theorem reads_see_arena_only `{P : adb_params}
    (db1 db2 : adb) (v : adb_val_t) (schema : option adb_schema) :
  arena_ok db1 ->
  blob_len (adb_ db1) = blob_len (adb_ db2) ->
  APK_BLOB_IS_NULL (adb_ db1) = APK_BLOB_IS_NULL (adb_ db2) ->
  arena db1 = arena db2 ->
  adb_r_root db1 = adb_r_root db2 /\
  (4 <= sizeof_ptr -> adb_r_int db1 v = adb_r_int db2 v) /\
  ((exists f, adb_r_blob db1 v = Fault f /\ adb_r_blob db2 v = Fault f)
   \/ (exists b1 b2,
         adb_r_blob db1 v = Ret b1 /\ adb_r_blob db2 v = Ret b2 /\
         blob_len b1 = blob_len b2 /\
         APK_BLOB_IS_NULL b1 = APK_BLOB_IS_NULL b2 /\
         blob_bytes b1 = blob_bytes b2)) /\
  (ADB_VAL_VALUE v + 4 <= blob_len (adb_ db1) ->
   exists o1 o2,
     adb_r_obj db1 v schema = Ret o1 /\ adb_r_obj db2 v schema = Ret o2 /\
     o_num o1 = o_num o2 /\
     forall i, adb_ro_val o1 i = adb_ro_val o2 i).
Proof.
  intros Hok1 Hlen Hnull Hbytes.
  assert (Hok2 : arena_ok db2).
  { pose proof (length_arena db1 Hok1) as Hl. rewrite Hbytes in Hl.
    rewrite arena_take, length_take in Hl.
    destruct Hok1 as [H0 H1]. unfold arena_ok. lia. }
  split; [apply root_same; assumption|].
  split; [intros Hptr; apply int_same; assumption|].
  split.
  { unfold adb_r_blob.
    destruct (_ =? ADB_TYPE_BLOB_8); [apply blob_w_same; assumption|].
    destruct (_ =? ADB_TYPE_BLOB_16); [apply blob_w_same; assumption|].
    destruct (_ =? ADB_TYPE_BLOB_32); [apply blob_w_same; assumption|].
    right. exists APK_BLOB_NULL, APK_BLOB_NULL. repeat split. }
  intros Hword. unfold adb_r_obj.
  destruct (negb _ && negb _).
  { do 2 eexists. split; [reflexivity|]. split; [reflexivity|].
    split; [reflexivity|]. intros i. unfold adb_ro_val, obj_slot.
    reflexivity. }
  rewrite <- (deref_same db1 db2 Hlen Hnull).
  destruct (adb_r_deref db1 v 0 (4 * ADBI_NUM_ENTRIES)) as [o|] eqn:E.
  2:{ do 2 eexists. split; [reflexivity|]. split; [reflexivity|].
      split; [reflexivity|]. intros i. reflexivity. }
  assert (Ho : o = ADB_VAL_VALUE v).
  { unfold adb_r_deref in E. repeat case_match; try discriminate.
    injection E as <-. lia. }
  pose proof (val_value_range v) as Hv.
  unfold load.
  rewrite <- (same_inside db1 db2 Hlen Hbytes (Z.to_nat o) 4) by lia.
  rewrite (length_inside db1) by (auto; lia).
  rewrite Nat.eqb_refl. cbn [mbind outcome_bind obind].
  set (num := le_decode (take 4 (drop (Z.to_nat o) (arena_mem db1)))).
  rewrite <- (deref_same db1 db2 Hlen Hnull).
  destruct (adb_r_deref db1 v 0 (4 * num)) as [o'|] eqn:E'.
  2:{ do 2 eexists. split; [reflexivity|]. split; [reflexivity|].
      split; [reflexivity|]. intros i. reflexivity. }
  assert (Ho' : o' = o /\ o + 4 * num <= blob_len (adb_ db1)).
  { unfold adb_r_deref in E'. repeat case_match; try discriminate.
    injection E' as <-. split; lia. }
  destruct Ho' as [-> Hin].
  do 2 eexists. split; [reflexivity|]. split; [reflexivity|].
  split; [reflexivity|].
  intros i. unfold adb_ro_val. cbn [o_num].
  destruct (i >=? num) eqn:Ei; [reflexivity|].
  unfold obj_slot. cbn [o_obj]. unfold vals_at.
  assert (Hnum : 0 <= num) by apply le_decode_nonneg.
  assert (Hi : Z.of_nat (4 * Z.to_nat i + 4) <= blob_len (adb_ db1) - o).
  { destruct (Z.le_gt_cases 0 i); lia. }
  destruct Hok1 as [H10 H11]. destruct Hok2 as [H20 H21].
  rewrite !load_vals_lookup.
  2:{ rewrite length_drop. apply Nat.div_le_lower_bound; lia. }
  2:{ rewrite length_drop. apply Nat.div_le_lower_bound; lia. }
  rewrite !drop_drop.
  rewrite (same_inside db1 db2 Hlen Hbytes
             (Z.to_nat o + 4 * Z.to_nat i) 4) by lia.
  reflexivity.
Qed.

(** The theorem at the database written by adb_w_int and a copy of its
    arena followed by other bytes. *)
Lemma reads_see_arena_only_witness :
  @adb_r_root lp64 (set_arena (adb_w_init_dynamic 0 1) [x78; x56; x34; x12] 8192)
  = @adb_r_root lp64
      (set_adb adb_zero
         (APK_BLOB_PTR_LEN (Some [x78; x56; x34; x12; xff; xff]) 4)).
Proof.
  apply (@reads_see_arena_only lp64
           (set_arena (adb_w_init_dynamic 0 1) [x78; x56; x34; x12] 8192)
           (set_adb adb_zero
              (APK_BLOB_PTR_LEN (Some [x78; x56; x34; x12; xff; xff]) 4))
           0 None).
  - vm_compute. split; discriminate.
  - reflexivity.
  - reflexivity.
  - reflexivity.
Defined.

(* ================================================================== *)
(** * Signature verification *)

Lemma read_at_inside mem (off n : nat) :
  (off + n <= length mem)%nat ->
  read_at mem off n = Ret (take n (drop off mem)).
Proof.
  intros H. unfold read_at. rewrite length_take, length_drop.
  replace (n `min` (length mem - off) =? n)%nat with true
    by (symmetry; apply Nat.eqb_eq; lia).
  reflexivity.
Qed.

Section VerifyFacts.
Variable apk_pkey : Type.
Variable pkey_id : apk_pkey -> list byte.
Variable apk_digest_ctx : Type.
Variable APK_DIGEST_SHA512 : Z.
Variable apk_digest_calc : Z -> list byte -> Z * list byte.
Variable apk_digest_ctx_update :
  apk_digest_ctx -> list byte -> Z * apk_digest_ctx.
Variable apk_verify_start : apk_digest_ctx -> apk_pkey -> Z * apk_digest_ctx.
Variable apk_verify : apk_digest_ctx -> list byte -> Z * apk_digest_ctx.
Variables sizeof_adb_sign_hdr sizeof_key_id : nat.

Abbreviation v0 := (sizeof_adb_sign_v0 sizeof_adb_sign_hdr sizeof_key_id).
Abbreviation digest_adb := (adb_digest_adb APK_DIGEST_SHA512 apk_digest_calc).
Abbreviation run_keys :=
  (verify_keys apk_pkey pkey_id apk_digest_ctx APK_DIGEST_SHA512
     apk_digest_calc apk_digest_ctx_update apk_verify_start apk_verify
     sizeof_adb_sign_hdr sizeof_key_id).

(** The verification context holds no digest yet, or that of the
    arena. *)
Abbreviation holds_digest_of db vfy :=
  (Z.land (calc vfy) (Z.shiftl 1 APK_DIGEST_SHA512) = 0 \/
   apk_digest_calc APK_DIGEST_SHA512 (arena db) = (0, sha512 vfy)).

(** A key of [keys] carries the identifier of the signature in [mem],
    the signature names SHA512, and the verification started on that
    key, fed with the header, the record and the digest [md], accepted
    the signature bytes, leaving the context [d']. *)
Abbreviation accepted_by keys db mem len vfy d' :=
  (exists tkey d0 d1 d2 md,
     tkey ∈ keys /\
     take sizeof_key_id (pkey_id (tk_key _ tkey))
     = take sizeof_key_id (drop sizeof_adb_sign_hdr mem) /\
     le_decode (take 1 (drop 1 mem)) = APK_DIGEST_SHA512 /\
     apk_verify_start d0 (tk_key _ tkey) = (0, d1) /\
     adb_digest_v0_signature apk_digest_ctx apk_digest_ctx_update d1
       (hdr db) (take v0 mem) md = (0, d2) /\
     apk_verify d2 (take (Z.to_nat (len - Z.of_nat v0)) (drop v0 mem))
     = (0, d') /\
     (holds_digest_of db vfy ->
      apk_digest_calc APK_DIGEST_SHA512 (arena db) = (0, md))).

(** The digest a successful adb_digest_adb hands out is the one the
    context holds, and it is the digest of the arena when the context
    given held none or that of the arena. *)
Lemma digest_adb_spec vfy alg db :
  arena_ok db ->
  exists r md vfy',
    digest_adb vfy alg (adb_ db) = Ret (r, md, vfy') /\
    (r = 0 -> alg = APK_DIGEST_SHA512) /\
    (holds_digest_of db vfy -> holds_digest_of db vfy') /\
    (r = 0 -> holds_digest_of db vfy ->
     apk_digest_calc APK_DIGEST_SHA512 (arena db) = (0, md)).
Proof.
  intros Hok. unfold adb_digest_adb.
  destruct (alg =? APK_DIGEST_SHA512) eqn:Ea.
  2:{ do 3 eexists. split; [reflexivity|]. unfold ENOTSUP.
      repeat split; auto; discriminate. }
  apply Z.eqb_eq in Ea. subst alg.
  destruct (Z.land (calc vfy) (Z.shiftl 1 APK_DIGEST_SHA512) =? 0) eqn:Eb.
  - destruct (APK_BLOB_IS_NULL _).
    { do 3 eexists. split; [reflexivity|]. unfold ENOMSG.
      repeat split; auto; discriminate. }
    rewrite (blob_read_arena db Hok). cbn [mbind outcome_bind obind].
    destruct (apk_digest_calc _ _) as [r d] eqn:Ec.
    destruct (r =? 0) eqn:Er; cbn [negb].
    + apply Z.eqb_eq in Er. subst r.
      do 3 eexists. split; [reflexivity|].
      split; [reflexivity|].
      split; [intros _; right; reflexivity | intros _ _; reflexivity].
    + apply Z.eqb_neq in Er.
      do 3 eexists. split; [reflexivity|].
      split; [intros; contradiction|].
      split; [intros _; left; apply Z.eqb_eq; exact Eb|].
      intros; contradiction.
  - apply Z.eqb_neq in Eb.
    do 3 eexists. split; [reflexivity|].
    split; [reflexivity|]. split; [auto|].
    intros _ [Hclear | Hd]; [contradiction | exact Hd].
Qed.

Lemma verify_keys_spec keys : forall dctx vfy db mem len,
  arena_ok db ->
  (2 <= sizeof_adb_sign_hdr)%nat ->
  Z.of_nat v0 <= len <= Z.of_nat (length mem) -> len < 2 ^ 64 ->
  Forall (fun tk => (sizeof_key_id <= length (pkey_id (tk_key _ tk)))%nat)
         keys ->
  exists r d' vfy',
    run_keys keys dctx vfy db mem len = Ret (r, d', vfy') /\
    (r = 0 \/ r = - EKEYREJECTED) /\
    (r = 0 -> accepted_by keys db mem len vfy d').
Proof.
  induction keys as [|tkey rest IH]; intros dctx vfy db mem len Hok Hh Hlen H64 Hids.
  - cbn [verify_keys]. do 3 eexists. split; [reflexivity|].
    split; [right; reflexivity|]. unfold EKEYREJECTED. discriminate.
  - inversion Hids as [|? ? Hid Hrest]; subst.
    assert (Hnext : forall d vfy1,
              (holds_digest_of db vfy -> holds_digest_of db vfy1) ->
              exists r d' vfy',
                run_keys rest d vfy1 db mem len = Ret (r, d', vfy') /\
                (r = 0 \/ r = - EKEYREJECTED) /\
                (r = 0 -> accepted_by (tkey :: rest) db mem len vfy d')).
    { intros d vfy1 Hkeep.
      destruct (IH d vfy1 db mem len Hok Hh Hlen H64 Hrest)
        as (r & d' & vfy' & Hrun & Hr & Hacc).
      exists r, d', vfy'. split; [exact Hrun|]. split; [exact Hr|].
      intros Hz.
      destruct (Hacc Hz) as (tk & d0 & d1 & d2 & md & Hin & Hid' & Halg
                             & Hstart & Hdig & Hv & Hmd).
      exists tk, d0, d1, d2, md. split; [right; exact Hin|].
      repeat split; auto. }
    cbn [verify_keys]. unfold sizeof_adb_sign_v0 in *.
    rewrite (read_at_inside mem sizeof_adb_sign_hdr sizeof_key_id) by lia.
    rewrite (read_at_inside (pkey_id (tk_key _ tkey)) 0 sizeof_key_id) by lia.
    cbn [mbind outcome_bind obind drop].
    destruct (bytes_eqb _ _) eqn:Eid; cbn [negb]; [|apply Hnext; auto].
    apply bytes_eqb_eq in Eid.
    rewrite (read_at_inside mem 1 1) by lia.
    cbn [mbind outcome_bind obind].
    destruct (digest_adb_spec vfy (le_decode (take 1 (drop 1 mem))) db Hok)
      as (r & md & vfy1 & -> & Halg & Hkeep & Hmd).
    cbn [mbind outcome_bind obind].
    destruct (r =? 0) eqn:Er; cbn [negb]; [|apply Hnext; exact Hkeep].
    apply Z.eqb_eq in Er.
    destruct (apk_verify_start dctx (tk_key _ tkey)) as [r1 d1] eqn:Es.
    destruct (r1 =? 0) eqn:Er1; cbn [negb]; [|apply Hnext; exact Hkeep].
    apply Z.eqb_eq in Er1. subst r1.
    rewrite (read_at_inside mem 0 (sizeof_adb_sign_hdr + sizeof_key_id)) by lia.
    cbn [mbind outcome_bind obind drop].
    destruct (adb_digest_v0_signature _ _ _ _ _ _) as [r2 d2] eqn:Ed.
    destruct (r2 =? 0) eqn:Er2; cbn [negb]; [|apply Hnext; exact Hkeep].
    apply Z.eqb_eq in Er2. subst r2.
    rewrite Z.mod_small by lia.
    rewrite read_at_inside by lia.
    cbn [mbind outcome_bind obind].
    destruct (apk_verify d2 _) as [r3 d3] eqn:Ev.
    destruct (r3 =? 0) eqn:Er3; cbn [negb]; [|apply Hnext; exact Hkeep].
    apply Z.eqb_eq in Er3. subst r3.
    do 3 eexists. split; [reflexivity|]. split; [left; reflexivity|].
    intros _. exists tkey, dctx, d1, d2, md. split; [left|].
    split; [symmetry; exact Eid|]. split; [apply Halg, Er|].
    split; [exact Es|]. split; [exact Ed|]. split; [exact Ev|].
    apply Hmd, Er.
Qed.

End VerifyFacts.

(** X27: adb_trust_verify_signature on a signature blob that is readable
    and either shorter than the signature header or at least as long as
    the version-0 record returns -ENOMSG when the database has no arena,
    else -EBADMSG when the blob is shorter than the header, else -ENOSYS
    when its version byte is not 0, else 0 or -EKEYREJECTED.  It returns
    0 only when some trusted key carries the identifier stored in the
    signature, the hash algorithm byte names SHA512, apk_verify_start
    succeeded on that key, adb_digest_v0_signature fed the context so
    started the database header, the version-0 record of the blob and
    the digest, and apk_verify accepted the bytes behind the record on
    the context so fed, which is the one left in the trust context; the
    digest is that of the arena when the verification context given
    holds no digest or the arena's.  With no trusted key it never
    returns 0.  The key lists are left as they are. *)
Theorem adb_trust_verify_signature_result
    (apk_pkey : Type) (pkey_id : apk_pkey -> list byte)
    (apk_digest_ctx : Type) (APK_DIGEST_SHA512 : Z)
    (apk_digest_calc : Z -> list byte -> Z * list byte)
    (apk_digest_ctx_update : apk_digest_ctx -> list byte -> Z * apk_digest_ctx)
    (apk_verify_start : apk_digest_ctx -> apk_pkey -> Z * apk_digest_ctx)
    (apk_verify : apk_digest_ctx -> list byte -> Z * apk_digest_ctx)
    (sizeof_adb_sign_hdr sizeof_key_id : nat)
    (trust : apk_trust apk_pkey apk_digest_ctx) (db : adb)
    (vfy : adb_verify_ctx) (sigb : apk_blob_t) (mem : list byte) :
  let v0 := Z.of_nat (sizeof_adb_sign_v0 sizeof_adb_sign_hdr sizeof_key_id) in
  let len := blob_len sigb in
  arena_ok db -> (2 <= sizeof_adb_sign_hdr)%nat ->
  blob_ptr sigb = Some mem ->
  len <= Z.of_nat (length mem) -> len < 2 ^ 64 ->
  len < Z.of_nat sizeof_adb_sign_hdr \/ v0 <= len ->
  Forall (fun tk => (sizeof_key_id <= length (pkey_id (tk_key _ tk)))%nat)
         (trusted_key_list _ _ trust) ->
  exists r trust' vfy',
    adb_trust_verify_signature apk_pkey pkey_id apk_digest_ctx
      APK_DIGEST_SHA512 apk_digest_calc apk_digest_ctx_update
      apk_verify_start apk_verify sizeof_adb_sign_hdr sizeof_key_id
      trust db vfy sigb = Ret (r, trust', vfy') /\
    trusted_key_list _ _ trust' = trusted_key_list _ _ trust /\
    private_key_list _ _ trust' = private_key_list _ _ trust /\
    r = (if APK_BLOB_IS_NULL (adb_ db) then - ENOMSG
         else if len <? Z.of_nat sizeof_adb_sign_hdr then - EBADMSG
         else if negb (le_decode (take 1 mem) =? 0) then - ENOSYS
         else if r =? 0 then 0 else - EKEYREJECTED) /\
    (r = 0 ->
     exists tkey d0 d1 d2 md,
       tkey ∈ trusted_key_list _ _ trust /\
       take sizeof_key_id (pkey_id (tk_key _ tkey))
       = take sizeof_key_id (drop sizeof_adb_sign_hdr mem) /\
       le_decode (take 1 (drop 1 mem)) = APK_DIGEST_SHA512 /\
       apk_verify_start d0 (tk_key _ tkey) = (0, d1) /\
       adb_digest_v0_signature apk_digest_ctx apk_digest_ctx_update d1
         (hdr db) (take (Z.to_nat v0) mem) md = (0, d2) /\
       apk_verify d2 (take (Z.to_nat (len - v0)) (drop (Z.to_nat v0) mem))
       = (0, t_dctx _ _ trust') /\
       (Z.land (calc vfy) (Z.shiftl 1 APK_DIGEST_SHA512) = 0 \/
        apk_digest_calc APK_DIGEST_SHA512 (arena db) = (0, sha512 vfy) ->
        apk_digest_calc APK_DIGEST_SHA512 (arena db) = (0, md))) /\
    (trusted_key_list _ _ trust = [] -> r <> 0).
Proof.
  intros v0 len Hok Hh Hptr Hmem H64 Hshape Hids.
  unfold adb_trust_verify_signature. subst v0 len.
  destruct (APK_BLOB_IS_NULL (adb_ db)) eqn:Hnull.
  { do 3 eexists. split; [reflexivity|]. repeat split; discriminate. }
  destruct (blob_len sigb <? Z.of_nat sizeof_adb_sign_hdr) eqn:Eshort.
  { do 3 eexists. split; [reflexivity|]. repeat split; discriminate. }
  apply Z.ltb_ge in Eshort.
  destruct Hshape as [? | Hv0]; [lia|].
  rewrite Hptr. rewrite (read_at_inside mem 0 1)
    by (unfold sizeof_adb_sign_v0 in *; lia).
  cbn [mbind outcome_bind obind]. rewrite drop_0.
  destruct (le_decode (take 1 mem) =? 0) eqn:Ever; cbn [negb].
  2:{ do 3 eexists. split; [reflexivity|]. repeat split; discriminate. }
  destruct (verify_keys_spec apk_pkey pkey_id apk_digest_ctx APK_DIGEST_SHA512
              apk_digest_calc apk_digest_ctx_update apk_verify_start
              apk_verify sizeof_adb_sign_hdr sizeof_key_id
              (trusted_key_list _ _ trust) (t_dctx _ _ trust) vfy db mem
              (blob_len sigb) Hok Hh) as (r & d' & vfy' & -> & Hr & Hacc); auto.
  cbn [mbind outcome_bind obind].
  do 3 eexists. split; [reflexivity|].
  split; [reflexivity|]. split; [reflexivity|].
  split; [destruct Hr as [-> | ->]; reflexivity|].
  split.
  - intros Hz.
    destruct (Hacc Hz) as (tk & d0 & d1 & d2 & md & Hin & Hid & Halg
                           & Hstart & Hdig & Hv & Hmd).
    exists tk, d0, d1, d2, md. rewrite Nat2Z.id.
    cbn [set_t_dctx t_dctx]. repeat split; auto.
  - intros Hnil Hz.
    destruct (Hacc Hz) as (tk & d0 & d1 & d2 & md & Hin & _).
    rewrite Hnil in Hin. inversion Hin.
Qed.

(** The theorem at a version-0 record naming the identifier [6b],
    followed by one signature byte, for an arena of one byte; headers of
    two bytes and identifiers of one byte. *)
Lemma adb_trust_verify_signature_result_witness :
  exists r trust' vfy',
    adb_trust_verify_signature (list byte) (fun k => k)
      (list byte * list byte) 4 toy_digest_calc toy_update toy_start
      toy_verify 2 1
      (mk_trust _ _ ([], []) [mk_trust_key _ [x6b] None] [] true)
      (set_arena (adb_w_init_dynamic 0 1) [x07] 8192) verify_ctx_zero
      (blob_of [x00; x04; x6b; x6b]) = Ret (r, trust', vfy') /\
    (trusted_key_list _ _ trust' = [mk_trust_key _ [x6b] None]).
Proof.
  destruct (adb_trust_verify_signature_result (list byte) (fun k => k)
           (list byte * list byte) 4 toy_digest_calc toy_update toy_start
           toy_verify 2 1
           (mk_trust _ _ ([], []) [mk_trust_key _ [x6b] None] [] true)
           (set_arena (adb_w_init_dynamic 0 1) [x07] 8192) verify_ctx_zero
           (blob_of [x00; x04; x6b; x6b]) [x00; x04; x6b; x6b])
    as (r & trust' & vfy' & Hrun & Ht & _).
  - vm_compute. split; discriminate.
  - lia.
  - reflexivity.
  - vm_compute. discriminate.
  - reflexivity.
  - right. vm_compute. discriminate.
  - repeat constructor.
  - exists r, trust', vfy'. split; [exact Hrun | exact Ht].
Defined.

(* ================================================================== *)
(** * Signing, and verifying what was signed *)

Lemma blob_read_exact (bs : list byte) :
  blob_read (APK_BLOB_PTR_LEN (Some bs) (Z.of_nat (length bs))) = Ret bs.
Proof.
  unfold blob_read. cbn [blob_ptr blob_len]. rewrite Nat2Z.id.
  rewrite Nat.ltb_irrefl, firstn_all. reflexivity.
Qed.

(** A blob that denotes [p] in full is read as [p]. *)
Lemma blob_read_bytes (b : apk_blob_t) (p : list byte) :
  APK_BLOB_IS_NULL b = false ->
  blob_bytes b = p -> blob_len b = Z.of_nat (length p) ->
  blob_read b = Ret p.
Proof.
  unfold APK_BLOB_IS_NULL, blob_bytes, blob_read.
  destruct (blob_ptr b) as [mem|]; [|discriminate].
  intros _ Hb Hl. rewrite Hl, Nat2Z.id in *.
  assert (length p <= length mem)%nat.
  { rewrite <- Hb at 1. rewrite length_take. lia. }
  replace (length mem <? length p)%nat with false
    by (symmetry; apply Nat.ltb_ge; lia).
  rewrite Hb. reflexivity.
Qed.

Lemma read_at_prefix (s rest : list byte) (off n : nat) :
  (off + n <= length s)%nat ->
  read_at (s ++ rest) off n = Ret (take n (drop off s)).
Proof.
  intros H. rewrite read_at_inside by (rewrite length_app; lia).
  rewrite drop_app_le by lia.
  rewrite take_app_le by (rewrite length_drop; lia).
  reflexivity.
Qed.

Lemma read_at_Ret mem off n bs :
  read_at mem off n = Ret bs -> length bs = n.
Proof.
  unfold read_at. destruct (_ =? _)%nat eqn:E; [|discriminate].
  intros [= <-]. apply Nat.eqb_eq in E. exact E.
Qed.

Section SignFacts.
Variable apk_pkey : Type.
Variable pkey_id : apk_pkey -> list byte.
Variable apk_digest_ctx : Type.
Variable APK_DIGEST_SHA512 : Z.
Variable apk_digest_calc : Z -> list byte -> Z * list byte.
Variable apk_digest_ctx_update :
  apk_digest_ctx -> list byte -> Z * apk_digest_ctx.
Variable apk_sign_start : apk_digest_ctx -> apk_pkey -> Z * apk_digest_ctx.
Variable apk_sign : apk_digest_ctx -> Z -> Z * list byte * apk_digest_ctx.
Variable apk_verify_start : apk_digest_ctx -> apk_pkey -> Z * apk_digest_ctx.
Variable apk_verify : apk_digest_ctx -> list byte -> Z * apk_digest_ctx.
Variables sizeof_adb_sign_hdr sizeof_key_id : nat.
Variable ADB_MAX_SIGNATURE_LEN : Z.
Variable signer : apk_pkey -> Prop.
Variable key_pair : apk_pkey -> apk_pkey -> Prop.

Variable sys_write : list byte -> list byte -> Z.
Variable cancel_rc : Z -> Z -> Z.
Variable os_cancel : apk_fd_ostream -> Z -> Z * apk_fd_ostream.

Abbreviation v0 := (sizeof_adb_sign_v0 sizeof_adb_sign_hdr sizeof_key_id).
Abbreviation digest_v0 :=
  (adb_digest_v0_signature apk_digest_ctx apk_digest_ctx_update).
Abbreviation sig0_of :=
  (sign_v0_of apk_pkey pkey_id APK_DIGEST_SHA512 sizeof_adb_sign_hdr
     sizeof_key_id).
Abbreviation signed_by :=
  (signed_by apk_pkey pkey_id apk_digest_ctx APK_DIGEST_SHA512
     apk_digest_ctx_update apk_verify_start apk_verify sizeof_adb_sign_hdr
     sizeof_key_id key_pair).
Abbreviation digest_adb := (adb_digest_adb APK_DIGEST_SHA512 apk_digest_calc).
Abbreviation run_keys :=
  (verify_keys apk_pkey pkey_id apk_digest_ctx APK_DIGEST_SHA512
     apk_digest_calc apk_digest_ctx_update apk_verify_start apk_verify
     sizeof_adb_sign_hdr sizeof_key_id).
Abbreviation verify_signature :=
  (adb_trust_verify_signature apk_pkey pkey_id apk_digest_ctx
     APK_DIGEST_SHA512 apk_digest_calc apk_digest_ctx_update
     apk_verify_start apk_verify sizeof_adb_sign_hdr sizeof_key_id).
Abbreviation id_ok :=
  (fun tk : apk_trust_key apk_pkey =>
     (sizeof_key_id <= length (pkey_id (tk_key _ tk)))%nat).

Hypothesis Hwrite : forall taken req,
  req <> [] -> 0 < sys_write taken req <= Z.of_nat (length req).
Hypothesis Hcrypto :
  crypto_ok apk_pkey apk_digest_ctx apk_digest_ctx_update apk_sign_start
    apk_sign apk_verify_start apk_verify signer key_pair
    (ADB_MAX_SIGNATURE_LEN - Z.of_nat v0).
Hypothesis Hh : (2 <= sizeof_adb_sign_hdr)%nat.
Hypothesis Hmax : ADB_MAX_SIGNATURE_LEN + sizeof_adb_block < 2 ^ 30.
Hypothesis Halg : 0 <= APK_DIGEST_SHA512 < 256.

Lemma sig0_of_key k :
  (sizeof_key_id <= length (pkey_id k))%nat ->
  exists sig0,
    sig0_of k = Ret sig0 /\ length sig0 = v0 /\
    take 1 sig0 = [x00] /\
    take 1 (drop 1 sig0) = [byte_of_Z APK_DIGEST_SHA512] /\
    drop sizeof_adb_sign_hdr sig0 = take sizeof_key_id (pkey_id k).
Proof.
  intros Hid. unfold sign_v0_of.
  rewrite read_at_inside by lia. cbn [mbind outcome_bind obind].
  rewrite drop_0.
  set (hd := take sizeof_adb_sign_hdr _).
  assert (Hhd : length hd = sizeof_adb_sign_hdr).
  { unfold hd, zeroes. rewrite length_take. cbn [length].
    rewrite length_replicate. lia. }
  eexists. split; [reflexivity|].
  split; [rewrite length_app, Hhd, length_take; unfold sizeof_adb_sign_v0; lia|].
  assert (Hhd2 : hd = x00 :: byte_of_Z APK_DIGEST_SHA512
                      :: zeroes (sizeof_adb_sign_hdr - 2)).
  { unfold hd. apply take_ge. unfold zeroes. cbn [length].
    rewrite length_replicate. lia. }
  split; [rewrite Hhd2; reflexivity|].
  split; [rewrite Hhd2; reflexivity|].
  rewrite drop_app_length' by (symmetry; exact Hhd). reflexivity.
Qed.

(** A record is only prepared for a key whose identifier is long
    enough. *)
Lemma sig0_of_Ret k sig0 :
  sig0_of k = Ret sig0 -> (sizeof_key_id <= length (pkey_id k))%nat.
Proof.
  unfold sign_v0_of, read_at. rewrite drop_0.
  destruct (_ =? _)%nat eqn:E; [|discriminate].
  intros _. apply Nat.eqb_eq in E. rewrite length_take in E. lia.
Qed.

Lemma sign_keys_fd h (md : list byte) keys : forall d fos db,
  hdr db = h ->
  Z.of_nat (length (fos_buffer fos)) < sizeof_fos_buffer ->
  Forall (fun tk => signer (tk_key _ tk) /\ id_ok tk) keys ->
  exists d' fos' sigs,
    sign_keys apk_pkey pkey_id apk_digest_ctx APK_DIGEST_SHA512
      apk_digest_ctx_update apk_sign_start apk_sign sizeof_adb_sign_hdr
      sizeof_key_id ADB_MAX_SIGNATURE_LEN apk_fd_ostream
      (fdo_write sys_write cancel_rc) os_cancel keys d db md fos
    = Ret (0, d', fos') /\
    Z.of_nat (length (fos_buffer fos')) < sizeof_fos_buffer /\
    fd_taken fos' ++ fos_buffer fos'
    = (fd_taken fos ++ fos_buffer fos)
      ++ concat (map (adb_c_block ADB_BLOCK_SIG) sigs) /\
    os_rc fos' = os_rc fos /\ fos_fd fos' = fos_fd fos /\
    fos_file fos' = fos_file fos /\
    Forall fits sigs /\ Forall2 (signed_by h md) keys sigs.
Proof.
  induction keys as [|tk rest IH]; intros d fos db Hhdr Hb Hids.
  - exists d, fos, []. cbn [sign_keys map concat]. rewrite app_nil_r.
    repeat split; auto; constructor.
  - inversion Hids as [|? ? [Hsigner Hid] Hrest]; subst.
    cbn [sign_keys].
    destruct (sig0_of_key (tk_key _ tk) Hid) as (sig0 & Esig0 & Hlen0 & _).
    rewrite Esig0. cbn [mbind outcome_bind obind].
    destruct (Hcrypto d (tk_key _ tk) (hdr db) sig0 md Hsigner)
      as (d1 & d2 & sig & d3 & -> & -> & -> & Hroom & Hver).
    change (negb (0 =? 0)) with false. cbv iota.
    set (s := sig0 ++ sig).
    assert (Hs : Z.of_nat v0 + Z.of_nat (length sig) = Z.of_nat (length s))
      by (unfold s; rewrite length_app; lia).
    assert (Hfits : fits s).
    { unfold fits. rewrite <- Hs. lia. }
    rewrite Hs.
    destruct (adb_c_block_fd sys_write cancel_rc Hwrite fos ADB_BLOCK_SIG
                (APK_BLOB_PTR_LEN (Some s) (Z.of_nat (length s))) s Hb
                (blob_read_exact s) eq_refl)
      as (fos1 & -> & Hb1 & Hbytes1 & Hrc1 & Hfd1 & Hf1).
    { cbn [blob_len].
      destruct (block_size_bounds ADB_BLOCK_SIG s sig_type_ok Hfits)
        as [Hle ->]. lia. }
    cbn [mbind outcome_bind obind]. change (0 <? 0) with false. cbv iota.
    destruct (IH d3 fos1 db eq_refl Hb1 Hrest)
      as (d' & fos' & sigs & -> & Hb' & Hbytes & Hrc & Hfd & Hf & Hfs & Hsigned).
    exists d', fos', (s :: sigs). split; [reflexivity|].
    cbn [map concat].
    rewrite Hbytes, Hbytes1, Hrc, Hrc1, Hfd, Hfd1, Hf, Hf1, <- !app_assoc.
    repeat split; auto.
    constructor; [|exact Hsigned].
    exists sig0, sig. split; [reflexivity|].
    split; [exact Esig0 | exact Hver].
Qed.

Abbreviation vfy_ok := (vfy_ok APK_DIGEST_SHA512).

Lemma digest_adb_md vfy data p md :
  APK_BLOB_IS_NULL data = false -> blob_read data = Ret p ->
  apk_digest_calc APK_DIGEST_SHA512 p = (0, md) ->
  vfy_ok md vfy ->
  exists vfy', digest_adb vfy APK_DIGEST_SHA512 data = Ret (0, md, vfy')
               /\ vfy_ok md vfy'.
Proof.
  intros Hnull Hread Hcalc Hv. unfold adb_digest_adb.
  rewrite Z.eqb_refl.
  destruct (_ =? 0) eqn:E.
  - rewrite Hnull, Hread. cbn [mbind outcome_bind obind]. rewrite Hcalc.
    change (negb (0 =? 0)) with false. cbv iota.
    eexists. split; [reflexivity|]. right. reflexivity.
  - apply Z.eqb_neq in E. destruct Hv as [Hv | Hv]; [contradiction|].
    rewrite Hv. eexists. split; [reflexivity|]. right. exact Hv.
Qed.

Lemma le_decode_alg : le_decode [byte_of_Z APK_DIGEST_SHA512] = APK_DIGEST_SHA512.
Proof.
  cbn [le_decode]. rewrite byte_val_of_Z, Z.mod_small by exact Halg. lia.
Qed.

Section Accept.
Variables (h : adb_header) (md p : list byte) (db : adb).
Variables (k : apk_pkey) (sig0 sig mem : list byte).
Variable tk' : apk_trust_key apk_pkey.

Hypothesis Hhdr : hdr db = h.
Hypothesis Hnull : APK_BLOB_IS_NULL (adb_ db) = false.
Hypothesis Hread : blob_read (adb_ db) = Ret p.
Hypothesis Hcalc : apk_digest_calc APK_DIGEST_SHA512 p = (0, md).
Hypothesis Hsig0 : sig0_of k = Ret sig0.
Hypothesis Hver : forall k' d', key_pair k k' ->
  exists e1 e2 e3,
    apk_verify_start d' k' = (0, e1) /\
    digest_v0 e1 h sig0 md = (0, e2) /\
    apk_verify e2 sig = (0, e3).
Hypothesis Hfits : fits (sig0 ++ sig).
Hypothesis Hmem : take (length (sig0 ++ sig)) mem = sig0 ++ sig.
Hypothesis Hpair : key_pair k (tk_key _ tk').
Hypothesis Hsame :
  take sizeof_key_id (pkey_id k)
  = take sizeof_key_id (pkey_id (tk_key _ tk')).

Let len : Z := Z.of_nat (length (sig0 ++ sig)).

Lemma sig_mem_reads :
  (sizeof_key_id <= length (pkey_id k))%nat /\
  read_at mem 0 1 = Ret [x00] /\
  read_at mem 1 1 = Ret [byte_of_Z APK_DIGEST_SHA512] /\
  read_at mem sizeof_adb_sign_hdr sizeof_key_id
  = Ret (take sizeof_key_id (pkey_id k)) /\
  read_at mem 0 v0 = Ret sig0 /\
  read_at mem v0 (Z.to_nat ((len - Z.of_nat v0) mod 2 ^ 64)) = Ret sig.
Proof.
  pose proof (sig0_of_Ret _ _ Hsig0) as Hid.
  destruct (sig0_of_key k Hid) as (sig0' & E & Hl0 & Hb0 & Hb1 & Hbid).
  rewrite Hsig0 in E. injection E as <-.
  split; [exact Hid|].
  rewrite <- (take_drop (length (sig0 ++ sig)) mem), Hmem.
  set (rest := drop _ mem). unfold sizeof_adb_sign_v0 in *.
  rewrite <- app_assoc.
  rewrite !read_at_prefix by lia.
  rewrite drop_0, Hb0, Hb1, Hbid.
  rewrite take_take, Nat.min_id.
  rewrite <- Hl0, firstn_all.
  repeat split; try reflexivity.
  unfold len. rewrite length_app.
  replace (Z.of_nat (length sig0 + length sig) - Z.of_nat (length sig0))
    with (Z.of_nat (length sig)) by lia.
  unfold fits, sizeof_adb_block in Hfits. rewrite length_app in Hfits.
  rewrite Z.mod_small by lia. rewrite Nat2Z.id.
  rewrite app_assoc.
  rewrite read_at_inside by (rewrite !length_app; lia).
  rewrite <- app_assoc, drop_app_length, take_app_length. reflexivity.
Qed.

Lemma verify_keys_accepts keys : forall d vfy,
  vfy_ok md vfy -> tk' ∈ keys -> Forall id_ok keys ->
  exists d' vfy',
    run_keys keys d vfy db mem len = Ret (0, d', vfy') /\ vfy_ok md vfy'.
Proof.
  destruct sig_mem_reads as (Hid & _ & Ealg & Eid & Esig0 & Esig).
  induction keys as [|tkh rest IH]; intros d vfy Hv Hin Hids;
    [inversion Hin|].
  apply Forall_cons in Hids as [Hidh Hrest].
  cbn [verify_keys]. rewrite Eid.
  rewrite (read_at_inside (pkey_id (tk_key _ tkh)) 0 sizeof_key_id) by lia.
  cbn [mbind outcome_bind obind]. rewrite drop_0.
  rewrite Ealg. cbn [mbind outcome_bind obind]. rewrite le_decode_alg.
  destruct (digest_adb_md vfy (adb_ db) p md Hnull Hread Hcalc Hv)
    as (vfy1 & Hd & Hv1).
  rewrite Hd, Esig0, Esig. cbn [mbind outcome_bind obind].
  change (negb (0 =? 0)) with false. cbv iota.
  apply elem_of_cons in Hin as [<- | Hin].
  - rewrite <- Hsame, bytes_eqb_refl. cbn [negb].
    destruct (Hver (tk_key _ tk') d Hpair) as (e1 & e2 & e3 & -> & He2 & He3).
    change (negb (0 =? 0)) with false. cbv iota.
    rewrite Hhdr, He2. change (negb (0 =? 0)) with false. cbv iota.
    rewrite He3. change (negb (0 =? 0)) with false. cbv iota.
    eauto.
  - destruct (bytes_eqb _ _); cbn [negb]; [|apply IH; auto].
    destruct (apk_verify_start d (tk_key _ tkh)) as [r1 d1].
    destruct (negb (r1 =? 0)); [apply IH; auto|].
    destruct (adb_digest_v0_signature _ _ _ _ _ _) as [r2 d2].
    destruct (negb (r2 =? 0)); [apply IH; auto|].
    destruct (apk_verify d2 sig) as [r3 d3].
    destruct (negb (r3 =? 0)); [apply IH; auto|].
    eauto.
Qed.

(** A signature over the arena of the database is accepted when a key
    paired with the signing key, carrying its identifier, is trusted. *)
Lemma verify_accepts (tr : apk_trust apk_pkey apk_digest_ctx) vfy sigb :
  blob_ptr sigb = Some mem -> blob_len sigb = len ->
  vfy_ok md vfy ->
  tk' ∈ trusted_key_list _ _ tr -> Forall id_ok (trusted_key_list _ _ tr) ->
  exists tr' vfy',
    verify_signature tr db vfy sigb = Ret (0, tr', vfy') /\
    vfy_ok md vfy' /\
    trusted_key_list _ _ tr' = trusted_key_list _ _ tr.
Proof.
  intros Hptr Hlen Hv Hin Hids.
  destruct sig_mem_reads as (Hid & Ever & _).
  pose proof (sig0_of_Ret _ _ Hsig0) as Hid'.
  destruct (sig0_of_key k Hid') as (sig0' & E & Hl0 & _).
  rewrite Hsig0 in E. injection E as <-.
  unfold adb_trust_verify_signature. rewrite Hnull, Hptr, Hlen.
  replace (len <? Z.of_nat sizeof_adb_sign_hdr) with false
    by (symmetry; apply Z.ltb_ge; unfold len; rewrite length_app, Hl0;
        unfold sizeof_adb_sign_v0; lia).
  rewrite Ever. cbn [mbind outcome_bind obind].
  change (negb (le_decode [x00] =? 0)) with false. cbv iota.
  destruct (verify_keys_accepts (trusted_key_list _ _ tr) (t_dctx _ _ tr) vfy
              Hv Hin Hids) as (d' & vfy' & -> & Hv').
  cbn [mbind outcome_bind obind]. eauto.
Qed.

End Accept.

Abbreviation trust_write :=
  (adb_trust_write_signatures apk_pkey pkey_id apk_digest_ctx
     APK_DIGEST_SHA512 apk_digest_calc apk_digest_ctx_update apk_sign_start
     apk_sign sizeof_adb_sign_hdr sizeof_key_id ADB_MAX_SIGNATURE_LEN
     apk_fd_ostream (fdo_write sys_write cancel_rc) os_cancel).

(** Signing on the descriptor stream hands it one signature block per
    private key. *)
Lemma trust_write_fd (tw : apk_trust apk_pkey apk_digest_ctx) db p md fos :
  Z.of_nat (length (fos_buffer fos)) < sizeof_fos_buffer ->
  APK_BLOB_IS_NULL (adb_ db) = false -> blob_read (adb_ db) = Ret p ->
  apk_digest_calc APK_DIGEST_SHA512 p = (0, md) ->
  Forall (fun tk => signer (tk_key _ tk) /\ id_ok tk)
         (private_key_list _ _ tw) ->
  exists tw' vfy' fos' sigs,
    trust_write tw db None fos = Ret (0, tw', vfy', fos') /\
    Z.of_nat (length (fos_buffer fos')) < sizeof_fos_buffer /\
    fd_taken fos' ++ fos_buffer fos'
    = (fd_taken fos ++ fos_buffer fos)
      ++ concat (map (adb_c_block ADB_BLOCK_SIG) sigs) /\
    os_rc fos' = os_rc fos /\ fos_fd fos' = fos_fd fos /\
    fos_file fos' = fos_file fos /\
    Forall fits sigs /\
    Forall2 (signed_by (hdr db) md) (private_key_list _ _ tw) sigs.
Proof.
  intros Hb Hnull Hread Hcalc Hkeys. unfold adb_trust_write_signatures.
  destruct (digest_adb_md verify_ctx_zero (adb_ db) p md Hnull Hread Hcalc)
    as (vfy1 & -> & _).
  { left. apply Z.land_0_l. }
  cbn [mbind outcome_bind obind]. change (negb (0 =? 0)) with false. cbv iota.
  destruct (sign_keys_fd (hdr db) md (private_key_list _ _ tw)
              (t_dctx _ _ tw) fos db eq_refl Hb Hkeys)
    as (d' & fos' & sigs & -> & H).
  cbn [mbind outcome_bind obind]. eauto 6.
Qed.

End SignFacts.

Section ParseSigned.
Variable T : Type.
Variable v : T -> adb -> apk_blob_t -> Z.
Variable tr : T.
Variable good : list byte -> Prop.

(** With a trust context, signature blocks after the ADB block raise the
    trusted flag as soon as one of them verifies. *)
Lemma parse_loop_sigs_verified sigs : forall pre fuel db trusted res,
  data db = blob_of (pre ++ concat (map (adb_c_block ADB_BLOCK_SIG) sigs)) ->
  Forall fits sigs ->
  APK_BLOB_IS_NULL (adb_ db) = false ->
  (forall s b, good s -> APK_BLOB_IS_NULL b = false ->
               blob_len b = Z.of_nat (length s) -> blob_bytes b = s ->
               v tr db b = 0) ->
  trusted = true \/ Exists good sigs ->
  __adb_m_parse_loop T v fuel (Some tr) db trusted
    (adb_block_validate (Z.of_nat (length pre))
       (blob_of (pre ++ concat (map (adb_c_block ADB_BLOCK_SIG) sigs))))
    = Ret res ->
  res = (db, true, BLK_NULL).
Proof.
  induction sigs as [|s sigs IH]; intros pre fuel db trusted res Hd Hf Ha Hv Hor Hl.
  - destruct Hor as [-> | Hex]; [|inversion Hex].
    cbn [map concat] in Hl. rewrite app_nil_r in Hl.
    unfold adb_block_validate, blob_of in Hl. cbn [blob_len] in Hl.
    rewrite Z.eqb_refl in Hl.
    destruct fuel; cbn [__adb_m_parse_loop] in Hl; congruence.
  - cbn [map concat] in Hd, Hl.
    apply Forall_cons in Hf as [Hs Hf'].
    rewrite (validate_encoded _ _ sig_type_ok Hs) in Hl.
    destruct fuel as [|fuel]; cbn [__adb_m_parse_loop] in Hl; [discriminate|].
    unfold __adb_m_parse_block in Hl.
    rewrite Hd in Hl.
    rewrite (type_encoded _ _ sig_type_ok Hs) in Hl.
    change (ADB_BLOCK_SIG =? ADB_BLOCK_ADB) with false in Hl.
    change (ADB_BLOCK_SIG =? ADB_BLOCK_SIG) with true in Hl.
    cbv iota in Hl. rewrite Ha in Hl.
    rewrite (next_encoded _ _ sig_type_ok Hs) in Hl.
    rewrite app_assoc in Hl.
    apply (IH (pre ++ adb_c_block ADB_BLOCK_SIG s) fuel db _ res) in Hl; auto.
    + rewrite Hd, <- app_assoc. reflexivity.
    + unfold verify_step.
      destruct trusted; [left; reflexivity|].
      destruct Hor as [? | Hex]; [discriminate|].
      apply Exists_cons in Hex as [Hg | Hex]; [left | right; exact Hex].
      apply Z.eqb_eq. rewrite <- app_assoc. apply (Hv s); auto.
      * unfold adb_block_blob.
        rewrite (block_at_encoded _ _ sig_type_ok Hs). cbn [blob_len].
        apply adb_block_length_init; [exact sig_type_ok|].
        apply fits_init, Hs.
      * apply (blob_encoded _ _ sig_type_ok Hs).
Qed.

(** The parse of a framed container one of whose signatures verifies. *)
Lemma parse_container_signed p sigs db :
  fits p -> Forall fits sigs ->
  data db = blob_of (container_blocks p sigs) ->
  APK_BLOB_IS_NULL (adb_ db) = true ->
  (forall s b, good s -> APK_BLOB_IS_NULL b = false ->
               blob_len b = Z.of_nat (length s) -> blob_bytes b = s ->
               v tr (set_adb db (adb_block_blob (data db) 0)) b = 0) ->
  Exists good sigs ->
  __adb_m_parse T v db (Some tr)
  = Ret (0, set_adb db (adb_block_blob (data db) 0)).
Proof.
  intros Hp Hs Hd Ha Hv Hex.
  set (rest := concat (map (adb_c_block ADB_BLOCK_SIG) sigs)).
  set (blocks := blob_of (container_blocks p sigs)) in *.
  assert (Hval : adb_block_validate 0 blocks = BLK 0)
    by exact (validate_encoded _ _ adb_type_ok Hp [] rest).
  assert (Ht : adb_block_type (block_at blocks 0) = ADB_BLOCK_ADB)
    by exact (type_encoded _ _ adb_type_ok Hp [] rest).
  assert (Hn : adb_block_next 0 blocks
               = adb_block_validate
                   (Z.of_nat (length (adb_c_block ADB_BLOCK_ADB p))) blocks)
    by exact (next_encoded _ _ adb_type_ok Hp [] rest).
  destruct (parse_returns T v db (Some tr))
    as (db1 & tr1 & blk & Hl & _ & _ & ->).
  { rewrite Hd. reflexivity. }
  unfold adb_block_first in Hl.
  cbn [__adb_m_parse_loop] in Hl.
  unfold __adb_m_parse_block in Hl.
  rewrite Hd in Hl.
  rewrite Hval in Hl. rewrite Ht in Hl.
  change (ADB_BLOCK_ADB =? ADB_BLOCK_ADB) with true in Hl.
  cbv iota in Hl. rewrite Ha in Hl. cbn [negb] in Hl.
  rewrite Hn in Hl.
  apply (parse_loop_sigs_verified sigs (adb_c_block ADB_BLOCK_ADB p)) in Hl;
    auto.
  2:{ rewrite <- Hd. exact Hv. }
  injection Hl as -> -> ->.
  cbn [negb set_adb adb_ APK_BLOB_IS_NULL adb_block_blob blob_ptr].
  change (0 =? 0) with true. cbv iota.
  rewrite Hd. reflexivity.
Qed.

End ParseSigned.

(** X28: adb_trust_write_signatures, called without a verification
    context on a descriptor stream whose write(2) makes progress, for a
    database with an arena whose digest can be computed and private keys
    that can sign, returns 0 and hands the stream one signature block per
    private key, in the order of the list.  Each block's payload is
    accepted by adb_trust_verify_signature (it returns 0, from a fresh
    verification context) for any database with the same header and
    arena, under any trust context whose trusted keys include one that is
    paired with the signing key and carries its identifier. *)
Theorem adb_trust_signatures_verify
    (apk_pkey : Type) (pkey_id : apk_pkey -> list byte)
    (apk_digest_ctx : Type) (APK_DIGEST_SHA512 : Z)
    (apk_digest_calc : Z -> list byte -> Z * list byte)
    (apk_digest_ctx_update : apk_digest_ctx -> list byte -> Z * apk_digest_ctx)
    (apk_sign_start : apk_digest_ctx -> apk_pkey -> Z * apk_digest_ctx)
    (apk_sign : apk_digest_ctx -> Z -> Z * list byte * apk_digest_ctx)
    (apk_verify_start : apk_digest_ctx -> apk_pkey -> Z * apk_digest_ctx)
    (apk_verify : apk_digest_ctx -> list byte -> Z * apk_digest_ctx)
    (sizeof_adb_sign_hdr sizeof_key_id : nat) (ADB_MAX_SIGNATURE_LEN : Z)
    (signer : apk_pkey -> Prop) (key_pair : apk_pkey -> apk_pkey -> Prop)
    (sys_write : list byte -> list byte -> Z) (cancel_rc : Z -> Z -> Z)
    (os_cancel : apk_fd_ostream -> Z -> Z * apk_fd_ostream)
    (tw : apk_trust apk_pkey apk_digest_ctx) (db : adb)
    (fos : apk_fd_ostream) :
  (forall taken req,
     req <> [] -> 0 < sys_write taken req <= Z.of_nat (length req)) ->
  crypto_ok apk_pkey apk_digest_ctx apk_digest_ctx_update apk_sign_start
    apk_sign apk_verify_start apk_verify signer key_pair
    (ADB_MAX_SIGNATURE_LEN
     - Z.of_nat (sizeof_adb_sign_v0 sizeof_adb_sign_hdr sizeof_key_id)) ->
  (2 <= sizeof_adb_sign_hdr)%nat ->
  ADB_MAX_SIGNATURE_LEN + sizeof_adb_block < 2 ^ 30 ->
  0 <= APK_DIGEST_SHA512 < 256 ->
  Z.of_nat (length (fos_buffer fos)) < sizeof_fos_buffer ->
  arena_ok db -> APK_BLOB_IS_NULL (adb_ db) = false ->
  (apk_digest_calc APK_DIGEST_SHA512 (arena db)).1 = 0 ->
  Forall (fun tk => signer (tk_key _ tk) /\
                    (sizeof_key_id <= length (pkey_id (tk_key _ tk)))%nat)
         (private_key_list _ _ tw) ->
  exists tw' vfy' fos' sigs,
    adb_trust_write_signatures apk_pkey pkey_id apk_digest_ctx
      APK_DIGEST_SHA512 apk_digest_calc apk_digest_ctx_update apk_sign_start
      apk_sign sizeof_adb_sign_hdr sizeof_key_id ADB_MAX_SIGNATURE_LEN
      apk_fd_ostream (fdo_write sys_write cancel_rc) os_cancel tw db None fos
    = Ret (0, tw', vfy', fos') /\
    fd_taken fos' ++ fos_buffer fos'
    = (fd_taken fos ++ fos_buffer fos)
      ++ concat (map (adb_c_block ADB_BLOCK_SIG) sigs) /\
    length sigs = length (private_key_list _ _ tw) /\
    forall (i : nat) tk s (tr : apk_trust apk_pkey apk_digest_ctx) tk' dbr,
      private_key_list _ _ tw !! i = Some tk -> sigs !! i = Some s ->
      hdr dbr = hdr db -> arena_ok dbr ->
      APK_BLOB_IS_NULL (adb_ dbr) = false -> arena dbr = arena db ->
      tk' ∈ trusted_key_list _ _ tr ->
      key_pair (tk_key _ tk) (tk_key _ tk') ->
      take sizeof_key_id (pkey_id (tk_key _ tk))
      = take sizeof_key_id (pkey_id (tk_key _ tk')) ->
      Forall (fun tk => (sizeof_key_id <= length (pkey_id (tk_key _ tk)))%nat)
             (trusted_key_list _ _ tr) ->
      exists tr' vfyr,
        adb_trust_verify_signature apk_pkey pkey_id apk_digest_ctx
          APK_DIGEST_SHA512 apk_digest_calc apk_digest_ctx_update
          apk_verify_start apk_verify sizeof_adb_sign_hdr sizeof_key_id
          tr dbr verify_ctx_zero (blob_of s) = Ret (0, tr', vfyr).
Proof.
  intros Hw Hcrypto Hh Hmax Halg Hb Hok Hnull Hcalc Hkeys.
  destruct (apk_digest_calc APK_DIGEST_SHA512 (arena db)) as [r md] eqn:Ec.
  cbn [fst] in Hcalc. subst r.
  destruct (trust_write_fd apk_pkey pkey_id apk_digest_ctx APK_DIGEST_SHA512
              apk_digest_calc apk_digest_ctx_update apk_sign_start apk_sign
              apk_verify_start apk_verify sizeof_adb_sign_hdr sizeof_key_id
              ADB_MAX_SIGNATURE_LEN signer key_pair sys_write cancel_rc
              os_cancel Hw Hcrypto Hh Hmax tw db (arena db) md fos Hb Hnull
              (blob_read_arena db Hok) Ec Hkeys)
    as (tw' & vfy' & fos' & sigs & Hrun & _ & Hbytes & _ & _ & _ & Hfits & Hsigned).
  exists tw', vfy', fos', sigs.
  split; [exact Hrun|]. split; [exact Hbytes|].
  split; [symmetry; apply (Forall2_length _ _ _ Hsigned)|].
  intros i tk s tr tk' dbr Hi Hs Hhdr Hokr Hnullr Harena Hin Hpair Hsame Hids.
  pose proof (Forall2_lookup_lr _ _ _ _ _ _ Hsigned Hi Hs)
    as (sig0 & sig & -> & Hsig0 & Hver).
  assert (Hfs : fits (sig0 ++ sig))
    by (eapply Forall_lookup_1 in Hfits; eauto).
  destruct (verify_accepts apk_pkey pkey_id apk_digest_ctx APK_DIGEST_SHA512
              apk_digest_calc apk_digest_ctx_update apk_verify_start
              apk_verify sizeof_adb_sign_hdr sizeof_key_id key_pair Hh Halg
              (hdr db) md (arena db) dbr (tk_key _ tk) sig0 sig (sig0 ++ sig)
              tk' Hhdr Hnullr)
      with (tr := tr) (vfy := verify_ctx_zero) (sigb := blob_of (sig0 ++ sig))
    as (tr' & vfyr & Hv & _); auto.
  - rewrite <- Harena. apply blob_read_arena, Hokr.
  - apply firstn_all.
  - left. apply Z.land_0_l.
  - eauto.
Qed.

(** The toy crypto layer signs and verifies. *)
Lemma toy_crypto_ok room :
  8 <= room ->
  crypto_ok (list byte) (list byte * list byte) toy_update toy_start
    toy_sign toy_start toy_verify (fun _ => True) eq room.
Proof.
  intros Hroom d k h sig0 md _.
  exists (k, []), (k, [] ++ adb_c_header h ++ sig0 ++ md).
  exists (toy_signature (k, [] ++ adb_c_header h ++ sig0 ++ md)).
  exists (k, [] ++ adb_c_header h ++ sig0 ++ md).
  split; [reflexivity|].
  split; [unfold adb_digest_v0_signature, toy_update; cbn; reflexivity|].
  split; [reflexivity|].
  split.
  { unfold toy_signature. rewrite length_app, length_take, length_le_encode.
    lia. }
  intros k' d' <-.
  exists (k, []), (k, [] ++ adb_c_header h ++ sig0 ++ md).
  exists (k, [] ++ adb_c_header h ++ sig0 ++ md).
  split; [reflexivity|].
  split; [unfold adb_digest_v0_signature, toy_update; cbn; reflexivity|].
  unfold toy_verify. rewrite bytes_eqb_refl. reflexivity.
Qed.

(** The theorem at the toy crypto layer, one private key [6b], records of
    a two-byte header and a one-byte identifier, and a descriptor that
    takes three bytes at a time. *)
Lemma adb_trust_signatures_verify_witness :
  exists tw' vfy' fos' sigs,
    adb_trust_write_signatures (list byte) (fun k => k)
      (list byte * list byte) 4 toy_digest_calc toy_update toy_start
      toy_sign 2 1 64 apk_fd_ostream
      (fdo_write (fun _ req => Z.min 3 (Z.of_nat (length req)))
                 (fun rc _ => rc))
      (fun fos rc => (rc, fos))
      (mk_trust _ _ ([], []) [] [mk_trust_key _ [x6b] None] true)
      (set_arena (adb_w_init_dynamic 7 1)
         [x78; x56; x34; x12; x00; x00; x00; x20] 8192)
      None (apk_ostream_to_fd 5)
    = Ret (0, tw', vfy', fos') /\
    fd_taken fos' ++ fos_buffer fos'
    = concat (map (adb_c_block ADB_BLOCK_SIG) sigs) /\
    length sigs = 1%nat /\
    forall s, sigs !! 0%nat = Some s ->
      exists tr' vfyr,
        adb_trust_verify_signature (list byte) (fun k => k)
          (list byte * list byte) 4 toy_digest_calc toy_update toy_start
          toy_verify 2 1
          (mk_trust _ _ ([], []) [mk_trust_key _ [x6b] None] [] true)
          (set_arena (adb_w_init_dynamic 7 1)
             [x78; x56; x34; x12; x00; x00; x00; x20] 8192)
          verify_ctx_zero (blob_of s) = Ret (0, tr', vfyr).
Proof.
  destruct (adb_trust_signatures_verify (list byte) (fun k => k)
              (list byte * list byte) 4 toy_digest_calc toy_update toy_start
              toy_sign toy_start toy_verify 2 1 64 (fun _ => True) eq
              (fun _ req => Z.min 3 (Z.of_nat (length req))) (fun rc _ => rc)
              (fun fos rc => (rc, fos))
              (mk_trust _ _ ([], []) [] [mk_trust_key _ [x6b] None] true)
              (set_arena (adb_w_init_dynamic 7 1)
                 [x78; x56; x34; x12; x00; x00; x00; x20] 8192)
              (apk_ostream_to_fd 5))
    as (tw' & vfy' & fos' & sigs & Hrun & Hbytes & Hlen & Hver).
  - intros taken req Hne. destruct req; [congruence|]. cbn [length]. lia.
  - apply toy_crypto_ok. vm_compute. discriminate.
  - lia.
  - reflexivity.
  - split; [discriminate | reflexivity].
  - reflexivity.
  - vm_compute. split; discriminate.
  - reflexivity.
  - reflexivity.
  - repeat constructor.
  - exists tw', vfy', fos', sigs.
    split; [exact Hrun|]. split; [exact Hbytes|]. split; [exact Hlen|].
    intros s Hs.
    apply (Hver 0%nat (mk_trust_key _ [x6b] None) s
             (mk_trust _ _ ([], []) [mk_trust_key _ [x6b] None] [] true)
             (mk_trust_key _ [x6b] None)
             (set_arena (adb_w_init_dynamic 7 1)
                [x78; x56; x34; x12; x00; x00; x00; x20] 8192)).
    + reflexivity.
    + exact Hs.
    + reflexivity.
    + vm_compute. split; discriminate.
    + reflexivity.
    + reflexivity.
    + left.
    + reflexivity.
    + reflexivity.
    + repeat constructor.
Defined.

(* ================================================================== *)
(** * Signed containers *)

Section CreateSigned.
Variable apk_pkey : Type.
Variable pkey_id : apk_pkey -> list byte.
Variable apk_digest_ctx : Type.
Variable APK_DIGEST_SHA512 : Z.
Variable apk_digest_calc : Z -> list byte -> Z * list byte.
Variable apk_digest_ctx_update :
  apk_digest_ctx -> list byte -> Z * apk_digest_ctx.
Variable apk_sign_start : apk_digest_ctx -> apk_pkey -> Z * apk_digest_ctx.
Variable apk_sign : apk_digest_ctx -> Z -> Z * list byte * apk_digest_ctx.
Variable apk_verify_start : apk_digest_ctx -> apk_pkey -> Z * apk_digest_ctx.
Variable apk_verify : apk_digest_ctx -> list byte -> Z * apk_digest_ctx.
Variables sizeof_adb_sign_hdr sizeof_key_id : nat.
Variable ADB_MAX_SIGNATURE_LEN : Z.
Variable signer : apk_pkey -> Prop.
Variable key_pair : apk_pkey -> apk_pkey -> Prop.
Variable sys_write : list byte -> list byte -> Z.
Variable cancel_rc : Z -> Z -> Z.
Variable os_cancel : apk_fd_ostream -> Z -> Z * apk_fd_ostream.
Variable os_error : apk_fd_ostream -> Z.
Variable EAPKFORMAT : Z.

Abbreviation v0 := (sizeof_adb_sign_v0 sizeof_adb_sign_hdr sizeof_key_id).
Abbreviation signed_by :=
  (signed_by apk_pkey pkey_id apk_digest_ctx APK_DIGEST_SHA512
     apk_digest_ctx_update apk_verify_start apk_verify sizeof_adb_sign_hdr
     sizeof_key_id key_pair).
Abbreviation sign_all :=
  (write_signatures apk_pkey pkey_id apk_digest_ctx APK_DIGEST_SHA512
     apk_digest_calc apk_digest_ctx_update apk_sign_start apk_sign
     sizeof_adb_sign_hdr sizeof_key_id ADB_MAX_SIGNATURE_LEN apk_fd_ostream
     (fdo_write sys_write cancel_rc) os_cancel).

Hypothesis Hwrite : forall taken req,
  req <> [] -> 0 < sys_write taken req <= Z.of_nat (length req).
Hypothesis Hcrypto :
  crypto_ok apk_pkey apk_digest_ctx apk_digest_ctx_update apk_sign_start
    apk_sign apk_verify_start apk_verify signer key_pair
    (ADB_MAX_SIGNATURE_LEN - Z.of_nat v0).
Hypothesis Hh : (2 <= sizeof_adb_sign_hdr)%nat.
Hypothesis Hmax : ADB_MAX_SIGNATURE_LEN + sizeof_adb_block < 2 ^ 30.

(** adb_c_adb with signing hands the stream the header, the ADB block
    and one signature block per private key. *)
Lemma adb_c_adb_signed_fd fos db md (tw : apk_trust apk_pkey apk_digest_ctx) :
  Z.of_nat (length (fos_buffer fos)) < sizeof_fos_buffer ->
  magic (hdr db) = ADB_FORMAT_MAGIC ->
  arena_ok db -> fits (arena db) ->
  APK_BLOB_IS_NULL (adb_ db) = false ->
  apk_digest_calc APK_DIGEST_SHA512 (arena db) = (0, md) ->
  Forall (fun tk => signer (tk_key _ tk) /\
                    (sizeof_key_id <= length (pkey_id (tk_key _ tk)))%nat)
         (private_key_list _ _ tw) ->
  exists fos' sigs,
    adb_c_adb apk_fd_ostream (fdo_write sys_write cancel_rc) os_cancel
      os_error (apk_trust apk_pkey apk_digest_ctx) sign_all EAPKFORMAT
      fos db (Some tw)
    = Ret (os_error fos', fos') /\
    Z.of_nat (length (fos_buffer fos')) < sizeof_fos_buffer /\
    fd_taken fos' ++ fos_buffer fos'
    = (fd_taken fos ++ fos_buffer fos)
      ++ adb_c_header (hdr db) ++ container_blocks (arena db) sigs /\
    os_rc fos' = os_rc fos /\ fos_fd fos' = fos_fd fos /\
    fos_file fos' = fos_file fos /\
    Forall fits sigs /\
    Forall2 (signed_by (hdr db) md) (private_key_list _ _ tw) sigs.
Proof.
  intros Hb Hm Hok Hfits Hnull Hcalc Hkeys. unfold adb_c_adb, adb_c_header_os.
  rewrite Hm. change (negb (ADB_FORMAT_MAGIC =? ADB_FORMAT_MAGIC)) with false.
  cbv iota.
  destruct (fdo_write_all_taken sys_write cancel_rc Hwrite fos
              (adb_c_header (hdr db)) Hb)
    as (fos1 & -> & Hb1 & Hbytes1 & Hrc1 & Hfd1 & Hf1).
  cbn [mbind outcome_bind obind].
  pose proof (length_arena db Hok) as Hlen.
  destruct (adb_c_block_fd sys_write cancel_rc Hwrite fos1 ADB_BLOCK_ADB
              (adb_ db) (arena db) Hb1 (blob_read_arena db Hok) (eq_sym Hlen))
    as (fos2 & -> & Hb2 & Hbytes2 & Hrc2 & Hfd2 & Hf2).
  { rewrite <- Hlen.
    destruct (block_size_bounds ADB_BLOCK_ADB (arena db) adb_type_ok Hfits)
      as [Hle ->].
    lia. }
  cbn [mbind outcome_bind obind]. unfold write_signatures.
  destruct (trust_write_fd apk_pkey pkey_id apk_digest_ctx APK_DIGEST_SHA512
              apk_digest_calc apk_digest_ctx_update apk_sign_start apk_sign
              apk_verify_start apk_verify sizeof_adb_sign_hdr sizeof_key_id
              ADB_MAX_SIGNATURE_LEN signer key_pair sys_write cancel_rc
              os_cancel Hwrite Hcrypto Hh Hmax tw db (arena db) md fos2 Hb2
              Hnull (blob_read_arena db Hok) Hcalc Hkeys)
    as (tw' & vfy' & fos3 & sigs & -> & Hb3 & Hbytes3 & Hrc3 & Hfd3 & Hf3
        & Hfs & Hsigned).
  cbn [mbind outcome_bind obind].
  exists fos3, sigs. split; [reflexivity|].
  unfold container_blocks.
  rewrite Hbytes3, Hbytes2, Hbytes1, Hrc3, Hrc2, Hrc1, Hfd3, Hfd2, Hfd1,
    Hf3, Hf2, Hf1, <- !app_assoc.
  repeat split; auto.
Qed.

End CreateSigned.

(** adb_m_map on a file that starts with a header of the format magic and
    an acceptable schema parses what follows the header. *)
Lemma adb_m_map_framed T (v : T -> adb -> apk_blob_t -> Z) db0 h blocks e t :
  magic h = ADB_FORMAT_MAGIC -> 0 <= schema_id h < 2 ^ 32 ->
  e = 0 \/ e = schema_id h ->
  adb_m_map T v db0 (adb_c_header h ++ blocks) e t
  = __adb_m_parse T v
      (set_data (set_hdr (set_mmap adb_zero
                            (blob_of (adb_c_header h ++ blocks))) h)
         (blob_of blocks)) t.
Proof.
  intros Hm Hsch He. unfold adb_m_map.
  set (file := adb_c_header h ++ blocks).
  assert (Hfile : file = le_encode 4 (magic h) ++ le_encode 4 (schema_id h)
                         ++ blocks)
    by (unfold file, adb_c_header; now rewrite <- app_assoc).
  replace (Z.of_nat (length file) <? 8) with false
    by (symmetry; apply Z.ltb_ge; rewrite Hfile, !length_app,
          !length_le_encode; lia).
  replace (drop 8 file) with blocks
    by (rewrite Hfile; change 8%nat with (4 + 4)%nat; rewrite <- drop_drop;
        rewrite !drop_app_length' by (now rewrite length_le_encode);
        reflexivity).
  replace (le_decode (take 4 file)) with (magic h)
    by (rewrite Hfile, le_decode_take_4;
        [reflexivity | rewrite Hm; unfold ADB_FORMAT_MAGIC; lia]).
  replace (le_decode (take 4 (drop 4 file))) with (schema_id h)
    by (rewrite Hfile, drop_app_length' by (now rewrite length_le_encode);
        rewrite le_decode_take_4; [reflexivity | exact Hsch]).
  cbn [magic schema_id]. rewrite Hm.
  change (negb (ADB_FORMAT_MAGIC =? ADB_FORMAT_MAGIC)) with false.
  replace (negb (e =? 0) && negb (e =? schema_id h)) with false
    by (destruct He as [-> | ->]; [reflexivity|];
        rewrite Z.eqb_refl; cbn; now rewrite andb_false_r).
  cbv iota.
  replace (mk_adb_header ADB_FORMAT_MAGIC (schema_id h)) with h
    by (rewrite <- Hm; now destruct h).
  reflexivity.
Qed.

(** X29: adb_c_create with a trust context, on a fresh descriptor stream
    whose write(2) makes progress, for a database with an arena whose
    digest can be computed and private keys that can sign, leaves a file
    that holds the header, the arena framed as one ADB block and one
    signature block per private key.  adb_m_map, verifying with
    adb_trust_verify_signature under a trust context that trusts a key
    paired with one of the signing keys and carrying its identifier, maps
    that file back with result 0 to a database with the same header and
    the same arena bytes. *)
Theorem adb_c_create_signed_maps_back
    (apk_pkey : Type) (pkey_id : apk_pkey -> list byte)
    (apk_digest_ctx : Type) (APK_DIGEST_SHA512 : Z)
    (apk_digest_calc : Z -> list byte -> Z * list byte)
    (apk_digest_ctx_update : apk_digest_ctx -> list byte -> Z * apk_digest_ctx)
    (apk_sign_start : apk_digest_ctx -> apk_pkey -> Z * apk_digest_ctx)
    (apk_sign : apk_digest_ctx -> Z -> Z * list byte * apk_digest_ctx)
    (apk_verify_start : apk_digest_ctx -> apk_pkey -> Z * apk_digest_ctx)
    (apk_verify : apk_digest_ctx -> list byte -> Z * apk_digest_ctx)
    (sizeof_adb_sign_hdr sizeof_key_id : nat) (ADB_MAX_SIGNATURE_LEN : Z)
    (signer : apk_pkey -> Prop) (key_pair : apk_pkey -> apk_pkey -> Prop)
    (sys_write : list byte -> list byte -> Z) (sys_close : Z -> Z)
    (sys_renameat : Z) (cancel_rc : Z -> Z -> Z)
    (os_cancel : apk_fd_ostream -> Z -> Z * apk_fd_ostream)
    (os_error : apk_fd_ostream -> Z) (EAPKFORMAT : Z)
    (tw tr : apk_trust apk_pkey apk_digest_ctx)
    (tk tk' : apk_trust_key apk_pkey)
    (fos : apk_fd_ostream) (db db0 : adb) (e : Z) :
  (forall taken req,
     req <> [] -> 0 < sys_write taken req <= Z.of_nat (length req)) ->
  crypto_ok apk_pkey apk_digest_ctx apk_digest_ctx_update apk_sign_start
    apk_sign apk_verify_start apk_verify signer key_pair
    (ADB_MAX_SIGNATURE_LEN
     - Z.of_nat (sizeof_adb_sign_v0 sizeof_adb_sign_hdr sizeof_key_id)) ->
  (2 <= sizeof_adb_sign_hdr)%nat ->
  ADB_MAX_SIGNATURE_LEN + sizeof_adb_block < 2 ^ 30 ->
  0 <= APK_DIGEST_SHA512 < 256 ->
  fos_buffer fos = [] -> fd_taken fos = [] ->
  magic (hdr db) = ADB_FORMAT_MAGIC -> 0 <= schema_id (hdr db) < 2 ^ 32 ->
  arena_ok db -> fits (arena db) -> APK_BLOB_IS_NULL (adb_ db) = false ->
  (apk_digest_calc APK_DIGEST_SHA512 (arena db)).1 = 0 ->
  e = 0 \/ e = schema_id (hdr db) ->
  Forall (fun tk => signer (tk_key _ tk) /\
                    (sizeof_key_id <= length (pkey_id (tk_key _ tk)))%nat)
         (private_key_list _ _ tw) ->
  Forall (fun tk => (sizeof_key_id <= length (pkey_id (tk_key _ tk)))%nat)
         (trusted_key_list _ _ tr) ->
  tk ∈ private_key_list _ _ tw -> tk' ∈ trusted_key_list _ _ tr ->
  key_pair (tk_key _ tk) (tk_key _ tk') ->
  take sizeof_key_id (pkey_id (tk_key _ tk))
  = take sizeof_key_id (pkey_id (tk_key _ tk')) ->
  exists rc file sigs db',
    adb_c_create apk_fd_ostream (list byte)
      (fdo_write sys_write cancel_rc)
      (fdo_close sys_write sys_close sys_renameat cancel_rc)
      os_cancel os_error (apk_trust apk_pkey apk_digest_ctx)
      (write_signatures apk_pkey pkey_id apk_digest_ctx APK_DIGEST_SHA512
         apk_digest_calc apk_digest_ctx_update apk_sign_start apk_sign
         sizeof_adb_sign_hdr sizeof_key_id ADB_MAX_SIGNATURE_LEN
         apk_fd_ostream (fdo_write sys_write cancel_rc) os_cancel)
      EAPKFORMAT fos db (Some tw)
    = Ret (rc, file) /\
    file = adb_c_header (hdr db) ++ container_blocks (arena db) sigs /\
    length sigs = length (private_key_list _ _ tw) /\
    (0 <= sys_close (fos_fd fos) -> 0 <= sys_renameat -> rc = os_rc fos) /\
    adb_m_map (apk_trust apk_pkey apk_digest_ctx)
      (verify_result apk_pkey pkey_id apk_digest_ctx APK_DIGEST_SHA512
         apk_digest_calc apk_digest_ctx_update apk_verify_start apk_verify
         sizeof_adb_sign_hdr sizeof_key_id)
      db0 file e (Some tr) = Ret (0, db') /\
    hdr db' = hdr db /\
    blob_len (adb_ db') = blob_len (adb_ db) /\
    blob_bytes (adb_ db') = arena db.
Proof.
  intros Hw Hcrypto Hh Hmax Halg Hbuf Htaken Hm Hsch Hok Hfits Hnull Hcalc He
    Hkeys Hids Hin Hin' Hpair Hsame.
  destruct (apk_digest_calc APK_DIGEST_SHA512 (arena db)) as [r md] eqn:Ec.
  cbn [fst] in Hcalc. subst r.
  unfold adb_c_create.
  destruct (adb_c_adb_signed_fd apk_pkey pkey_id apk_digest_ctx
              APK_DIGEST_SHA512 apk_digest_calc apk_digest_ctx_update
              apk_sign_start apk_sign apk_verify_start apk_verify
              sizeof_adb_sign_hdr sizeof_key_id ADB_MAX_SIGNATURE_LEN signer
              key_pair sys_write cancel_rc os_cancel os_error EAPKFORMAT
              Hw Hcrypto Hh Hmax fos db md tw)
    as (fos' & sigs & -> & Hb' & Hbytes & Hrc & Hfd & Hf & Hfs & Hsigned); auto.
  { rewrite Hbuf. reflexivity. }
  cbn [mbind outcome_bind obind].
  rewrite (fdo_close_all sys_write sys_close sys_renameat cancel_rc Hw).
  rewrite Hbytes, Hbuf, Htaken. cbn [app].
  set (p := arena db) in *.
  set (file := adb_c_header (hdr db) ++ container_blocks p sigs).
  set (blocks := blob_of (container_blocks p sigs)).
  set (db3 := set_data (set_hdr (set_mmap adb_zero (blob_of file)) (hdr db))
                blocks).
  set (db' := set_adb db3 (adb_block_blob blocks 0)).
  set (rest := concat (map (adb_c_block ADB_BLOCK_SIG) sigs)).
  assert (Hblk : block_at blocks 0
                 = adb_block_init ADB_BLOCK_ADB (Z.of_nat (length p)))
    by exact (block_at_encoded _ _ adb_type_ok Hfits [] rest).
  assert (Hbb : blob_bytes (adb_ db') = p)
    by exact (blob_encoded _ _ adb_type_ok Hfits [] rest).
  assert (Hlen' : blob_len (adb_ db') = Z.of_nat (length p)).
  { unfold db'. cbn [set_adb adb_ adb_block_blob blob_len]. rewrite Hblk.
    apply (adb_block_length_init _ _ adb_type_ok (fits_init _ Hfits)). }
  apply list_elem_of_lookup_1 in Hin as [i Hi].
  destruct (Forall2_lookup_l _ _ _ _ _ Hsigned Hi) as (s & Hs & Hsb).
  assert (Hmap : adb_m_map (apk_trust apk_pkey apk_digest_ctx)
                   (verify_result apk_pkey pkey_id apk_digest_ctx
                      APK_DIGEST_SHA512 apk_digest_calc apk_digest_ctx_update
                      apk_verify_start apk_verify sizeof_adb_sign_hdr
                      sizeof_key_id)
                   db0 file e (Some tr) = Ret (0, db')).
  { unfold file. rewrite adb_m_map_framed by auto. fold file db3.
    apply (parse_container_signed _ _ tr
             (fun s' => fits s' /\
                signed_by apk_pkey pkey_id apk_digest_ctx APK_DIGEST_SHA512
                  apk_digest_ctx_update apk_verify_start apk_verify
                  sizeof_adb_sign_hdr sizeof_key_id key_pair (hdr db) md tk s')
             p sigs db3); auto.
    - intros s' b [Hfs' (sig0 & sig & -> & Hsig0 & Hver)] Hbn Hbl Hbs.
      unfold APK_BLOB_IS_NULL in Hbn.
      destruct (blob_ptr b) as [mem|] eqn:Hptr; [|discriminate].
      unfold verify_result.
      destruct (verify_accepts apk_pkey pkey_id apk_digest_ctx
                  APK_DIGEST_SHA512 apk_digest_calc apk_digest_ctx_update
                  apk_verify_start apk_verify sizeof_adb_sign_hdr
                  sizeof_key_id key_pair Hh Halg (hdr db) md p db'
                  (tk_key _ tk) sig0 sig mem tk' eq_refl eq_refl)
        with (tr := tr) (vfy := verify_ctx_zero) (sigb := b)
        as (tr' & vfyr & Hacc & _); auto.
      4:{ change (set_adb db3 (adb_block_blob (data db3) 0)) with db'.
          rewrite Hacc. reflexivity. }
      + apply blob_read_bytes; auto.
      + unfold blob_bytes in Hbs. rewrite Hptr, Hbl, Nat2Z.id in Hbs.
        exact Hbs.
      + left. apply Z.land_0_l.
    - apply Exists_exists. exists s. split.
      + eapply list_elem_of_lookup_2, Hs.
      + split; [|exact Hsb]. eapply Forall_lookup_1 in Hfs; eauto. }
  eexists. exists file, sigs, db'. split; [reflexivity|].
  split; [reflexivity|].
  split; [symmetry; apply (Forall2_length _ _ _ Hsigned)|].
  split.
  { intros Hc Hren. cbv zeta. rewrite Hfd, Hrc.
    replace (sys_close (fos_fd fos) <? 0) with false by (symmetry; lia).
    rewrite andb_false_r.
    replace (sys_renameat <? 0) with false by (symmetry; lia).
    destruct (fos_file fos'); [|reflexivity].
    destruct (os_rc fos =? 0); reflexivity. }
  split; [exact Hmap|].
  split; [reflexivity|].
  split; [rewrite Hlen'; apply length_arena, Hok | exact Hbb].
Qed.

(** The theorem at the toy crypto layer, a database holding the integer
    0x12345678 as root signed with the key [6b], and a descriptor that
    takes three bytes at a time. *)
Lemma adb_c_create_signed_maps_back_witness :
  exists rc file sigs db',
    adb_c_create apk_fd_ostream (list byte)
      (fdo_write (fun _ req => Z.min 3 (Z.of_nat (length req)))
                 (fun rc _ => rc))
      (fdo_close (fun _ req => Z.min 3 (Z.of_nat (length req)))
                 (fun _ => 0) 0 (fun rc _ => rc))
      (fun fos rc => (rc, fos)) os_rc
      (apk_trust (list byte) (list byte * list byte))
      (write_signatures (list byte) (fun k => k) (list byte * list byte) 4
         toy_digest_calc toy_update toy_start toy_sign 2 1 64
         apk_fd_ostream
         (fdo_write (fun _ req => Z.min 3 (Z.of_nat (length req)))
                    (fun rc _ => rc))
         (fun fos rc => (rc, fos)))
      1000 (apk_ostream_to_fd 5)
      (set_arena (adb_w_init_dynamic 7 1)
         [x78; x56; x34; x12; x00; x00; x00; x20] 8192)
      (Some (mk_trust _ _ ([], []) [] [mk_trust_key _ [x6b] None] true))
    = Ret (rc, file) /\
    file = adb_c_header (mk_adb_header ADB_FORMAT_MAGIC 7)
           ++ container_blocks [x78; x56; x34; x12; x00; x00; x00; x20] sigs /\
    length sigs = 1%nat /\
    adb_m_map (apk_trust (list byte) (list byte * list byte))
      (verify_result (list byte) (fun k => k) (list byte * list byte) 4
         toy_digest_calc toy_update toy_start toy_verify 2 1)
      adb_zero file 7
      (Some (mk_trust _ _ ([], []) [mk_trust_key _ [x6b] None] [] true))
    = Ret (0, db') /\
    hdr db' = mk_adb_header ADB_FORMAT_MAGIC 7 /\
    blob_bytes (adb_ db') = [x78; x56; x34; x12; x00; x00; x00; x20].
Proof.
  destruct (adb_c_create_signed_maps_back (list byte) (fun k => k)
              (list byte * list byte) 4 toy_digest_calc toy_update toy_start
              toy_sign toy_start toy_verify 2 1 64 (fun _ => True) eq
              (fun _ req => Z.min 3 (Z.of_nat (length req))) (fun _ => 0) 0
              (fun rc _ => rc) (fun fos rc => (rc, fos)) os_rc 1000
              (mk_trust _ _ ([], []) [] [mk_trust_key _ [x6b] None] true)
              (mk_trust _ _ ([], []) [mk_trust_key _ [x6b] None] [] true)
              (mk_trust_key _ [x6b] None) (mk_trust_key _ [x6b] None)
              (apk_ostream_to_fd 5)
              (set_arena (adb_w_init_dynamic 7 1)
                 [x78; x56; x34; x12; x00; x00; x00; x20] 8192)
              adb_zero 7)
    as (rc & file & sigs & db' & Hrun & Hfile & Hlen & _ & Hmap & Hhdr & _ & Hb).
  - intros taken req Hne. destruct req; [congruence|]. cbn [length]. lia.
  - apply toy_crypto_ok. vm_compute. discriminate.
  - lia.
  - reflexivity.
  - split; [discriminate | reflexivity].
  - reflexivity.
  - reflexivity.
  - reflexivity.
  - split; [discriminate | reflexivity].
  - vm_compute. split; discriminate.
  - vm_compute. reflexivity.
  - reflexivity.
  - reflexivity.
  - right. reflexivity.
  - repeat constructor.
  - repeat constructor.
  - left.
  - left.
  - reflexivity.
  - reflexivity.
  - exists rc, file, sigs, db'. auto 10.
Defined.

(* ================================================================== *)
(** * Copying from a buffered stream *)

Section CopyFacts.
Variable S : Type.
Variable read : S -> Z -> Z * list byte * S.
Variable rem : S -> list byte.
Hypothesis Hsrc : source_ok rem read.

Lemma istream_ok_empty st :
  istream_ok rem st -> istream_ok rem (Io.empty S st).
Proof.
  intros (Hbs & Hlen & Herr). unfold istream_ok, Io.empty.
  cbn [Io.i_buf_size Io.i_data Io.i_err Io.i_src length].
  repeat split; auto; lia.
Qed.

(** A buffer that holds bytes is handed out, up to [max], and emptied. *)
Lemma get_max_buffered st max :
  Io.i_data st <> [] ->
  Io.apk_istream_get_max S read st max
  = (APK_BLOB_PTR_LEN (Some (Io.i_data st))
       (Z.min (Z.of_nat (length (Io.i_data st))) max),
     Io.empty S st).
Proof.
  intros Hne. unfold Io.apk_istream_get_max.
  assert (E : (Z.of_nat (length (Io.i_data st)) =? 0) = false).
  { apply Z.eqb_neq. destruct (Io.i_data st); [congruence|].
    cbn [length]. lia. }
  rewrite E. cbv zeta. rewrite E. reflexivity.
Qed.

(** apk_istream_get_max: a NULL blob of length 0 at the end of the
    stream; else a non-empty chunk from the front of what is to be
    delivered, after which the stream goes on behind all that was
    buffered. *)
Lemma get_max_spec st max :
  istream_ok rem st -> 0 < max ->
  exists d st1,
    Io.apk_istream_get_max S read st max = (d, st1) /\
    istream_ok rem st1 /\
    ((pending rem st = [] /\ d = APK_BLOB_PTR_LEN None 0 /\
      pending rem st1 = [])
     \/
     (exists (chunk : list byte) (k : nat),
        APK_BLOB_IS_NULL d = false /\ blob_read d = Ret chunk /\
        blob_len d = Z.of_nat (length chunk) /\
        (0 < length chunk)%nat /\ Z.of_nat (length chunk) <= max /\
        chunk = take (length chunk) (pending rem st) /\
        pending rem st1 = drop (length chunk + k) (pending rem st) /\
        (Z.of_nat (length chunk) < max -> k = 0%nat) /\
        (Io.i_data st <> [] ->
         (length chunk + k)%nat = length (Io.i_data st)))).
Proof.
  intros Hok Hmax.
  assert (Hbuf : forall st0,
            istream_ok rem st0 -> Io.i_data st0 <> [] ->
            exists (chunk : list byte) (k : nat),
              blob_read (APK_BLOB_PTR_LEN (Some (Io.i_data st0))
                           (Z.min (Z.of_nat (length (Io.i_data st0))) max))
              = Ret chunk /\
              Z.min (Z.of_nat (length (Io.i_data st0))) max
              = Z.of_nat (length chunk) /\
              (0 < length chunk)%nat /\ Z.of_nat (length chunk) <= max /\
              chunk = take (length chunk) (pending rem st0) /\
              pending rem (Io.empty S st0)
              = drop (length chunk + k) (pending rem st0) /\
              (Z.of_nat (length chunk) < max -> k = 0%nat) /\
              (length chunk + k)%nat = length (Io.i_data st0)).
  { intros st0 Hok0 Hne.
    set (data := Io.i_data st0) in *.
    set (n := Z.to_nat (Z.min (Z.of_nat (length data)) max)).
    assert (Hlen : (0 < length data)%nat)
      by (destruct data; [congruence | cbn [length]; lia]).
    assert (Hn : (n <= length data)%nat) by (unfold n; lia).
    exists (take n data), (length data - n)%nat.
    assert (Hl : length (take n data) = n) by (rewrite length_take; lia).
    rewrite Hl.
    split.
    { unfold blob_read. cbn [blob_ptr blob_len]. fold n.
      replace (length data <? n)%nat with false
        by (symmetry; apply Nat.ltb_ge; lia).
      reflexivity. }
    split; [unfold n; lia|].
    split; [unfold n; lia|].
    split; [unfold n; lia|].
    unfold pending. fold data.
    split; [rewrite take_app_le by lia; reflexivity|].
    split.
    { cbn [Io.empty Io.i_data Io.i_src app].
      replace (n + (length data - n))%nat with (length data) by lia.
      rewrite drop_app_length. reflexivity. }
    split; [unfold n; lia | lia]. }
  destruct (Io.i_data st) as [|b0 data0] eqn:Hd.
  - unfold Io.apk_istream_get_max. rewrite Hd.
    change (Z.of_nat (length (@nil byte)) =? 0) with true. cbv iota.
    destruct (fill_spec S read rem Hsrc st Hok)
      as (r & st1 & Hfill & Hpend & Hbs & Hz & Hnz).
    rewrite Hfill. cbn [snd].
    destruct (Z.eq_dec r 0) as [-> | Hr].
    + destruct (Hz eq_refl) as [Hok1 Hgrow].
      rewrite Hd in Hgrow. cbn [length] in Hgrow.
      assert (Hne1 : Io.i_data st1 <> [])
        by (destruct (Io.i_data st1); [cbn [length] in Hgrow; lia | congruence]).
      assert ((Z.of_nat (length (Io.i_data st1)) =? 0) = false) as ->
        by (apply Z.eqb_neq; lia).
      cbn [negb].
      destruct (Hbuf st1 Hok1 Hne1)
        as (chunk & k & Hread & Hmin & Hpos & Hle & Hch & Hrest & Hk & _).
      do 2 eexists. split; [reflexivity|].
      split; [apply istream_ok_empty, Hok1|].
      right. exists chunk, k. rewrite <- Hpend.
      repeat split; auto. intros Hne. congruence.
    + destruct (Hnz Hr) as (Hd1 & He1 & Hend).
      rewrite Hd1, Hd. cbn [length Z.of_nat].
      change (negb (0 =? 0)) with false. cbv iota.
      rewrite He1. change (1 <? 0) with false. cbv iota.
      destruct Hok as (Hbs0 & Hlen0 & Herr0).
      assert (Hrem : rem (Io.i_src st) = [])
        by (apply Hend; rewrite Hd; cbn [length]; lia).
      assert (Hp0 : pending rem st = [])
        by (unfold pending; rewrite Hd, Hrem; reflexivity).
      assert (Hp1 : pending rem st1 = []) by (rewrite Hpend; exact Hp0).
      do 2 eexists. split; [reflexivity|].
      split.
      { unfold istream_ok. rewrite Hbs, Hd1, Hd. cbn [length].
        repeat split; try lia. right. split; [exact He1|].
        unfold pending in Hp1. rewrite Hd1, Hd in Hp1. exact Hp1. }
      left. auto.
  - rewrite get_max_buffered by (rewrite Hd; discriminate).
    destruct (Hbuf st Hok) as (chunk & k & Hread & Hmin & Hpos & Hle & Hch
                               & Hrest & Hk & Hall).
    { rewrite Hd. discriminate. }
    rewrite Hd in *.
    do 2 eexists. split; [reflexivity|].
    split; [apply istream_ok_empty, Hok|].
    right. exists chunk, k. repeat split; auto.
Qed.

Variable ostream : Type.
Variable write : ostream -> list byte -> outcome (Z * ostream).
Variable os_ok : ostream -> Prop.
Variable written : ostream -> list byte.
Variable D : Type.
Variable update : D -> list byte -> Z * D.
Variable fed : D -> list byte.
Variable APK_IO_ALL : Z.

Hypothesis Hos : forall os bs,
  os_ok os ->
  exists os', write os bs = Ret (Z.of_nat (length bs), os') /\
              os_ok os' /\ written os' = written os ++ bs.
Hypothesis Hfed : forall c bs, fed (update c bs).2 = fed c ++ bs.

Lemma copy_loop_spec fuel : forall st os dctx size done,
  istream_ok rem st -> os_ok os ->
  (Z.to_nat (size - done) < fuel)%nat ->
  exists r st' os' dctx' (k : nat),
    Io.copy_loop S read ostream write D update APK_IO_ALL fuel st os dctx
      size done = Ret (r, st', os', dctx') /\
    istream_ok rem st' /\ os_ok os' /\
    written os'
    = written os ++ take (Z.to_nat (size - done)) (pending rem st) /\
    option_map fed dctx'
    = option_map (fun c => fed c ++ take (Z.to_nat (size - done))
                                      (pending rem st)) dctx /\
    r = (if size - done <=? Z.of_nat (length (pending rem st))
         then Z.max size done
         else if size =? APK_IO_ALL
              then done + Z.of_nat (length (pending rem st))
              else - EBADMSG) /\
    pending rem st'
    = drop (Z.to_nat (size - done) + k) (pending rem st) /\
    (size - done <= 0 -> k = 0%nat) /\
    (0 < size - done <= Z.of_nat (length (Io.i_data st)) ->
     (Z.to_nat (size - done) + k)%nat = length (Io.i_data st)).
Proof.
  induction fuel as [|fuel IH]; intros st os dctx size done Hok Hoso Hfuel;
    [lia|].
  cbn [Io.copy_loop].
  destruct (done <? size) eqn:Elt.
  2:{ apply Z.ltb_ge in Elt.
      exists done, st, os, dctx, 0%nat. split; [reflexivity|].
      replace (Z.to_nat (size - done)) with 0%nat by lia.
      cbn [take drop Nat.add]. rewrite app_nil_r.
      split; [exact Hok|]. split; [exact Hoso|]. split; [reflexivity|].
      split.
      { destruct dctx as [c|]; cbn [option_map]; [|reflexivity].
        rewrite app_nil_r. reflexivity. }
      split.
      { replace (size - done <=? Z.of_nat (length (pending rem st))) with true
          by (symmetry; apply Z.leb_le; lia).
        lia. }
      split; [reflexivity|]. split; [reflexivity | lia]. }
  apply Z.ltb_lt in Elt.
  set (P := pending rem st).
  set (n := Z.to_nat (size - done)).
  destruct (get_max_spec st (size - done) Hok) as (d & st1 & -> & Hok1 & Hcase);
    [lia|].
  destruct Hcase as [(Hp & -> & Hp1)
                    | (chunk & k & Hnn & Hread & Hlen & Hpos & Hle & Hch
                       & Hrest & Hk & Hall)].
  - cbn [APK_BLOB_IS_NULL blob_ptr blob_len].
    change (negb (0 =? 0)) with false. cbv iota.
    fold P in Hp. rewrite Hp. cbn [length Z.of_nat].
    change (Z.of_nat 0) with 0.
    replace (size - done <=? 0) with false by (symmetry; apply Z.leb_gt; lia).
    rewrite take_nil, app_nil_r.
    assert (Hd : Io.i_data st = []).
    { unfold P, pending in Hp. apply app_eq_nil in Hp as [? _]. assumption. }
    assert (Hdg : option_map fed dctx
                  = option_map (fun c => fed c ++ []) dctx).
    { destruct dctx; cbn [option_map]; [rewrite app_nil_r|]; reflexivity. }
    destruct (size =? APK_IO_ALL); cbn [negb].
    + exists done, st1, os, dctx, 0%nat. split; [reflexivity|].
      rewrite drop_nil, Hd. cbn [length].
      split; [exact Hok1|]. split; [exact Hoso|]. split; [reflexivity|].
      split; [exact Hdg|]. split; [lia|]. split; [exact Hp1|].
      split; lia.
    + exists (- EBADMSG), st1, os, dctx, 0%nat. split; [reflexivity|].
      rewrite drop_nil, Hd. cbn [length].
      split; [exact Hok1|]. split; [exact Hoso|]. split; [reflexivity|].
      split; [exact Hdg|]. split; [lia|]. split; [exact Hp1|].
      split; lia.
  - rewrite Hnn, Hread. cbn [mbind outcome_bind obind].
    destruct (Hos os chunk Hoso) as (os1 & -> & Hoso1 & Hw1).
    cbn [mbind outcome_bind obind].
    replace (Z.of_nat (length chunk) <? 0) with false
      by (symmetry; apply Z.ltb_ge; lia).
    rewrite Hlen.
    set (c := length chunk) in *.
    set (dctx1 := match dctx with
                  | Some c0 => Some (update c0 chunk).2
                  | None => None
                  end).
    destruct (IH st1 os1 dctx1 size (done + Z.of_nat c) Hok1 Hoso1)
      as (r & st' & os' & dctx' & k' & -> & Hok' & Hoso' & Hw & Hdg & Hr
          & Hpend & Hk0 & _); [lia|].
    fold P in Hch, Hrest.
    set (n' := Z.to_nat (size - (done + Z.of_nat c))) in *.
    assert (Hcn : (c <= n)%nat) by (unfold n; lia).
    assert (HcP : (c <= length P)%nat).
    { assert (length chunk = c) by reflexivity.
      rewrite Hch, length_take in H. lia. }
    assert (Hn' : (n' = n - c)%nat) by (unfold n', n; lia).
    assert (Hkz : (c < n)%nat -> k = 0%nat) by (intros; apply Hk; unfold n in *; lia).
    assert (Hcopied : chunk ++ take n' (pending rem st1) = take n P).
    { rewrite Hrest, Hch. destruct (Nat.eq_dec c n) as [E | E].
      - rewrite Hn', E, Nat.sub_diag. cbn [take]. now rewrite app_nil_r.
      - rewrite Hkz by lia. rewrite Nat.add_0_r, Hn'.
        rewrite <- take_add_drop. f_equal. lia. }
    exists r, st', os', dctx', (k + k')%nat. split; [reflexivity|].
    split; [exact Hok'|]. split; [exact Hoso'|].
    split; [rewrite Hw, Hw1, <- app_assoc, Hcopied; reflexivity|].
    split.
    { rewrite Hdg. unfold dctx1. destruct dctx as [c0|]; cbn [option_map];
        [|reflexivity].
      rewrite Hfed, <- app_assoc, Hcopied. reflexivity. }
    split.
    { rewrite Hr, Hrest, length_drop.
      destruct (Nat.eq_dec c n) as [E | E].
      - replace (size - (done + Z.of_nat c) <=? Z.of_nat (length P - (c + k)))
          with true by (symmetry; apply Z.leb_le; unfold n in *; lia).
        replace (size - done <=? Z.of_nat (length P)) with true
          by (symmetry; apply Z.leb_le; unfold n in *; lia).
        unfold n in *. lia.
      - rewrite Hkz by lia. rewrite Nat.add_0_r.
        destruct (size - done <=? Z.of_nat (length P)) eqn:E1.
        + apply Z.leb_le in E1.
          replace (size - (done + Z.of_nat c) <=? Z.of_nat (length P - c))
            with true by (symmetry; apply Z.leb_le; lia).
          unfold n in *. lia.
        + apply Z.leb_gt in E1.
          replace (size - (done + Z.of_nat c) <=? Z.of_nat (length P - c))
            with false by (symmetry; apply Z.leb_gt; lia).
          destruct (size =? APK_IO_ALL); lia. }
    split.
    { rewrite Hpend, Hrest, drop_drop. f_equal.
      destruct (Nat.eq_dec c n) as [E | E]; [lia|].
      rewrite (Hkz ltac:(lia)). lia. }
    split; [lia|].
    intros [_ Hdata].
    assert (Hne : Io.i_data st <> []).
    { intros E. rewrite E in Hdata. cbn [length] in Hdata. lia. }
    specialize (Hall Hne).
    assert (c = n).
    { destruct (Nat.eq_dec c n) as [E | E]; [exact E|].
      rewrite (Hkz ltac:(lia)) in Hall. unfold n in *. lia. }
    assert (k' = 0%nat) by (apply Hk0; unfold n in *; lia).
    lia.
Qed.

End CopyFacts.

(** X30: apk_stream_copy without a progress callback, from a buffered
    stream whose source does not fail to an output stream that takes every
    write, writes the next [size] bytes of the input in order (all that is
    left when the input ends first) and feeds the digest context, if one is
    given, exactly those bytes.  It returns [size]; when the input ends
    first it returns -EBADMSG, or with APK_IO_ALL as size the count
    copied.  The input stream gives up its buffer: afterwards it goes on
    no earlier than behind the bytes copied, and when the buffer held the
    [size] bytes on entry it goes on with what the source holds, so that
    bytes buffered after those copied are never delivered. *)
Theorem apk_stream_copy_result
    (S : Type) (read : S -> Z -> Z * list byte * S) (rem : S -> list byte)
    (ostream : Type)
    (write : ostream -> list byte -> outcome (Z * ostream))
    (os_ok : ostream -> Prop) (written : ostream -> list byte)
    (D : Type) (update : D -> list byte -> Z * D) (fed : D -> list byte)
    (APK_IO_ALL : Z)
    (st : Io.apk_istream S) (os : ostream) (dctx : option D) (size : Z) :
  source_ok rem read ->
  (forall os bs,
     os_ok os ->
     exists os', write os bs = Ret (Z.of_nat (length bs), os') /\
                 os_ok os' /\ written os' = written os ++ bs) ->
  (forall c bs, fed (update c bs).2 = fed c ++ bs) ->
  istream_ok rem st -> os_ok os -> 0 <= size ->
  let copied := take (Z.to_nat size) (pending rem st) in
  exists r st' os' dctx',
    Io.apk_stream_copy S read ostream write D update APK_IO_ALL st os dctx
      size = Ret (r, st', os', dctx') /\
    written os' = written os ++ copied /\
    option_map fed dctx' = option_map (fun c => fed c ++ copied) dctx /\
    r = (if size <=? Z.of_nat (length (pending rem st)) then size
         else if size =? APK_IO_ALL then Z.of_nat (length (pending rem st))
              else - EBADMSG) /\
    istream_ok rem st' /\ os_ok os' /\
    (exists k : nat,
       pending rem st' = drop (Z.to_nat size + k) (pending rem st)) /\
    (0 < size <= Z.of_nat (length (Io.i_data st)) ->
     pending rem st' = rem (Io.i_src st)).
Proof.
  intros Hsrc Hos Hfed Hok Hoso Hsize copied. unfold Io.apk_stream_copy.
  destruct (copy_loop_spec S read rem Hsrc ostream write os_ok written D
              update fed APK_IO_ALL Hos Hfed (Datatypes.S (Z.to_nat size))
              st os dctx size 0 Hok Hoso)
    as (r & st' & os' & dctx' & k & Hrun & Hok' & Hoso' & Hw & Hdg & Hr
        & Hpend & _ & Hall); [lia|].
  rewrite Z.sub_0_r in *.
  exists r, st', os', dctx'. split; [exact Hrun|].
  split; [exact Hw|]. split; [exact Hdg|].
  split.
  { rewrite Hr. destruct (_ <=? _); [lia|].
    destruct (_ =? _); lia. }
  split; [exact Hok'|]. split; [exact Hoso'|].
  split; [exists k; exact Hpend|].
  intros Hbuf. rewrite Hpend, (Hall Hbuf). unfold pending.
  apply drop_app_length.
Qed.

(** The theorem at a stream with five bytes buffered and three more at the
    source, two bytes copied to a descriptor stream and fed to a digest
    context: the three buffered bytes after them are gone. *)
Lemma apk_stream_copy_result_witness :
  exists r st' os' dctx',
    Io.apk_stream_copy (list byte) read_3 apk_fd_ostream
      (fdo_write (fun _ req => Z.min 3 (Z.of_nat (length req)))
                 (fun rc _ => rc))
      (list byte * list byte) toy_update (2 ^ 64 - 1)
      (Io.mk_apk_istream (Some 0) [x01; x02; x03; x04; x05] 8 0
         [x06; x07; x08])
      (apk_ostream_to_fd 5) (Some ([], [])) 2
    = Ret (r, st', os', dctx') /\
    fd_taken os' ++ fos_buffer os' = [x01; x02] /\
    option_map snd dctx' = Some [x01; x02] /\
    r = 2 /\
    pending (fun s => s) st' = [x06; x07; x08].
Proof.
  destruct (apk_stream_copy_result (list byte) read_3 (fun s => s)
              apk_fd_ostream
              (fdo_write (fun _ req => Z.min 3 (Z.of_nat (length req)))
                         (fun rc _ => rc))
              (fun fos => Z.of_nat (length (fos_buffer fos))
                          < sizeof_fos_buffer)
              (fun fos => fd_taken fos ++ fos_buffer fos)
              (list byte * list byte) toy_update snd (2 ^ 64 - 1)
              (Io.mk_apk_istream (Some 0) [x01; x02; x03; x04; x05] 8 0
                 [x06; x07; x08])
              (apk_ostream_to_fd 5) (Some ([], [])) 2)
    as (r & st' & os' & dctx' & Hrun & Hw & Hd & Hr & _ & _ & _ & Hlost).
  - intros s n r bs s'. unfold read_3. intros [= <- <- <-].
    repeat split; try lia.
    intros Hz. destruct s; [right; reflexivity|]. cbn [length] in Hz. lia.
  - intros fos bs Hb.
    destruct (fdo_write_all_taken
                (fun _ req => Z.min 3 (Z.of_nat (length req)))
                (fun rc _ => rc)) with (fos := fos) (ptr := bs)
      as (fos' & Hrun & Hb' & Hbytes & _).
    + intros taken req Hne. destruct req; [congruence|]. cbn [length]. lia.
    + exact Hb.
    + exists fos'. auto.
  - reflexivity.
  - unfold istream_ok. cbn. repeat split; auto; lia.
  - reflexivity.
  - lia.
  - exists r, st', os', dctx'. split; [exact Hrun|].
    split; [exact Hw|]. split; [exact Hd|]. split; [exact Hr|].
    apply Hlost. cbn. lia.
Defined.
